(** * EXCELCIVIL: the lexical search pipeline of the BTP pricing catalogue

    A shallow embedding of the Python sources
    - [text_processor.py]     (normalisation, tokenisation),
    - [corrector.py]          (per-token spelling correction),
    - [dictionary_manager.py] (synonym dictionary and its reverse index),
    - [search_engine.py]      (the tiered matcher D1 / D2 / D3),
    - [recup/backend.py]      (catalogue tree, hierarchical scope, global search),
    followed by the properties of the specification, each stated on these
    definitions.

    Conventions.
    - A Python [str] is a list of Unicode code points ([pystr]); a Python
      [int] is a [Z]; [len] is a [nat].
    - A Python [set] of strings is a [gset pystr]; a [dict] whose iteration
      order is never observed is a [gmap]; a [dict] that is iterated is an
      insertion-ordered association list ([odict]).
    - The order in which Python enumerates a [set] is unspecified: every
      [list(some_set)] of the source goes through a parameter [order], the
      enumeration, which the statements leave arbitrary. *)

From Stdlib Require Import NArith ZArith QArith Lqa List Ascii String Lia.
From stdpp Require Import base option list gmap sets strings sorting.

Open Scope N_scope.

(** ** Python strings *)

Abbreviation pystr := (list N).

(** An ASCII literal as a Python string. *)
Definition u (s : string) : pystr :=
  map N_of_ascii (list_ascii_of_string s).

(** ** The Unicode character database

    [unicodedata], [str.lower], [str.upper] and the character classes of
    [str] and [re] are tabulated for every code point, from Unicode 14.0.0,
    the version that CPython 3.11 carries.  Every table is sorted by code
    point, and a code point that a table does not list has the default of the
    table: it is caseless, indecomposable, of combining class 0, and in none
    of the classes. *)

(** The entry of [c] in a table sorted by code point. *)
Fixpoint assoc {A : Type} (c : N) (t : list (N * A)) : option A :=
  match t with
  | [] => None
  | (k, v) :: t' =>
      if k =? c then Some v else if c <? k then None else assoc c t'
  end.

(** Whether [c] is in one of the ranges, sorted by code point; a range is
    given by its first and its last code point. *)
Fixpoint in_ranges (c : N) (ranges : list (N * N)) : bool :=
  match ranges with
  | [] => false
  | (first, last) :: ranges' =>
      if c <? first then false
      else if c <=? last then true
      else in_ranges c ranges'
  end.

(** [str.lower] on one character: the code points it changes, with their
    lower-case expansion; U+03A3 is listed with its form outside a word end. *)
Definition lower_table : list (N * list N) :=
  [ (0x41, [0x61]); (0x42, [0x62]); (0x43, [0x63]); (0x44, [0x64]);
    (0x45, [0x65]); (0x46, [0x66]); (0x47, [0x67]); (0x48, [0x68]);
    (0x49, [0x69]); (0x4A, [0x6A]); (0x4B, [0x6B]); (0x4C, [0x6C]);
    (0x4D, [0x6D]); (0x4E, [0x6E]); (0x4F, [0x6F]); (0x50, [0x70]);
    (0x51, [0x71]); (0x52, [0x72]); (0x53, [0x73]); (0x54, [0x74]);
    (0x55, [0x75]); (0x56, [0x76]); (0x57, [0x77]); (0x58, [0x78]);
    (0x59, [0x79]); (0x5A, [0x7A]); (0xC0, [0xE0]); (0xC1, [0xE1]);
    (0xC2, [0xE2]); (0xC3, [0xE3]); (0xC4, [0xE4]); (0xC5, [0xE5]);
    (0xC6, [0xE6]); (0xC7, [0xE7]); (0xC8, [0xE8]); (0xC9, [0xE9]);
    (0xCA, [0xEA]); (0xCB, [0xEB]); (0xCC, [0xEC]); (0xCD, [0xED]);
    (0xCE, [0xEE]); (0xCF, [0xEF]); (0xD0, [0xF0]); (0xD1, [0xF1]);
    (0xD2, [0xF2]); (0xD3, [0xF3]); (0xD4, [0xF4]); (0xD5, [0xF5]);
    (0xD6, [0xF6]); (0xD8, [0xF8]); (0xD9, [0xF9]); (0xDA, [0xFA]);
    (0xDB, [0xFB]); (0xDC, [0xFC]); (0xDD, [0xFD]); (0xDE, [0xFE]);
    (0x100, [0x101]); (0x102, [0x103]); (0x104, [0x105]); (0x106, [0x107]);
    (0x108, [0x109]); (0x10A, [0x10B]); (0x10C, [0x10D]); (0x10E, [0x10F]);
    (0x110, [0x111]); (0x112, [0x113]); (0x114, [0x115]); (0x116, [0x117]);
    (0x118, [0x119]); (0x11A, [0x11B]); (0x11C, [0x11D]); (0x11E, [0x11F]);
    (0x120, [0x121]); (0x122, [0x123]); (0x124, [0x125]); (0x126, [0x127]);
    (0x128, [0x129]); (0x12A, [0x12B]); (0x12C, [0x12D]); (0x12E, [0x12F]);
    (0x130, [0x69; 0x307]); (0x132, [0x133]); (0x134, [0x135]);
    (0x136, [0x137]); (0x139, [0x13A]); (0x13B, [0x13C]); (0x13D, [0x13E]);
    (0x13F, [0x140]); (0x141, [0x142]); (0x143, [0x144]); (0x145, [0x146]);
    (0x147, [0x148]); (0x14A, [0x14B]); (0x14C, [0x14D]); (0x14E, [0x14F]);
    (0x150, [0x151]); (0x152, [0x153]); (0x154, [0x155]); (0x156, [0x157]);
    (0x158, [0x159]); (0x15A, [0x15B]); (0x15C, [0x15D]); (0x15E, [0x15F]);
    (0x160, [0x161]); (0x162, [0x163]); (0x164, [0x165]); (0x166, [0x167]);
    (0x168, [0x169]); (0x16A, [0x16B]); (0x16C, [0x16D]); (0x16E, [0x16F]);
    (0x170, [0x171]); (0x172, [0x173]); (0x174, [0x175]); (0x176, [0x177]);
    (0x178, [0xFF]); (0x179, [0x17A]); (0x17B, [0x17C]); (0x17D, [0x17E]);
    (0x181, [0x253]); (0x182, [0x183]); (0x184, [0x185]); (0x186, [0x254]);
    (0x187, [0x188]); (0x189, [0x256]); (0x18A, [0x257]); (0x18B, [0x18C]);
    (0x18E, [0x1DD]); (0x18F, [0x259]); (0x190, [0x25B]); (0x191, [0x192]);
    (0x193, [0x260]); (0x194, [0x263]); (0x196, [0x269]); (0x197, [0x268]);
    (0x198, [0x199]); (0x19C, [0x26F]); (0x19D, [0x272]); (0x19F, [0x275]);
    (0x1A0, [0x1A1]); (0x1A2, [0x1A3]); (0x1A4, [0x1A5]); (0x1A6, [0x280]);
    (0x1A7, [0x1A8]); (0x1A9, [0x283]); (0x1AC, [0x1AD]); (0x1AE, [0x288]);
    (0x1AF, [0x1B0]); (0x1B1, [0x28A]); (0x1B2, [0x28B]); (0x1B3, [0x1B4]);
    (0x1B5, [0x1B6]); (0x1B7, [0x292]); (0x1B8, [0x1B9]); (0x1BC, [0x1BD]);
    (0x1C4, [0x1C6]); (0x1C5, [0x1C6]); (0x1C7, [0x1C9]); (0x1C8, [0x1C9]);
    (0x1CA, [0x1CC]); (0x1CB, [0x1CC]); (0x1CD, [0x1CE]); (0x1CF, [0x1D0]);
    (0x1D1, [0x1D2]); (0x1D3, [0x1D4]); (0x1D5, [0x1D6]); (0x1D7, [0x1D8]);
    (0x1D9, [0x1DA]); (0x1DB, [0x1DC]); (0x1DE, [0x1DF]); (0x1E0, [0x1E1]);
    (0x1E2, [0x1E3]); (0x1E4, [0x1E5]); (0x1E6, [0x1E7]); (0x1E8, [0x1E9]);
    (0x1EA, [0x1EB]); (0x1EC, [0x1ED]); (0x1EE, [0x1EF]); (0x1F1, [0x1F3]);
    (0x1F2, [0x1F3]); (0x1F4, [0x1F5]); (0x1F6, [0x195]); (0x1F7, [0x1BF]);
    (0x1F8, [0x1F9]); (0x1FA, [0x1FB]); (0x1FC, [0x1FD]); (0x1FE, [0x1FF]);
    (0x200, [0x201]); (0x202, [0x203]); (0x204, [0x205]); (0x206, [0x207]);
    (0x208, [0x209]); (0x20A, [0x20B]); (0x20C, [0x20D]); (0x20E, [0x20F]);
    (0x210, [0x211]); (0x212, [0x213]); (0x214, [0x215]); (0x216, [0x217]);
    (0x218, [0x219]); (0x21A, [0x21B]); (0x21C, [0x21D]); (0x21E, [0x21F]);
    (0x220, [0x19E]); (0x222, [0x223]); (0x224, [0x225]); (0x226, [0x227]);
    (0x228, [0x229]); (0x22A, [0x22B]); (0x22C, [0x22D]); (0x22E, [0x22F]);
    (0x230, [0x231]); (0x232, [0x233]); (0x23A, [0x2C65]); (0x23B, [0x23C]);
    (0x23D, [0x19A]); (0x23E, [0x2C66]); (0x241, [0x242]); (0x243, [0x180]);
    (0x244, [0x289]); (0x245, [0x28C]); (0x246, [0x247]); (0x248, [0x249]);
    (0x24A, [0x24B]); (0x24C, [0x24D]); (0x24E, [0x24F]); (0x370, [0x371]);
    (0x372, [0x373]); (0x376, [0x377]); (0x37F, [0x3F3]); (0x386, [0x3AC]);
    (0x388, [0x3AD]); (0x389, [0x3AE]); (0x38A, [0x3AF]); (0x38C, [0x3CC]);
    (0x38E, [0x3CD]); (0x38F, [0x3CE]); (0x391, [0x3B1]); (0x392, [0x3B2]);
    (0x393, [0x3B3]); (0x394, [0x3B4]); (0x395, [0x3B5]); (0x396, [0x3B6]);
    (0x397, [0x3B7]); (0x398, [0x3B8]); (0x399, [0x3B9]); (0x39A, [0x3BA]);
    (0x39B, [0x3BB]); (0x39C, [0x3BC]); (0x39D, [0x3BD]); (0x39E, [0x3BE]);
    (0x39F, [0x3BF]); (0x3A0, [0x3C0]); (0x3A1, [0x3C1]); (0x3A3, [0x3C3]);
    (0x3A4, [0x3C4]); (0x3A5, [0x3C5]); (0x3A6, [0x3C6]); (0x3A7, [0x3C7]);
    (0x3A8, [0x3C8]); (0x3A9, [0x3C9]); (0x3AA, [0x3CA]); (0x3AB, [0x3CB]);
    (0x3CF, [0x3D7]); (0x3D8, [0x3D9]); (0x3DA, [0x3DB]); (0x3DC, [0x3DD]);
    (0x3DE, [0x3DF]); (0x3E0, [0x3E1]); (0x3E2, [0x3E3]); (0x3E4, [0x3E5]);
    (0x3E6, [0x3E7]); (0x3E8, [0x3E9]); (0x3EA, [0x3EB]); (0x3EC, [0x3ED]);
    (0x3EE, [0x3EF]); (0x3F4, [0x3B8]); (0x3F7, [0x3F8]); (0x3F9, [0x3F2]);
    (0x3FA, [0x3FB]); (0x3FD, [0x37B]); (0x3FE, [0x37C]); (0x3FF, [0x37D]);
    (0x400, [0x450]); (0x401, [0x451]); (0x402, [0x452]); (0x403, [0x453]);
    (0x404, [0x454]); (0x405, [0x455]); (0x406, [0x456]); (0x407, [0x457]);
    (0x408, [0x458]); (0x409, [0x459]); (0x40A, [0x45A]); (0x40B, [0x45B]);
    (0x40C, [0x45C]); (0x40D, [0x45D]); (0x40E, [0x45E]); (0x40F, [0x45F]);
    (0x410, [0x430]); (0x411, [0x431]); (0x412, [0x432]); (0x413, [0x433]);
    (0x414, [0x434]); (0x415, [0x435]); (0x416, [0x436]); (0x417, [0x437]);
    (0x418, [0x438]); (0x419, [0x439]); (0x41A, [0x43A]); (0x41B, [0x43B]);
    (0x41C, [0x43C]); (0x41D, [0x43D]); (0x41E, [0x43E]); (0x41F, [0x43F]);
    (0x420, [0x440]); (0x421, [0x441]); (0x422, [0x442]); (0x423, [0x443]);
    (0x424, [0x444]); (0x425, [0x445]); (0x426, [0x446]); (0x427, [0x447]);
    (0x428, [0x448]); (0x429, [0x449]); (0x42A, [0x44A]); (0x42B, [0x44B]);
    (0x42C, [0x44C]); (0x42D, [0x44D]); (0x42E, [0x44E]); (0x42F, [0x44F]);
    (0x460, [0x461]); (0x462, [0x463]); (0x464, [0x465]); (0x466, [0x467]);
    (0x468, [0x469]); (0x46A, [0x46B]); (0x46C, [0x46D]); (0x46E, [0x46F]);
    (0x470, [0x471]); (0x472, [0x473]); (0x474, [0x475]); (0x476, [0x477]);
    (0x478, [0x479]); (0x47A, [0x47B]); (0x47C, [0x47D]); (0x47E, [0x47F]);
    (0x480, [0x481]); (0x48A, [0x48B]); (0x48C, [0x48D]); (0x48E, [0x48F]);
    (0x490, [0x491]); (0x492, [0x493]); (0x494, [0x495]); (0x496, [0x497]);
    (0x498, [0x499]); (0x49A, [0x49B]); (0x49C, [0x49D]); (0x49E, [0x49F]);
    (0x4A0, [0x4A1]); (0x4A2, [0x4A3]); (0x4A4, [0x4A5]); (0x4A6, [0x4A7]);
    (0x4A8, [0x4A9]); (0x4AA, [0x4AB]); (0x4AC, [0x4AD]); (0x4AE, [0x4AF]);
    (0x4B0, [0x4B1]); (0x4B2, [0x4B3]); (0x4B4, [0x4B5]); (0x4B6, [0x4B7]);
    (0x4B8, [0x4B9]); (0x4BA, [0x4BB]); (0x4BC, [0x4BD]); (0x4BE, [0x4BF]);
    (0x4C0, [0x4CF]); (0x4C1, [0x4C2]); (0x4C3, [0x4C4]); (0x4C5, [0x4C6]);
    (0x4C7, [0x4C8]); (0x4C9, [0x4CA]); (0x4CB, [0x4CC]); (0x4CD, [0x4CE]);
    (0x4D0, [0x4D1]); (0x4D2, [0x4D3]); (0x4D4, [0x4D5]); (0x4D6, [0x4D7]);
    (0x4D8, [0x4D9]); (0x4DA, [0x4DB]); (0x4DC, [0x4DD]); (0x4DE, [0x4DF]);
    (0x4E0, [0x4E1]); (0x4E2, [0x4E3]); (0x4E4, [0x4E5]); (0x4E6, [0x4E7]);
    (0x4E8, [0x4E9]); (0x4EA, [0x4EB]); (0x4EC, [0x4ED]); (0x4EE, [0x4EF]);
    (0x4F0, [0x4F1]); (0x4F2, [0x4F3]); (0x4F4, [0x4F5]); (0x4F6, [0x4F7]);
    (0x4F8, [0x4F9]); (0x4FA, [0x4FB]); (0x4FC, [0x4FD]); (0x4FE, [0x4FF]);
    (0x500, [0x501]); (0x502, [0x503]); (0x504, [0x505]); (0x506, [0x507]);
    (0x508, [0x509]); (0x50A, [0x50B]); (0x50C, [0x50D]); (0x50E, [0x50F]);
    (0x510, [0x511]); (0x512, [0x513]); (0x514, [0x515]); (0x516, [0x517]);
    (0x518, [0x519]); (0x51A, [0x51B]); (0x51C, [0x51D]); (0x51E, [0x51F]);
    (0x520, [0x521]); (0x522, [0x523]); (0x524, [0x525]); (0x526, [0x527]);
    (0x528, [0x529]); (0x52A, [0x52B]); (0x52C, [0x52D]); (0x52E, [0x52F]);
    (0x531, [0x561]); (0x532, [0x562]); (0x533, [0x563]); (0x534, [0x564]);
    (0x535, [0x565]); (0x536, [0x566]); (0x537, [0x567]); (0x538, [0x568]);
    (0x539, [0x569]); (0x53A, [0x56A]); (0x53B, [0x56B]); (0x53C, [0x56C]);
    (0x53D, [0x56D]); (0x53E, [0x56E]); (0x53F, [0x56F]); (0x540, [0x570]);
    (0x541, [0x571]); (0x542, [0x572]); (0x543, [0x573]); (0x544, [0x574]);
    (0x545, [0x575]); (0x546, [0x576]); (0x547, [0x577]); (0x548, [0x578]);
    (0x549, [0x579]); (0x54A, [0x57A]); (0x54B, [0x57B]); (0x54C, [0x57C]);
    (0x54D, [0x57D]); (0x54E, [0x57E]); (0x54F, [0x57F]); (0x550, [0x580]);
    (0x551, [0x581]); (0x552, [0x582]); (0x553, [0x583]); (0x554, [0x584]);
    (0x555, [0x585]); (0x556, [0x586]); (0x10A0, [0x2D00]);
    (0x10A1, [0x2D01]); (0x10A2, [0x2D02]); (0x10A3, [0x2D03]);
    (0x10A4, [0x2D04]); (0x10A5, [0x2D05]); (0x10A6, [0x2D06]);
    (0x10A7, [0x2D07]); (0x10A8, [0x2D08]); (0x10A9, [0x2D09]);
    (0x10AA, [0x2D0A]); (0x10AB, [0x2D0B]); (0x10AC, [0x2D0C]);
    (0x10AD, [0x2D0D]); (0x10AE, [0x2D0E]); (0x10AF, [0x2D0F]);
    (0x10B0, [0x2D10]); (0x10B1, [0x2D11]); (0x10B2, [0x2D12]);
    (0x10B3, [0x2D13]); (0x10B4, [0x2D14]); (0x10B5, [0x2D15]);
    (0x10B6, [0x2D16]); (0x10B7, [0x2D17]); (0x10B8, [0x2D18]);
    (0x10B9, [0x2D19]); (0x10BA, [0x2D1A]); (0x10BB, [0x2D1B]);
    (0x10BC, [0x2D1C]); (0x10BD, [0x2D1D]); (0x10BE, [0x2D1E]);
    (0x10BF, [0x2D1F]); (0x10C0, [0x2D20]); (0x10C1, [0x2D21]);
    (0x10C2, [0x2D22]); (0x10C3, [0x2D23]); (0x10C4, [0x2D24]);
    (0x10C5, [0x2D25]); (0x10C7, [0x2D27]); (0x10CD, [0x2D2D]);
    (0x13A0, [0xAB70]); (0x13A1, [0xAB71]); (0x13A2, [0xAB72]);
    (0x13A3, [0xAB73]); (0x13A4, [0xAB74]); (0x13A5, [0xAB75]);
    (0x13A6, [0xAB76]); (0x13A7, [0xAB77]); (0x13A8, [0xAB78]);
    (0x13A9, [0xAB79]); (0x13AA, [0xAB7A]); (0x13AB, [0xAB7B]);
    (0x13AC, [0xAB7C]); (0x13AD, [0xAB7D]); (0x13AE, [0xAB7E]);
    (0x13AF, [0xAB7F]); (0x13B0, [0xAB80]); (0x13B1, [0xAB81]);
    (0x13B2, [0xAB82]); (0x13B3, [0xAB83]); (0x13B4, [0xAB84]);
    (0x13B5, [0xAB85]); (0x13B6, [0xAB86]); (0x13B7, [0xAB87]);
    (0x13B8, [0xAB88]); (0x13B9, [0xAB89]); (0x13BA, [0xAB8A]);
    (0x13BB, [0xAB8B]); (0x13BC, [0xAB8C]); (0x13BD, [0xAB8D]);
    (0x13BE, [0xAB8E]); (0x13BF, [0xAB8F]); (0x13C0, [0xAB90]);
    (0x13C1, [0xAB91]); (0x13C2, [0xAB92]); (0x13C3, [0xAB93]);
    (0x13C4, [0xAB94]); (0x13C5, [0xAB95]); (0x13C6, [0xAB96]);
    (0x13C7, [0xAB97]); (0x13C8, [0xAB98]); (0x13C9, [0xAB99]);
    (0x13CA, [0xAB9A]); (0x13CB, [0xAB9B]); (0x13CC, [0xAB9C]);
    (0x13CD, [0xAB9D]); (0x13CE, [0xAB9E]); (0x13CF, [0xAB9F]);
    (0x13D0, [0xABA0]); (0x13D1, [0xABA1]); (0x13D2, [0xABA2]);
    (0x13D3, [0xABA3]); (0x13D4, [0xABA4]); (0x13D5, [0xABA5]);
    (0x13D6, [0xABA6]); (0x13D7, [0xABA7]); (0x13D8, [0xABA8]);
    (0x13D9, [0xABA9]); (0x13DA, [0xABAA]); (0x13DB, [0xABAB]);
    (0x13DC, [0xABAC]); (0x13DD, [0xABAD]); (0x13DE, [0xABAE]);
    (0x13DF, [0xABAF]); (0x13E0, [0xABB0]); (0x13E1, [0xABB1]);
    (0x13E2, [0xABB2]); (0x13E3, [0xABB3]); (0x13E4, [0xABB4]);
    (0x13E5, [0xABB5]); (0x13E6, [0xABB6]); (0x13E7, [0xABB7]);
    (0x13E8, [0xABB8]); (0x13E9, [0xABB9]); (0x13EA, [0xABBA]);
    (0x13EB, [0xABBB]); (0x13EC, [0xABBC]); (0x13ED, [0xABBD]);
    (0x13EE, [0xABBE]); (0x13EF, [0xABBF]); (0x13F0, [0x13F8]);
    (0x13F1, [0x13F9]); (0x13F2, [0x13FA]); (0x13F3, [0x13FB]);
    (0x13F4, [0x13FC]); (0x13F5, [0x13FD]); (0x1C90, [0x10D0]);
    (0x1C91, [0x10D1]); (0x1C92, [0x10D2]); (0x1C93, [0x10D3]);
    (0x1C94, [0x10D4]); (0x1C95, [0x10D5]); (0x1C96, [0x10D6]);
    (0x1C97, [0x10D7]); (0x1C98, [0x10D8]); (0x1C99, [0x10D9]);
    (0x1C9A, [0x10DA]); (0x1C9B, [0x10DB]); (0x1C9C, [0x10DC]);
    (0x1C9D, [0x10DD]); (0x1C9E, [0x10DE]); (0x1C9F, [0x10DF]);
    (0x1CA0, [0x10E0]); (0x1CA1, [0x10E1]); (0x1CA2, [0x10E2]);
    (0x1CA3, [0x10E3]); (0x1CA4, [0x10E4]); (0x1CA5, [0x10E5]);
    (0x1CA6, [0x10E6]); (0x1CA7, [0x10E7]); (0x1CA8, [0x10E8]);
    (0x1CA9, [0x10E9]); (0x1CAA, [0x10EA]); (0x1CAB, [0x10EB]);
    (0x1CAC, [0x10EC]); (0x1CAD, [0x10ED]); (0x1CAE, [0x10EE]);
    (0x1CAF, [0x10EF]); (0x1CB0, [0x10F0]); (0x1CB1, [0x10F1]);
    (0x1CB2, [0x10F2]); (0x1CB3, [0x10F3]); (0x1CB4, [0x10F4]);
    (0x1CB5, [0x10F5]); (0x1CB6, [0x10F6]); (0x1CB7, [0x10F7]);
    (0x1CB8, [0x10F8]); (0x1CB9, [0x10F9]); (0x1CBA, [0x10FA]);
    (0x1CBD, [0x10FD]); (0x1CBE, [0x10FE]); (0x1CBF, [0x10FF]);
    (0x1E00, [0x1E01]); (0x1E02, [0x1E03]); (0x1E04, [0x1E05]);
    (0x1E06, [0x1E07]); (0x1E08, [0x1E09]); (0x1E0A, [0x1E0B]);
    (0x1E0C, [0x1E0D]); (0x1E0E, [0x1E0F]); (0x1E10, [0x1E11]);
    (0x1E12, [0x1E13]); (0x1E14, [0x1E15]); (0x1E16, [0x1E17]);
    (0x1E18, [0x1E19]); (0x1E1A, [0x1E1B]); (0x1E1C, [0x1E1D]);
    (0x1E1E, [0x1E1F]); (0x1E20, [0x1E21]); (0x1E22, [0x1E23]);
    (0x1E24, [0x1E25]); (0x1E26, [0x1E27]); (0x1E28, [0x1E29]);
    (0x1E2A, [0x1E2B]); (0x1E2C, [0x1E2D]); (0x1E2E, [0x1E2F]);
    (0x1E30, [0x1E31]); (0x1E32, [0x1E33]); (0x1E34, [0x1E35]);
    (0x1E36, [0x1E37]); (0x1E38, [0x1E39]); (0x1E3A, [0x1E3B]);
    (0x1E3C, [0x1E3D]); (0x1E3E, [0x1E3F]); (0x1E40, [0x1E41]);
    (0x1E42, [0x1E43]); (0x1E44, [0x1E45]); (0x1E46, [0x1E47]);
    (0x1E48, [0x1E49]); (0x1E4A, [0x1E4B]); (0x1E4C, [0x1E4D]);
    (0x1E4E, [0x1E4F]); (0x1E50, [0x1E51]); (0x1E52, [0x1E53]);
    (0x1E54, [0x1E55]); (0x1E56, [0x1E57]); (0x1E58, [0x1E59]);
    (0x1E5A, [0x1E5B]); (0x1E5C, [0x1E5D]); (0x1E5E, [0x1E5F]);
    (0x1E60, [0x1E61]); (0x1E62, [0x1E63]); (0x1E64, [0x1E65]);
    (0x1E66, [0x1E67]); (0x1E68, [0x1E69]); (0x1E6A, [0x1E6B]);
    (0x1E6C, [0x1E6D]); (0x1E6E, [0x1E6F]); (0x1E70, [0x1E71]);
    (0x1E72, [0x1E73]); (0x1E74, [0x1E75]); (0x1E76, [0x1E77]);
    (0x1E78, [0x1E79]); (0x1E7A, [0x1E7B]); (0x1E7C, [0x1E7D]);
    (0x1E7E, [0x1E7F]); (0x1E80, [0x1E81]); (0x1E82, [0x1E83]);
    (0x1E84, [0x1E85]); (0x1E86, [0x1E87]); (0x1E88, [0x1E89]);
    (0x1E8A, [0x1E8B]); (0x1E8C, [0x1E8D]); (0x1E8E, [0x1E8F]);
    (0x1E90, [0x1E91]); (0x1E92, [0x1E93]); (0x1E94, [0x1E95]);
    (0x1E9E, [0xDF]); (0x1EA0, [0x1EA1]); (0x1EA2, [0x1EA3]);
    (0x1EA4, [0x1EA5]); (0x1EA6, [0x1EA7]); (0x1EA8, [0x1EA9]);
    (0x1EAA, [0x1EAB]); (0x1EAC, [0x1EAD]); (0x1EAE, [0x1EAF]);
    (0x1EB0, [0x1EB1]); (0x1EB2, [0x1EB3]); (0x1EB4, [0x1EB5]);
    (0x1EB6, [0x1EB7]); (0x1EB8, [0x1EB9]); (0x1EBA, [0x1EBB]);
    (0x1EBC, [0x1EBD]); (0x1EBE, [0x1EBF]); (0x1EC0, [0x1EC1]);
    (0x1EC2, [0x1EC3]); (0x1EC4, [0x1EC5]); (0x1EC6, [0x1EC7]);
    (0x1EC8, [0x1EC9]); (0x1ECA, [0x1ECB]); (0x1ECC, [0x1ECD]);
    (0x1ECE, [0x1ECF]); (0x1ED0, [0x1ED1]); (0x1ED2, [0x1ED3]);
    (0x1ED4, [0x1ED5]); (0x1ED6, [0x1ED7]); (0x1ED8, [0x1ED9]);
    (0x1EDA, [0x1EDB]); (0x1EDC, [0x1EDD]); (0x1EDE, [0x1EDF]);
    (0x1EE0, [0x1EE1]); (0x1EE2, [0x1EE3]); (0x1EE4, [0x1EE5]);
    (0x1EE6, [0x1EE7]); (0x1EE8, [0x1EE9]); (0x1EEA, [0x1EEB]);
    (0x1EEC, [0x1EED]); (0x1EEE, [0x1EEF]); (0x1EF0, [0x1EF1]);
    (0x1EF2, [0x1EF3]); (0x1EF4, [0x1EF5]); (0x1EF6, [0x1EF7]);
    (0x1EF8, [0x1EF9]); (0x1EFA, [0x1EFB]); (0x1EFC, [0x1EFD]);
    (0x1EFE, [0x1EFF]); (0x1F08, [0x1F00]); (0x1F09, [0x1F01]);
    (0x1F0A, [0x1F02]); (0x1F0B, [0x1F03]); (0x1F0C, [0x1F04]);
    (0x1F0D, [0x1F05]); (0x1F0E, [0x1F06]); (0x1F0F, [0x1F07]);
    (0x1F18, [0x1F10]); (0x1F19, [0x1F11]); (0x1F1A, [0x1F12]);
    (0x1F1B, [0x1F13]); (0x1F1C, [0x1F14]); (0x1F1D, [0x1F15]);
    (0x1F28, [0x1F20]); (0x1F29, [0x1F21]); (0x1F2A, [0x1F22]);
    (0x1F2B, [0x1F23]); (0x1F2C, [0x1F24]); (0x1F2D, [0x1F25]);
    (0x1F2E, [0x1F26]); (0x1F2F, [0x1F27]); (0x1F38, [0x1F30]);
    (0x1F39, [0x1F31]); (0x1F3A, [0x1F32]); (0x1F3B, [0x1F33]);
    (0x1F3C, [0x1F34]); (0x1F3D, [0x1F35]); (0x1F3E, [0x1F36]);
    (0x1F3F, [0x1F37]); (0x1F48, [0x1F40]); (0x1F49, [0x1F41]);
    (0x1F4A, [0x1F42]); (0x1F4B, [0x1F43]); (0x1F4C, [0x1F44]);
    (0x1F4D, [0x1F45]); (0x1F59, [0x1F51]); (0x1F5B, [0x1F53]);
    (0x1F5D, [0x1F55]); (0x1F5F, [0x1F57]); (0x1F68, [0x1F60]);
    (0x1F69, [0x1F61]); (0x1F6A, [0x1F62]); (0x1F6B, [0x1F63]);
    (0x1F6C, [0x1F64]); (0x1F6D, [0x1F65]); (0x1F6E, [0x1F66]);
    (0x1F6F, [0x1F67]); (0x1F88, [0x1F80]); (0x1F89, [0x1F81]);
    (0x1F8A, [0x1F82]); (0x1F8B, [0x1F83]); (0x1F8C, [0x1F84]);
    (0x1F8D, [0x1F85]); (0x1F8E, [0x1F86]); (0x1F8F, [0x1F87]);
    (0x1F98, [0x1F90]); (0x1F99, [0x1F91]); (0x1F9A, [0x1F92]);
    (0x1F9B, [0x1F93]); (0x1F9C, [0x1F94]); (0x1F9D, [0x1F95]);
    (0x1F9E, [0x1F96]); (0x1F9F, [0x1F97]); (0x1FA8, [0x1FA0]);
    (0x1FA9, [0x1FA1]); (0x1FAA, [0x1FA2]); (0x1FAB, [0x1FA3]);
    (0x1FAC, [0x1FA4]); (0x1FAD, [0x1FA5]); (0x1FAE, [0x1FA6]);
    (0x1FAF, [0x1FA7]); (0x1FB8, [0x1FB0]); (0x1FB9, [0x1FB1]);
    (0x1FBA, [0x1F70]); (0x1FBB, [0x1F71]); (0x1FBC, [0x1FB3]);
    (0x1FC8, [0x1F72]); (0x1FC9, [0x1F73]); (0x1FCA, [0x1F74]);
    (0x1FCB, [0x1F75]); (0x1FCC, [0x1FC3]); (0x1FD8, [0x1FD0]);
    (0x1FD9, [0x1FD1]); (0x1FDA, [0x1F76]); (0x1FDB, [0x1F77]);
    (0x1FE8, [0x1FE0]); (0x1FE9, [0x1FE1]); (0x1FEA, [0x1F7A]);
    (0x1FEB, [0x1F7B]); (0x1FEC, [0x1FE5]); (0x1FF8, [0x1F78]);
    (0x1FF9, [0x1F79]); (0x1FFA, [0x1F7C]); (0x1FFB, [0x1F7D]);
    (0x1FFC, [0x1FF3]); (0x2126, [0x3C9]); (0x212A, [0x6B]);
    (0x212B, [0xE5]); (0x2132, [0x214E]); (0x2160, [0x2170]);
    (0x2161, [0x2171]); (0x2162, [0x2172]); (0x2163, [0x2173]);
    (0x2164, [0x2174]); (0x2165, [0x2175]); (0x2166, [0x2176]);
    (0x2167, [0x2177]); (0x2168, [0x2178]); (0x2169, [0x2179]);
    (0x216A, [0x217A]); (0x216B, [0x217B]); (0x216C, [0x217C]);
    (0x216D, [0x217D]); (0x216E, [0x217E]); (0x216F, [0x217F]);
    (0x2183, [0x2184]); (0x24B6, [0x24D0]); (0x24B7, [0x24D1]);
    (0x24B8, [0x24D2]); (0x24B9, [0x24D3]); (0x24BA, [0x24D4]);
    (0x24BB, [0x24D5]); (0x24BC, [0x24D6]); (0x24BD, [0x24D7]);
    (0x24BE, [0x24D8]); (0x24BF, [0x24D9]); (0x24C0, [0x24DA]);
    (0x24C1, [0x24DB]); (0x24C2, [0x24DC]); (0x24C3, [0x24DD]);
    (0x24C4, [0x24DE]); (0x24C5, [0x24DF]); (0x24C6, [0x24E0]);
    (0x24C7, [0x24E1]); (0x24C8, [0x24E2]); (0x24C9, [0x24E3]);
    (0x24CA, [0x24E4]); (0x24CB, [0x24E5]); (0x24CC, [0x24E6]);
    (0x24CD, [0x24E7]); (0x24CE, [0x24E8]); (0x24CF, [0x24E9]);
    (0x2C00, [0x2C30]); (0x2C01, [0x2C31]); (0x2C02, [0x2C32]);
    (0x2C03, [0x2C33]); (0x2C04, [0x2C34]); (0x2C05, [0x2C35]);
    (0x2C06, [0x2C36]); (0x2C07, [0x2C37]); (0x2C08, [0x2C38]);
    (0x2C09, [0x2C39]); (0x2C0A, [0x2C3A]); (0x2C0B, [0x2C3B]);
    (0x2C0C, [0x2C3C]); (0x2C0D, [0x2C3D]); (0x2C0E, [0x2C3E]);
    (0x2C0F, [0x2C3F]); (0x2C10, [0x2C40]); (0x2C11, [0x2C41]);
    (0x2C12, [0x2C42]); (0x2C13, [0x2C43]); (0x2C14, [0x2C44]);
    (0x2C15, [0x2C45]); (0x2C16, [0x2C46]); (0x2C17, [0x2C47]);
    (0x2C18, [0x2C48]); (0x2C19, [0x2C49]); (0x2C1A, [0x2C4A]);
    (0x2C1B, [0x2C4B]); (0x2C1C, [0x2C4C]); (0x2C1D, [0x2C4D]);
    (0x2C1E, [0x2C4E]); (0x2C1F, [0x2C4F]); (0x2C20, [0x2C50]);
    (0x2C21, [0x2C51]); (0x2C22, [0x2C52]); (0x2C23, [0x2C53]);
    (0x2C24, [0x2C54]); (0x2C25, [0x2C55]); (0x2C26, [0x2C56]);
    (0x2C27, [0x2C57]); (0x2C28, [0x2C58]); (0x2C29, [0x2C59]);
    (0x2C2A, [0x2C5A]); (0x2C2B, [0x2C5B]); (0x2C2C, [0x2C5C]);
    (0x2C2D, [0x2C5D]); (0x2C2E, [0x2C5E]); (0x2C2F, [0x2C5F]);
    (0x2C60, [0x2C61]); (0x2C62, [0x26B]); (0x2C63, [0x1D7D]);
    (0x2C64, [0x27D]); (0x2C67, [0x2C68]); (0x2C69, [0x2C6A]);
    (0x2C6B, [0x2C6C]); (0x2C6D, [0x251]); (0x2C6E, [0x271]);
    (0x2C6F, [0x250]); (0x2C70, [0x252]); (0x2C72, [0x2C73]);
    (0x2C75, [0x2C76]); (0x2C7E, [0x23F]); (0x2C7F, [0x240]);
    (0x2C80, [0x2C81]); (0x2C82, [0x2C83]); (0x2C84, [0x2C85]);
    (0x2C86, [0x2C87]); (0x2C88, [0x2C89]); (0x2C8A, [0x2C8B]);
    (0x2C8C, [0x2C8D]); (0x2C8E, [0x2C8F]); (0x2C90, [0x2C91]);
    (0x2C92, [0x2C93]); (0x2C94, [0x2C95]); (0x2C96, [0x2C97]);
    (0x2C98, [0x2C99]); (0x2C9A, [0x2C9B]); (0x2C9C, [0x2C9D]);
    (0x2C9E, [0x2C9F]); (0x2CA0, [0x2CA1]); (0x2CA2, [0x2CA3]);
    (0x2CA4, [0x2CA5]); (0x2CA6, [0x2CA7]); (0x2CA8, [0x2CA9]);
    (0x2CAA, [0x2CAB]); (0x2CAC, [0x2CAD]); (0x2CAE, [0x2CAF]);
    (0x2CB0, [0x2CB1]); (0x2CB2, [0x2CB3]); (0x2CB4, [0x2CB5]);
    (0x2CB6, [0x2CB7]); (0x2CB8, [0x2CB9]); (0x2CBA, [0x2CBB]);
    (0x2CBC, [0x2CBD]); (0x2CBE, [0x2CBF]); (0x2CC0, [0x2CC1]);
    (0x2CC2, [0x2CC3]); (0x2CC4, [0x2CC5]); (0x2CC6, [0x2CC7]);
    (0x2CC8, [0x2CC9]); (0x2CCA, [0x2CCB]); (0x2CCC, [0x2CCD]);
    (0x2CCE, [0x2CCF]); (0x2CD0, [0x2CD1]); (0x2CD2, [0x2CD3]);
    (0x2CD4, [0x2CD5]); (0x2CD6, [0x2CD7]); (0x2CD8, [0x2CD9]);
    (0x2CDA, [0x2CDB]); (0x2CDC, [0x2CDD]); (0x2CDE, [0x2CDF]);
    (0x2CE0, [0x2CE1]); (0x2CE2, [0x2CE3]); (0x2CEB, [0x2CEC]);
    (0x2CED, [0x2CEE]); (0x2CF2, [0x2CF3]); (0xA640, [0xA641]);
    (0xA642, [0xA643]); (0xA644, [0xA645]); (0xA646, [0xA647]);
    (0xA648, [0xA649]); (0xA64A, [0xA64B]); (0xA64C, [0xA64D]);
    (0xA64E, [0xA64F]); (0xA650, [0xA651]); (0xA652, [0xA653]);
    (0xA654, [0xA655]); (0xA656, [0xA657]); (0xA658, [0xA659]);
    (0xA65A, [0xA65B]); (0xA65C, [0xA65D]); (0xA65E, [0xA65F]);
    (0xA660, [0xA661]); (0xA662, [0xA663]); (0xA664, [0xA665]);
    (0xA666, [0xA667]); (0xA668, [0xA669]); (0xA66A, [0xA66B]);
    (0xA66C, [0xA66D]); (0xA680, [0xA681]); (0xA682, [0xA683]);
    (0xA684, [0xA685]); (0xA686, [0xA687]); (0xA688, [0xA689]);
    (0xA68A, [0xA68B]); (0xA68C, [0xA68D]); (0xA68E, [0xA68F]);
    (0xA690, [0xA691]); (0xA692, [0xA693]); (0xA694, [0xA695]);
    (0xA696, [0xA697]); (0xA698, [0xA699]); (0xA69A, [0xA69B]);
    (0xA722, [0xA723]); (0xA724, [0xA725]); (0xA726, [0xA727]);
    (0xA728, [0xA729]); (0xA72A, [0xA72B]); (0xA72C, [0xA72D]);
    (0xA72E, [0xA72F]); (0xA732, [0xA733]); (0xA734, [0xA735]);
    (0xA736, [0xA737]); (0xA738, [0xA739]); (0xA73A, [0xA73B]);
    (0xA73C, [0xA73D]); (0xA73E, [0xA73F]); (0xA740, [0xA741]);
    (0xA742, [0xA743]); (0xA744, [0xA745]); (0xA746, [0xA747]);
    (0xA748, [0xA749]); (0xA74A, [0xA74B]); (0xA74C, [0xA74D]);
    (0xA74E, [0xA74F]); (0xA750, [0xA751]); (0xA752, [0xA753]);
    (0xA754, [0xA755]); (0xA756, [0xA757]); (0xA758, [0xA759]);
    (0xA75A, [0xA75B]); (0xA75C, [0xA75D]); (0xA75E, [0xA75F]);
    (0xA760, [0xA761]); (0xA762, [0xA763]); (0xA764, [0xA765]);
    (0xA766, [0xA767]); (0xA768, [0xA769]); (0xA76A, [0xA76B]);
    (0xA76C, [0xA76D]); (0xA76E, [0xA76F]); (0xA779, [0xA77A]);
    (0xA77B, [0xA77C]); (0xA77D, [0x1D79]); (0xA77E, [0xA77F]);
    (0xA780, [0xA781]); (0xA782, [0xA783]); (0xA784, [0xA785]);
    (0xA786, [0xA787]); (0xA78B, [0xA78C]); (0xA78D, [0x265]);
    (0xA790, [0xA791]); (0xA792, [0xA793]); (0xA796, [0xA797]);
    (0xA798, [0xA799]); (0xA79A, [0xA79B]); (0xA79C, [0xA79D]);
    (0xA79E, [0xA79F]); (0xA7A0, [0xA7A1]); (0xA7A2, [0xA7A3]);
    (0xA7A4, [0xA7A5]); (0xA7A6, [0xA7A7]); (0xA7A8, [0xA7A9]);
    (0xA7AA, [0x266]); (0xA7AB, [0x25C]); (0xA7AC, [0x261]);
    (0xA7AD, [0x26C]); (0xA7AE, [0x26A]); (0xA7B0, [0x29E]);
    (0xA7B1, [0x287]); (0xA7B2, [0x29D]); (0xA7B3, [0xAB53]);
    (0xA7B4, [0xA7B5]); (0xA7B6, [0xA7B7]); (0xA7B8, [0xA7B9]);
    (0xA7BA, [0xA7BB]); (0xA7BC, [0xA7BD]); (0xA7BE, [0xA7BF]);
    (0xA7C0, [0xA7C1]); (0xA7C2, [0xA7C3]); (0xA7C4, [0xA794]);
    (0xA7C5, [0x282]); (0xA7C6, [0x1D8E]); (0xA7C7, [0xA7C8]);
    (0xA7C9, [0xA7CA]); (0xA7D0, [0xA7D1]); (0xA7D6, [0xA7D7]);
    (0xA7D8, [0xA7D9]); (0xA7F5, [0xA7F6]); (0xFF21, [0xFF41]);
    (0xFF22, [0xFF42]); (0xFF23, [0xFF43]); (0xFF24, [0xFF44]);
    (0xFF25, [0xFF45]); (0xFF26, [0xFF46]); (0xFF27, [0xFF47]);
    (0xFF28, [0xFF48]); (0xFF29, [0xFF49]); (0xFF2A, [0xFF4A]);
    (0xFF2B, [0xFF4B]); (0xFF2C, [0xFF4C]); (0xFF2D, [0xFF4D]);
    (0xFF2E, [0xFF4E]); (0xFF2F, [0xFF4F]); (0xFF30, [0xFF50]);
    (0xFF31, [0xFF51]); (0xFF32, [0xFF52]); (0xFF33, [0xFF53]);
    (0xFF34, [0xFF54]); (0xFF35, [0xFF55]); (0xFF36, [0xFF56]);
    (0xFF37, [0xFF57]); (0xFF38, [0xFF58]); (0xFF39, [0xFF59]);
    (0xFF3A, [0xFF5A]); (0x10400, [0x10428]); (0x10401, [0x10429]);
    (0x10402, [0x1042A]); (0x10403, [0x1042B]); (0x10404, [0x1042C]);
    (0x10405, [0x1042D]); (0x10406, [0x1042E]); (0x10407, [0x1042F]);
    (0x10408, [0x10430]); (0x10409, [0x10431]); (0x1040A, [0x10432]);
    (0x1040B, [0x10433]); (0x1040C, [0x10434]); (0x1040D, [0x10435]);
    (0x1040E, [0x10436]); (0x1040F, [0x10437]); (0x10410, [0x10438]);
    (0x10411, [0x10439]); (0x10412, [0x1043A]); (0x10413, [0x1043B]);
    (0x10414, [0x1043C]); (0x10415, [0x1043D]); (0x10416, [0x1043E]);
    (0x10417, [0x1043F]); (0x10418, [0x10440]); (0x10419, [0x10441]);
    (0x1041A, [0x10442]); (0x1041B, [0x10443]); (0x1041C, [0x10444]);
    (0x1041D, [0x10445]); (0x1041E, [0x10446]); (0x1041F, [0x10447]);
    (0x10420, [0x10448]); (0x10421, [0x10449]); (0x10422, [0x1044A]);
    (0x10423, [0x1044B]); (0x10424, [0x1044C]); (0x10425, [0x1044D]);
    (0x10426, [0x1044E]); (0x10427, [0x1044F]); (0x104B0, [0x104D8]);
    (0x104B1, [0x104D9]); (0x104B2, [0x104DA]); (0x104B3, [0x104DB]);
    (0x104B4, [0x104DC]); (0x104B5, [0x104DD]); (0x104B6, [0x104DE]);
    (0x104B7, [0x104DF]); (0x104B8, [0x104E0]); (0x104B9, [0x104E1]);
    (0x104BA, [0x104E2]); (0x104BB, [0x104E3]); (0x104BC, [0x104E4]);
    (0x104BD, [0x104E5]); (0x104BE, [0x104E6]); (0x104BF, [0x104E7]);
    (0x104C0, [0x104E8]); (0x104C1, [0x104E9]); (0x104C2, [0x104EA]);
    (0x104C3, [0x104EB]); (0x104C4, [0x104EC]); (0x104C5, [0x104ED]);
    (0x104C6, [0x104EE]); (0x104C7, [0x104EF]); (0x104C8, [0x104F0]);
    (0x104C9, [0x104F1]); (0x104CA, [0x104F2]); (0x104CB, [0x104F3]);
    (0x104CC, [0x104F4]); (0x104CD, [0x104F5]); (0x104CE, [0x104F6]);
    (0x104CF, [0x104F7]); (0x104D0, [0x104F8]); (0x104D1, [0x104F9]);
    (0x104D2, [0x104FA]); (0x104D3, [0x104FB]); (0x10570, [0x10597]);
    (0x10571, [0x10598]); (0x10572, [0x10599]); (0x10573, [0x1059A]);
    (0x10574, [0x1059B]); (0x10575, [0x1059C]); (0x10576, [0x1059D]);
    (0x10577, [0x1059E]); (0x10578, [0x1059F]); (0x10579, [0x105A0]);
    (0x1057A, [0x105A1]); (0x1057C, [0x105A3]); (0x1057D, [0x105A4]);
    (0x1057E, [0x105A5]); (0x1057F, [0x105A6]); (0x10580, [0x105A7]);
    (0x10581, [0x105A8]); (0x10582, [0x105A9]); (0x10583, [0x105AA]);
    (0x10584, [0x105AB]); (0x10585, [0x105AC]); (0x10586, [0x105AD]);
    (0x10587, [0x105AE]); (0x10588, [0x105AF]); (0x10589, [0x105B0]);
    (0x1058A, [0x105B1]); (0x1058C, [0x105B3]); (0x1058D, [0x105B4]);
    (0x1058E, [0x105B5]); (0x1058F, [0x105B6]); (0x10590, [0x105B7]);
    (0x10591, [0x105B8]); (0x10592, [0x105B9]); (0x10594, [0x105BB]);
    (0x10595, [0x105BC]); (0x10C80, [0x10CC0]); (0x10C81, [0x10CC1]);
    (0x10C82, [0x10CC2]); (0x10C83, [0x10CC3]); (0x10C84, [0x10CC4]);
    (0x10C85, [0x10CC5]); (0x10C86, [0x10CC6]); (0x10C87, [0x10CC7]);
    (0x10C88, [0x10CC8]); (0x10C89, [0x10CC9]); (0x10C8A, [0x10CCA]);
    (0x10C8B, [0x10CCB]); (0x10C8C, [0x10CCC]); (0x10C8D, [0x10CCD]);
    (0x10C8E, [0x10CCE]); (0x10C8F, [0x10CCF]); (0x10C90, [0x10CD0]);
    (0x10C91, [0x10CD1]); (0x10C92, [0x10CD2]); (0x10C93, [0x10CD3]);
    (0x10C94, [0x10CD4]); (0x10C95, [0x10CD5]); (0x10C96, [0x10CD6]);
    (0x10C97, [0x10CD7]); (0x10C98, [0x10CD8]); (0x10C99, [0x10CD9]);
    (0x10C9A, [0x10CDA]); (0x10C9B, [0x10CDB]); (0x10C9C, [0x10CDC]);
    (0x10C9D, [0x10CDD]); (0x10C9E, [0x10CDE]); (0x10C9F, [0x10CDF]);
    (0x10CA0, [0x10CE0]); (0x10CA1, [0x10CE1]); (0x10CA2, [0x10CE2]);
    (0x10CA3, [0x10CE3]); (0x10CA4, [0x10CE4]); (0x10CA5, [0x10CE5]);
    (0x10CA6, [0x10CE6]); (0x10CA7, [0x10CE7]); (0x10CA8, [0x10CE8]);
    (0x10CA9, [0x10CE9]); (0x10CAA, [0x10CEA]); (0x10CAB, [0x10CEB]);
    (0x10CAC, [0x10CEC]); (0x10CAD, [0x10CED]); (0x10CAE, [0x10CEE]);
    (0x10CAF, [0x10CEF]); (0x10CB0, [0x10CF0]); (0x10CB1, [0x10CF1]);
    (0x10CB2, [0x10CF2]); (0x118A0, [0x118C0]); (0x118A1, [0x118C1]);
    (0x118A2, [0x118C2]); (0x118A3, [0x118C3]); (0x118A4, [0x118C4]);
    (0x118A5, [0x118C5]); (0x118A6, [0x118C6]); (0x118A7, [0x118C7]);
    (0x118A8, [0x118C8]); (0x118A9, [0x118C9]); (0x118AA, [0x118CA]);
    (0x118AB, [0x118CB]); (0x118AC, [0x118CC]); (0x118AD, [0x118CD]);
    (0x118AE, [0x118CE]); (0x118AF, [0x118CF]); (0x118B0, [0x118D0]);
    (0x118B1, [0x118D1]); (0x118B2, [0x118D2]); (0x118B3, [0x118D3]);
    (0x118B4, [0x118D4]); (0x118B5, [0x118D5]); (0x118B6, [0x118D6]);
    (0x118B7, [0x118D7]); (0x118B8, [0x118D8]); (0x118B9, [0x118D9]);
    (0x118BA, [0x118DA]); (0x118BB, [0x118DB]); (0x118BC, [0x118DC]);
    (0x118BD, [0x118DD]); (0x118BE, [0x118DE]); (0x118BF, [0x118DF]);
    (0x16E40, [0x16E60]); (0x16E41, [0x16E61]); (0x16E42, [0x16E62]);
    (0x16E43, [0x16E63]); (0x16E44, [0x16E64]); (0x16E45, [0x16E65]);
    (0x16E46, [0x16E66]); (0x16E47, [0x16E67]); (0x16E48, [0x16E68]);
    (0x16E49, [0x16E69]); (0x16E4A, [0x16E6A]); (0x16E4B, [0x16E6B]);
    (0x16E4C, [0x16E6C]); (0x16E4D, [0x16E6D]); (0x16E4E, [0x16E6E]);
    (0x16E4F, [0x16E6F]); (0x16E50, [0x16E70]); (0x16E51, [0x16E71]);
    (0x16E52, [0x16E72]); (0x16E53, [0x16E73]); (0x16E54, [0x16E74]);
    (0x16E55, [0x16E75]); (0x16E56, [0x16E76]); (0x16E57, [0x16E77]);
    (0x16E58, [0x16E78]); (0x16E59, [0x16E79]); (0x16E5A, [0x16E7A]);
    (0x16E5B, [0x16E7B]); (0x16E5C, [0x16E7C]); (0x16E5D, [0x16E7D]);
    (0x16E5E, [0x16E7E]); (0x16E5F, [0x16E7F]); (0x1E900, [0x1E922]);
    (0x1E901, [0x1E923]); (0x1E902, [0x1E924]); (0x1E903, [0x1E925]);
    (0x1E904, [0x1E926]); (0x1E905, [0x1E927]); (0x1E906, [0x1E928]);
    (0x1E907, [0x1E929]); (0x1E908, [0x1E92A]); (0x1E909, [0x1E92B]);
    (0x1E90A, [0x1E92C]); (0x1E90B, [0x1E92D]); (0x1E90C, [0x1E92E]);
    (0x1E90D, [0x1E92F]); (0x1E90E, [0x1E930]); (0x1E90F, [0x1E931]);
    (0x1E910, [0x1E932]); (0x1E911, [0x1E933]); (0x1E912, [0x1E934]);
    (0x1E913, [0x1E935]); (0x1E914, [0x1E936]); (0x1E915, [0x1E937]);
    (0x1E916, [0x1E938]); (0x1E917, [0x1E939]); (0x1E918, [0x1E93A]);
    (0x1E919, [0x1E93B]); (0x1E91A, [0x1E93C]); (0x1E91B, [0x1E93D]);
    (0x1E91C, [0x1E93E]); (0x1E91D, [0x1E93F]); (0x1E91E, [0x1E940]);
    (0x1E91F, [0x1E941]); (0x1E920, [0x1E942]); (0x1E921, [0x1E943]) ].

(** [str.upper]: the code points it changes, with their upper-case expansion. *)
Definition upper_table : list (N * list N) :=
  [ (0x61, [0x41]); (0x62, [0x42]); (0x63, [0x43]); (0x64, [0x44]);
    (0x65, [0x45]); (0x66, [0x46]); (0x67, [0x47]); (0x68, [0x48]);
    (0x69, [0x49]); (0x6A, [0x4A]); (0x6B, [0x4B]); (0x6C, [0x4C]);
    (0x6D, [0x4D]); (0x6E, [0x4E]); (0x6F, [0x4F]); (0x70, [0x50]);
    (0x71, [0x51]); (0x72, [0x52]); (0x73, [0x53]); (0x74, [0x54]);
    (0x75, [0x55]); (0x76, [0x56]); (0x77, [0x57]); (0x78, [0x58]);
    (0x79, [0x59]); (0x7A, [0x5A]); (0xB5, [0x39C]); (0xDF, [0x53; 0x53]);
    (0xE0, [0xC0]); (0xE1, [0xC1]); (0xE2, [0xC2]); (0xE3, [0xC3]);
    (0xE4, [0xC4]); (0xE5, [0xC5]); (0xE6, [0xC6]); (0xE7, [0xC7]);
    (0xE8, [0xC8]); (0xE9, [0xC9]); (0xEA, [0xCA]); (0xEB, [0xCB]);
    (0xEC, [0xCC]); (0xED, [0xCD]); (0xEE, [0xCE]); (0xEF, [0xCF]);
    (0xF0, [0xD0]); (0xF1, [0xD1]); (0xF2, [0xD2]); (0xF3, [0xD3]);
    (0xF4, [0xD4]); (0xF5, [0xD5]); (0xF6, [0xD6]); (0xF8, [0xD8]);
    (0xF9, [0xD9]); (0xFA, [0xDA]); (0xFB, [0xDB]); (0xFC, [0xDC]);
    (0xFD, [0xDD]); (0xFE, [0xDE]); (0xFF, [0x178]); (0x101, [0x100]);
    (0x103, [0x102]); (0x105, [0x104]); (0x107, [0x106]); (0x109, [0x108]);
    (0x10B, [0x10A]); (0x10D, [0x10C]); (0x10F, [0x10E]); (0x111, [0x110]);
    (0x113, [0x112]); (0x115, [0x114]); (0x117, [0x116]); (0x119, [0x118]);
    (0x11B, [0x11A]); (0x11D, [0x11C]); (0x11F, [0x11E]); (0x121, [0x120]);
    (0x123, [0x122]); (0x125, [0x124]); (0x127, [0x126]); (0x129, [0x128]);
    (0x12B, [0x12A]); (0x12D, [0x12C]); (0x12F, [0x12E]); (0x131, [0x49]);
    (0x133, [0x132]); (0x135, [0x134]); (0x137, [0x136]); (0x13A, [0x139]);
    (0x13C, [0x13B]); (0x13E, [0x13D]); (0x140, [0x13F]); (0x142, [0x141]);
    (0x144, [0x143]); (0x146, [0x145]); (0x148, [0x147]);
    (0x149, [0x2BC; 0x4E]); (0x14B, [0x14A]); (0x14D, [0x14C]);
    (0x14F, [0x14E]); (0x151, [0x150]); (0x153, [0x152]); (0x155, [0x154]);
    (0x157, [0x156]); (0x159, [0x158]); (0x15B, [0x15A]); (0x15D, [0x15C]);
    (0x15F, [0x15E]); (0x161, [0x160]); (0x163, [0x162]); (0x165, [0x164]);
    (0x167, [0x166]); (0x169, [0x168]); (0x16B, [0x16A]); (0x16D, [0x16C]);
    (0x16F, [0x16E]); (0x171, [0x170]); (0x173, [0x172]); (0x175, [0x174]);
    (0x177, [0x176]); (0x17A, [0x179]); (0x17C, [0x17B]); (0x17E, [0x17D]);
    (0x17F, [0x53]); (0x180, [0x243]); (0x183, [0x182]); (0x185, [0x184]);
    (0x188, [0x187]); (0x18C, [0x18B]); (0x192, [0x191]); (0x195, [0x1F6]);
    (0x199, [0x198]); (0x19A, [0x23D]); (0x19E, [0x220]); (0x1A1, [0x1A0]);
    (0x1A3, [0x1A2]); (0x1A5, [0x1A4]); (0x1A8, [0x1A7]); (0x1AD, [0x1AC]);
    (0x1B0, [0x1AF]); (0x1B4, [0x1B3]); (0x1B6, [0x1B5]); (0x1B9, [0x1B8]);
    (0x1BD, [0x1BC]); (0x1BF, [0x1F7]); (0x1C5, [0x1C4]); (0x1C6, [0x1C4]);
    (0x1C8, [0x1C7]); (0x1C9, [0x1C7]); (0x1CB, [0x1CA]); (0x1CC, [0x1CA]);
    (0x1CE, [0x1CD]); (0x1D0, [0x1CF]); (0x1D2, [0x1D1]); (0x1D4, [0x1D3]);
    (0x1D6, [0x1D5]); (0x1D8, [0x1D7]); (0x1DA, [0x1D9]); (0x1DC, [0x1DB]);
    (0x1DD, [0x18E]); (0x1DF, [0x1DE]); (0x1E1, [0x1E0]); (0x1E3, [0x1E2]);
    (0x1E5, [0x1E4]); (0x1E7, [0x1E6]); (0x1E9, [0x1E8]); (0x1EB, [0x1EA]);
    (0x1ED, [0x1EC]); (0x1EF, [0x1EE]); (0x1F0, [0x4A; 0x30C]);
    (0x1F2, [0x1F1]); (0x1F3, [0x1F1]); (0x1F5, [0x1F4]); (0x1F9, [0x1F8]);
    (0x1FB, [0x1FA]); (0x1FD, [0x1FC]); (0x1FF, [0x1FE]); (0x201, [0x200]);
    (0x203, [0x202]); (0x205, [0x204]); (0x207, [0x206]); (0x209, [0x208]);
    (0x20B, [0x20A]); (0x20D, [0x20C]); (0x20F, [0x20E]); (0x211, [0x210]);
    (0x213, [0x212]); (0x215, [0x214]); (0x217, [0x216]); (0x219, [0x218]);
    (0x21B, [0x21A]); (0x21D, [0x21C]); (0x21F, [0x21E]); (0x223, [0x222]);
    (0x225, [0x224]); (0x227, [0x226]); (0x229, [0x228]); (0x22B, [0x22A]);
    (0x22D, [0x22C]); (0x22F, [0x22E]); (0x231, [0x230]); (0x233, [0x232]);
    (0x23C, [0x23B]); (0x23F, [0x2C7E]); (0x240, [0x2C7F]);
    (0x242, [0x241]); (0x247, [0x246]); (0x249, [0x248]); (0x24B, [0x24A]);
    (0x24D, [0x24C]); (0x24F, [0x24E]); (0x250, [0x2C6F]);
    (0x251, [0x2C6D]); (0x252, [0x2C70]); (0x253, [0x181]);
    (0x254, [0x186]); (0x256, [0x189]); (0x257, [0x18A]); (0x259, [0x18F]);
    (0x25B, [0x190]); (0x25C, [0xA7AB]); (0x260, [0x193]);
    (0x261, [0xA7AC]); (0x263, [0x194]); (0x265, [0xA78D]);
    (0x266, [0xA7AA]); (0x268, [0x197]); (0x269, [0x196]);
    (0x26A, [0xA7AE]); (0x26B, [0x2C62]); (0x26C, [0xA7AD]);
    (0x26F, [0x19C]); (0x271, [0x2C6E]); (0x272, [0x19D]); (0x275, [0x19F]);
    (0x27D, [0x2C64]); (0x280, [0x1A6]); (0x282, [0xA7C5]);
    (0x283, [0x1A9]); (0x287, [0xA7B1]); (0x288, [0x1AE]); (0x289, [0x244]);
    (0x28A, [0x1B1]); (0x28B, [0x1B2]); (0x28C, [0x245]); (0x292, [0x1B7]);
    (0x29D, [0xA7B2]); (0x29E, [0xA7B0]); (0x345, [0x399]);
    (0x371, [0x370]); (0x373, [0x372]); (0x377, [0x376]); (0x37B, [0x3FD]);
    (0x37C, [0x3FE]); (0x37D, [0x3FF]); (0x390, [0x399; 0x308; 0x301]);
    (0x3AC, [0x386]); (0x3AD, [0x388]); (0x3AE, [0x389]); (0x3AF, [0x38A]);
    (0x3B0, [0x3A5; 0x308; 0x301]); (0x3B1, [0x391]); (0x3B2, [0x392]);
    (0x3B3, [0x393]); (0x3B4, [0x394]); (0x3B5, [0x395]); (0x3B6, [0x396]);
    (0x3B7, [0x397]); (0x3B8, [0x398]); (0x3B9, [0x399]); (0x3BA, [0x39A]);
    (0x3BB, [0x39B]); (0x3BC, [0x39C]); (0x3BD, [0x39D]); (0x3BE, [0x39E]);
    (0x3BF, [0x39F]); (0x3C0, [0x3A0]); (0x3C1, [0x3A1]); (0x3C2, [0x3A3]);
    (0x3C3, [0x3A3]); (0x3C4, [0x3A4]); (0x3C5, [0x3A5]); (0x3C6, [0x3A6]);
    (0x3C7, [0x3A7]); (0x3C8, [0x3A8]); (0x3C9, [0x3A9]); (0x3CA, [0x3AA]);
    (0x3CB, [0x3AB]); (0x3CC, [0x38C]); (0x3CD, [0x38E]); (0x3CE, [0x38F]);
    (0x3D0, [0x392]); (0x3D1, [0x398]); (0x3D5, [0x3A6]); (0x3D6, [0x3A0]);
    (0x3D7, [0x3CF]); (0x3D9, [0x3D8]); (0x3DB, [0x3DA]); (0x3DD, [0x3DC]);
    (0x3DF, [0x3DE]); (0x3E1, [0x3E0]); (0x3E3, [0x3E2]); (0x3E5, [0x3E4]);
    (0x3E7, [0x3E6]); (0x3E9, [0x3E8]); (0x3EB, [0x3EA]); (0x3ED, [0x3EC]);
    (0x3EF, [0x3EE]); (0x3F0, [0x39A]); (0x3F1, [0x3A1]); (0x3F2, [0x3F9]);
    (0x3F3, [0x37F]); (0x3F5, [0x395]); (0x3F8, [0x3F7]); (0x3FB, [0x3FA]);
    (0x430, [0x410]); (0x431, [0x411]); (0x432, [0x412]); (0x433, [0x413]);
    (0x434, [0x414]); (0x435, [0x415]); (0x436, [0x416]); (0x437, [0x417]);
    (0x438, [0x418]); (0x439, [0x419]); (0x43A, [0x41A]); (0x43B, [0x41B]);
    (0x43C, [0x41C]); (0x43D, [0x41D]); (0x43E, [0x41E]); (0x43F, [0x41F]);
    (0x440, [0x420]); (0x441, [0x421]); (0x442, [0x422]); (0x443, [0x423]);
    (0x444, [0x424]); (0x445, [0x425]); (0x446, [0x426]); (0x447, [0x427]);
    (0x448, [0x428]); (0x449, [0x429]); (0x44A, [0x42A]); (0x44B, [0x42B]);
    (0x44C, [0x42C]); (0x44D, [0x42D]); (0x44E, [0x42E]); (0x44F, [0x42F]);
    (0x450, [0x400]); (0x451, [0x401]); (0x452, [0x402]); (0x453, [0x403]);
    (0x454, [0x404]); (0x455, [0x405]); (0x456, [0x406]); (0x457, [0x407]);
    (0x458, [0x408]); (0x459, [0x409]); (0x45A, [0x40A]); (0x45B, [0x40B]);
    (0x45C, [0x40C]); (0x45D, [0x40D]); (0x45E, [0x40E]); (0x45F, [0x40F]);
    (0x461, [0x460]); (0x463, [0x462]); (0x465, [0x464]); (0x467, [0x466]);
    (0x469, [0x468]); (0x46B, [0x46A]); (0x46D, [0x46C]); (0x46F, [0x46E]);
    (0x471, [0x470]); (0x473, [0x472]); (0x475, [0x474]); (0x477, [0x476]);
    (0x479, [0x478]); (0x47B, [0x47A]); (0x47D, [0x47C]); (0x47F, [0x47E]);
    (0x481, [0x480]); (0x48B, [0x48A]); (0x48D, [0x48C]); (0x48F, [0x48E]);
    (0x491, [0x490]); (0x493, [0x492]); (0x495, [0x494]); (0x497, [0x496]);
    (0x499, [0x498]); (0x49B, [0x49A]); (0x49D, [0x49C]); (0x49F, [0x49E]);
    (0x4A1, [0x4A0]); (0x4A3, [0x4A2]); (0x4A5, [0x4A4]); (0x4A7, [0x4A6]);
    (0x4A9, [0x4A8]); (0x4AB, [0x4AA]); (0x4AD, [0x4AC]); (0x4AF, [0x4AE]);
    (0x4B1, [0x4B0]); (0x4B3, [0x4B2]); (0x4B5, [0x4B4]); (0x4B7, [0x4B6]);
    (0x4B9, [0x4B8]); (0x4BB, [0x4BA]); (0x4BD, [0x4BC]); (0x4BF, [0x4BE]);
    (0x4C2, [0x4C1]); (0x4C4, [0x4C3]); (0x4C6, [0x4C5]); (0x4C8, [0x4C7]);
    (0x4CA, [0x4C9]); (0x4CC, [0x4CB]); (0x4CE, [0x4CD]); (0x4CF, [0x4C0]);
    (0x4D1, [0x4D0]); (0x4D3, [0x4D2]); (0x4D5, [0x4D4]); (0x4D7, [0x4D6]);
    (0x4D9, [0x4D8]); (0x4DB, [0x4DA]); (0x4DD, [0x4DC]); (0x4DF, [0x4DE]);
    (0x4E1, [0x4E0]); (0x4E3, [0x4E2]); (0x4E5, [0x4E4]); (0x4E7, [0x4E6]);
    (0x4E9, [0x4E8]); (0x4EB, [0x4EA]); (0x4ED, [0x4EC]); (0x4EF, [0x4EE]);
    (0x4F1, [0x4F0]); (0x4F3, [0x4F2]); (0x4F5, [0x4F4]); (0x4F7, [0x4F6]);
    (0x4F9, [0x4F8]); (0x4FB, [0x4FA]); (0x4FD, [0x4FC]); (0x4FF, [0x4FE]);
    (0x501, [0x500]); (0x503, [0x502]); (0x505, [0x504]); (0x507, [0x506]);
    (0x509, [0x508]); (0x50B, [0x50A]); (0x50D, [0x50C]); (0x50F, [0x50E]);
    (0x511, [0x510]); (0x513, [0x512]); (0x515, [0x514]); (0x517, [0x516]);
    (0x519, [0x518]); (0x51B, [0x51A]); (0x51D, [0x51C]); (0x51F, [0x51E]);
    (0x521, [0x520]); (0x523, [0x522]); (0x525, [0x524]); (0x527, [0x526]);
    (0x529, [0x528]); (0x52B, [0x52A]); (0x52D, [0x52C]); (0x52F, [0x52E]);
    (0x561, [0x531]); (0x562, [0x532]); (0x563, [0x533]); (0x564, [0x534]);
    (0x565, [0x535]); (0x566, [0x536]); (0x567, [0x537]); (0x568, [0x538]);
    (0x569, [0x539]); (0x56A, [0x53A]); (0x56B, [0x53B]); (0x56C, [0x53C]);
    (0x56D, [0x53D]); (0x56E, [0x53E]); (0x56F, [0x53F]); (0x570, [0x540]);
    (0x571, [0x541]); (0x572, [0x542]); (0x573, [0x543]); (0x574, [0x544]);
    (0x575, [0x545]); (0x576, [0x546]); (0x577, [0x547]); (0x578, [0x548]);
    (0x579, [0x549]); (0x57A, [0x54A]); (0x57B, [0x54B]); (0x57C, [0x54C]);
    (0x57D, [0x54D]); (0x57E, [0x54E]); (0x57F, [0x54F]); (0x580, [0x550]);
    (0x581, [0x551]); (0x582, [0x552]); (0x583, [0x553]); (0x584, [0x554]);
    (0x585, [0x555]); (0x586, [0x556]); (0x587, [0x535; 0x552]);
    (0x10D0, [0x1C90]); (0x10D1, [0x1C91]); (0x10D2, [0x1C92]);
    (0x10D3, [0x1C93]); (0x10D4, [0x1C94]); (0x10D5, [0x1C95]);
    (0x10D6, [0x1C96]); (0x10D7, [0x1C97]); (0x10D8, [0x1C98]);
    (0x10D9, [0x1C99]); (0x10DA, [0x1C9A]); (0x10DB, [0x1C9B]);
    (0x10DC, [0x1C9C]); (0x10DD, [0x1C9D]); (0x10DE, [0x1C9E]);
    (0x10DF, [0x1C9F]); (0x10E0, [0x1CA0]); (0x10E1, [0x1CA1]);
    (0x10E2, [0x1CA2]); (0x10E3, [0x1CA3]); (0x10E4, [0x1CA4]);
    (0x10E5, [0x1CA5]); (0x10E6, [0x1CA6]); (0x10E7, [0x1CA7]);
    (0x10E8, [0x1CA8]); (0x10E9, [0x1CA9]); (0x10EA, [0x1CAA]);
    (0x10EB, [0x1CAB]); (0x10EC, [0x1CAC]); (0x10ED, [0x1CAD]);
    (0x10EE, [0x1CAE]); (0x10EF, [0x1CAF]); (0x10F0, [0x1CB0]);
    (0x10F1, [0x1CB1]); (0x10F2, [0x1CB2]); (0x10F3, [0x1CB3]);
    (0x10F4, [0x1CB4]); (0x10F5, [0x1CB5]); (0x10F6, [0x1CB6]);
    (0x10F7, [0x1CB7]); (0x10F8, [0x1CB8]); (0x10F9, [0x1CB9]);
    (0x10FA, [0x1CBA]); (0x10FD, [0x1CBD]); (0x10FE, [0x1CBE]);
    (0x10FF, [0x1CBF]); (0x13F8, [0x13F0]); (0x13F9, [0x13F1]);
    (0x13FA, [0x13F2]); (0x13FB, [0x13F3]); (0x13FC, [0x13F4]);
    (0x13FD, [0x13F5]); (0x1C80, [0x412]); (0x1C81, [0x414]);
    (0x1C82, [0x41E]); (0x1C83, [0x421]); (0x1C84, [0x422]);
    (0x1C85, [0x422]); (0x1C86, [0x42A]); (0x1C87, [0x462]);
    (0x1C88, [0xA64A]); (0x1D79, [0xA77D]); (0x1D7D, [0x2C63]);
    (0x1D8E, [0xA7C6]); (0x1E01, [0x1E00]); (0x1E03, [0x1E02]);
    (0x1E05, [0x1E04]); (0x1E07, [0x1E06]); (0x1E09, [0x1E08]);
    (0x1E0B, [0x1E0A]); (0x1E0D, [0x1E0C]); (0x1E0F, [0x1E0E]);
    (0x1E11, [0x1E10]); (0x1E13, [0x1E12]); (0x1E15, [0x1E14]);
    (0x1E17, [0x1E16]); (0x1E19, [0x1E18]); (0x1E1B, [0x1E1A]);
    (0x1E1D, [0x1E1C]); (0x1E1F, [0x1E1E]); (0x1E21, [0x1E20]);
    (0x1E23, [0x1E22]); (0x1E25, [0x1E24]); (0x1E27, [0x1E26]);
    (0x1E29, [0x1E28]); (0x1E2B, [0x1E2A]); (0x1E2D, [0x1E2C]);
    (0x1E2F, [0x1E2E]); (0x1E31, [0x1E30]); (0x1E33, [0x1E32]);
    (0x1E35, [0x1E34]); (0x1E37, [0x1E36]); (0x1E39, [0x1E38]);
    (0x1E3B, [0x1E3A]); (0x1E3D, [0x1E3C]); (0x1E3F, [0x1E3E]);
    (0x1E41, [0x1E40]); (0x1E43, [0x1E42]); (0x1E45, [0x1E44]);
    (0x1E47, [0x1E46]); (0x1E49, [0x1E48]); (0x1E4B, [0x1E4A]);
    (0x1E4D, [0x1E4C]); (0x1E4F, [0x1E4E]); (0x1E51, [0x1E50]);
    (0x1E53, [0x1E52]); (0x1E55, [0x1E54]); (0x1E57, [0x1E56]);
    (0x1E59, [0x1E58]); (0x1E5B, [0x1E5A]); (0x1E5D, [0x1E5C]);
    (0x1E5F, [0x1E5E]); (0x1E61, [0x1E60]); (0x1E63, [0x1E62]);
    (0x1E65, [0x1E64]); (0x1E67, [0x1E66]); (0x1E69, [0x1E68]);
    (0x1E6B, [0x1E6A]); (0x1E6D, [0x1E6C]); (0x1E6F, [0x1E6E]);
    (0x1E71, [0x1E70]); (0x1E73, [0x1E72]); (0x1E75, [0x1E74]);
    (0x1E77, [0x1E76]); (0x1E79, [0x1E78]); (0x1E7B, [0x1E7A]);
    (0x1E7D, [0x1E7C]); (0x1E7F, [0x1E7E]); (0x1E81, [0x1E80]);
    (0x1E83, [0x1E82]); (0x1E85, [0x1E84]); (0x1E87, [0x1E86]);
    (0x1E89, [0x1E88]); (0x1E8B, [0x1E8A]); (0x1E8D, [0x1E8C]);
    (0x1E8F, [0x1E8E]); (0x1E91, [0x1E90]); (0x1E93, [0x1E92]);
    (0x1E95, [0x1E94]); (0x1E96, [0x48; 0x331]); (0x1E97, [0x54; 0x308]);
    (0x1E98, [0x57; 0x30A]); (0x1E99, [0x59; 0x30A]);
    (0x1E9A, [0x41; 0x2BE]); (0x1E9B, [0x1E60]); (0x1EA1, [0x1EA0]);
    (0x1EA3, [0x1EA2]); (0x1EA5, [0x1EA4]); (0x1EA7, [0x1EA6]);
    (0x1EA9, [0x1EA8]); (0x1EAB, [0x1EAA]); (0x1EAD, [0x1EAC]);
    (0x1EAF, [0x1EAE]); (0x1EB1, [0x1EB0]); (0x1EB3, [0x1EB2]);
    (0x1EB5, [0x1EB4]); (0x1EB7, [0x1EB6]); (0x1EB9, [0x1EB8]);
    (0x1EBB, [0x1EBA]); (0x1EBD, [0x1EBC]); (0x1EBF, [0x1EBE]);
    (0x1EC1, [0x1EC0]); (0x1EC3, [0x1EC2]); (0x1EC5, [0x1EC4]);
    (0x1EC7, [0x1EC6]); (0x1EC9, [0x1EC8]); (0x1ECB, [0x1ECA]);
    (0x1ECD, [0x1ECC]); (0x1ECF, [0x1ECE]); (0x1ED1, [0x1ED0]);
    (0x1ED3, [0x1ED2]); (0x1ED5, [0x1ED4]); (0x1ED7, [0x1ED6]);
    (0x1ED9, [0x1ED8]); (0x1EDB, [0x1EDA]); (0x1EDD, [0x1EDC]);
    (0x1EDF, [0x1EDE]); (0x1EE1, [0x1EE0]); (0x1EE3, [0x1EE2]);
    (0x1EE5, [0x1EE4]); (0x1EE7, [0x1EE6]); (0x1EE9, [0x1EE8]);
    (0x1EEB, [0x1EEA]); (0x1EED, [0x1EEC]); (0x1EEF, [0x1EEE]);
    (0x1EF1, [0x1EF0]); (0x1EF3, [0x1EF2]); (0x1EF5, [0x1EF4]);
    (0x1EF7, [0x1EF6]); (0x1EF9, [0x1EF8]); (0x1EFB, [0x1EFA]);
    (0x1EFD, [0x1EFC]); (0x1EFF, [0x1EFE]); (0x1F00, [0x1F08]);
    (0x1F01, [0x1F09]); (0x1F02, [0x1F0A]); (0x1F03, [0x1F0B]);
    (0x1F04, [0x1F0C]); (0x1F05, [0x1F0D]); (0x1F06, [0x1F0E]);
    (0x1F07, [0x1F0F]); (0x1F10, [0x1F18]); (0x1F11, [0x1F19]);
    (0x1F12, [0x1F1A]); (0x1F13, [0x1F1B]); (0x1F14, [0x1F1C]);
    (0x1F15, [0x1F1D]); (0x1F20, [0x1F28]); (0x1F21, [0x1F29]);
    (0x1F22, [0x1F2A]); (0x1F23, [0x1F2B]); (0x1F24, [0x1F2C]);
    (0x1F25, [0x1F2D]); (0x1F26, [0x1F2E]); (0x1F27, [0x1F2F]);
    (0x1F30, [0x1F38]); (0x1F31, [0x1F39]); (0x1F32, [0x1F3A]);
    (0x1F33, [0x1F3B]); (0x1F34, [0x1F3C]); (0x1F35, [0x1F3D]);
    (0x1F36, [0x1F3E]); (0x1F37, [0x1F3F]); (0x1F40, [0x1F48]);
    (0x1F41, [0x1F49]); (0x1F42, [0x1F4A]); (0x1F43, [0x1F4B]);
    (0x1F44, [0x1F4C]); (0x1F45, [0x1F4D]); (0x1F50, [0x3A5; 0x313]);
    (0x1F51, [0x1F59]); (0x1F52, [0x3A5; 0x313; 0x300]); (0x1F53, [0x1F5B]);
    (0x1F54, [0x3A5; 0x313; 0x301]); (0x1F55, [0x1F5D]);
    (0x1F56, [0x3A5; 0x313; 0x342]); (0x1F57, [0x1F5F]); (0x1F60, [0x1F68]);
    (0x1F61, [0x1F69]); (0x1F62, [0x1F6A]); (0x1F63, [0x1F6B]);
    (0x1F64, [0x1F6C]); (0x1F65, [0x1F6D]); (0x1F66, [0x1F6E]);
    (0x1F67, [0x1F6F]); (0x1F70, [0x1FBA]); (0x1F71, [0x1FBB]);
    (0x1F72, [0x1FC8]); (0x1F73, [0x1FC9]); (0x1F74, [0x1FCA]);
    (0x1F75, [0x1FCB]); (0x1F76, [0x1FDA]); (0x1F77, [0x1FDB]);
    (0x1F78, [0x1FF8]); (0x1F79, [0x1FF9]); (0x1F7A, [0x1FEA]);
    (0x1F7B, [0x1FEB]); (0x1F7C, [0x1FFA]); (0x1F7D, [0x1FFB]);
    (0x1F80, [0x1F08; 0x399]); (0x1F81, [0x1F09; 0x399]);
    (0x1F82, [0x1F0A; 0x399]); (0x1F83, [0x1F0B; 0x399]);
    (0x1F84, [0x1F0C; 0x399]); (0x1F85, [0x1F0D; 0x399]);
    (0x1F86, [0x1F0E; 0x399]); (0x1F87, [0x1F0F; 0x399]);
    (0x1F88, [0x1F08; 0x399]); (0x1F89, [0x1F09; 0x399]);
    (0x1F8A, [0x1F0A; 0x399]); (0x1F8B, [0x1F0B; 0x399]);
    (0x1F8C, [0x1F0C; 0x399]); (0x1F8D, [0x1F0D; 0x399]);
    (0x1F8E, [0x1F0E; 0x399]); (0x1F8F, [0x1F0F; 0x399]);
    (0x1F90, [0x1F28; 0x399]); (0x1F91, [0x1F29; 0x399]);
    (0x1F92, [0x1F2A; 0x399]); (0x1F93, [0x1F2B; 0x399]);
    (0x1F94, [0x1F2C; 0x399]); (0x1F95, [0x1F2D; 0x399]);
    (0x1F96, [0x1F2E; 0x399]); (0x1F97, [0x1F2F; 0x399]);
    (0x1F98, [0x1F28; 0x399]); (0x1F99, [0x1F29; 0x399]);
    (0x1F9A, [0x1F2A; 0x399]); (0x1F9B, [0x1F2B; 0x399]);
    (0x1F9C, [0x1F2C; 0x399]); (0x1F9D, [0x1F2D; 0x399]);
    (0x1F9E, [0x1F2E; 0x399]); (0x1F9F, [0x1F2F; 0x399]);
    (0x1FA0, [0x1F68; 0x399]); (0x1FA1, [0x1F69; 0x399]);
    (0x1FA2, [0x1F6A; 0x399]); (0x1FA3, [0x1F6B; 0x399]);
    (0x1FA4, [0x1F6C; 0x399]); (0x1FA5, [0x1F6D; 0x399]);
    (0x1FA6, [0x1F6E; 0x399]); (0x1FA7, [0x1F6F; 0x399]);
    (0x1FA8, [0x1F68; 0x399]); (0x1FA9, [0x1F69; 0x399]);
    (0x1FAA, [0x1F6A; 0x399]); (0x1FAB, [0x1F6B; 0x399]);
    (0x1FAC, [0x1F6C; 0x399]); (0x1FAD, [0x1F6D; 0x399]);
    (0x1FAE, [0x1F6E; 0x399]); (0x1FAF, [0x1F6F; 0x399]);
    (0x1FB0, [0x1FB8]); (0x1FB1, [0x1FB9]); (0x1FB2, [0x1FBA; 0x399]);
    (0x1FB3, [0x391; 0x399]); (0x1FB4, [0x386; 0x399]);
    (0x1FB6, [0x391; 0x342]); (0x1FB7, [0x391; 0x342; 0x399]);
    (0x1FBC, [0x391; 0x399]); (0x1FBE, [0x399]); (0x1FC2, [0x1FCA; 0x399]);
    (0x1FC3, [0x397; 0x399]); (0x1FC4, [0x389; 0x399]);
    (0x1FC6, [0x397; 0x342]); (0x1FC7, [0x397; 0x342; 0x399]);
    (0x1FCC, [0x397; 0x399]); (0x1FD0, [0x1FD8]); (0x1FD1, [0x1FD9]);
    (0x1FD2, [0x399; 0x308; 0x300]); (0x1FD3, [0x399; 0x308; 0x301]);
    (0x1FD6, [0x399; 0x342]); (0x1FD7, [0x399; 0x308; 0x342]);
    (0x1FE0, [0x1FE8]); (0x1FE1, [0x1FE9]); (0x1FE2, [0x3A5; 0x308; 0x300]);
    (0x1FE3, [0x3A5; 0x308; 0x301]); (0x1FE4, [0x3A1; 0x313]);
    (0x1FE5, [0x1FEC]); (0x1FE6, [0x3A5; 0x342]);
    (0x1FE7, [0x3A5; 0x308; 0x342]); (0x1FF2, [0x1FFA; 0x399]);
    (0x1FF3, [0x3A9; 0x399]); (0x1FF4, [0x38F; 0x399]);
    (0x1FF6, [0x3A9; 0x342]); (0x1FF7, [0x3A9; 0x342; 0x399]);
    (0x1FFC, [0x3A9; 0x399]); (0x214E, [0x2132]); (0x2170, [0x2160]);
    (0x2171, [0x2161]); (0x2172, [0x2162]); (0x2173, [0x2163]);
    (0x2174, [0x2164]); (0x2175, [0x2165]); (0x2176, [0x2166]);
    (0x2177, [0x2167]); (0x2178, [0x2168]); (0x2179, [0x2169]);
    (0x217A, [0x216A]); (0x217B, [0x216B]); (0x217C, [0x216C]);
    (0x217D, [0x216D]); (0x217E, [0x216E]); (0x217F, [0x216F]);
    (0x2184, [0x2183]); (0x24D0, [0x24B6]); (0x24D1, [0x24B7]);
    (0x24D2, [0x24B8]); (0x24D3, [0x24B9]); (0x24D4, [0x24BA]);
    (0x24D5, [0x24BB]); (0x24D6, [0x24BC]); (0x24D7, [0x24BD]);
    (0x24D8, [0x24BE]); (0x24D9, [0x24BF]); (0x24DA, [0x24C0]);
    (0x24DB, [0x24C1]); (0x24DC, [0x24C2]); (0x24DD, [0x24C3]);
    (0x24DE, [0x24C4]); (0x24DF, [0x24C5]); (0x24E0, [0x24C6]);
    (0x24E1, [0x24C7]); (0x24E2, [0x24C8]); (0x24E3, [0x24C9]);
    (0x24E4, [0x24CA]); (0x24E5, [0x24CB]); (0x24E6, [0x24CC]);
    (0x24E7, [0x24CD]); (0x24E8, [0x24CE]); (0x24E9, [0x24CF]);
    (0x2C30, [0x2C00]); (0x2C31, [0x2C01]); (0x2C32, [0x2C02]);
    (0x2C33, [0x2C03]); (0x2C34, [0x2C04]); (0x2C35, [0x2C05]);
    (0x2C36, [0x2C06]); (0x2C37, [0x2C07]); (0x2C38, [0x2C08]);
    (0x2C39, [0x2C09]); (0x2C3A, [0x2C0A]); (0x2C3B, [0x2C0B]);
    (0x2C3C, [0x2C0C]); (0x2C3D, [0x2C0D]); (0x2C3E, [0x2C0E]);
    (0x2C3F, [0x2C0F]); (0x2C40, [0x2C10]); (0x2C41, [0x2C11]);
    (0x2C42, [0x2C12]); (0x2C43, [0x2C13]); (0x2C44, [0x2C14]);
    (0x2C45, [0x2C15]); (0x2C46, [0x2C16]); (0x2C47, [0x2C17]);
    (0x2C48, [0x2C18]); (0x2C49, [0x2C19]); (0x2C4A, [0x2C1A]);
    (0x2C4B, [0x2C1B]); (0x2C4C, [0x2C1C]); (0x2C4D, [0x2C1D]);
    (0x2C4E, [0x2C1E]); (0x2C4F, [0x2C1F]); (0x2C50, [0x2C20]);
    (0x2C51, [0x2C21]); (0x2C52, [0x2C22]); (0x2C53, [0x2C23]);
    (0x2C54, [0x2C24]); (0x2C55, [0x2C25]); (0x2C56, [0x2C26]);
    (0x2C57, [0x2C27]); (0x2C58, [0x2C28]); (0x2C59, [0x2C29]);
    (0x2C5A, [0x2C2A]); (0x2C5B, [0x2C2B]); (0x2C5C, [0x2C2C]);
    (0x2C5D, [0x2C2D]); (0x2C5E, [0x2C2E]); (0x2C5F, [0x2C2F]);
    (0x2C61, [0x2C60]); (0x2C65, [0x23A]); (0x2C66, [0x23E]);
    (0x2C68, [0x2C67]); (0x2C6A, [0x2C69]); (0x2C6C, [0x2C6B]);
    (0x2C73, [0x2C72]); (0x2C76, [0x2C75]); (0x2C81, [0x2C80]);
    (0x2C83, [0x2C82]); (0x2C85, [0x2C84]); (0x2C87, [0x2C86]);
    (0x2C89, [0x2C88]); (0x2C8B, [0x2C8A]); (0x2C8D, [0x2C8C]);
    (0x2C8F, [0x2C8E]); (0x2C91, [0x2C90]); (0x2C93, [0x2C92]);
    (0x2C95, [0x2C94]); (0x2C97, [0x2C96]); (0x2C99, [0x2C98]);
    (0x2C9B, [0x2C9A]); (0x2C9D, [0x2C9C]); (0x2C9F, [0x2C9E]);
    (0x2CA1, [0x2CA0]); (0x2CA3, [0x2CA2]); (0x2CA5, [0x2CA4]);
    (0x2CA7, [0x2CA6]); (0x2CA9, [0x2CA8]); (0x2CAB, [0x2CAA]);
    (0x2CAD, [0x2CAC]); (0x2CAF, [0x2CAE]); (0x2CB1, [0x2CB0]);
    (0x2CB3, [0x2CB2]); (0x2CB5, [0x2CB4]); (0x2CB7, [0x2CB6]);
    (0x2CB9, [0x2CB8]); (0x2CBB, [0x2CBA]); (0x2CBD, [0x2CBC]);
    (0x2CBF, [0x2CBE]); (0x2CC1, [0x2CC0]); (0x2CC3, [0x2CC2]);
    (0x2CC5, [0x2CC4]); (0x2CC7, [0x2CC6]); (0x2CC9, [0x2CC8]);
    (0x2CCB, [0x2CCA]); (0x2CCD, [0x2CCC]); (0x2CCF, [0x2CCE]);
    (0x2CD1, [0x2CD0]); (0x2CD3, [0x2CD2]); (0x2CD5, [0x2CD4]);
    (0x2CD7, [0x2CD6]); (0x2CD9, [0x2CD8]); (0x2CDB, [0x2CDA]);
    (0x2CDD, [0x2CDC]); (0x2CDF, [0x2CDE]); (0x2CE1, [0x2CE0]);
    (0x2CE3, [0x2CE2]); (0x2CEC, [0x2CEB]); (0x2CEE, [0x2CED]);
    (0x2CF3, [0x2CF2]); (0x2D00, [0x10A0]); (0x2D01, [0x10A1]);
    (0x2D02, [0x10A2]); (0x2D03, [0x10A3]); (0x2D04, [0x10A4]);
    (0x2D05, [0x10A5]); (0x2D06, [0x10A6]); (0x2D07, [0x10A7]);
    (0x2D08, [0x10A8]); (0x2D09, [0x10A9]); (0x2D0A, [0x10AA]);
    (0x2D0B, [0x10AB]); (0x2D0C, [0x10AC]); (0x2D0D, [0x10AD]);
    (0x2D0E, [0x10AE]); (0x2D0F, [0x10AF]); (0x2D10, [0x10B0]);
    (0x2D11, [0x10B1]); (0x2D12, [0x10B2]); (0x2D13, [0x10B3]);
    (0x2D14, [0x10B4]); (0x2D15, [0x10B5]); (0x2D16, [0x10B6]);
    (0x2D17, [0x10B7]); (0x2D18, [0x10B8]); (0x2D19, [0x10B9]);
    (0x2D1A, [0x10BA]); (0x2D1B, [0x10BB]); (0x2D1C, [0x10BC]);
    (0x2D1D, [0x10BD]); (0x2D1E, [0x10BE]); (0x2D1F, [0x10BF]);
    (0x2D20, [0x10C0]); (0x2D21, [0x10C1]); (0x2D22, [0x10C2]);
    (0x2D23, [0x10C3]); (0x2D24, [0x10C4]); (0x2D25, [0x10C5]);
    (0x2D27, [0x10C7]); (0x2D2D, [0x10CD]); (0xA641, [0xA640]);
    (0xA643, [0xA642]); (0xA645, [0xA644]); (0xA647, [0xA646]);
    (0xA649, [0xA648]); (0xA64B, [0xA64A]); (0xA64D, [0xA64C]);
    (0xA64F, [0xA64E]); (0xA651, [0xA650]); (0xA653, [0xA652]);
    (0xA655, [0xA654]); (0xA657, [0xA656]); (0xA659, [0xA658]);
    (0xA65B, [0xA65A]); (0xA65D, [0xA65C]); (0xA65F, [0xA65E]);
    (0xA661, [0xA660]); (0xA663, [0xA662]); (0xA665, [0xA664]);
    (0xA667, [0xA666]); (0xA669, [0xA668]); (0xA66B, [0xA66A]);
    (0xA66D, [0xA66C]); (0xA681, [0xA680]); (0xA683, [0xA682]);
    (0xA685, [0xA684]); (0xA687, [0xA686]); (0xA689, [0xA688]);
    (0xA68B, [0xA68A]); (0xA68D, [0xA68C]); (0xA68F, [0xA68E]);
    (0xA691, [0xA690]); (0xA693, [0xA692]); (0xA695, [0xA694]);
    (0xA697, [0xA696]); (0xA699, [0xA698]); (0xA69B, [0xA69A]);
    (0xA723, [0xA722]); (0xA725, [0xA724]); (0xA727, [0xA726]);
    (0xA729, [0xA728]); (0xA72B, [0xA72A]); (0xA72D, [0xA72C]);
    (0xA72F, [0xA72E]); (0xA733, [0xA732]); (0xA735, [0xA734]);
    (0xA737, [0xA736]); (0xA739, [0xA738]); (0xA73B, [0xA73A]);
    (0xA73D, [0xA73C]); (0xA73F, [0xA73E]); (0xA741, [0xA740]);
    (0xA743, [0xA742]); (0xA745, [0xA744]); (0xA747, [0xA746]);
    (0xA749, [0xA748]); (0xA74B, [0xA74A]); (0xA74D, [0xA74C]);
    (0xA74F, [0xA74E]); (0xA751, [0xA750]); (0xA753, [0xA752]);
    (0xA755, [0xA754]); (0xA757, [0xA756]); (0xA759, [0xA758]);
    (0xA75B, [0xA75A]); (0xA75D, [0xA75C]); (0xA75F, [0xA75E]);
    (0xA761, [0xA760]); (0xA763, [0xA762]); (0xA765, [0xA764]);
    (0xA767, [0xA766]); (0xA769, [0xA768]); (0xA76B, [0xA76A]);
    (0xA76D, [0xA76C]); (0xA76F, [0xA76E]); (0xA77A, [0xA779]);
    (0xA77C, [0xA77B]); (0xA77F, [0xA77E]); (0xA781, [0xA780]);
    (0xA783, [0xA782]); (0xA785, [0xA784]); (0xA787, [0xA786]);
    (0xA78C, [0xA78B]); (0xA791, [0xA790]); (0xA793, [0xA792]);
    (0xA794, [0xA7C4]); (0xA797, [0xA796]); (0xA799, [0xA798]);
    (0xA79B, [0xA79A]); (0xA79D, [0xA79C]); (0xA79F, [0xA79E]);
    (0xA7A1, [0xA7A0]); (0xA7A3, [0xA7A2]); (0xA7A5, [0xA7A4]);
    (0xA7A7, [0xA7A6]); (0xA7A9, [0xA7A8]); (0xA7B5, [0xA7B4]);
    (0xA7B7, [0xA7B6]); (0xA7B9, [0xA7B8]); (0xA7BB, [0xA7BA]);
    (0xA7BD, [0xA7BC]); (0xA7BF, [0xA7BE]); (0xA7C1, [0xA7C0]);
    (0xA7C3, [0xA7C2]); (0xA7C8, [0xA7C7]); (0xA7CA, [0xA7C9]);
    (0xA7D1, [0xA7D0]); (0xA7D7, [0xA7D6]); (0xA7D9, [0xA7D8]);
    (0xA7F6, [0xA7F5]); (0xAB53, [0xA7B3]); (0xAB70, [0x13A0]);
    (0xAB71, [0x13A1]); (0xAB72, [0x13A2]); (0xAB73, [0x13A3]);
    (0xAB74, [0x13A4]); (0xAB75, [0x13A5]); (0xAB76, [0x13A6]);
    (0xAB77, [0x13A7]); (0xAB78, [0x13A8]); (0xAB79, [0x13A9]);
    (0xAB7A, [0x13AA]); (0xAB7B, [0x13AB]); (0xAB7C, [0x13AC]);
    (0xAB7D, [0x13AD]); (0xAB7E, [0x13AE]); (0xAB7F, [0x13AF]);
    (0xAB80, [0x13B0]); (0xAB81, [0x13B1]); (0xAB82, [0x13B2]);
    (0xAB83, [0x13B3]); (0xAB84, [0x13B4]); (0xAB85, [0x13B5]);
    (0xAB86, [0x13B6]); (0xAB87, [0x13B7]); (0xAB88, [0x13B8]);
    (0xAB89, [0x13B9]); (0xAB8A, [0x13BA]); (0xAB8B, [0x13BB]);
    (0xAB8C, [0x13BC]); (0xAB8D, [0x13BD]); (0xAB8E, [0x13BE]);
    (0xAB8F, [0x13BF]); (0xAB90, [0x13C0]); (0xAB91, [0x13C1]);
    (0xAB92, [0x13C2]); (0xAB93, [0x13C3]); (0xAB94, [0x13C4]);
    (0xAB95, [0x13C5]); (0xAB96, [0x13C6]); (0xAB97, [0x13C7]);
    (0xAB98, [0x13C8]); (0xAB99, [0x13C9]); (0xAB9A, [0x13CA]);
    (0xAB9B, [0x13CB]); (0xAB9C, [0x13CC]); (0xAB9D, [0x13CD]);
    (0xAB9E, [0x13CE]); (0xAB9F, [0x13CF]); (0xABA0, [0x13D0]);
    (0xABA1, [0x13D1]); (0xABA2, [0x13D2]); (0xABA3, [0x13D3]);
    (0xABA4, [0x13D4]); (0xABA5, [0x13D5]); (0xABA6, [0x13D6]);
    (0xABA7, [0x13D7]); (0xABA8, [0x13D8]); (0xABA9, [0x13D9]);
    (0xABAA, [0x13DA]); (0xABAB, [0x13DB]); (0xABAC, [0x13DC]);
    (0xABAD, [0x13DD]); (0xABAE, [0x13DE]); (0xABAF, [0x13DF]);
    (0xABB0, [0x13E0]); (0xABB1, [0x13E1]); (0xABB2, [0x13E2]);
    (0xABB3, [0x13E3]); (0xABB4, [0x13E4]); (0xABB5, [0x13E5]);
    (0xABB6, [0x13E6]); (0xABB7, [0x13E7]); (0xABB8, [0x13E8]);
    (0xABB9, [0x13E9]); (0xABBA, [0x13EA]); (0xABBB, [0x13EB]);
    (0xABBC, [0x13EC]); (0xABBD, [0x13ED]); (0xABBE, [0x13EE]);
    (0xABBF, [0x13EF]); (0xFB00, [0x46; 0x46]); (0xFB01, [0x46; 0x49]);
    (0xFB02, [0x46; 0x4C]); (0xFB03, [0x46; 0x46; 0x49]);
    (0xFB04, [0x46; 0x46; 0x4C]); (0xFB05, [0x53; 0x54]);
    (0xFB06, [0x53; 0x54]); (0xFB13, [0x544; 0x546]);
    (0xFB14, [0x544; 0x535]); (0xFB15, [0x544; 0x53B]);
    (0xFB16, [0x54E; 0x546]); (0xFB17, [0x544; 0x53D]); (0xFF41, [0xFF21]);
    (0xFF42, [0xFF22]); (0xFF43, [0xFF23]); (0xFF44, [0xFF24]);
    (0xFF45, [0xFF25]); (0xFF46, [0xFF26]); (0xFF47, [0xFF27]);
    (0xFF48, [0xFF28]); (0xFF49, [0xFF29]); (0xFF4A, [0xFF2A]);
    (0xFF4B, [0xFF2B]); (0xFF4C, [0xFF2C]); (0xFF4D, [0xFF2D]);
    (0xFF4E, [0xFF2E]); (0xFF4F, [0xFF2F]); (0xFF50, [0xFF30]);
    (0xFF51, [0xFF31]); (0xFF52, [0xFF32]); (0xFF53, [0xFF33]);
    (0xFF54, [0xFF34]); (0xFF55, [0xFF35]); (0xFF56, [0xFF36]);
    (0xFF57, [0xFF37]); (0xFF58, [0xFF38]); (0xFF59, [0xFF39]);
    (0xFF5A, [0xFF3A]); (0x10428, [0x10400]); (0x10429, [0x10401]);
    (0x1042A, [0x10402]); (0x1042B, [0x10403]); (0x1042C, [0x10404]);
    (0x1042D, [0x10405]); (0x1042E, [0x10406]); (0x1042F, [0x10407]);
    (0x10430, [0x10408]); (0x10431, [0x10409]); (0x10432, [0x1040A]);
    (0x10433, [0x1040B]); (0x10434, [0x1040C]); (0x10435, [0x1040D]);
    (0x10436, [0x1040E]); (0x10437, [0x1040F]); (0x10438, [0x10410]);
    (0x10439, [0x10411]); (0x1043A, [0x10412]); (0x1043B, [0x10413]);
    (0x1043C, [0x10414]); (0x1043D, [0x10415]); (0x1043E, [0x10416]);
    (0x1043F, [0x10417]); (0x10440, [0x10418]); (0x10441, [0x10419]);
    (0x10442, [0x1041A]); (0x10443, [0x1041B]); (0x10444, [0x1041C]);
    (0x10445, [0x1041D]); (0x10446, [0x1041E]); (0x10447, [0x1041F]);
    (0x10448, [0x10420]); (0x10449, [0x10421]); (0x1044A, [0x10422]);
    (0x1044B, [0x10423]); (0x1044C, [0x10424]); (0x1044D, [0x10425]);
    (0x1044E, [0x10426]); (0x1044F, [0x10427]); (0x104D8, [0x104B0]);
    (0x104D9, [0x104B1]); (0x104DA, [0x104B2]); (0x104DB, [0x104B3]);
    (0x104DC, [0x104B4]); (0x104DD, [0x104B5]); (0x104DE, [0x104B6]);
    (0x104DF, [0x104B7]); (0x104E0, [0x104B8]); (0x104E1, [0x104B9]);
    (0x104E2, [0x104BA]); (0x104E3, [0x104BB]); (0x104E4, [0x104BC]);
    (0x104E5, [0x104BD]); (0x104E6, [0x104BE]); (0x104E7, [0x104BF]);
    (0x104E8, [0x104C0]); (0x104E9, [0x104C1]); (0x104EA, [0x104C2]);
    (0x104EB, [0x104C3]); (0x104EC, [0x104C4]); (0x104ED, [0x104C5]);
    (0x104EE, [0x104C6]); (0x104EF, [0x104C7]); (0x104F0, [0x104C8]);
    (0x104F1, [0x104C9]); (0x104F2, [0x104CA]); (0x104F3, [0x104CB]);
    (0x104F4, [0x104CC]); (0x104F5, [0x104CD]); (0x104F6, [0x104CE]);
    (0x104F7, [0x104CF]); (0x104F8, [0x104D0]); (0x104F9, [0x104D1]);
    (0x104FA, [0x104D2]); (0x104FB, [0x104D3]); (0x10597, [0x10570]);
    (0x10598, [0x10571]); (0x10599, [0x10572]); (0x1059A, [0x10573]);
    (0x1059B, [0x10574]); (0x1059C, [0x10575]); (0x1059D, [0x10576]);
    (0x1059E, [0x10577]); (0x1059F, [0x10578]); (0x105A0, [0x10579]);
    (0x105A1, [0x1057A]); (0x105A3, [0x1057C]); (0x105A4, [0x1057D]);
    (0x105A5, [0x1057E]); (0x105A6, [0x1057F]); (0x105A7, [0x10580]);
    (0x105A8, [0x10581]); (0x105A9, [0x10582]); (0x105AA, [0x10583]);
    (0x105AB, [0x10584]); (0x105AC, [0x10585]); (0x105AD, [0x10586]);
    (0x105AE, [0x10587]); (0x105AF, [0x10588]); (0x105B0, [0x10589]);
    (0x105B1, [0x1058A]); (0x105B3, [0x1058C]); (0x105B4, [0x1058D]);
    (0x105B5, [0x1058E]); (0x105B6, [0x1058F]); (0x105B7, [0x10590]);
    (0x105B8, [0x10591]); (0x105B9, [0x10592]); (0x105BB, [0x10594]);
    (0x105BC, [0x10595]); (0x10CC0, [0x10C80]); (0x10CC1, [0x10C81]);
    (0x10CC2, [0x10C82]); (0x10CC3, [0x10C83]); (0x10CC4, [0x10C84]);
    (0x10CC5, [0x10C85]); (0x10CC6, [0x10C86]); (0x10CC7, [0x10C87]);
    (0x10CC8, [0x10C88]); (0x10CC9, [0x10C89]); (0x10CCA, [0x10C8A]);
    (0x10CCB, [0x10C8B]); (0x10CCC, [0x10C8C]); (0x10CCD, [0x10C8D]);
    (0x10CCE, [0x10C8E]); (0x10CCF, [0x10C8F]); (0x10CD0, [0x10C90]);
    (0x10CD1, [0x10C91]); (0x10CD2, [0x10C92]); (0x10CD3, [0x10C93]);
    (0x10CD4, [0x10C94]); (0x10CD5, [0x10C95]); (0x10CD6, [0x10C96]);
    (0x10CD7, [0x10C97]); (0x10CD8, [0x10C98]); (0x10CD9, [0x10C99]);
    (0x10CDA, [0x10C9A]); (0x10CDB, [0x10C9B]); (0x10CDC, [0x10C9C]);
    (0x10CDD, [0x10C9D]); (0x10CDE, [0x10C9E]); (0x10CDF, [0x10C9F]);
    (0x10CE0, [0x10CA0]); (0x10CE1, [0x10CA1]); (0x10CE2, [0x10CA2]);
    (0x10CE3, [0x10CA3]); (0x10CE4, [0x10CA4]); (0x10CE5, [0x10CA5]);
    (0x10CE6, [0x10CA6]); (0x10CE7, [0x10CA7]); (0x10CE8, [0x10CA8]);
    (0x10CE9, [0x10CA9]); (0x10CEA, [0x10CAA]); (0x10CEB, [0x10CAB]);
    (0x10CEC, [0x10CAC]); (0x10CED, [0x10CAD]); (0x10CEE, [0x10CAE]);
    (0x10CEF, [0x10CAF]); (0x10CF0, [0x10CB0]); (0x10CF1, [0x10CB1]);
    (0x10CF2, [0x10CB2]); (0x118C0, [0x118A0]); (0x118C1, [0x118A1]);
    (0x118C2, [0x118A2]); (0x118C3, [0x118A3]); (0x118C4, [0x118A4]);
    (0x118C5, [0x118A5]); (0x118C6, [0x118A6]); (0x118C7, [0x118A7]);
    (0x118C8, [0x118A8]); (0x118C9, [0x118A9]); (0x118CA, [0x118AA]);
    (0x118CB, [0x118AB]); (0x118CC, [0x118AC]); (0x118CD, [0x118AD]);
    (0x118CE, [0x118AE]); (0x118CF, [0x118AF]); (0x118D0, [0x118B0]);
    (0x118D1, [0x118B1]); (0x118D2, [0x118B2]); (0x118D3, [0x118B3]);
    (0x118D4, [0x118B4]); (0x118D5, [0x118B5]); (0x118D6, [0x118B6]);
    (0x118D7, [0x118B7]); (0x118D8, [0x118B8]); (0x118D9, [0x118B9]);
    (0x118DA, [0x118BA]); (0x118DB, [0x118BB]); (0x118DC, [0x118BC]);
    (0x118DD, [0x118BD]); (0x118DE, [0x118BE]); (0x118DF, [0x118BF]);
    (0x16E60, [0x16E40]); (0x16E61, [0x16E41]); (0x16E62, [0x16E42]);
    (0x16E63, [0x16E43]); (0x16E64, [0x16E44]); (0x16E65, [0x16E45]);
    (0x16E66, [0x16E46]); (0x16E67, [0x16E47]); (0x16E68, [0x16E48]);
    (0x16E69, [0x16E49]); (0x16E6A, [0x16E4A]); (0x16E6B, [0x16E4B]);
    (0x16E6C, [0x16E4C]); (0x16E6D, [0x16E4D]); (0x16E6E, [0x16E4E]);
    (0x16E6F, [0x16E4F]); (0x16E70, [0x16E50]); (0x16E71, [0x16E51]);
    (0x16E72, [0x16E52]); (0x16E73, [0x16E53]); (0x16E74, [0x16E54]);
    (0x16E75, [0x16E55]); (0x16E76, [0x16E56]); (0x16E77, [0x16E57]);
    (0x16E78, [0x16E58]); (0x16E79, [0x16E59]); (0x16E7A, [0x16E5A]);
    (0x16E7B, [0x16E5B]); (0x16E7C, [0x16E5C]); (0x16E7D, [0x16E5D]);
    (0x16E7E, [0x16E5E]); (0x16E7F, [0x16E5F]); (0x1E922, [0x1E900]);
    (0x1E923, [0x1E901]); (0x1E924, [0x1E902]); (0x1E925, [0x1E903]);
    (0x1E926, [0x1E904]); (0x1E927, [0x1E905]); (0x1E928, [0x1E906]);
    (0x1E929, [0x1E907]); (0x1E92A, [0x1E908]); (0x1E92B, [0x1E909]);
    (0x1E92C, [0x1E90A]); (0x1E92D, [0x1E90B]); (0x1E92E, [0x1E90C]);
    (0x1E92F, [0x1E90D]); (0x1E930, [0x1E90E]); (0x1E931, [0x1E90F]);
    (0x1E932, [0x1E910]); (0x1E933, [0x1E911]); (0x1E934, [0x1E912]);
    (0x1E935, [0x1E913]); (0x1E936, [0x1E914]); (0x1E937, [0x1E915]);
    (0x1E938, [0x1E916]); (0x1E939, [0x1E917]); (0x1E93A, [0x1E918]);
    (0x1E93B, [0x1E919]); (0x1E93C, [0x1E91A]); (0x1E93D, [0x1E91B]);
    (0x1E93E, [0x1E91C]); (0x1E93F, [0x1E91D]); (0x1E940, [0x1E91E]);
    (0x1E941, [0x1E91F]); (0x1E942, [0x1E920]); (0x1E943, [0x1E921]) ].

(** Full canonical decomposition (the NFD form of the single code point),
    the Hangul syllables apart. *)
Definition decomposition_table : list (N * list N) :=
  [ (0xC0, [0x41; 0x300]); (0xC1, [0x41; 0x301]); (0xC2, [0x41; 0x302]);
    (0xC3, [0x41; 0x303]); (0xC4, [0x41; 0x308]); (0xC5, [0x41; 0x30A]);
    (0xC7, [0x43; 0x327]); (0xC8, [0x45; 0x300]); (0xC9, [0x45; 0x301]);
    (0xCA, [0x45; 0x302]); (0xCB, [0x45; 0x308]); (0xCC, [0x49; 0x300]);
    (0xCD, [0x49; 0x301]); (0xCE, [0x49; 0x302]); (0xCF, [0x49; 0x308]);
    (0xD1, [0x4E; 0x303]); (0xD2, [0x4F; 0x300]); (0xD3, [0x4F; 0x301]);
    (0xD4, [0x4F; 0x302]); (0xD5, [0x4F; 0x303]); (0xD6, [0x4F; 0x308]);
    (0xD9, [0x55; 0x300]); (0xDA, [0x55; 0x301]); (0xDB, [0x55; 0x302]);
    (0xDC, [0x55; 0x308]); (0xDD, [0x59; 0x301]); (0xE0, [0x61; 0x300]);
    (0xE1, [0x61; 0x301]); (0xE2, [0x61; 0x302]); (0xE3, [0x61; 0x303]);
    (0xE4, [0x61; 0x308]); (0xE5, [0x61; 0x30A]); (0xE7, [0x63; 0x327]);
    (0xE8, [0x65; 0x300]); (0xE9, [0x65; 0x301]); (0xEA, [0x65; 0x302]);
    (0xEB, [0x65; 0x308]); (0xEC, [0x69; 0x300]); (0xED, [0x69; 0x301]);
    (0xEE, [0x69; 0x302]); (0xEF, [0x69; 0x308]); (0xF1, [0x6E; 0x303]);
    (0xF2, [0x6F; 0x300]); (0xF3, [0x6F; 0x301]); (0xF4, [0x6F; 0x302]);
    (0xF5, [0x6F; 0x303]); (0xF6, [0x6F; 0x308]); (0xF9, [0x75; 0x300]);
    (0xFA, [0x75; 0x301]); (0xFB, [0x75; 0x302]); (0xFC, [0x75; 0x308]);
    (0xFD, [0x79; 0x301]); (0xFF, [0x79; 0x308]); (0x100, [0x41; 0x304]);
    (0x101, [0x61; 0x304]); (0x102, [0x41; 0x306]); (0x103, [0x61; 0x306]);
    (0x104, [0x41; 0x328]); (0x105, [0x61; 0x328]); (0x106, [0x43; 0x301]);
    (0x107, [0x63; 0x301]); (0x108, [0x43; 0x302]); (0x109, [0x63; 0x302]);
    (0x10A, [0x43; 0x307]); (0x10B, [0x63; 0x307]); (0x10C, [0x43; 0x30C]);
    (0x10D, [0x63; 0x30C]); (0x10E, [0x44; 0x30C]); (0x10F, [0x64; 0x30C]);
    (0x112, [0x45; 0x304]); (0x113, [0x65; 0x304]); (0x114, [0x45; 0x306]);
    (0x115, [0x65; 0x306]); (0x116, [0x45; 0x307]); (0x117, [0x65; 0x307]);
    (0x118, [0x45; 0x328]); (0x119, [0x65; 0x328]); (0x11A, [0x45; 0x30C]);
    (0x11B, [0x65; 0x30C]); (0x11C, [0x47; 0x302]); (0x11D, [0x67; 0x302]);
    (0x11E, [0x47; 0x306]); (0x11F, [0x67; 0x306]); (0x120, [0x47; 0x307]);
    (0x121, [0x67; 0x307]); (0x122, [0x47; 0x327]); (0x123, [0x67; 0x327]);
    (0x124, [0x48; 0x302]); (0x125, [0x68; 0x302]); (0x128, [0x49; 0x303]);
    (0x129, [0x69; 0x303]); (0x12A, [0x49; 0x304]); (0x12B, [0x69; 0x304]);
    (0x12C, [0x49; 0x306]); (0x12D, [0x69; 0x306]); (0x12E, [0x49; 0x328]);
    (0x12F, [0x69; 0x328]); (0x130, [0x49; 0x307]); (0x134, [0x4A; 0x302]);
    (0x135, [0x6A; 0x302]); (0x136, [0x4B; 0x327]); (0x137, [0x6B; 0x327]);
    (0x139, [0x4C; 0x301]); (0x13A, [0x6C; 0x301]); (0x13B, [0x4C; 0x327]);
    (0x13C, [0x6C; 0x327]); (0x13D, [0x4C; 0x30C]); (0x13E, [0x6C; 0x30C]);
    (0x143, [0x4E; 0x301]); (0x144, [0x6E; 0x301]); (0x145, [0x4E; 0x327]);
    (0x146, [0x6E; 0x327]); (0x147, [0x4E; 0x30C]); (0x148, [0x6E; 0x30C]);
    (0x14C, [0x4F; 0x304]); (0x14D, [0x6F; 0x304]); (0x14E, [0x4F; 0x306]);
    (0x14F, [0x6F; 0x306]); (0x150, [0x4F; 0x30B]); (0x151, [0x6F; 0x30B]);
    (0x154, [0x52; 0x301]); (0x155, [0x72; 0x301]); (0x156, [0x52; 0x327]);
    (0x157, [0x72; 0x327]); (0x158, [0x52; 0x30C]); (0x159, [0x72; 0x30C]);
    (0x15A, [0x53; 0x301]); (0x15B, [0x73; 0x301]); (0x15C, [0x53; 0x302]);
    (0x15D, [0x73; 0x302]); (0x15E, [0x53; 0x327]); (0x15F, [0x73; 0x327]);
    (0x160, [0x53; 0x30C]); (0x161, [0x73; 0x30C]); (0x162, [0x54; 0x327]);
    (0x163, [0x74; 0x327]); (0x164, [0x54; 0x30C]); (0x165, [0x74; 0x30C]);
    (0x168, [0x55; 0x303]); (0x169, [0x75; 0x303]); (0x16A, [0x55; 0x304]);
    (0x16B, [0x75; 0x304]); (0x16C, [0x55; 0x306]); (0x16D, [0x75; 0x306]);
    (0x16E, [0x55; 0x30A]); (0x16F, [0x75; 0x30A]); (0x170, [0x55; 0x30B]);
    (0x171, [0x75; 0x30B]); (0x172, [0x55; 0x328]); (0x173, [0x75; 0x328]);
    (0x174, [0x57; 0x302]); (0x175, [0x77; 0x302]); (0x176, [0x59; 0x302]);
    (0x177, [0x79; 0x302]); (0x178, [0x59; 0x308]); (0x179, [0x5A; 0x301]);
    (0x17A, [0x7A; 0x301]); (0x17B, [0x5A; 0x307]); (0x17C, [0x7A; 0x307]);
    (0x17D, [0x5A; 0x30C]); (0x17E, [0x7A; 0x30C]); (0x1A0, [0x4F; 0x31B]);
    (0x1A1, [0x6F; 0x31B]); (0x1AF, [0x55; 0x31B]); (0x1B0, [0x75; 0x31B]);
    (0x1CD, [0x41; 0x30C]); (0x1CE, [0x61; 0x30C]); (0x1CF, [0x49; 0x30C]);
    (0x1D0, [0x69; 0x30C]); (0x1D1, [0x4F; 0x30C]); (0x1D2, [0x6F; 0x30C]);
    (0x1D3, [0x55; 0x30C]); (0x1D4, [0x75; 0x30C]);
    (0x1D5, [0x55; 0x308; 0x304]); (0x1D6, [0x75; 0x308; 0x304]);
    (0x1D7, [0x55; 0x308; 0x301]); (0x1D8, [0x75; 0x308; 0x301]);
    (0x1D9, [0x55; 0x308; 0x30C]); (0x1DA, [0x75; 0x308; 0x30C]);
    (0x1DB, [0x55; 0x308; 0x300]); (0x1DC, [0x75; 0x308; 0x300]);
    (0x1DE, [0x41; 0x308; 0x304]); (0x1DF, [0x61; 0x308; 0x304]);
    (0x1E0, [0x41; 0x307; 0x304]); (0x1E1, [0x61; 0x307; 0x304]);
    (0x1E2, [0xC6; 0x304]); (0x1E3, [0xE6; 0x304]); (0x1E6, [0x47; 0x30C]);
    (0x1E7, [0x67; 0x30C]); (0x1E8, [0x4B; 0x30C]); (0x1E9, [0x6B; 0x30C]);
    (0x1EA, [0x4F; 0x328]); (0x1EB, [0x6F; 0x328]);
    (0x1EC, [0x4F; 0x328; 0x304]); (0x1ED, [0x6F; 0x328; 0x304]);
    (0x1EE, [0x1B7; 0x30C]); (0x1EF, [0x292; 0x30C]);
    (0x1F0, [0x6A; 0x30C]); (0x1F4, [0x47; 0x301]); (0x1F5, [0x67; 0x301]);
    (0x1F8, [0x4E; 0x300]); (0x1F9, [0x6E; 0x300]);
    (0x1FA, [0x41; 0x30A; 0x301]); (0x1FB, [0x61; 0x30A; 0x301]);
    (0x1FC, [0xC6; 0x301]); (0x1FD, [0xE6; 0x301]); (0x1FE, [0xD8; 0x301]);
    (0x1FF, [0xF8; 0x301]); (0x200, [0x41; 0x30F]); (0x201, [0x61; 0x30F]);
    (0x202, [0x41; 0x311]); (0x203, [0x61; 0x311]); (0x204, [0x45; 0x30F]);
    (0x205, [0x65; 0x30F]); (0x206, [0x45; 0x311]); (0x207, [0x65; 0x311]);
    (0x208, [0x49; 0x30F]); (0x209, [0x69; 0x30F]); (0x20A, [0x49; 0x311]);
    (0x20B, [0x69; 0x311]); (0x20C, [0x4F; 0x30F]); (0x20D, [0x6F; 0x30F]);
    (0x20E, [0x4F; 0x311]); (0x20F, [0x6F; 0x311]); (0x210, [0x52; 0x30F]);
    (0x211, [0x72; 0x30F]); (0x212, [0x52; 0x311]); (0x213, [0x72; 0x311]);
    (0x214, [0x55; 0x30F]); (0x215, [0x75; 0x30F]); (0x216, [0x55; 0x311]);
    (0x217, [0x75; 0x311]); (0x218, [0x53; 0x326]); (0x219, [0x73; 0x326]);
    (0x21A, [0x54; 0x326]); (0x21B, [0x74; 0x326]); (0x21E, [0x48; 0x30C]);
    (0x21F, [0x68; 0x30C]); (0x226, [0x41; 0x307]); (0x227, [0x61; 0x307]);
    (0x228, [0x45; 0x327]); (0x229, [0x65; 0x327]);
    (0x22A, [0x4F; 0x308; 0x304]); (0x22B, [0x6F; 0x308; 0x304]);
    (0x22C, [0x4F; 0x303; 0x304]); (0x22D, [0x6F; 0x303; 0x304]);
    (0x22E, [0x4F; 0x307]); (0x22F, [0x6F; 0x307]);
    (0x230, [0x4F; 0x307; 0x304]); (0x231, [0x6F; 0x307; 0x304]);
    (0x232, [0x59; 0x304]); (0x233, [0x79; 0x304]); (0x340, [0x300]);
    (0x341, [0x301]); (0x343, [0x313]); (0x344, [0x308; 0x301]);
    (0x374, [0x2B9]); (0x37E, [0x3B]); (0x385, [0xA8; 0x301]);
    (0x386, [0x391; 0x301]); (0x387, [0xB7]); (0x388, [0x395; 0x301]);
    (0x389, [0x397; 0x301]); (0x38A, [0x399; 0x301]);
    (0x38C, [0x39F; 0x301]); (0x38E, [0x3A5; 0x301]);
    (0x38F, [0x3A9; 0x301]); (0x390, [0x3B9; 0x308; 0x301]);
    (0x3AA, [0x399; 0x308]); (0x3AB, [0x3A5; 0x308]);
    (0x3AC, [0x3B1; 0x301]); (0x3AD, [0x3B5; 0x301]);
    (0x3AE, [0x3B7; 0x301]); (0x3AF, [0x3B9; 0x301]);
    (0x3B0, [0x3C5; 0x308; 0x301]); (0x3CA, [0x3B9; 0x308]);
    (0x3CB, [0x3C5; 0x308]); (0x3CC, [0x3BF; 0x301]);
    (0x3CD, [0x3C5; 0x301]); (0x3CE, [0x3C9; 0x301]);
    (0x3D3, [0x3D2; 0x301]); (0x3D4, [0x3D2; 0x308]);
    (0x400, [0x415; 0x300]); (0x401, [0x415; 0x308]);
    (0x403, [0x413; 0x301]); (0x407, [0x406; 0x308]);
    (0x40C, [0x41A; 0x301]); (0x40D, [0x418; 0x300]);
    (0x40E, [0x423; 0x306]); (0x419, [0x418; 0x306]);
    (0x439, [0x438; 0x306]); (0x450, [0x435; 0x300]);
    (0x451, [0x435; 0x308]); (0x453, [0x433; 0x301]);
    (0x457, [0x456; 0x308]); (0x45C, [0x43A; 0x301]);
    (0x45D, [0x438; 0x300]); (0x45E, [0x443; 0x306]);
    (0x476, [0x474; 0x30F]); (0x477, [0x475; 0x30F]);
    (0x4C1, [0x416; 0x306]); (0x4C2, [0x436; 0x306]);
    (0x4D0, [0x410; 0x306]); (0x4D1, [0x430; 0x306]);
    (0x4D2, [0x410; 0x308]); (0x4D3, [0x430; 0x308]);
    (0x4D6, [0x415; 0x306]); (0x4D7, [0x435; 0x306]);
    (0x4DA, [0x4D8; 0x308]); (0x4DB, [0x4D9; 0x308]);
    (0x4DC, [0x416; 0x308]); (0x4DD, [0x436; 0x308]);
    (0x4DE, [0x417; 0x308]); (0x4DF, [0x437; 0x308]);
    (0x4E2, [0x418; 0x304]); (0x4E3, [0x438; 0x304]);
    (0x4E4, [0x418; 0x308]); (0x4E5, [0x438; 0x308]);
    (0x4E6, [0x41E; 0x308]); (0x4E7, [0x43E; 0x308]);
    (0x4EA, [0x4E8; 0x308]); (0x4EB, [0x4E9; 0x308]);
    (0x4EC, [0x42D; 0x308]); (0x4ED, [0x44D; 0x308]);
    (0x4EE, [0x423; 0x304]); (0x4EF, [0x443; 0x304]);
    (0x4F0, [0x423; 0x308]); (0x4F1, [0x443; 0x308]);
    (0x4F2, [0x423; 0x30B]); (0x4F3, [0x443; 0x30B]);
    (0x4F4, [0x427; 0x308]); (0x4F5, [0x447; 0x308]);
    (0x4F8, [0x42B; 0x308]); (0x4F9, [0x44B; 0x308]);
    (0x622, [0x627; 0x653]); (0x623, [0x627; 0x654]);
    (0x624, [0x648; 0x654]); (0x625, [0x627; 0x655]);
    (0x626, [0x64A; 0x654]); (0x6C0, [0x6D5; 0x654]);
    (0x6C2, [0x6C1; 0x654]); (0x6D3, [0x6D2; 0x654]);
    (0x929, [0x928; 0x93C]); (0x931, [0x930; 0x93C]);
    (0x934, [0x933; 0x93C]); (0x958, [0x915; 0x93C]);
    (0x959, [0x916; 0x93C]); (0x95A, [0x917; 0x93C]);
    (0x95B, [0x91C; 0x93C]); (0x95C, [0x921; 0x93C]);
    (0x95D, [0x922; 0x93C]); (0x95E, [0x92B; 0x93C]);
    (0x95F, [0x92F; 0x93C]); (0x9CB, [0x9C7; 0x9BE]);
    (0x9CC, [0x9C7; 0x9D7]); (0x9DC, [0x9A1; 0x9BC]);
    (0x9DD, [0x9A2; 0x9BC]); (0x9DF, [0x9AF; 0x9BC]);
    (0xA33, [0xA32; 0xA3C]); (0xA36, [0xA38; 0xA3C]);
    (0xA59, [0xA16; 0xA3C]); (0xA5A, [0xA17; 0xA3C]);
    (0xA5B, [0xA1C; 0xA3C]); (0xA5E, [0xA2B; 0xA3C]);
    (0xB48, [0xB47; 0xB56]); (0xB4B, [0xB47; 0xB3E]);
    (0xB4C, [0xB47; 0xB57]); (0xB5C, [0xB21; 0xB3C]);
    (0xB5D, [0xB22; 0xB3C]); (0xB94, [0xB92; 0xBD7]);
    (0xBCA, [0xBC6; 0xBBE]); (0xBCB, [0xBC7; 0xBBE]);
    (0xBCC, [0xBC6; 0xBD7]); (0xC48, [0xC46; 0xC56]);
    (0xCC0, [0xCBF; 0xCD5]); (0xCC7, [0xCC6; 0xCD5]);
    (0xCC8, [0xCC6; 0xCD6]); (0xCCA, [0xCC6; 0xCC2]);
    (0xCCB, [0xCC6; 0xCC2; 0xCD5]); (0xD4A, [0xD46; 0xD3E]);
    (0xD4B, [0xD47; 0xD3E]); (0xD4C, [0xD46; 0xD57]);
    (0xDDA, [0xDD9; 0xDCA]); (0xDDC, [0xDD9; 0xDCF]);
    (0xDDD, [0xDD9; 0xDCF; 0xDCA]); (0xDDE, [0xDD9; 0xDDF]);
    (0xF43, [0xF42; 0xFB7]); (0xF4D, [0xF4C; 0xFB7]);
    (0xF52, [0xF51; 0xFB7]); (0xF57, [0xF56; 0xFB7]);
    (0xF5C, [0xF5B; 0xFB7]); (0xF69, [0xF40; 0xFB5]);
    (0xF73, [0xF71; 0xF72]); (0xF75, [0xF71; 0xF74]);
    (0xF76, [0xFB2; 0xF80]); (0xF78, [0xFB3; 0xF80]);
    (0xF81, [0xF71; 0xF80]); (0xF93, [0xF92; 0xFB7]);
    (0xF9D, [0xF9C; 0xFB7]); (0xFA2, [0xFA1; 0xFB7]);
    (0xFA7, [0xFA6; 0xFB7]); (0xFAC, [0xFAB; 0xFB7]);
    (0xFB9, [0xF90; 0xFB5]); (0x1026, [0x1025; 0x102E]);
    (0x1B06, [0x1B05; 0x1B35]); (0x1B08, [0x1B07; 0x1B35]);
    (0x1B0A, [0x1B09; 0x1B35]); (0x1B0C, [0x1B0B; 0x1B35]);
    (0x1B0E, [0x1B0D; 0x1B35]); (0x1B12, [0x1B11; 0x1B35]);
    (0x1B3B, [0x1B3A; 0x1B35]); (0x1B3D, [0x1B3C; 0x1B35]);
    (0x1B40, [0x1B3E; 0x1B35]); (0x1B41, [0x1B3F; 0x1B35]);
    (0x1B43, [0x1B42; 0x1B35]); (0x1E00, [0x41; 0x325]);
    (0x1E01, [0x61; 0x325]); (0x1E02, [0x42; 0x307]);
    (0x1E03, [0x62; 0x307]); (0x1E04, [0x42; 0x323]);
    (0x1E05, [0x62; 0x323]); (0x1E06, [0x42; 0x331]);
    (0x1E07, [0x62; 0x331]); (0x1E08, [0x43; 0x327; 0x301]);
    (0x1E09, [0x63; 0x327; 0x301]); (0x1E0A, [0x44; 0x307]);
    (0x1E0B, [0x64; 0x307]); (0x1E0C, [0x44; 0x323]);
    (0x1E0D, [0x64; 0x323]); (0x1E0E, [0x44; 0x331]);
    (0x1E0F, [0x64; 0x331]); (0x1E10, [0x44; 0x327]);
    (0x1E11, [0x64; 0x327]); (0x1E12, [0x44; 0x32D]);
    (0x1E13, [0x64; 0x32D]); (0x1E14, [0x45; 0x304; 0x300]);
    (0x1E15, [0x65; 0x304; 0x300]); (0x1E16, [0x45; 0x304; 0x301]);
    (0x1E17, [0x65; 0x304; 0x301]); (0x1E18, [0x45; 0x32D]);
    (0x1E19, [0x65; 0x32D]); (0x1E1A, [0x45; 0x330]);
    (0x1E1B, [0x65; 0x330]); (0x1E1C, [0x45; 0x327; 0x306]);
    (0x1E1D, [0x65; 0x327; 0x306]); (0x1E1E, [0x46; 0x307]);
    (0x1E1F, [0x66; 0x307]); (0x1E20, [0x47; 0x304]);
    (0x1E21, [0x67; 0x304]); (0x1E22, [0x48; 0x307]);
    (0x1E23, [0x68; 0x307]); (0x1E24, [0x48; 0x323]);
    (0x1E25, [0x68; 0x323]); (0x1E26, [0x48; 0x308]);
    (0x1E27, [0x68; 0x308]); (0x1E28, [0x48; 0x327]);
    (0x1E29, [0x68; 0x327]); (0x1E2A, [0x48; 0x32E]);
    (0x1E2B, [0x68; 0x32E]); (0x1E2C, [0x49; 0x330]);
    (0x1E2D, [0x69; 0x330]); (0x1E2E, [0x49; 0x308; 0x301]);
    (0x1E2F, [0x69; 0x308; 0x301]); (0x1E30, [0x4B; 0x301]);
    (0x1E31, [0x6B; 0x301]); (0x1E32, [0x4B; 0x323]);
    (0x1E33, [0x6B; 0x323]); (0x1E34, [0x4B; 0x331]);
    (0x1E35, [0x6B; 0x331]); (0x1E36, [0x4C; 0x323]);
    (0x1E37, [0x6C; 0x323]); (0x1E38, [0x4C; 0x323; 0x304]);
    (0x1E39, [0x6C; 0x323; 0x304]); (0x1E3A, [0x4C; 0x331]);
    (0x1E3B, [0x6C; 0x331]); (0x1E3C, [0x4C; 0x32D]);
    (0x1E3D, [0x6C; 0x32D]); (0x1E3E, [0x4D; 0x301]);
    (0x1E3F, [0x6D; 0x301]); (0x1E40, [0x4D; 0x307]);
    (0x1E41, [0x6D; 0x307]); (0x1E42, [0x4D; 0x323]);
    (0x1E43, [0x6D; 0x323]); (0x1E44, [0x4E; 0x307]);
    (0x1E45, [0x6E; 0x307]); (0x1E46, [0x4E; 0x323]);
    (0x1E47, [0x6E; 0x323]); (0x1E48, [0x4E; 0x331]);
    (0x1E49, [0x6E; 0x331]); (0x1E4A, [0x4E; 0x32D]);
    (0x1E4B, [0x6E; 0x32D]); (0x1E4C, [0x4F; 0x303; 0x301]);
    (0x1E4D, [0x6F; 0x303; 0x301]); (0x1E4E, [0x4F; 0x303; 0x308]);
    (0x1E4F, [0x6F; 0x303; 0x308]); (0x1E50, [0x4F; 0x304; 0x300]);
    (0x1E51, [0x6F; 0x304; 0x300]); (0x1E52, [0x4F; 0x304; 0x301]);
    (0x1E53, [0x6F; 0x304; 0x301]); (0x1E54, [0x50; 0x301]);
    (0x1E55, [0x70; 0x301]); (0x1E56, [0x50; 0x307]);
    (0x1E57, [0x70; 0x307]); (0x1E58, [0x52; 0x307]);
    (0x1E59, [0x72; 0x307]); (0x1E5A, [0x52; 0x323]);
    (0x1E5B, [0x72; 0x323]); (0x1E5C, [0x52; 0x323; 0x304]);
    (0x1E5D, [0x72; 0x323; 0x304]); (0x1E5E, [0x52; 0x331]);
    (0x1E5F, [0x72; 0x331]); (0x1E60, [0x53; 0x307]);
    (0x1E61, [0x73; 0x307]); (0x1E62, [0x53; 0x323]);
    (0x1E63, [0x73; 0x323]); (0x1E64, [0x53; 0x301; 0x307]);
    (0x1E65, [0x73; 0x301; 0x307]); (0x1E66, [0x53; 0x30C; 0x307]);
    (0x1E67, [0x73; 0x30C; 0x307]); (0x1E68, [0x53; 0x323; 0x307]);
    (0x1E69, [0x73; 0x323; 0x307]); (0x1E6A, [0x54; 0x307]);
    (0x1E6B, [0x74; 0x307]); (0x1E6C, [0x54; 0x323]);
    (0x1E6D, [0x74; 0x323]); (0x1E6E, [0x54; 0x331]);
    (0x1E6F, [0x74; 0x331]); (0x1E70, [0x54; 0x32D]);
    (0x1E71, [0x74; 0x32D]); (0x1E72, [0x55; 0x324]);
    (0x1E73, [0x75; 0x324]); (0x1E74, [0x55; 0x330]);
    (0x1E75, [0x75; 0x330]); (0x1E76, [0x55; 0x32D]);
    (0x1E77, [0x75; 0x32D]); (0x1E78, [0x55; 0x303; 0x301]);
    (0x1E79, [0x75; 0x303; 0x301]); (0x1E7A, [0x55; 0x304; 0x308]);
    (0x1E7B, [0x75; 0x304; 0x308]); (0x1E7C, [0x56; 0x303]);
    (0x1E7D, [0x76; 0x303]); (0x1E7E, [0x56; 0x323]);
    (0x1E7F, [0x76; 0x323]); (0x1E80, [0x57; 0x300]);
    (0x1E81, [0x77; 0x300]); (0x1E82, [0x57; 0x301]);
    (0x1E83, [0x77; 0x301]); (0x1E84, [0x57; 0x308]);
    (0x1E85, [0x77; 0x308]); (0x1E86, [0x57; 0x307]);
    (0x1E87, [0x77; 0x307]); (0x1E88, [0x57; 0x323]);
    (0x1E89, [0x77; 0x323]); (0x1E8A, [0x58; 0x307]);
    (0x1E8B, [0x78; 0x307]); (0x1E8C, [0x58; 0x308]);
    (0x1E8D, [0x78; 0x308]); (0x1E8E, [0x59; 0x307]);
    (0x1E8F, [0x79; 0x307]); (0x1E90, [0x5A; 0x302]);
    (0x1E91, [0x7A; 0x302]); (0x1E92, [0x5A; 0x323]);
    (0x1E93, [0x7A; 0x323]); (0x1E94, [0x5A; 0x331]);
    (0x1E95, [0x7A; 0x331]); (0x1E96, [0x68; 0x331]);
    (0x1E97, [0x74; 0x308]); (0x1E98, [0x77; 0x30A]);
    (0x1E99, [0x79; 0x30A]); (0x1E9B, [0x17F; 0x307]);
    (0x1EA0, [0x41; 0x323]); (0x1EA1, [0x61; 0x323]);
    (0x1EA2, [0x41; 0x309]); (0x1EA3, [0x61; 0x309]);
    (0x1EA4, [0x41; 0x302; 0x301]); (0x1EA5, [0x61; 0x302; 0x301]);
    (0x1EA6, [0x41; 0x302; 0x300]); (0x1EA7, [0x61; 0x302; 0x300]);
    (0x1EA8, [0x41; 0x302; 0x309]); (0x1EA9, [0x61; 0x302; 0x309]);
    (0x1EAA, [0x41; 0x302; 0x303]); (0x1EAB, [0x61; 0x302; 0x303]);
    (0x1EAC, [0x41; 0x323; 0x302]); (0x1EAD, [0x61; 0x323; 0x302]);
    (0x1EAE, [0x41; 0x306; 0x301]); (0x1EAF, [0x61; 0x306; 0x301]);
    (0x1EB0, [0x41; 0x306; 0x300]); (0x1EB1, [0x61; 0x306; 0x300]);
    (0x1EB2, [0x41; 0x306; 0x309]); (0x1EB3, [0x61; 0x306; 0x309]);
    (0x1EB4, [0x41; 0x306; 0x303]); (0x1EB5, [0x61; 0x306; 0x303]);
    (0x1EB6, [0x41; 0x323; 0x306]); (0x1EB7, [0x61; 0x323; 0x306]);
    (0x1EB8, [0x45; 0x323]); (0x1EB9, [0x65; 0x323]);
    (0x1EBA, [0x45; 0x309]); (0x1EBB, [0x65; 0x309]);
    (0x1EBC, [0x45; 0x303]); (0x1EBD, [0x65; 0x303]);
    (0x1EBE, [0x45; 0x302; 0x301]); (0x1EBF, [0x65; 0x302; 0x301]);
    (0x1EC0, [0x45; 0x302; 0x300]); (0x1EC1, [0x65; 0x302; 0x300]);
    (0x1EC2, [0x45; 0x302; 0x309]); (0x1EC3, [0x65; 0x302; 0x309]);
    (0x1EC4, [0x45; 0x302; 0x303]); (0x1EC5, [0x65; 0x302; 0x303]);
    (0x1EC6, [0x45; 0x323; 0x302]); (0x1EC7, [0x65; 0x323; 0x302]);
    (0x1EC8, [0x49; 0x309]); (0x1EC9, [0x69; 0x309]);
    (0x1ECA, [0x49; 0x323]); (0x1ECB, [0x69; 0x323]);
    (0x1ECC, [0x4F; 0x323]); (0x1ECD, [0x6F; 0x323]);
    (0x1ECE, [0x4F; 0x309]); (0x1ECF, [0x6F; 0x309]);
    (0x1ED0, [0x4F; 0x302; 0x301]); (0x1ED1, [0x6F; 0x302; 0x301]);
    (0x1ED2, [0x4F; 0x302; 0x300]); (0x1ED3, [0x6F; 0x302; 0x300]);
    (0x1ED4, [0x4F; 0x302; 0x309]); (0x1ED5, [0x6F; 0x302; 0x309]);
    (0x1ED6, [0x4F; 0x302; 0x303]); (0x1ED7, [0x6F; 0x302; 0x303]);
    (0x1ED8, [0x4F; 0x323; 0x302]); (0x1ED9, [0x6F; 0x323; 0x302]);
    (0x1EDA, [0x4F; 0x31B; 0x301]); (0x1EDB, [0x6F; 0x31B; 0x301]);
    (0x1EDC, [0x4F; 0x31B; 0x300]); (0x1EDD, [0x6F; 0x31B; 0x300]);
    (0x1EDE, [0x4F; 0x31B; 0x309]); (0x1EDF, [0x6F; 0x31B; 0x309]);
    (0x1EE0, [0x4F; 0x31B; 0x303]); (0x1EE1, [0x6F; 0x31B; 0x303]);
    (0x1EE2, [0x4F; 0x31B; 0x323]); (0x1EE3, [0x6F; 0x31B; 0x323]);
    (0x1EE4, [0x55; 0x323]); (0x1EE5, [0x75; 0x323]);
    (0x1EE6, [0x55; 0x309]); (0x1EE7, [0x75; 0x309]);
    (0x1EE8, [0x55; 0x31B; 0x301]); (0x1EE9, [0x75; 0x31B; 0x301]);
    (0x1EEA, [0x55; 0x31B; 0x300]); (0x1EEB, [0x75; 0x31B; 0x300]);
    (0x1EEC, [0x55; 0x31B; 0x309]); (0x1EED, [0x75; 0x31B; 0x309]);
    (0x1EEE, [0x55; 0x31B; 0x303]); (0x1EEF, [0x75; 0x31B; 0x303]);
    (0x1EF0, [0x55; 0x31B; 0x323]); (0x1EF1, [0x75; 0x31B; 0x323]);
    (0x1EF2, [0x59; 0x300]); (0x1EF3, [0x79; 0x300]);
    (0x1EF4, [0x59; 0x323]); (0x1EF5, [0x79; 0x323]);
    (0x1EF6, [0x59; 0x309]); (0x1EF7, [0x79; 0x309]);
    (0x1EF8, [0x59; 0x303]); (0x1EF9, [0x79; 0x303]);
    (0x1F00, [0x3B1; 0x313]); (0x1F01, [0x3B1; 0x314]);
    (0x1F02, [0x3B1; 0x313; 0x300]); (0x1F03, [0x3B1; 0x314; 0x300]);
    (0x1F04, [0x3B1; 0x313; 0x301]); (0x1F05, [0x3B1; 0x314; 0x301]);
    (0x1F06, [0x3B1; 0x313; 0x342]); (0x1F07, [0x3B1; 0x314; 0x342]);
    (0x1F08, [0x391; 0x313]); (0x1F09, [0x391; 0x314]);
    (0x1F0A, [0x391; 0x313; 0x300]); (0x1F0B, [0x391; 0x314; 0x300]);
    (0x1F0C, [0x391; 0x313; 0x301]); (0x1F0D, [0x391; 0x314; 0x301]);
    (0x1F0E, [0x391; 0x313; 0x342]); (0x1F0F, [0x391; 0x314; 0x342]);
    (0x1F10, [0x3B5; 0x313]); (0x1F11, [0x3B5; 0x314]);
    (0x1F12, [0x3B5; 0x313; 0x300]); (0x1F13, [0x3B5; 0x314; 0x300]);
    (0x1F14, [0x3B5; 0x313; 0x301]); (0x1F15, [0x3B5; 0x314; 0x301]);
    (0x1F18, [0x395; 0x313]); (0x1F19, [0x395; 0x314]);
    (0x1F1A, [0x395; 0x313; 0x300]); (0x1F1B, [0x395; 0x314; 0x300]);
    (0x1F1C, [0x395; 0x313; 0x301]); (0x1F1D, [0x395; 0x314; 0x301]);
    (0x1F20, [0x3B7; 0x313]); (0x1F21, [0x3B7; 0x314]);
    (0x1F22, [0x3B7; 0x313; 0x300]); (0x1F23, [0x3B7; 0x314; 0x300]);
    (0x1F24, [0x3B7; 0x313; 0x301]); (0x1F25, [0x3B7; 0x314; 0x301]);
    (0x1F26, [0x3B7; 0x313; 0x342]); (0x1F27, [0x3B7; 0x314; 0x342]);
    (0x1F28, [0x397; 0x313]); (0x1F29, [0x397; 0x314]);
    (0x1F2A, [0x397; 0x313; 0x300]); (0x1F2B, [0x397; 0x314; 0x300]);
    (0x1F2C, [0x397; 0x313; 0x301]); (0x1F2D, [0x397; 0x314; 0x301]);
    (0x1F2E, [0x397; 0x313; 0x342]); (0x1F2F, [0x397; 0x314; 0x342]);
    (0x1F30, [0x3B9; 0x313]); (0x1F31, [0x3B9; 0x314]);
    (0x1F32, [0x3B9; 0x313; 0x300]); (0x1F33, [0x3B9; 0x314; 0x300]);
    (0x1F34, [0x3B9; 0x313; 0x301]); (0x1F35, [0x3B9; 0x314; 0x301]);
    (0x1F36, [0x3B9; 0x313; 0x342]); (0x1F37, [0x3B9; 0x314; 0x342]);
    (0x1F38, [0x399; 0x313]); (0x1F39, [0x399; 0x314]);
    (0x1F3A, [0x399; 0x313; 0x300]); (0x1F3B, [0x399; 0x314; 0x300]);
    (0x1F3C, [0x399; 0x313; 0x301]); (0x1F3D, [0x399; 0x314; 0x301]);
    (0x1F3E, [0x399; 0x313; 0x342]); (0x1F3F, [0x399; 0x314; 0x342]);
    (0x1F40, [0x3BF; 0x313]); (0x1F41, [0x3BF; 0x314]);
    (0x1F42, [0x3BF; 0x313; 0x300]); (0x1F43, [0x3BF; 0x314; 0x300]);
    (0x1F44, [0x3BF; 0x313; 0x301]); (0x1F45, [0x3BF; 0x314; 0x301]);
    (0x1F48, [0x39F; 0x313]); (0x1F49, [0x39F; 0x314]);
    (0x1F4A, [0x39F; 0x313; 0x300]); (0x1F4B, [0x39F; 0x314; 0x300]);
    (0x1F4C, [0x39F; 0x313; 0x301]); (0x1F4D, [0x39F; 0x314; 0x301]);
    (0x1F50, [0x3C5; 0x313]); (0x1F51, [0x3C5; 0x314]);
    (0x1F52, [0x3C5; 0x313; 0x300]); (0x1F53, [0x3C5; 0x314; 0x300]);
    (0x1F54, [0x3C5; 0x313; 0x301]); (0x1F55, [0x3C5; 0x314; 0x301]);
    (0x1F56, [0x3C5; 0x313; 0x342]); (0x1F57, [0x3C5; 0x314; 0x342]);
    (0x1F59, [0x3A5; 0x314]); (0x1F5B, [0x3A5; 0x314; 0x300]);
    (0x1F5D, [0x3A5; 0x314; 0x301]); (0x1F5F, [0x3A5; 0x314; 0x342]);
    (0x1F60, [0x3C9; 0x313]); (0x1F61, [0x3C9; 0x314]);
    (0x1F62, [0x3C9; 0x313; 0x300]); (0x1F63, [0x3C9; 0x314; 0x300]);
    (0x1F64, [0x3C9; 0x313; 0x301]); (0x1F65, [0x3C9; 0x314; 0x301]);
    (0x1F66, [0x3C9; 0x313; 0x342]); (0x1F67, [0x3C9; 0x314; 0x342]);
    (0x1F68, [0x3A9; 0x313]); (0x1F69, [0x3A9; 0x314]);
    (0x1F6A, [0x3A9; 0x313; 0x300]); (0x1F6B, [0x3A9; 0x314; 0x300]);
    (0x1F6C, [0x3A9; 0x313; 0x301]); (0x1F6D, [0x3A9; 0x314; 0x301]);
    (0x1F6E, [0x3A9; 0x313; 0x342]); (0x1F6F, [0x3A9; 0x314; 0x342]);
    (0x1F70, [0x3B1; 0x300]); (0x1F71, [0x3B1; 0x301]);
    (0x1F72, [0x3B5; 0x300]); (0x1F73, [0x3B5; 0x301]);
    (0x1F74, [0x3B7; 0x300]); (0x1F75, [0x3B7; 0x301]);
    (0x1F76, [0x3B9; 0x300]); (0x1F77, [0x3B9; 0x301]);
    (0x1F78, [0x3BF; 0x300]); (0x1F79, [0x3BF; 0x301]);
    (0x1F7A, [0x3C5; 0x300]); (0x1F7B, [0x3C5; 0x301]);
    (0x1F7C, [0x3C9; 0x300]); (0x1F7D, [0x3C9; 0x301]);
    (0x1F80, [0x3B1; 0x313; 0x345]); (0x1F81, [0x3B1; 0x314; 0x345]);
    (0x1F82, [0x3B1; 0x313; 0x300; 0x345]);
    (0x1F83, [0x3B1; 0x314; 0x300; 0x345]);
    (0x1F84, [0x3B1; 0x313; 0x301; 0x345]);
    (0x1F85, [0x3B1; 0x314; 0x301; 0x345]);
    (0x1F86, [0x3B1; 0x313; 0x342; 0x345]);
    (0x1F87, [0x3B1; 0x314; 0x342; 0x345]); (0x1F88, [0x391; 0x313; 0x345]);
    (0x1F89, [0x391; 0x314; 0x345]); (0x1F8A, [0x391; 0x313; 0x300; 0x345]);
    (0x1F8B, [0x391; 0x314; 0x300; 0x345]);
    (0x1F8C, [0x391; 0x313; 0x301; 0x345]);
    (0x1F8D, [0x391; 0x314; 0x301; 0x345]);
    (0x1F8E, [0x391; 0x313; 0x342; 0x345]);
    (0x1F8F, [0x391; 0x314; 0x342; 0x345]); (0x1F90, [0x3B7; 0x313; 0x345]);
    (0x1F91, [0x3B7; 0x314; 0x345]); (0x1F92, [0x3B7; 0x313; 0x300; 0x345]);
    (0x1F93, [0x3B7; 0x314; 0x300; 0x345]);
    (0x1F94, [0x3B7; 0x313; 0x301; 0x345]);
    (0x1F95, [0x3B7; 0x314; 0x301; 0x345]);
    (0x1F96, [0x3B7; 0x313; 0x342; 0x345]);
    (0x1F97, [0x3B7; 0x314; 0x342; 0x345]); (0x1F98, [0x397; 0x313; 0x345]);
    (0x1F99, [0x397; 0x314; 0x345]); (0x1F9A, [0x397; 0x313; 0x300; 0x345]);
    (0x1F9B, [0x397; 0x314; 0x300; 0x345]);
    (0x1F9C, [0x397; 0x313; 0x301; 0x345]);
    (0x1F9D, [0x397; 0x314; 0x301; 0x345]);
    (0x1F9E, [0x397; 0x313; 0x342; 0x345]);
    (0x1F9F, [0x397; 0x314; 0x342; 0x345]); (0x1FA0, [0x3C9; 0x313; 0x345]);
    (0x1FA1, [0x3C9; 0x314; 0x345]); (0x1FA2, [0x3C9; 0x313; 0x300; 0x345]);
    (0x1FA3, [0x3C9; 0x314; 0x300; 0x345]);
    (0x1FA4, [0x3C9; 0x313; 0x301; 0x345]);
    (0x1FA5, [0x3C9; 0x314; 0x301; 0x345]);
    (0x1FA6, [0x3C9; 0x313; 0x342; 0x345]);
    (0x1FA7, [0x3C9; 0x314; 0x342; 0x345]); (0x1FA8, [0x3A9; 0x313; 0x345]);
    (0x1FA9, [0x3A9; 0x314; 0x345]); (0x1FAA, [0x3A9; 0x313; 0x300; 0x345]);
    (0x1FAB, [0x3A9; 0x314; 0x300; 0x345]);
    (0x1FAC, [0x3A9; 0x313; 0x301; 0x345]);
    (0x1FAD, [0x3A9; 0x314; 0x301; 0x345]);
    (0x1FAE, [0x3A9; 0x313; 0x342; 0x345]);
    (0x1FAF, [0x3A9; 0x314; 0x342; 0x345]); (0x1FB0, [0x3B1; 0x306]);
    (0x1FB1, [0x3B1; 0x304]); (0x1FB2, [0x3B1; 0x300; 0x345]);
    (0x1FB3, [0x3B1; 0x345]); (0x1FB4, [0x3B1; 0x301; 0x345]);
    (0x1FB6, [0x3B1; 0x342]); (0x1FB7, [0x3B1; 0x342; 0x345]);
    (0x1FB8, [0x391; 0x306]); (0x1FB9, [0x391; 0x304]);
    (0x1FBA, [0x391; 0x300]); (0x1FBB, [0x391; 0x301]);
    (0x1FBC, [0x391; 0x345]); (0x1FBE, [0x3B9]); (0x1FC1, [0xA8; 0x342]);
    (0x1FC2, [0x3B7; 0x300; 0x345]); (0x1FC3, [0x3B7; 0x345]);
    (0x1FC4, [0x3B7; 0x301; 0x345]); (0x1FC6, [0x3B7; 0x342]);
    (0x1FC7, [0x3B7; 0x342; 0x345]); (0x1FC8, [0x395; 0x300]);
    (0x1FC9, [0x395; 0x301]); (0x1FCA, [0x397; 0x300]);
    (0x1FCB, [0x397; 0x301]); (0x1FCC, [0x397; 0x345]);
    (0x1FCD, [0x1FBF; 0x300]); (0x1FCE, [0x1FBF; 0x301]);
    (0x1FCF, [0x1FBF; 0x342]); (0x1FD0, [0x3B9; 0x306]);
    (0x1FD1, [0x3B9; 0x304]); (0x1FD2, [0x3B9; 0x308; 0x300]);
    (0x1FD3, [0x3B9; 0x308; 0x301]); (0x1FD6, [0x3B9; 0x342]);
    (0x1FD7, [0x3B9; 0x308; 0x342]); (0x1FD8, [0x399; 0x306]);
    (0x1FD9, [0x399; 0x304]); (0x1FDA, [0x399; 0x300]);
    (0x1FDB, [0x399; 0x301]); (0x1FDD, [0x1FFE; 0x300]);
    (0x1FDE, [0x1FFE; 0x301]); (0x1FDF, [0x1FFE; 0x342]);
    (0x1FE0, [0x3C5; 0x306]); (0x1FE1, [0x3C5; 0x304]);
    (0x1FE2, [0x3C5; 0x308; 0x300]); (0x1FE3, [0x3C5; 0x308; 0x301]);
    (0x1FE4, [0x3C1; 0x313]); (0x1FE5, [0x3C1; 0x314]);
    (0x1FE6, [0x3C5; 0x342]); (0x1FE7, [0x3C5; 0x308; 0x342]);
    (0x1FE8, [0x3A5; 0x306]); (0x1FE9, [0x3A5; 0x304]);
    (0x1FEA, [0x3A5; 0x300]); (0x1FEB, [0x3A5; 0x301]);
    (0x1FEC, [0x3A1; 0x314]); (0x1FED, [0xA8; 0x300]);
    (0x1FEE, [0xA8; 0x301]); (0x1FEF, [0x60]);
    (0x1FF2, [0x3C9; 0x300; 0x345]); (0x1FF3, [0x3C9; 0x345]);
    (0x1FF4, [0x3C9; 0x301; 0x345]); (0x1FF6, [0x3C9; 0x342]);
    (0x1FF7, [0x3C9; 0x342; 0x345]); (0x1FF8, [0x39F; 0x300]);
    (0x1FF9, [0x39F; 0x301]); (0x1FFA, [0x3A9; 0x300]);
    (0x1FFB, [0x3A9; 0x301]); (0x1FFC, [0x3A9; 0x345]); (0x1FFD, [0xB4]);
    (0x2000, [0x2002]); (0x2001, [0x2003]); (0x2126, [0x3A9]);
    (0x212A, [0x4B]); (0x212B, [0x41; 0x30A]); (0x219A, [0x2190; 0x338]);
    (0x219B, [0x2192; 0x338]); (0x21AE, [0x2194; 0x338]);
    (0x21CD, [0x21D0; 0x338]); (0x21CE, [0x21D4; 0x338]);
    (0x21CF, [0x21D2; 0x338]); (0x2204, [0x2203; 0x338]);
    (0x2209, [0x2208; 0x338]); (0x220C, [0x220B; 0x338]);
    (0x2224, [0x2223; 0x338]); (0x2226, [0x2225; 0x338]);
    (0x2241, [0x223C; 0x338]); (0x2244, [0x2243; 0x338]);
    (0x2247, [0x2245; 0x338]); (0x2249, [0x2248; 0x338]);
    (0x2260, [0x3D; 0x338]); (0x2262, [0x2261; 0x338]);
    (0x226D, [0x224D; 0x338]); (0x226E, [0x3C; 0x338]);
    (0x226F, [0x3E; 0x338]); (0x2270, [0x2264; 0x338]);
    (0x2271, [0x2265; 0x338]); (0x2274, [0x2272; 0x338]);
    (0x2275, [0x2273; 0x338]); (0x2278, [0x2276; 0x338]);
    (0x2279, [0x2277; 0x338]); (0x2280, [0x227A; 0x338]);
    (0x2281, [0x227B; 0x338]); (0x2284, [0x2282; 0x338]);
    (0x2285, [0x2283; 0x338]); (0x2288, [0x2286; 0x338]);
    (0x2289, [0x2287; 0x338]); (0x22AC, [0x22A2; 0x338]);
    (0x22AD, [0x22A8; 0x338]); (0x22AE, [0x22A9; 0x338]);
    (0x22AF, [0x22AB; 0x338]); (0x22E0, [0x227C; 0x338]);
    (0x22E1, [0x227D; 0x338]); (0x22E2, [0x2291; 0x338]);
    (0x22E3, [0x2292; 0x338]); (0x22EA, [0x22B2; 0x338]);
    (0x22EB, [0x22B3; 0x338]); (0x22EC, [0x22B4; 0x338]);
    (0x22ED, [0x22B5; 0x338]); (0x2329, [0x3008]); (0x232A, [0x3009]);
    (0x2ADC, [0x2ADD; 0x338]); (0x304C, [0x304B; 0x3099]);
    (0x304E, [0x304D; 0x3099]); (0x3050, [0x304F; 0x3099]);
    (0x3052, [0x3051; 0x3099]); (0x3054, [0x3053; 0x3099]);
    (0x3056, [0x3055; 0x3099]); (0x3058, [0x3057; 0x3099]);
    (0x305A, [0x3059; 0x3099]); (0x305C, [0x305B; 0x3099]);
    (0x305E, [0x305D; 0x3099]); (0x3060, [0x305F; 0x3099]);
    (0x3062, [0x3061; 0x3099]); (0x3065, [0x3064; 0x3099]);
    (0x3067, [0x3066; 0x3099]); (0x3069, [0x3068; 0x3099]);
    (0x3070, [0x306F; 0x3099]); (0x3071, [0x306F; 0x309A]);
    (0x3073, [0x3072; 0x3099]); (0x3074, [0x3072; 0x309A]);
    (0x3076, [0x3075; 0x3099]); (0x3077, [0x3075; 0x309A]);
    (0x3079, [0x3078; 0x3099]); (0x307A, [0x3078; 0x309A]);
    (0x307C, [0x307B; 0x3099]); (0x307D, [0x307B; 0x309A]);
    (0x3094, [0x3046; 0x3099]); (0x309E, [0x309D; 0x3099]);
    (0x30AC, [0x30AB; 0x3099]); (0x30AE, [0x30AD; 0x3099]);
    (0x30B0, [0x30AF; 0x3099]); (0x30B2, [0x30B1; 0x3099]);
    (0x30B4, [0x30B3; 0x3099]); (0x30B6, [0x30B5; 0x3099]);
    (0x30B8, [0x30B7; 0x3099]); (0x30BA, [0x30B9; 0x3099]);
    (0x30BC, [0x30BB; 0x3099]); (0x30BE, [0x30BD; 0x3099]);
    (0x30C0, [0x30BF; 0x3099]); (0x30C2, [0x30C1; 0x3099]);
    (0x30C5, [0x30C4; 0x3099]); (0x30C7, [0x30C6; 0x3099]);
    (0x30C9, [0x30C8; 0x3099]); (0x30D0, [0x30CF; 0x3099]);
    (0x30D1, [0x30CF; 0x309A]); (0x30D3, [0x30D2; 0x3099]);
    (0x30D4, [0x30D2; 0x309A]); (0x30D6, [0x30D5; 0x3099]);
    (0x30D7, [0x30D5; 0x309A]); (0x30D9, [0x30D8; 0x3099]);
    (0x30DA, [0x30D8; 0x309A]); (0x30DC, [0x30DB; 0x3099]);
    (0x30DD, [0x30DB; 0x309A]); (0x30F4, [0x30A6; 0x3099]);
    (0x30F7, [0x30EF; 0x3099]); (0x30F8, [0x30F0; 0x3099]);
    (0x30F9, [0x30F1; 0x3099]); (0x30FA, [0x30F2; 0x3099]);
    (0x30FE, [0x30FD; 0x3099]); (0xF900, [0x8C48]); (0xF901, [0x66F4]);
    (0xF902, [0x8ECA]); (0xF903, [0x8CC8]); (0xF904, [0x6ED1]);
    (0xF905, [0x4E32]); (0xF906, [0x53E5]); (0xF907, [0x9F9C]);
    (0xF908, [0x9F9C]); (0xF909, [0x5951]); (0xF90A, [0x91D1]);
    (0xF90B, [0x5587]); (0xF90C, [0x5948]); (0xF90D, [0x61F6]);
    (0xF90E, [0x7669]); (0xF90F, [0x7F85]); (0xF910, [0x863F]);
    (0xF911, [0x87BA]); (0xF912, [0x88F8]); (0xF913, [0x908F]);
    (0xF914, [0x6A02]); (0xF915, [0x6D1B]); (0xF916, [0x70D9]);
    (0xF917, [0x73DE]); (0xF918, [0x843D]); (0xF919, [0x916A]);
    (0xF91A, [0x99F1]); (0xF91B, [0x4E82]); (0xF91C, [0x5375]);
    (0xF91D, [0x6B04]); (0xF91E, [0x721B]); (0xF91F, [0x862D]);
    (0xF920, [0x9E1E]); (0xF921, [0x5D50]); (0xF922, [0x6FEB]);
    (0xF923, [0x85CD]); (0xF924, [0x8964]); (0xF925, [0x62C9]);
    (0xF926, [0x81D8]); (0xF927, [0x881F]); (0xF928, [0x5ECA]);
    (0xF929, [0x6717]); (0xF92A, [0x6D6A]); (0xF92B, [0x72FC]);
    (0xF92C, [0x90CE]); (0xF92D, [0x4F86]); (0xF92E, [0x51B7]);
    (0xF92F, [0x52DE]); (0xF930, [0x64C4]); (0xF931, [0x6AD3]);
    (0xF932, [0x7210]); (0xF933, [0x76E7]); (0xF934, [0x8001]);
    (0xF935, [0x8606]); (0xF936, [0x865C]); (0xF937, [0x8DEF]);
    (0xF938, [0x9732]); (0xF939, [0x9B6F]); (0xF93A, [0x9DFA]);
    (0xF93B, [0x788C]); (0xF93C, [0x797F]); (0xF93D, [0x7DA0]);
    (0xF93E, [0x83C9]); (0xF93F, [0x9304]); (0xF940, [0x9E7F]);
    (0xF941, [0x8AD6]); (0xF942, [0x58DF]); (0xF943, [0x5F04]);
    (0xF944, [0x7C60]); (0xF945, [0x807E]); (0xF946, [0x7262]);
    (0xF947, [0x78CA]); (0xF948, [0x8CC2]); (0xF949, [0x96F7]);
    (0xF94A, [0x58D8]); (0xF94B, [0x5C62]); (0xF94C, [0x6A13]);
    (0xF94D, [0x6DDA]); (0xF94E, [0x6F0F]); (0xF94F, [0x7D2F]);
    (0xF950, [0x7E37]); (0xF951, [0x964B]); (0xF952, [0x52D2]);
    (0xF953, [0x808B]); (0xF954, [0x51DC]); (0xF955, [0x51CC]);
    (0xF956, [0x7A1C]); (0xF957, [0x7DBE]); (0xF958, [0x83F1]);
    (0xF959, [0x9675]); (0xF95A, [0x8B80]); (0xF95B, [0x62CF]);
    (0xF95C, [0x6A02]); (0xF95D, [0x8AFE]); (0xF95E, [0x4E39]);
    (0xF95F, [0x5BE7]); (0xF960, [0x6012]); (0xF961, [0x7387]);
    (0xF962, [0x7570]); (0xF963, [0x5317]); (0xF964, [0x78FB]);
    (0xF965, [0x4FBF]); (0xF966, [0x5FA9]); (0xF967, [0x4E0D]);
    (0xF968, [0x6CCC]); (0xF969, [0x6578]); (0xF96A, [0x7D22]);
    (0xF96B, [0x53C3]); (0xF96C, [0x585E]); (0xF96D, [0x7701]);
    (0xF96E, [0x8449]); (0xF96F, [0x8AAA]); (0xF970, [0x6BBA]);
    (0xF971, [0x8FB0]); (0xF972, [0x6C88]); (0xF973, [0x62FE]);
    (0xF974, [0x82E5]); (0xF975, [0x63A0]); (0xF976, [0x7565]);
    (0xF977, [0x4EAE]); (0xF978, [0x5169]); (0xF979, [0x51C9]);
    (0xF97A, [0x6881]); (0xF97B, [0x7CE7]); (0xF97C, [0x826F]);
    (0xF97D, [0x8AD2]); (0xF97E, [0x91CF]); (0xF97F, [0x52F5]);
    (0xF980, [0x5442]); (0xF981, [0x5973]); (0xF982, [0x5EEC]);
    (0xF983, [0x65C5]); (0xF984, [0x6FFE]); (0xF985, [0x792A]);
    (0xF986, [0x95AD]); (0xF987, [0x9A6A]); (0xF988, [0x9E97]);
    (0xF989, [0x9ECE]); (0xF98A, [0x529B]); (0xF98B, [0x66C6]);
    (0xF98C, [0x6B77]); (0xF98D, [0x8F62]); (0xF98E, [0x5E74]);
    (0xF98F, [0x6190]); (0xF990, [0x6200]); (0xF991, [0x649A]);
    (0xF992, [0x6F23]); (0xF993, [0x7149]); (0xF994, [0x7489]);
    (0xF995, [0x79CA]); (0xF996, [0x7DF4]); (0xF997, [0x806F]);
    (0xF998, [0x8F26]); (0xF999, [0x84EE]); (0xF99A, [0x9023]);
    (0xF99B, [0x934A]); (0xF99C, [0x5217]); (0xF99D, [0x52A3]);
    (0xF99E, [0x54BD]); (0xF99F, [0x70C8]); (0xF9A0, [0x88C2]);
    (0xF9A1, [0x8AAA]); (0xF9A2, [0x5EC9]); (0xF9A3, [0x5FF5]);
    (0xF9A4, [0x637B]); (0xF9A5, [0x6BAE]); (0xF9A6, [0x7C3E]);
    (0xF9A7, [0x7375]); (0xF9A8, [0x4EE4]); (0xF9A9, [0x56F9]);
    (0xF9AA, [0x5BE7]); (0xF9AB, [0x5DBA]); (0xF9AC, [0x601C]);
    (0xF9AD, [0x73B2]); (0xF9AE, [0x7469]); (0xF9AF, [0x7F9A]);
    (0xF9B0, [0x8046]); (0xF9B1, [0x9234]); (0xF9B2, [0x96F6]);
    (0xF9B3, [0x9748]); (0xF9B4, [0x9818]); (0xF9B5, [0x4F8B]);
    (0xF9B6, [0x79AE]); (0xF9B7, [0x91B4]); (0xF9B8, [0x96B8]);
    (0xF9B9, [0x60E1]); (0xF9BA, [0x4E86]); (0xF9BB, [0x50DA]);
    (0xF9BC, [0x5BEE]); (0xF9BD, [0x5C3F]); (0xF9BE, [0x6599]);
    (0xF9BF, [0x6A02]); (0xF9C0, [0x71CE]); (0xF9C1, [0x7642]);
    (0xF9C2, [0x84FC]); (0xF9C3, [0x907C]); (0xF9C4, [0x9F8D]);
    (0xF9C5, [0x6688]); (0xF9C6, [0x962E]); (0xF9C7, [0x5289]);
    (0xF9C8, [0x677B]); (0xF9C9, [0x67F3]); (0xF9CA, [0x6D41]);
    (0xF9CB, [0x6E9C]); (0xF9CC, [0x7409]); (0xF9CD, [0x7559]);
    (0xF9CE, [0x786B]); (0xF9CF, [0x7D10]); (0xF9D0, [0x985E]);
    (0xF9D1, [0x516D]); (0xF9D2, [0x622E]); (0xF9D3, [0x9678]);
    (0xF9D4, [0x502B]); (0xF9D5, [0x5D19]); (0xF9D6, [0x6DEA]);
    (0xF9D7, [0x8F2A]); (0xF9D8, [0x5F8B]); (0xF9D9, [0x6144]);
    (0xF9DA, [0x6817]); (0xF9DB, [0x7387]); (0xF9DC, [0x9686]);
    (0xF9DD, [0x5229]); (0xF9DE, [0x540F]); (0xF9DF, [0x5C65]);
    (0xF9E0, [0x6613]); (0xF9E1, [0x674E]); (0xF9E2, [0x68A8]);
    (0xF9E3, [0x6CE5]); (0xF9E4, [0x7406]); (0xF9E5, [0x75E2]);
    (0xF9E6, [0x7F79]); (0xF9E7, [0x88CF]); (0xF9E8, [0x88E1]);
    (0xF9E9, [0x91CC]); (0xF9EA, [0x96E2]); (0xF9EB, [0x533F]);
    (0xF9EC, [0x6EBA]); (0xF9ED, [0x541D]); (0xF9EE, [0x71D0]);
    (0xF9EF, [0x7498]); (0xF9F0, [0x85FA]); (0xF9F1, [0x96A3]);
    (0xF9F2, [0x9C57]); (0xF9F3, [0x9E9F]); (0xF9F4, [0x6797]);
    (0xF9F5, [0x6DCB]); (0xF9F6, [0x81E8]); (0xF9F7, [0x7ACB]);
    (0xF9F8, [0x7B20]); (0xF9F9, [0x7C92]); (0xF9FA, [0x72C0]);
    (0xF9FB, [0x7099]); (0xF9FC, [0x8B58]); (0xF9FD, [0x4EC0]);
    (0xF9FE, [0x8336]); (0xF9FF, [0x523A]); (0xFA00, [0x5207]);
    (0xFA01, [0x5EA6]); (0xFA02, [0x62D3]); (0xFA03, [0x7CD6]);
    (0xFA04, [0x5B85]); (0xFA05, [0x6D1E]); (0xFA06, [0x66B4]);
    (0xFA07, [0x8F3B]); (0xFA08, [0x884C]); (0xFA09, [0x964D]);
    (0xFA0A, [0x898B]); (0xFA0B, [0x5ED3]); (0xFA0C, [0x5140]);
    (0xFA0D, [0x55C0]); (0xFA10, [0x585A]); (0xFA12, [0x6674]);
    (0xFA15, [0x51DE]); (0xFA16, [0x732A]); (0xFA17, [0x76CA]);
    (0xFA18, [0x793C]); (0xFA19, [0x795E]); (0xFA1A, [0x7965]);
    (0xFA1B, [0x798F]); (0xFA1C, [0x9756]); (0xFA1D, [0x7CBE]);
    (0xFA1E, [0x7FBD]); (0xFA20, [0x8612]); (0xFA22, [0x8AF8]);
    (0xFA25, [0x9038]); (0xFA26, [0x90FD]); (0xFA2A, [0x98EF]);
    (0xFA2B, [0x98FC]); (0xFA2C, [0x9928]); (0xFA2D, [0x9DB4]);
    (0xFA2E, [0x90DE]); (0xFA2F, [0x96B7]); (0xFA30, [0x4FAE]);
    (0xFA31, [0x50E7]); (0xFA32, [0x514D]); (0xFA33, [0x52C9]);
    (0xFA34, [0x52E4]); (0xFA35, [0x5351]); (0xFA36, [0x559D]);
    (0xFA37, [0x5606]); (0xFA38, [0x5668]); (0xFA39, [0x5840]);
    (0xFA3A, [0x58A8]); (0xFA3B, [0x5C64]); (0xFA3C, [0x5C6E]);
    (0xFA3D, [0x6094]); (0xFA3E, [0x6168]); (0xFA3F, [0x618E]);
    (0xFA40, [0x61F2]); (0xFA41, [0x654F]); (0xFA42, [0x65E2]);
    (0xFA43, [0x6691]); (0xFA44, [0x6885]); (0xFA45, [0x6D77]);
    (0xFA46, [0x6E1A]); (0xFA47, [0x6F22]); (0xFA48, [0x716E]);
    (0xFA49, [0x722B]); (0xFA4A, [0x7422]); (0xFA4B, [0x7891]);
    (0xFA4C, [0x793E]); (0xFA4D, [0x7949]); (0xFA4E, [0x7948]);
    (0xFA4F, [0x7950]); (0xFA50, [0x7956]); (0xFA51, [0x795D]);
    (0xFA52, [0x798D]); (0xFA53, [0x798E]); (0xFA54, [0x7A40]);
    (0xFA55, [0x7A81]); (0xFA56, [0x7BC0]); (0xFA57, [0x7DF4]);
    (0xFA58, [0x7E09]); (0xFA59, [0x7E41]); (0xFA5A, [0x7F72]);
    (0xFA5B, [0x8005]); (0xFA5C, [0x81ED]); (0xFA5D, [0x8279]);
    (0xFA5E, [0x8279]); (0xFA5F, [0x8457]); (0xFA60, [0x8910]);
    (0xFA61, [0x8996]); (0xFA62, [0x8B01]); (0xFA63, [0x8B39]);
    (0xFA64, [0x8CD3]); (0xFA65, [0x8D08]); (0xFA66, [0x8FB6]);
    (0xFA67, [0x9038]); (0xFA68, [0x96E3]); (0xFA69, [0x97FF]);
    (0xFA6A, [0x983B]); (0xFA6B, [0x6075]); (0xFA6C, [0x242EE]);
    (0xFA6D, [0x8218]); (0xFA70, [0x4E26]); (0xFA71, [0x51B5]);
    (0xFA72, [0x5168]); (0xFA73, [0x4F80]); (0xFA74, [0x5145]);
    (0xFA75, [0x5180]); (0xFA76, [0x52C7]); (0xFA77, [0x52FA]);
    (0xFA78, [0x559D]); (0xFA79, [0x5555]); (0xFA7A, [0x5599]);
    (0xFA7B, [0x55E2]); (0xFA7C, [0x585A]); (0xFA7D, [0x58B3]);
    (0xFA7E, [0x5944]); (0xFA7F, [0x5954]); (0xFA80, [0x5A62]);
    (0xFA81, [0x5B28]); (0xFA82, [0x5ED2]); (0xFA83, [0x5ED9]);
    (0xFA84, [0x5F69]); (0xFA85, [0x5FAD]); (0xFA86, [0x60D8]);
    (0xFA87, [0x614E]); (0xFA88, [0x6108]); (0xFA89, [0x618E]);
    (0xFA8A, [0x6160]); (0xFA8B, [0x61F2]); (0xFA8C, [0x6234]);
    (0xFA8D, [0x63C4]); (0xFA8E, [0x641C]); (0xFA8F, [0x6452]);
    (0xFA90, [0x6556]); (0xFA91, [0x6674]); (0xFA92, [0x6717]);
    (0xFA93, [0x671B]); (0xFA94, [0x6756]); (0xFA95, [0x6B79]);
    (0xFA96, [0x6BBA]); (0xFA97, [0x6D41]); (0xFA98, [0x6EDB]);
    (0xFA99, [0x6ECB]); (0xFA9A, [0x6F22]); (0xFA9B, [0x701E]);
    (0xFA9C, [0x716E]); (0xFA9D, [0x77A7]); (0xFA9E, [0x7235]);
    (0xFA9F, [0x72AF]); (0xFAA0, [0x732A]); (0xFAA1, [0x7471]);
    (0xFAA2, [0x7506]); (0xFAA3, [0x753B]); (0xFAA4, [0x761D]);
    (0xFAA5, [0x761F]); (0xFAA6, [0x76CA]); (0xFAA7, [0x76DB]);
    (0xFAA8, [0x76F4]); (0xFAA9, [0x774A]); (0xFAAA, [0x7740]);
    (0xFAAB, [0x78CC]); (0xFAAC, [0x7AB1]); (0xFAAD, [0x7BC0]);
    (0xFAAE, [0x7C7B]); (0xFAAF, [0x7D5B]); (0xFAB0, [0x7DF4]);
    (0xFAB1, [0x7F3E]); (0xFAB2, [0x8005]); (0xFAB3, [0x8352]);
    (0xFAB4, [0x83EF]); (0xFAB5, [0x8779]); (0xFAB6, [0x8941]);
    (0xFAB7, [0x8986]); (0xFAB8, [0x8996]); (0xFAB9, [0x8ABF]);
    (0xFABA, [0x8AF8]); (0xFABB, [0x8ACB]); (0xFABC, [0x8B01]);
    (0xFABD, [0x8AFE]); (0xFABE, [0x8AED]); (0xFABF, [0x8B39]);
    (0xFAC0, [0x8B8A]); (0xFAC1, [0x8D08]); (0xFAC2, [0x8F38]);
    (0xFAC3, [0x9072]); (0xFAC4, [0x9199]); (0xFAC5, [0x9276]);
    (0xFAC6, [0x967C]); (0xFAC7, [0x96E3]); (0xFAC8, [0x9756]);
    (0xFAC9, [0x97DB]); (0xFACA, [0x97FF]); (0xFACB, [0x980B]);
    (0xFACC, [0x983B]); (0xFACD, [0x9B12]); (0xFACE, [0x9F9C]);
    (0xFACF, [0x2284A]); (0xFAD0, [0x22844]); (0xFAD1, [0x233D5]);
    (0xFAD2, [0x3B9D]); (0xFAD3, [0x4018]); (0xFAD4, [0x4039]);
    (0xFAD5, [0x25249]); (0xFAD6, [0x25CD0]); (0xFAD7, [0x27ED3]);
    (0xFAD8, [0x9F43]); (0xFAD9, [0x9F8E]); (0xFB1D, [0x5D9; 0x5B4]);
    (0xFB1F, [0x5F2; 0x5B7]); (0xFB2A, [0x5E9; 0x5C1]);
    (0xFB2B, [0x5E9; 0x5C2]); (0xFB2C, [0x5E9; 0x5BC; 0x5C1]);
    (0xFB2D, [0x5E9; 0x5BC; 0x5C2]); (0xFB2E, [0x5D0; 0x5B7]);
    (0xFB2F, [0x5D0; 0x5B8]); (0xFB30, [0x5D0; 0x5BC]);
    (0xFB31, [0x5D1; 0x5BC]); (0xFB32, [0x5D2; 0x5BC]);
    (0xFB33, [0x5D3; 0x5BC]); (0xFB34, [0x5D4; 0x5BC]);
    (0xFB35, [0x5D5; 0x5BC]); (0xFB36, [0x5D6; 0x5BC]);
    (0xFB38, [0x5D8; 0x5BC]); (0xFB39, [0x5D9; 0x5BC]);
    (0xFB3A, [0x5DA; 0x5BC]); (0xFB3B, [0x5DB; 0x5BC]);
    (0xFB3C, [0x5DC; 0x5BC]); (0xFB3E, [0x5DE; 0x5BC]);
    (0xFB40, [0x5E0; 0x5BC]); (0xFB41, [0x5E1; 0x5BC]);
    (0xFB43, [0x5E3; 0x5BC]); (0xFB44, [0x5E4; 0x5BC]);
    (0xFB46, [0x5E6; 0x5BC]); (0xFB47, [0x5E7; 0x5BC]);
    (0xFB48, [0x5E8; 0x5BC]); (0xFB49, [0x5E9; 0x5BC]);
    (0xFB4A, [0x5EA; 0x5BC]); (0xFB4B, [0x5D5; 0x5B9]);
    (0xFB4C, [0x5D1; 0x5BF]); (0xFB4D, [0x5DB; 0x5BF]);
    (0xFB4E, [0x5E4; 0x5BF]); (0x1109A, [0x11099; 0x110BA]);
    (0x1109C, [0x1109B; 0x110BA]); (0x110AB, [0x110A5; 0x110BA]);
    (0x1112E, [0x11131; 0x11127]); (0x1112F, [0x11132; 0x11127]);
    (0x1134B, [0x11347; 0x1133E]); (0x1134C, [0x11347; 0x11357]);
    (0x114BB, [0x114B9; 0x114BA]); (0x114BC, [0x114B9; 0x114B0]);
    (0x114BE, [0x114B9; 0x114BD]); (0x115BA, [0x115B8; 0x115AF]);
    (0x115BB, [0x115B9; 0x115AF]); (0x11938, [0x11935; 0x11930]);
    (0x1D15E, [0x1D157; 0x1D165]); (0x1D15F, [0x1D158; 0x1D165]);
    (0x1D160, [0x1D158; 0x1D165; 0x1D16E]);
    (0x1D161, [0x1D158; 0x1D165; 0x1D16F]);
    (0x1D162, [0x1D158; 0x1D165; 0x1D170]);
    (0x1D163, [0x1D158; 0x1D165; 0x1D171]);
    (0x1D164, [0x1D158; 0x1D165; 0x1D172]); (0x1D1BB, [0x1D1B9; 0x1D165]);
    (0x1D1BC, [0x1D1BA; 0x1D165]); (0x1D1BD, [0x1D1B9; 0x1D165; 0x1D16E]);
    (0x1D1BE, [0x1D1BA; 0x1D165; 0x1D16E]);
    (0x1D1BF, [0x1D1B9; 0x1D165; 0x1D16F]);
    (0x1D1C0, [0x1D1BA; 0x1D165; 0x1D16F]); (0x2F800, [0x4E3D]);
    (0x2F801, [0x4E38]); (0x2F802, [0x4E41]); (0x2F803, [0x20122]);
    (0x2F804, [0x4F60]); (0x2F805, [0x4FAE]); (0x2F806, [0x4FBB]);
    (0x2F807, [0x5002]); (0x2F808, [0x507A]); (0x2F809, [0x5099]);
    (0x2F80A, [0x50E7]); (0x2F80B, [0x50CF]); (0x2F80C, [0x349E]);
    (0x2F80D, [0x2063A]); (0x2F80E, [0x514D]); (0x2F80F, [0x5154]);
    (0x2F810, [0x5164]); (0x2F811, [0x5177]); (0x2F812, [0x2051C]);
    (0x2F813, [0x34B9]); (0x2F814, [0x5167]); (0x2F815, [0x518D]);
    (0x2F816, [0x2054B]); (0x2F817, [0x5197]); (0x2F818, [0x51A4]);
    (0x2F819, [0x4ECC]); (0x2F81A, [0x51AC]); (0x2F81B, [0x51B5]);
    (0x2F81C, [0x291DF]); (0x2F81D, [0x51F5]); (0x2F81E, [0x5203]);
    (0x2F81F, [0x34DF]); (0x2F820, [0x523B]); (0x2F821, [0x5246]);
    (0x2F822, [0x5272]); (0x2F823, [0x5277]); (0x2F824, [0x3515]);
    (0x2F825, [0x52C7]); (0x2F826, [0x52C9]); (0x2F827, [0x52E4]);
    (0x2F828, [0x52FA]); (0x2F829, [0x5305]); (0x2F82A, [0x5306]);
    (0x2F82B, [0x5317]); (0x2F82C, [0x5349]); (0x2F82D, [0x5351]);
    (0x2F82E, [0x535A]); (0x2F82F, [0x5373]); (0x2F830, [0x537D]);
    (0x2F831, [0x537F]); (0x2F832, [0x537F]); (0x2F833, [0x537F]);
    (0x2F834, [0x20A2C]); (0x2F835, [0x7070]); (0x2F836, [0x53CA]);
    (0x2F837, [0x53DF]); (0x2F838, [0x20B63]); (0x2F839, [0x53EB]);
    (0x2F83A, [0x53F1]); (0x2F83B, [0x5406]); (0x2F83C, [0x549E]);
    (0x2F83D, [0x5438]); (0x2F83E, [0x5448]); (0x2F83F, [0x5468]);
    (0x2F840, [0x54A2]); (0x2F841, [0x54F6]); (0x2F842, [0x5510]);
    (0x2F843, [0x5553]); (0x2F844, [0x5563]); (0x2F845, [0x5584]);
    (0x2F846, [0x5584]); (0x2F847, [0x5599]); (0x2F848, [0x55AB]);
    (0x2F849, [0x55B3]); (0x2F84A, [0x55C2]); (0x2F84B, [0x5716]);
    (0x2F84C, [0x5606]); (0x2F84D, [0x5717]); (0x2F84E, [0x5651]);
    (0x2F84F, [0x5674]); (0x2F850, [0x5207]); (0x2F851, [0x58EE]);
    (0x2F852, [0x57CE]); (0x2F853, [0x57F4]); (0x2F854, [0x580D]);
    (0x2F855, [0x578B]); (0x2F856, [0x5832]); (0x2F857, [0x5831]);
    (0x2F858, [0x58AC]); (0x2F859, [0x214E4]); (0x2F85A, [0x58F2]);
    (0x2F85B, [0x58F7]); (0x2F85C, [0x5906]); (0x2F85D, [0x591A]);
    (0x2F85E, [0x5922]); (0x2F85F, [0x5962]); (0x2F860, [0x216A8]);
    (0x2F861, [0x216EA]); (0x2F862, [0x59EC]); (0x2F863, [0x5A1B]);
    (0x2F864, [0x5A27]); (0x2F865, [0x59D8]); (0x2F866, [0x5A66]);
    (0x2F867, [0x36EE]); (0x2F868, [0x36FC]); (0x2F869, [0x5B08]);
    (0x2F86A, [0x5B3E]); (0x2F86B, [0x5B3E]); (0x2F86C, [0x219C8]);
    (0x2F86D, [0x5BC3]); (0x2F86E, [0x5BD8]); (0x2F86F, [0x5BE7]);
    (0x2F870, [0x5BF3]); (0x2F871, [0x21B18]); (0x2F872, [0x5BFF]);
    (0x2F873, [0x5C06]); (0x2F874, [0x5F53]); (0x2F875, [0x5C22]);
    (0x2F876, [0x3781]); (0x2F877, [0x5C60]); (0x2F878, [0x5C6E]);
    (0x2F879, [0x5CC0]); (0x2F87A, [0x5C8D]); (0x2F87B, [0x21DE4]);
    (0x2F87C, [0x5D43]); (0x2F87D, [0x21DE6]); (0x2F87E, [0x5D6E]);
    (0x2F87F, [0x5D6B]); (0x2F880, [0x5D7C]); (0x2F881, [0x5DE1]);
    (0x2F882, [0x5DE2]); (0x2F883, [0x382F]); (0x2F884, [0x5DFD]);
    (0x2F885, [0x5E28]); (0x2F886, [0x5E3D]); (0x2F887, [0x5E69]);
    (0x2F888, [0x3862]); (0x2F889, [0x22183]); (0x2F88A, [0x387C]);
    (0x2F88B, [0x5EB0]); (0x2F88C, [0x5EB3]); (0x2F88D, [0x5EB6]);
    (0x2F88E, [0x5ECA]); (0x2F88F, [0x2A392]); (0x2F890, [0x5EFE]);
    (0x2F891, [0x22331]); (0x2F892, [0x22331]); (0x2F893, [0x8201]);
    (0x2F894, [0x5F22]); (0x2F895, [0x5F22]); (0x2F896, [0x38C7]);
    (0x2F897, [0x232B8]); (0x2F898, [0x261DA]); (0x2F899, [0x5F62]);
    (0x2F89A, [0x5F6B]); (0x2F89B, [0x38E3]); (0x2F89C, [0x5F9A]);
    (0x2F89D, [0x5FCD]); (0x2F89E, [0x5FD7]); (0x2F89F, [0x5FF9]);
    (0x2F8A0, [0x6081]); (0x2F8A1, [0x393A]); (0x2F8A2, [0x391C]);
    (0x2F8A3, [0x6094]); (0x2F8A4, [0x226D4]); (0x2F8A5, [0x60C7]);
    (0x2F8A6, [0x6148]); (0x2F8A7, [0x614C]); (0x2F8A8, [0x614E]);
    (0x2F8A9, [0x614C]); (0x2F8AA, [0x617A]); (0x2F8AB, [0x618E]);
    (0x2F8AC, [0x61B2]); (0x2F8AD, [0x61A4]); (0x2F8AE, [0x61AF]);
    (0x2F8AF, [0x61DE]); (0x2F8B0, [0x61F2]); (0x2F8B1, [0x61F6]);
    (0x2F8B2, [0x6210]); (0x2F8B3, [0x621B]); (0x2F8B4, [0x625D]);
    (0x2F8B5, [0x62B1]); (0x2F8B6, [0x62D4]); (0x2F8B7, [0x6350]);
    (0x2F8B8, [0x22B0C]); (0x2F8B9, [0x633D]); (0x2F8BA, [0x62FC]);
    (0x2F8BB, [0x6368]); (0x2F8BC, [0x6383]); (0x2F8BD, [0x63E4]);
    (0x2F8BE, [0x22BF1]); (0x2F8BF, [0x6422]); (0x2F8C0, [0x63C5]);
    (0x2F8C1, [0x63A9]); (0x2F8C2, [0x3A2E]); (0x2F8C3, [0x6469]);
    (0x2F8C4, [0x647E]); (0x2F8C5, [0x649D]); (0x2F8C6, [0x6477]);
    (0x2F8C7, [0x3A6C]); (0x2F8C8, [0x654F]); (0x2F8C9, [0x656C]);
    (0x2F8CA, [0x2300A]); (0x2F8CB, [0x65E3]); (0x2F8CC, [0x66F8]);
    (0x2F8CD, [0x6649]); (0x2F8CE, [0x3B19]); (0x2F8CF, [0x6691]);
    (0x2F8D0, [0x3B08]); (0x2F8D1, [0x3AE4]); (0x2F8D2, [0x5192]);
    (0x2F8D3, [0x5195]); (0x2F8D4, [0x6700]); (0x2F8D5, [0x669C]);
    (0x2F8D6, [0x80AD]); (0x2F8D7, [0x43D9]); (0x2F8D8, [0x6717]);
    (0x2F8D9, [0x671B]); (0x2F8DA, [0x6721]); (0x2F8DB, [0x675E]);
    (0x2F8DC, [0x6753]); (0x2F8DD, [0x233C3]); (0x2F8DE, [0x3B49]);
    (0x2F8DF, [0x67FA]); (0x2F8E0, [0x6785]); (0x2F8E1, [0x6852]);
    (0x2F8E2, [0x6885]); (0x2F8E3, [0x2346D]); (0x2F8E4, [0x688E]);
    (0x2F8E5, [0x681F]); (0x2F8E6, [0x6914]); (0x2F8E7, [0x3B9D]);
    (0x2F8E8, [0x6942]); (0x2F8E9, [0x69A3]); (0x2F8EA, [0x69EA]);
    (0x2F8EB, [0x6AA8]); (0x2F8EC, [0x236A3]); (0x2F8ED, [0x6ADB]);
    (0x2F8EE, [0x3C18]); (0x2F8EF, [0x6B21]); (0x2F8F0, [0x238A7]);
    (0x2F8F1, [0x6B54]); (0x2F8F2, [0x3C4E]); (0x2F8F3, [0x6B72]);
    (0x2F8F4, [0x6B9F]); (0x2F8F5, [0x6BBA]); (0x2F8F6, [0x6BBB]);
    (0x2F8F7, [0x23A8D]); (0x2F8F8, [0x21D0B]); (0x2F8F9, [0x23AFA]);
    (0x2F8FA, [0x6C4E]); (0x2F8FB, [0x23CBC]); (0x2F8FC, [0x6CBF]);
    (0x2F8FD, [0x6CCD]); (0x2F8FE, [0x6C67]); (0x2F8FF, [0x6D16]);
    (0x2F900, [0x6D3E]); (0x2F901, [0x6D77]); (0x2F902, [0x6D41]);
    (0x2F903, [0x6D69]); (0x2F904, [0x6D78]); (0x2F905, [0x6D85]);
    (0x2F906, [0x23D1E]); (0x2F907, [0x6D34]); (0x2F908, [0x6E2F]);
    (0x2F909, [0x6E6E]); (0x2F90A, [0x3D33]); (0x2F90B, [0x6ECB]);
    (0x2F90C, [0x6EC7]); (0x2F90D, [0x23ED1]); (0x2F90E, [0x6DF9]);
    (0x2F90F, [0x6F6E]); (0x2F910, [0x23F5E]); (0x2F911, [0x23F8E]);
    (0x2F912, [0x6FC6]); (0x2F913, [0x7039]); (0x2F914, [0x701E]);
    (0x2F915, [0x701B]); (0x2F916, [0x3D96]); (0x2F917, [0x704A]);
    (0x2F918, [0x707D]); (0x2F919, [0x7077]); (0x2F91A, [0x70AD]);
    (0x2F91B, [0x20525]); (0x2F91C, [0x7145]); (0x2F91D, [0x24263]);
    (0x2F91E, [0x719C]); (0x2F91F, [0x243AB]); (0x2F920, [0x7228]);
    (0x2F921, [0x7235]); (0x2F922, [0x7250]); (0x2F923, [0x24608]);
    (0x2F924, [0x7280]); (0x2F925, [0x7295]); (0x2F926, [0x24735]);
    (0x2F927, [0x24814]); (0x2F928, [0x737A]); (0x2F929, [0x738B]);
    (0x2F92A, [0x3EAC]); (0x2F92B, [0x73A5]); (0x2F92C, [0x3EB8]);
    (0x2F92D, [0x3EB8]); (0x2F92E, [0x7447]); (0x2F92F, [0x745C]);
    (0x2F930, [0x7471]); (0x2F931, [0x7485]); (0x2F932, [0x74CA]);
    (0x2F933, [0x3F1B]); (0x2F934, [0x7524]); (0x2F935, [0x24C36]);
    (0x2F936, [0x753E]); (0x2F937, [0x24C92]); (0x2F938, [0x7570]);
    (0x2F939, [0x2219F]); (0x2F93A, [0x7610]); (0x2F93B, [0x24FA1]);
    (0x2F93C, [0x24FB8]); (0x2F93D, [0x25044]); (0x2F93E, [0x3FFC]);
    (0x2F93F, [0x4008]); (0x2F940, [0x76F4]); (0x2F941, [0x250F3]);
    (0x2F942, [0x250F2]); (0x2F943, [0x25119]); (0x2F944, [0x25133]);
    (0x2F945, [0x771E]); (0x2F946, [0x771F]); (0x2F947, [0x771F]);
    (0x2F948, [0x774A]); (0x2F949, [0x4039]); (0x2F94A, [0x778B]);
    (0x2F94B, [0x4046]); (0x2F94C, [0x4096]); (0x2F94D, [0x2541D]);
    (0x2F94E, [0x784E]); (0x2F94F, [0x788C]); (0x2F950, [0x78CC]);
    (0x2F951, [0x40E3]); (0x2F952, [0x25626]); (0x2F953, [0x7956]);
    (0x2F954, [0x2569A]); (0x2F955, [0x256C5]); (0x2F956, [0x798F]);
    (0x2F957, [0x79EB]); (0x2F958, [0x412F]); (0x2F959, [0x7A40]);
    (0x2F95A, [0x7A4A]); (0x2F95B, [0x7A4F]); (0x2F95C, [0x2597C]);
    (0x2F95D, [0x25AA7]); (0x2F95E, [0x25AA7]); (0x2F95F, [0x7AEE]);
    (0x2F960, [0x4202]); (0x2F961, [0x25BAB]); (0x2F962, [0x7BC6]);
    (0x2F963, [0x7BC9]); (0x2F964, [0x4227]); (0x2F965, [0x25C80]);
    (0x2F966, [0x7CD2]); (0x2F967, [0x42A0]); (0x2F968, [0x7CE8]);
    (0x2F969, [0x7CE3]); (0x2F96A, [0x7D00]); (0x2F96B, [0x25F86]);
    (0x2F96C, [0x7D63]); (0x2F96D, [0x4301]); (0x2F96E, [0x7DC7]);
    (0x2F96F, [0x7E02]); (0x2F970, [0x7E45]); (0x2F971, [0x4334]);
    (0x2F972, [0x26228]); (0x2F973, [0x26247]); (0x2F974, [0x4359]);
    (0x2F975, [0x262D9]); (0x2F976, [0x7F7A]); (0x2F977, [0x2633E]);
    (0x2F978, [0x7F95]); (0x2F979, [0x7FFA]); (0x2F97A, [0x8005]);
    (0x2F97B, [0x264DA]); (0x2F97C, [0x26523]); (0x2F97D, [0x8060]);
    (0x2F97E, [0x265A8]); (0x2F97F, [0x8070]); (0x2F980, [0x2335F]);
    (0x2F981, [0x43D5]); (0x2F982, [0x80B2]); (0x2F983, [0x8103]);
    (0x2F984, [0x440B]); (0x2F985, [0x813E]); (0x2F986, [0x5AB5]);
    (0x2F987, [0x267A7]); (0x2F988, [0x267B5]); (0x2F989, [0x23393]);
    (0x2F98A, [0x2339C]); (0x2F98B, [0x8201]); (0x2F98C, [0x8204]);
    (0x2F98D, [0x8F9E]); (0x2F98E, [0x446B]); (0x2F98F, [0x8291]);
    (0x2F990, [0x828B]); (0x2F991, [0x829D]); (0x2F992, [0x52B3]);
    (0x2F993, [0x82B1]); (0x2F994, [0x82B3]); (0x2F995, [0x82BD]);
    (0x2F996, [0x82E6]); (0x2F997, [0x26B3C]); (0x2F998, [0x82E5]);
    (0x2F999, [0x831D]); (0x2F99A, [0x8363]); (0x2F99B, [0x83AD]);
    (0x2F99C, [0x8323]); (0x2F99D, [0x83BD]); (0x2F99E, [0x83E7]);
    (0x2F99F, [0x8457]); (0x2F9A0, [0x8353]); (0x2F9A1, [0x83CA]);
    (0x2F9A2, [0x83CC]); (0x2F9A3, [0x83DC]); (0x2F9A4, [0x26C36]);
    (0x2F9A5, [0x26D6B]); (0x2F9A6, [0x26CD5]); (0x2F9A7, [0x452B]);
    (0x2F9A8, [0x84F1]); (0x2F9A9, [0x84F3]); (0x2F9AA, [0x8516]);
    (0x2F9AB, [0x273CA]); (0x2F9AC, [0x8564]); (0x2F9AD, [0x26F2C]);
    (0x2F9AE, [0x455D]); (0x2F9AF, [0x4561]); (0x2F9B0, [0x26FB1]);
    (0x2F9B1, [0x270D2]); (0x2F9B2, [0x456B]); (0x2F9B3, [0x8650]);
    (0x2F9B4, [0x865C]); (0x2F9B5, [0x8667]); (0x2F9B6, [0x8669]);
    (0x2F9B7, [0x86A9]); (0x2F9B8, [0x8688]); (0x2F9B9, [0x870E]);
    (0x2F9BA, [0x86E2]); (0x2F9BB, [0x8779]); (0x2F9BC, [0x8728]);
    (0x2F9BD, [0x876B]); (0x2F9BE, [0x8786]); (0x2F9BF, [0x45D7]);
    (0x2F9C0, [0x87E1]); (0x2F9C1, [0x8801]); (0x2F9C2, [0x45F9]);
    (0x2F9C3, [0x8860]); (0x2F9C4, [0x8863]); (0x2F9C5, [0x27667]);
    (0x2F9C6, [0x88D7]); (0x2F9C7, [0x88DE]); (0x2F9C8, [0x4635]);
    (0x2F9C9, [0x88FA]); (0x2F9CA, [0x34BB]); (0x2F9CB, [0x278AE]);
    (0x2F9CC, [0x27966]); (0x2F9CD, [0x46BE]); (0x2F9CE, [0x46C7]);
    (0x2F9CF, [0x8AA0]); (0x2F9D0, [0x8AED]); (0x2F9D1, [0x8B8A]);
    (0x2F9D2, [0x8C55]); (0x2F9D3, [0x27CA8]); (0x2F9D4, [0x8CAB]);
    (0x2F9D5, [0x8CC1]); (0x2F9D6, [0x8D1B]); (0x2F9D7, [0x8D77]);
    (0x2F9D8, [0x27F2F]); (0x2F9D9, [0x20804]); (0x2F9DA, [0x8DCB]);
    (0x2F9DB, [0x8DBC]); (0x2F9DC, [0x8DF0]); (0x2F9DD, [0x208DE]);
    (0x2F9DE, [0x8ED4]); (0x2F9DF, [0x8F38]); (0x2F9E0, [0x285D2]);
    (0x2F9E1, [0x285ED]); (0x2F9E2, [0x9094]); (0x2F9E3, [0x90F1]);
    (0x2F9E4, [0x9111]); (0x2F9E5, [0x2872E]); (0x2F9E6, [0x911B]);
    (0x2F9E7, [0x9238]); (0x2F9E8, [0x92D7]); (0x2F9E9, [0x92D8]);
    (0x2F9EA, [0x927C]); (0x2F9EB, [0x93F9]); (0x2F9EC, [0x9415]);
    (0x2F9ED, [0x28BFA]); (0x2F9EE, [0x958B]); (0x2F9EF, [0x4995]);
    (0x2F9F0, [0x95B7]); (0x2F9F1, [0x28D77]); (0x2F9F2, [0x49E6]);
    (0x2F9F3, [0x96C3]); (0x2F9F4, [0x5DB2]); (0x2F9F5, [0x9723]);
    (0x2F9F6, [0x29145]); (0x2F9F7, [0x2921A]); (0x2F9F8, [0x4A6E]);
    (0x2F9F9, [0x4A76]); (0x2F9FA, [0x97E0]); (0x2F9FB, [0x2940A]);
    (0x2F9FC, [0x4AB2]); (0x2F9FD, [0x29496]); (0x2F9FE, [0x980B]);
    (0x2F9FF, [0x980B]); (0x2FA00, [0x9829]); (0x2FA01, [0x295B6]);
    (0x2FA02, [0x98E2]); (0x2FA03, [0x4B33]); (0x2FA04, [0x9929]);
    (0x2FA05, [0x99A7]); (0x2FA06, [0x99C2]); (0x2FA07, [0x99FE]);
    (0x2FA08, [0x4BCE]); (0x2FA09, [0x29B30]); (0x2FA0A, [0x9B12]);
    (0x2FA0B, [0x9C40]); (0x2FA0C, [0x9CFD]); (0x2FA0D, [0x4CCE]);
    (0x2FA0E, [0x4CED]); (0x2FA0F, [0x9D67]); (0x2FA10, [0x2A0CE]);
    (0x2FA11, [0x4CF8]); (0x2FA12, [0x2A105]); (0x2FA13, [0x2A20E]);
    (0x2FA14, [0x2A291]); (0x2FA15, [0x9EBB]); (0x2FA16, [0x4D56]);
    (0x2FA17, [0x9EF9]); (0x2FA18, [0x9EFE]); (0x2FA19, [0x9F05]);
    (0x2FA1A, [0x9F0F]); (0x2FA1B, [0x9F16]); (0x2FA1C, [0x9F3B]);
    (0x2FA1D, [0x2A600]) ].

(** Canonical combining class, where it is not 0: first and last code point
    of a run, and the class of the run. *)
Definition ccc_table : list (N * N * N) :=
  [ (0x300, 0x314, 230); (0x315, 0x315, 232); (0x316, 0x319, 220);
    (0x31A, 0x31A, 232); (0x31B, 0x31B, 216); (0x31C, 0x320, 220);
    (0x321, 0x322, 202); (0x323, 0x326, 220); (0x327, 0x328, 202);
    (0x329, 0x333, 220); (0x334, 0x338, 1); (0x339, 0x33C, 220);
    (0x33D, 0x344, 230); (0x345, 0x345, 240); (0x346, 0x346, 230);
    (0x347, 0x349, 220); (0x34A, 0x34C, 230); (0x34D, 0x34E, 220);
    (0x350, 0x352, 230); (0x353, 0x356, 220); (0x357, 0x357, 230);
    (0x358, 0x358, 232); (0x359, 0x35A, 220); (0x35B, 0x35B, 230);
    (0x35C, 0x35C, 233); (0x35D, 0x35E, 234); (0x35F, 0x35F, 233);
    (0x360, 0x361, 234); (0x362, 0x362, 233); (0x363, 0x36F, 230);
    (0x483, 0x487, 230); (0x591, 0x591, 220); (0x592, 0x595, 230);
    (0x596, 0x596, 220); (0x597, 0x599, 230); (0x59A, 0x59A, 222);
    (0x59B, 0x59B, 220); (0x59C, 0x5A1, 230); (0x5A2, 0x5A7, 220);
    (0x5A8, 0x5A9, 230); (0x5AA, 0x5AA, 220); (0x5AB, 0x5AC, 230);
    (0x5AD, 0x5AD, 222); (0x5AE, 0x5AE, 228); (0x5AF, 0x5AF, 230);
    (0x5B0, 0x5B0, 10); (0x5B1, 0x5B1, 11); (0x5B2, 0x5B2, 12);
    (0x5B3, 0x5B3, 13); (0x5B4, 0x5B4, 14); (0x5B5, 0x5B5, 15);
    (0x5B6, 0x5B6, 16); (0x5B7, 0x5B7, 17); (0x5B8, 0x5B8, 18);
    (0x5B9, 0x5BA, 19); (0x5BB, 0x5BB, 20); (0x5BC, 0x5BC, 21);
    (0x5BD, 0x5BD, 22); (0x5BF, 0x5BF, 23); (0x5C1, 0x5C1, 24);
    (0x5C2, 0x5C2, 25); (0x5C4, 0x5C4, 230); (0x5C5, 0x5C5, 220);
    (0x5C7, 0x5C7, 18); (0x610, 0x617, 230); (0x618, 0x618, 30);
    (0x619, 0x619, 31); (0x61A, 0x61A, 32); (0x64B, 0x64B, 27);
    (0x64C, 0x64C, 28); (0x64D, 0x64D, 29); (0x64E, 0x64E, 30);
    (0x64F, 0x64F, 31); (0x650, 0x650, 32); (0x651, 0x651, 33);
    (0x652, 0x652, 34); (0x653, 0x654, 230); (0x655, 0x656, 220);
    (0x657, 0x65B, 230); (0x65C, 0x65C, 220); (0x65D, 0x65E, 230);
    (0x65F, 0x65F, 220); (0x670, 0x670, 35); (0x6D6, 0x6DC, 230);
    (0x6DF, 0x6E2, 230); (0x6E3, 0x6E3, 220); (0x6E4, 0x6E4, 230);
    (0x6E7, 0x6E8, 230); (0x6EA, 0x6EA, 220); (0x6EB, 0x6EC, 230);
    (0x6ED, 0x6ED, 220); (0x711, 0x711, 36); (0x730, 0x730, 230);
    (0x731, 0x731, 220); (0x732, 0x733, 230); (0x734, 0x734, 220);
    (0x735, 0x736, 230); (0x737, 0x739, 220); (0x73A, 0x73A, 230);
    (0x73B, 0x73C, 220); (0x73D, 0x73D, 230); (0x73E, 0x73E, 220);
    (0x73F, 0x741, 230); (0x742, 0x742, 220); (0x743, 0x743, 230);
    (0x744, 0x744, 220); (0x745, 0x745, 230); (0x746, 0x746, 220);
    (0x747, 0x747, 230); (0x748, 0x748, 220); (0x749, 0x74A, 230);
    (0x7EB, 0x7F1, 230); (0x7F2, 0x7F2, 220); (0x7F3, 0x7F3, 230);
    (0x7FD, 0x7FD, 220); (0x816, 0x819, 230); (0x81B, 0x823, 230);
    (0x825, 0x827, 230); (0x829, 0x82D, 230); (0x859, 0x85B, 220);
    (0x898, 0x898, 230); (0x899, 0x89B, 220); (0x89C, 0x89F, 230);
    (0x8CA, 0x8CE, 230); (0x8CF, 0x8D3, 220); (0x8D4, 0x8E1, 230);
    (0x8E3, 0x8E3, 220); (0x8E4, 0x8E5, 230); (0x8E6, 0x8E6, 220);
    (0x8E7, 0x8E8, 230); (0x8E9, 0x8E9, 220); (0x8EA, 0x8EC, 230);
    (0x8ED, 0x8EF, 220); (0x8F0, 0x8F0, 27); (0x8F1, 0x8F1, 28);
    (0x8F2, 0x8F2, 29); (0x8F3, 0x8F5, 230); (0x8F6, 0x8F6, 220);
    (0x8F7, 0x8F8, 230); (0x8F9, 0x8FA, 220); (0x8FB, 0x8FF, 230);
    (0x93C, 0x93C, 7); (0x94D, 0x94D, 9); (0x951, 0x951, 230);
    (0x952, 0x952, 220); (0x953, 0x954, 230); (0x9BC, 0x9BC, 7);
    (0x9CD, 0x9CD, 9); (0x9FE, 0x9FE, 230); (0xA3C, 0xA3C, 7);
    (0xA4D, 0xA4D, 9); (0xABC, 0xABC, 7); (0xACD, 0xACD, 9);
    (0xB3C, 0xB3C, 7); (0xB4D, 0xB4D, 9); (0xBCD, 0xBCD, 9);
    (0xC3C, 0xC3C, 7); (0xC4D, 0xC4D, 9); (0xC55, 0xC55, 84);
    (0xC56, 0xC56, 91); (0xCBC, 0xCBC, 7); (0xCCD, 0xCCD, 9);
    (0xD3B, 0xD3C, 9); (0xD4D, 0xD4D, 9); (0xDCA, 0xDCA, 9);
    (0xE38, 0xE39, 103); (0xE3A, 0xE3A, 9); (0xE48, 0xE4B, 107);
    (0xEB8, 0xEB9, 118); (0xEBA, 0xEBA, 9); (0xEC8, 0xECB, 122);
    (0xF18, 0xF19, 220); (0xF35, 0xF35, 220); (0xF37, 0xF37, 220);
    (0xF39, 0xF39, 216); (0xF71, 0xF71, 129); (0xF72, 0xF72, 130);
    (0xF74, 0xF74, 132); (0xF7A, 0xF7D, 130); (0xF80, 0xF80, 130);
    (0xF82, 0xF83, 230); (0xF84, 0xF84, 9); (0xF86, 0xF87, 230);
    (0xFC6, 0xFC6, 220); (0x1037, 0x1037, 7); (0x1039, 0x103A, 9);
    (0x108D, 0x108D, 220); (0x135D, 0x135F, 230); (0x1714, 0x1715, 9);
    (0x1734, 0x1734, 9); (0x17D2, 0x17D2, 9); (0x17DD, 0x17DD, 230);
    (0x18A9, 0x18A9, 228); (0x1939, 0x1939, 222); (0x193A, 0x193A, 230);
    (0x193B, 0x193B, 220); (0x1A17, 0x1A17, 230); (0x1A18, 0x1A18, 220);
    (0x1A60, 0x1A60, 9); (0x1A75, 0x1A7C, 230); (0x1A7F, 0x1A7F, 220);
    (0x1AB0, 0x1AB4, 230); (0x1AB5, 0x1ABA, 220); (0x1ABB, 0x1ABC, 230);
    (0x1ABD, 0x1ABD, 220); (0x1ABF, 0x1AC0, 220); (0x1AC1, 0x1AC2, 230);
    (0x1AC3, 0x1AC4, 220); (0x1AC5, 0x1AC9, 230); (0x1ACA, 0x1ACA, 220);
    (0x1ACB, 0x1ACE, 230); (0x1B34, 0x1B34, 7); (0x1B44, 0x1B44, 9);
    (0x1B6B, 0x1B6B, 230); (0x1B6C, 0x1B6C, 220); (0x1B6D, 0x1B73, 230);
    (0x1BAA, 0x1BAB, 9); (0x1BE6, 0x1BE6, 7); (0x1BF2, 0x1BF3, 9);
    (0x1C37, 0x1C37, 7); (0x1CD0, 0x1CD2, 230); (0x1CD4, 0x1CD4, 1);
    (0x1CD5, 0x1CD9, 220); (0x1CDA, 0x1CDB, 230); (0x1CDC, 0x1CDF, 220);
    (0x1CE0, 0x1CE0, 230); (0x1CE2, 0x1CE8, 1); (0x1CED, 0x1CED, 220);
    (0x1CF4, 0x1CF4, 230); (0x1CF8, 0x1CF9, 230); (0x1DC0, 0x1DC1, 230);
    (0x1DC2, 0x1DC2, 220); (0x1DC3, 0x1DC9, 230); (0x1DCA, 0x1DCA, 220);
    (0x1DCB, 0x1DCC, 230); (0x1DCD, 0x1DCD, 234); (0x1DCE, 0x1DCE, 214);
    (0x1DCF, 0x1DCF, 220); (0x1DD0, 0x1DD0, 202); (0x1DD1, 0x1DF5, 230);
    (0x1DF6, 0x1DF6, 232); (0x1DF7, 0x1DF8, 228); (0x1DF9, 0x1DF9, 220);
    (0x1DFA, 0x1DFA, 218); (0x1DFB, 0x1DFB, 230); (0x1DFC, 0x1DFC, 233);
    (0x1DFD, 0x1DFD, 220); (0x1DFE, 0x1DFE, 230); (0x1DFF, 0x1DFF, 220);
    (0x20D0, 0x20D1, 230); (0x20D2, 0x20D3, 1); (0x20D4, 0x20D7, 230);
    (0x20D8, 0x20DA, 1); (0x20DB, 0x20DC, 230); (0x20E1, 0x20E1, 230);
    (0x20E5, 0x20E6, 1); (0x20E7, 0x20E7, 230); (0x20E8, 0x20E8, 220);
    (0x20E9, 0x20E9, 230); (0x20EA, 0x20EB, 1); (0x20EC, 0x20EF, 220);
    (0x20F0, 0x20F0, 230); (0x2CEF, 0x2CF1, 230); (0x2D7F, 0x2D7F, 9);
    (0x2DE0, 0x2DFF, 230); (0x302A, 0x302A, 218); (0x302B, 0x302B, 228);
    (0x302C, 0x302C, 232); (0x302D, 0x302D, 222); (0x302E, 0x302F, 224);
    (0x3099, 0x309A, 8); (0xA66F, 0xA66F, 230); (0xA674, 0xA67D, 230);
    (0xA69E, 0xA69F, 230); (0xA6F0, 0xA6F1, 230); (0xA806, 0xA806, 9);
    (0xA82C, 0xA82C, 9); (0xA8C4, 0xA8C4, 9); (0xA8E0, 0xA8F1, 230);
    (0xA92B, 0xA92D, 220); (0xA953, 0xA953, 9); (0xA9B3, 0xA9B3, 7);
    (0xA9C0, 0xA9C0, 9); (0xAAB0, 0xAAB0, 230); (0xAAB2, 0xAAB3, 230);
    (0xAAB4, 0xAAB4, 220); (0xAAB7, 0xAAB8, 230); (0xAABE, 0xAABF, 230);
    (0xAAC1, 0xAAC1, 230); (0xAAF6, 0xAAF6, 9); (0xABED, 0xABED, 9);
    (0xFB1E, 0xFB1E, 26); (0xFE20, 0xFE26, 230); (0xFE27, 0xFE2D, 220);
    (0xFE2E, 0xFE2F, 230); (0x101FD, 0x101FD, 220); (0x102E0, 0x102E0, 220);
    (0x10376, 0x1037A, 230); (0x10A0D, 0x10A0D, 220);
    (0x10A0F, 0x10A0F, 230); (0x10A38, 0x10A38, 230); (0x10A39, 0x10A39, 1);
    (0x10A3A, 0x10A3A, 220); (0x10A3F, 0x10A3F, 9); (0x10AE5, 0x10AE5, 230);
    (0x10AE6, 0x10AE6, 220); (0x10D24, 0x10D27, 230);
    (0x10EAB, 0x10EAC, 230); (0x10F46, 0x10F47, 220);
    (0x10F48, 0x10F4A, 230); (0x10F4B, 0x10F4B, 220);
    (0x10F4C, 0x10F4C, 230); (0x10F4D, 0x10F50, 220);
    (0x10F82, 0x10F82, 230); (0x10F83, 0x10F83, 220);
    (0x10F84, 0x10F84, 230); (0x10F85, 0x10F85, 220); (0x11046, 0x11046, 9);
    (0x11070, 0x11070, 9); (0x1107F, 0x1107F, 9); (0x110B9, 0x110B9, 9);
    (0x110BA, 0x110BA, 7); (0x11100, 0x11102, 230); (0x11133, 0x11134, 9);
    (0x11173, 0x11173, 7); (0x111C0, 0x111C0, 9); (0x111CA, 0x111CA, 7);
    (0x11235, 0x11235, 9); (0x11236, 0x11236, 7); (0x112E9, 0x112E9, 7);
    (0x112EA, 0x112EA, 9); (0x1133B, 0x1133C, 7); (0x1134D, 0x1134D, 9);
    (0x11366, 0x1136C, 230); (0x11370, 0x11374, 230); (0x11442, 0x11442, 9);
    (0x11446, 0x11446, 7); (0x1145E, 0x1145E, 230); (0x114C2, 0x114C2, 9);
    (0x114C3, 0x114C3, 7); (0x115BF, 0x115BF, 9); (0x115C0, 0x115C0, 7);
    (0x1163F, 0x1163F, 9); (0x116B6, 0x116B6, 9); (0x116B7, 0x116B7, 7);
    (0x1172B, 0x1172B, 9); (0x11839, 0x11839, 9); (0x1183A, 0x1183A, 7);
    (0x1193D, 0x1193E, 9); (0x11943, 0x11943, 7); (0x119E0, 0x119E0, 9);
    (0x11A34, 0x11A34, 9); (0x11A47, 0x11A47, 9); (0x11A99, 0x11A99, 9);
    (0x11C3F, 0x11C3F, 9); (0x11D42, 0x11D42, 7); (0x11D44, 0x11D45, 9);
    (0x11D97, 0x11D97, 9); (0x16AF0, 0x16AF4, 1); (0x16B30, 0x16B36, 230);
    (0x16FF0, 0x16FF1, 6); (0x1BC9E, 0x1BC9E, 1); (0x1D165, 0x1D166, 216);
    (0x1D167, 0x1D169, 1); (0x1D16D, 0x1D16D, 226); (0x1D16E, 0x1D172, 216);
    (0x1D17B, 0x1D182, 220); (0x1D185, 0x1D189, 230);
    (0x1D18A, 0x1D18B, 220); (0x1D1AA, 0x1D1AD, 230);
    (0x1D242, 0x1D244, 230); (0x1E000, 0x1E006, 230);
    (0x1E008, 0x1E018, 230); (0x1E01B, 0x1E021, 230);
    (0x1E023, 0x1E024, 230); (0x1E026, 0x1E02A, 230);
    (0x1E130, 0x1E136, 230); (0x1E2AE, 0x1E2AE, 230);
    (0x1E2EC, 0x1E2EF, 230); (0x1E8D0, 0x1E8D6, 220);
    (0x1E944, 0x1E949, 230); (0x1E94A, 0x1E94A, 7) ].

(** [unicodedata.category(c) == 'Mn']: the nonspacing marks. *)
Definition Mn_ranges : list (N * N) :=
  [ (0x300, 0x36F); (0x483, 0x487); (0x591, 0x5BD); (0x5BF, 0x5BF);
    (0x5C1, 0x5C2); (0x5C4, 0x5C5); (0x5C7, 0x5C7); (0x610, 0x61A);
    (0x64B, 0x65F); (0x670, 0x670); (0x6D6, 0x6DC); (0x6DF, 0x6E4);
    (0x6E7, 0x6E8); (0x6EA, 0x6ED); (0x711, 0x711); (0x730, 0x74A);
    (0x7A6, 0x7B0); (0x7EB, 0x7F3); (0x7FD, 0x7FD); (0x816, 0x819);
    (0x81B, 0x823); (0x825, 0x827); (0x829, 0x82D); (0x859, 0x85B);
    (0x898, 0x89F); (0x8CA, 0x8E1); (0x8E3, 0x902); (0x93A, 0x93A);
    (0x93C, 0x93C); (0x941, 0x948); (0x94D, 0x94D); (0x951, 0x957);
    (0x962, 0x963); (0x981, 0x981); (0x9BC, 0x9BC); (0x9C1, 0x9C4);
    (0x9CD, 0x9CD); (0x9E2, 0x9E3); (0x9FE, 0x9FE); (0xA01, 0xA02);
    (0xA3C, 0xA3C); (0xA41, 0xA42); (0xA47, 0xA48); (0xA4B, 0xA4D);
    (0xA51, 0xA51); (0xA70, 0xA71); (0xA75, 0xA75); (0xA81, 0xA82);
    (0xABC, 0xABC); (0xAC1, 0xAC5); (0xAC7, 0xAC8); (0xACD, 0xACD);
    (0xAE2, 0xAE3); (0xAFA, 0xAFF); (0xB01, 0xB01); (0xB3C, 0xB3C);
    (0xB3F, 0xB3F); (0xB41, 0xB44); (0xB4D, 0xB4D); (0xB55, 0xB56);
    (0xB62, 0xB63); (0xB82, 0xB82); (0xBC0, 0xBC0); (0xBCD, 0xBCD);
    (0xC00, 0xC00); (0xC04, 0xC04); (0xC3C, 0xC3C); (0xC3E, 0xC40);
    (0xC46, 0xC48); (0xC4A, 0xC4D); (0xC55, 0xC56); (0xC62, 0xC63);
    (0xC81, 0xC81); (0xCBC, 0xCBC); (0xCBF, 0xCBF); (0xCC6, 0xCC6);
    (0xCCC, 0xCCD); (0xCE2, 0xCE3); (0xD00, 0xD01); (0xD3B, 0xD3C);
    (0xD41, 0xD44); (0xD4D, 0xD4D); (0xD62, 0xD63); (0xD81, 0xD81);
    (0xDCA, 0xDCA); (0xDD2, 0xDD4); (0xDD6, 0xDD6); (0xE31, 0xE31);
    (0xE34, 0xE3A); (0xE47, 0xE4E); (0xEB1, 0xEB1); (0xEB4, 0xEBC);
    (0xEC8, 0xECD); (0xF18, 0xF19); (0xF35, 0xF35); (0xF37, 0xF37);
    (0xF39, 0xF39); (0xF71, 0xF7E); (0xF80, 0xF84); (0xF86, 0xF87);
    (0xF8D, 0xF97); (0xF99, 0xFBC); (0xFC6, 0xFC6); (0x102D, 0x1030);
    (0x1032, 0x1037); (0x1039, 0x103A); (0x103D, 0x103E); (0x1058, 0x1059);
    (0x105E, 0x1060); (0x1071, 0x1074); (0x1082, 0x1082); (0x1085, 0x1086);
    (0x108D, 0x108D); (0x109D, 0x109D); (0x135D, 0x135F); (0x1712, 0x1714);
    (0x1732, 0x1733); (0x1752, 0x1753); (0x1772, 0x1773); (0x17B4, 0x17B5);
    (0x17B7, 0x17BD); (0x17C6, 0x17C6); (0x17C9, 0x17D3); (0x17DD, 0x17DD);
    (0x180B, 0x180D); (0x180F, 0x180F); (0x1885, 0x1886); (0x18A9, 0x18A9);
    (0x1920, 0x1922); (0x1927, 0x1928); (0x1932, 0x1932); (0x1939, 0x193B);
    (0x1A17, 0x1A18); (0x1A1B, 0x1A1B); (0x1A56, 0x1A56); (0x1A58, 0x1A5E);
    (0x1A60, 0x1A60); (0x1A62, 0x1A62); (0x1A65, 0x1A6C); (0x1A73, 0x1A7C);
    (0x1A7F, 0x1A7F); (0x1AB0, 0x1ABD); (0x1ABF, 0x1ACE); (0x1B00, 0x1B03);
    (0x1B34, 0x1B34); (0x1B36, 0x1B3A); (0x1B3C, 0x1B3C); (0x1B42, 0x1B42);
    (0x1B6B, 0x1B73); (0x1B80, 0x1B81); (0x1BA2, 0x1BA5); (0x1BA8, 0x1BA9);
    (0x1BAB, 0x1BAD); (0x1BE6, 0x1BE6); (0x1BE8, 0x1BE9); (0x1BED, 0x1BED);
    (0x1BEF, 0x1BF1); (0x1C2C, 0x1C33); (0x1C36, 0x1C37); (0x1CD0, 0x1CD2);
    (0x1CD4, 0x1CE0); (0x1CE2, 0x1CE8); (0x1CED, 0x1CED); (0x1CF4, 0x1CF4);
    (0x1CF8, 0x1CF9); (0x1DC0, 0x1DFF); (0x20D0, 0x20DC); (0x20E1, 0x20E1);
    (0x20E5, 0x20F0); (0x2CEF, 0x2CF1); (0x2D7F, 0x2D7F); (0x2DE0, 0x2DFF);
    (0x302A, 0x302D); (0x3099, 0x309A); (0xA66F, 0xA66F); (0xA674, 0xA67D);
    (0xA69E, 0xA69F); (0xA6F0, 0xA6F1); (0xA802, 0xA802); (0xA806, 0xA806);
    (0xA80B, 0xA80B); (0xA825, 0xA826); (0xA82C, 0xA82C); (0xA8C4, 0xA8C5);
    (0xA8E0, 0xA8F1); (0xA8FF, 0xA8FF); (0xA926, 0xA92D); (0xA947, 0xA951);
    (0xA980, 0xA982); (0xA9B3, 0xA9B3); (0xA9B6, 0xA9B9); (0xA9BC, 0xA9BD);
    (0xA9E5, 0xA9E5); (0xAA29, 0xAA2E); (0xAA31, 0xAA32); (0xAA35, 0xAA36);
    (0xAA43, 0xAA43); (0xAA4C, 0xAA4C); (0xAA7C, 0xAA7C); (0xAAB0, 0xAAB0);
    (0xAAB2, 0xAAB4); (0xAAB7, 0xAAB8); (0xAABE, 0xAABF); (0xAAC1, 0xAAC1);
    (0xAAEC, 0xAAED); (0xAAF6, 0xAAF6); (0xABE5, 0xABE5); (0xABE8, 0xABE8);
    (0xABED, 0xABED); (0xFB1E, 0xFB1E); (0xFE00, 0xFE0F); (0xFE20, 0xFE2F);
    (0x101FD, 0x101FD); (0x102E0, 0x102E0); (0x10376, 0x1037A);
    (0x10A01, 0x10A03); (0x10A05, 0x10A06); (0x10A0C, 0x10A0F);
    (0x10A38, 0x10A3A); (0x10A3F, 0x10A3F); (0x10AE5, 0x10AE6);
    (0x10D24, 0x10D27); (0x10EAB, 0x10EAC); (0x10F46, 0x10F50);
    (0x10F82, 0x10F85); (0x11001, 0x11001); (0x11038, 0x11046);
    (0x11070, 0x11070); (0x11073, 0x11074); (0x1107F, 0x11081);
    (0x110B3, 0x110B6); (0x110B9, 0x110BA); (0x110C2, 0x110C2);
    (0x11100, 0x11102); (0x11127, 0x1112B); (0x1112D, 0x11134);
    (0x11173, 0x11173); (0x11180, 0x11181); (0x111B6, 0x111BE);
    (0x111C9, 0x111CC); (0x111CF, 0x111CF); (0x1122F, 0x11231);
    (0x11234, 0x11234); (0x11236, 0x11237); (0x1123E, 0x1123E);
    (0x112DF, 0x112DF); (0x112E3, 0x112EA); (0x11300, 0x11301);
    (0x1133B, 0x1133C); (0x11340, 0x11340); (0x11366, 0x1136C);
    (0x11370, 0x11374); (0x11438, 0x1143F); (0x11442, 0x11444);
    (0x11446, 0x11446); (0x1145E, 0x1145E); (0x114B3, 0x114B8);
    (0x114BA, 0x114BA); (0x114BF, 0x114C0); (0x114C2, 0x114C3);
    (0x115B2, 0x115B5); (0x115BC, 0x115BD); (0x115BF, 0x115C0);
    (0x115DC, 0x115DD); (0x11633, 0x1163A); (0x1163D, 0x1163D);
    (0x1163F, 0x11640); (0x116AB, 0x116AB); (0x116AD, 0x116AD);
    (0x116B0, 0x116B5); (0x116B7, 0x116B7); (0x1171D, 0x1171F);
    (0x11722, 0x11725); (0x11727, 0x1172B); (0x1182F, 0x11837);
    (0x11839, 0x1183A); (0x1193B, 0x1193C); (0x1193E, 0x1193E);
    (0x11943, 0x11943); (0x119D4, 0x119D7); (0x119DA, 0x119DB);
    (0x119E0, 0x119E0); (0x11A01, 0x11A0A); (0x11A33, 0x11A38);
    (0x11A3B, 0x11A3E); (0x11A47, 0x11A47); (0x11A51, 0x11A56);
    (0x11A59, 0x11A5B); (0x11A8A, 0x11A96); (0x11A98, 0x11A99);
    (0x11C30, 0x11C36); (0x11C38, 0x11C3D); (0x11C3F, 0x11C3F);
    (0x11C92, 0x11CA7); (0x11CAA, 0x11CB0); (0x11CB2, 0x11CB3);
    (0x11CB5, 0x11CB6); (0x11D31, 0x11D36); (0x11D3A, 0x11D3A);
    (0x11D3C, 0x11D3D); (0x11D3F, 0x11D45); (0x11D47, 0x11D47);
    (0x11D90, 0x11D91); (0x11D95, 0x11D95); (0x11D97, 0x11D97);
    (0x11EF3, 0x11EF4); (0x16AF0, 0x16AF4); (0x16B30, 0x16B36);
    (0x16F4F, 0x16F4F); (0x16F8F, 0x16F92); (0x16FE4, 0x16FE4);
    (0x1BC9D, 0x1BC9E); (0x1CF00, 0x1CF2D); (0x1CF30, 0x1CF46);
    (0x1D167, 0x1D169); (0x1D17B, 0x1D182); (0x1D185, 0x1D18B);
    (0x1D1AA, 0x1D1AD); (0x1D242, 0x1D244); (0x1DA00, 0x1DA36);
    (0x1DA3B, 0x1DA6C); (0x1DA75, 0x1DA75); (0x1DA84, 0x1DA84);
    (0x1DA9B, 0x1DA9F); (0x1DAA1, 0x1DAAF); (0x1E000, 0x1E006);
    (0x1E008, 0x1E018); (0x1E01B, 0x1E021); (0x1E023, 0x1E024);
    (0x1E026, 0x1E02A); (0x1E130, 0x1E136); (0x1E2AE, 0x1E2AE);
    (0x1E2EC, 0x1E2EF); (0x1E8D0, 0x1E8D6); (0x1E944, 0x1E94A);
    (0xE0100, 0xE01EF) ].

(** [\w] of [re] on [str] patterns: [str.isalnum] or the underscore. *)
Definition word_ranges : list (N * N) :=
  [ (0x30, 0x39); (0x41, 0x5A); (0x5F, 0x5F); (0x61, 0x7A); (0xAA, 0xAA);
    (0xB2, 0xB3); (0xB5, 0xB5); (0xB9, 0xBA); (0xBC, 0xBE); (0xC0, 0xD6);
    (0xD8, 0xF6); (0xF8, 0x2C1); (0x2C6, 0x2D1); (0x2E0, 0x2E4);
    (0x2EC, 0x2EC); (0x2EE, 0x2EE); (0x370, 0x374); (0x376, 0x377);
    (0x37A, 0x37D); (0x37F, 0x37F); (0x386, 0x386); (0x388, 0x38A);
    (0x38C, 0x38C); (0x38E, 0x3A1); (0x3A3, 0x3F5); (0x3F7, 0x481);
    (0x48A, 0x52F); (0x531, 0x556); (0x559, 0x559); (0x560, 0x588);
    (0x5D0, 0x5EA); (0x5EF, 0x5F2); (0x620, 0x64A); (0x660, 0x669);
    (0x66E, 0x66F); (0x671, 0x6D3); (0x6D5, 0x6D5); (0x6E5, 0x6E6);
    (0x6EE, 0x6FC); (0x6FF, 0x6FF); (0x710, 0x710); (0x712, 0x72F);
    (0x74D, 0x7A5); (0x7B1, 0x7B1); (0x7C0, 0x7EA); (0x7F4, 0x7F5);
    (0x7FA, 0x7FA); (0x800, 0x815); (0x81A, 0x81A); (0x824, 0x824);
    (0x828, 0x828); (0x840, 0x858); (0x860, 0x86A); (0x870, 0x887);
    (0x889, 0x88E); (0x8A0, 0x8C9); (0x904, 0x939); (0x93D, 0x93D);
    (0x950, 0x950); (0x958, 0x961); (0x966, 0x96F); (0x971, 0x980);
    (0x985, 0x98C); (0x98F, 0x990); (0x993, 0x9A8); (0x9AA, 0x9B0);
    (0x9B2, 0x9B2); (0x9B6, 0x9B9); (0x9BD, 0x9BD); (0x9CE, 0x9CE);
    (0x9DC, 0x9DD); (0x9DF, 0x9E1); (0x9E6, 0x9F1); (0x9F4, 0x9F9);
    (0x9FC, 0x9FC); (0xA05, 0xA0A); (0xA0F, 0xA10); (0xA13, 0xA28);
    (0xA2A, 0xA30); (0xA32, 0xA33); (0xA35, 0xA36); (0xA38, 0xA39);
    (0xA59, 0xA5C); (0xA5E, 0xA5E); (0xA66, 0xA6F); (0xA72, 0xA74);
    (0xA85, 0xA8D); (0xA8F, 0xA91); (0xA93, 0xAA8); (0xAAA, 0xAB0);
    (0xAB2, 0xAB3); (0xAB5, 0xAB9); (0xABD, 0xABD); (0xAD0, 0xAD0);
    (0xAE0, 0xAE1); (0xAE6, 0xAEF); (0xAF9, 0xAF9); (0xB05, 0xB0C);
    (0xB0F, 0xB10); (0xB13, 0xB28); (0xB2A, 0xB30); (0xB32, 0xB33);
    (0xB35, 0xB39); (0xB3D, 0xB3D); (0xB5C, 0xB5D); (0xB5F, 0xB61);
    (0xB66, 0xB6F); (0xB71, 0xB77); (0xB83, 0xB83); (0xB85, 0xB8A);
    (0xB8E, 0xB90); (0xB92, 0xB95); (0xB99, 0xB9A); (0xB9C, 0xB9C);
    (0xB9E, 0xB9F); (0xBA3, 0xBA4); (0xBA8, 0xBAA); (0xBAE, 0xBB9);
    (0xBD0, 0xBD0); (0xBE6, 0xBF2); (0xC05, 0xC0C); (0xC0E, 0xC10);
    (0xC12, 0xC28); (0xC2A, 0xC39); (0xC3D, 0xC3D); (0xC58, 0xC5A);
    (0xC5D, 0xC5D); (0xC60, 0xC61); (0xC66, 0xC6F); (0xC78, 0xC7E);
    (0xC80, 0xC80); (0xC85, 0xC8C); (0xC8E, 0xC90); (0xC92, 0xCA8);
    (0xCAA, 0xCB3); (0xCB5, 0xCB9); (0xCBD, 0xCBD); (0xCDD, 0xCDE);
    (0xCE0, 0xCE1); (0xCE6, 0xCEF); (0xCF1, 0xCF2); (0xD04, 0xD0C);
    (0xD0E, 0xD10); (0xD12, 0xD3A); (0xD3D, 0xD3D); (0xD4E, 0xD4E);
    (0xD54, 0xD56); (0xD58, 0xD61); (0xD66, 0xD78); (0xD7A, 0xD7F);
    (0xD85, 0xD96); (0xD9A, 0xDB1); (0xDB3, 0xDBB); (0xDBD, 0xDBD);
    (0xDC0, 0xDC6); (0xDE6, 0xDEF); (0xE01, 0xE30); (0xE32, 0xE33);
    (0xE40, 0xE46); (0xE50, 0xE59); (0xE81, 0xE82); (0xE84, 0xE84);
    (0xE86, 0xE8A); (0xE8C, 0xEA3); (0xEA5, 0xEA5); (0xEA7, 0xEB0);
    (0xEB2, 0xEB3); (0xEBD, 0xEBD); (0xEC0, 0xEC4); (0xEC6, 0xEC6);
    (0xED0, 0xED9); (0xEDC, 0xEDF); (0xF00, 0xF00); (0xF20, 0xF33);
    (0xF40, 0xF47); (0xF49, 0xF6C); (0xF88, 0xF8C); (0x1000, 0x102A);
    (0x103F, 0x1049); (0x1050, 0x1055); (0x105A, 0x105D); (0x1061, 0x1061);
    (0x1065, 0x1066); (0x106E, 0x1070); (0x1075, 0x1081); (0x108E, 0x108E);
    (0x1090, 0x1099); (0x10A0, 0x10C5); (0x10C7, 0x10C7); (0x10CD, 0x10CD);
    (0x10D0, 0x10FA); (0x10FC, 0x1248); (0x124A, 0x124D); (0x1250, 0x1256);
    (0x1258, 0x1258); (0x125A, 0x125D); (0x1260, 0x1288); (0x128A, 0x128D);
    (0x1290, 0x12B0); (0x12B2, 0x12B5); (0x12B8, 0x12BE); (0x12C0, 0x12C0);
    (0x12C2, 0x12C5); (0x12C8, 0x12D6); (0x12D8, 0x1310); (0x1312, 0x1315);
    (0x1318, 0x135A); (0x1369, 0x137C); (0x1380, 0x138F); (0x13A0, 0x13F5);
    (0x13F8, 0x13FD); (0x1401, 0x166C); (0x166F, 0x167F); (0x1681, 0x169A);
    (0x16A0, 0x16EA); (0x16EE, 0x16F8); (0x1700, 0x1711); (0x171F, 0x1731);
    (0x1740, 0x1751); (0x1760, 0x176C); (0x176E, 0x1770); (0x1780, 0x17B3);
    (0x17D7, 0x17D7); (0x17DC, 0x17DC); (0x17E0, 0x17E9); (0x17F0, 0x17F9);
    (0x1810, 0x1819); (0x1820, 0x1878); (0x1880, 0x1884); (0x1887, 0x18A8);
    (0x18AA, 0x18AA); (0x18B0, 0x18F5); (0x1900, 0x191E); (0x1946, 0x196D);
    (0x1970, 0x1974); (0x1980, 0x19AB); (0x19B0, 0x19C9); (0x19D0, 0x19DA);
    (0x1A00, 0x1A16); (0x1A20, 0x1A54); (0x1A80, 0x1A89); (0x1A90, 0x1A99);
    (0x1AA7, 0x1AA7); (0x1B05, 0x1B33); (0x1B45, 0x1B4C); (0x1B50, 0x1B59);
    (0x1B83, 0x1BA0); (0x1BAE, 0x1BE5); (0x1C00, 0x1C23); (0x1C40, 0x1C49);
    (0x1C4D, 0x1C7D); (0x1C80, 0x1C88); (0x1C90, 0x1CBA); (0x1CBD, 0x1CBF);
    (0x1CE9, 0x1CEC); (0x1CEE, 0x1CF3); (0x1CF5, 0x1CF6); (0x1CFA, 0x1CFA);
    (0x1D00, 0x1DBF); (0x1E00, 0x1F15); (0x1F18, 0x1F1D); (0x1F20, 0x1F45);
    (0x1F48, 0x1F4D); (0x1F50, 0x1F57); (0x1F59, 0x1F59); (0x1F5B, 0x1F5B);
    (0x1F5D, 0x1F5D); (0x1F5F, 0x1F7D); (0x1F80, 0x1FB4); (0x1FB6, 0x1FBC);
    (0x1FBE, 0x1FBE); (0x1FC2, 0x1FC4); (0x1FC6, 0x1FCC); (0x1FD0, 0x1FD3);
    (0x1FD6, 0x1FDB); (0x1FE0, 0x1FEC); (0x1FF2, 0x1FF4); (0x1FF6, 0x1FFC);
    (0x2070, 0x2071); (0x2074, 0x2079); (0x207F, 0x2089); (0x2090, 0x209C);
    (0x2102, 0x2102); (0x2107, 0x2107); (0x210A, 0x2113); (0x2115, 0x2115);
    (0x2119, 0x211D); (0x2124, 0x2124); (0x2126, 0x2126); (0x2128, 0x2128);
    (0x212A, 0x212D); (0x212F, 0x2139); (0x213C, 0x213F); (0x2145, 0x2149);
    (0x214E, 0x214E); (0x2150, 0x2189); (0x2460, 0x249B); (0x24EA, 0x24FF);
    (0x2776, 0x2793); (0x2C00, 0x2CE4); (0x2CEB, 0x2CEE); (0x2CF2, 0x2CF3);
    (0x2CFD, 0x2CFD); (0x2D00, 0x2D25); (0x2D27, 0x2D27); (0x2D2D, 0x2D2D);
    (0x2D30, 0x2D67); (0x2D6F, 0x2D6F); (0x2D80, 0x2D96); (0x2DA0, 0x2DA6);
    (0x2DA8, 0x2DAE); (0x2DB0, 0x2DB6); (0x2DB8, 0x2DBE); (0x2DC0, 0x2DC6);
    (0x2DC8, 0x2DCE); (0x2DD0, 0x2DD6); (0x2DD8, 0x2DDE); (0x2E2F, 0x2E2F);
    (0x3005, 0x3007); (0x3021, 0x3029); (0x3031, 0x3035); (0x3038, 0x303C);
    (0x3041, 0x3096); (0x309D, 0x309F); (0x30A1, 0x30FA); (0x30FC, 0x30FF);
    (0x3105, 0x312F); (0x3131, 0x318E); (0x3192, 0x3195); (0x31A0, 0x31BF);
    (0x31F0, 0x31FF); (0x3220, 0x3229); (0x3248, 0x324F); (0x3251, 0x325F);
    (0x3280, 0x3289); (0x32B1, 0x32BF); (0x3400, 0x4DBF); (0x4E00, 0xA48C);
    (0xA4D0, 0xA4FD); (0xA500, 0xA60C); (0xA610, 0xA62B); (0xA640, 0xA66E);
    (0xA67F, 0xA69D); (0xA6A0, 0xA6EF); (0xA717, 0xA71F); (0xA722, 0xA788);
    (0xA78B, 0xA7CA); (0xA7D0, 0xA7D1); (0xA7D3, 0xA7D3); (0xA7D5, 0xA7D9);
    (0xA7F2, 0xA801); (0xA803, 0xA805); (0xA807, 0xA80A); (0xA80C, 0xA822);
    (0xA830, 0xA835); (0xA840, 0xA873); (0xA882, 0xA8B3); (0xA8D0, 0xA8D9);
    (0xA8F2, 0xA8F7); (0xA8FB, 0xA8FB); (0xA8FD, 0xA8FE); (0xA900, 0xA925);
    (0xA930, 0xA946); (0xA960, 0xA97C); (0xA984, 0xA9B2); (0xA9CF, 0xA9D9);
    (0xA9E0, 0xA9E4); (0xA9E6, 0xA9FE); (0xAA00, 0xAA28); (0xAA40, 0xAA42);
    (0xAA44, 0xAA4B); (0xAA50, 0xAA59); (0xAA60, 0xAA76); (0xAA7A, 0xAA7A);
    (0xAA7E, 0xAAAF); (0xAAB1, 0xAAB1); (0xAAB5, 0xAAB6); (0xAAB9, 0xAABD);
    (0xAAC0, 0xAAC0); (0xAAC2, 0xAAC2); (0xAADB, 0xAADD); (0xAAE0, 0xAAEA);
    (0xAAF2, 0xAAF4); (0xAB01, 0xAB06); (0xAB09, 0xAB0E); (0xAB11, 0xAB16);
    (0xAB20, 0xAB26); (0xAB28, 0xAB2E); (0xAB30, 0xAB5A); (0xAB5C, 0xAB69);
    (0xAB70, 0xABE2); (0xABF0, 0xABF9); (0xAC00, 0xD7A3); (0xD7B0, 0xD7C6);
    (0xD7CB, 0xD7FB); (0xF900, 0xFA6D); (0xFA70, 0xFAD9); (0xFB00, 0xFB06);
    (0xFB13, 0xFB17); (0xFB1D, 0xFB1D); (0xFB1F, 0xFB28); (0xFB2A, 0xFB36);
    (0xFB38, 0xFB3C); (0xFB3E, 0xFB3E); (0xFB40, 0xFB41); (0xFB43, 0xFB44);
    (0xFB46, 0xFBB1); (0xFBD3, 0xFD3D); (0xFD50, 0xFD8F); (0xFD92, 0xFDC7);
    (0xFDF0, 0xFDFB); (0xFE70, 0xFE74); (0xFE76, 0xFEFC); (0xFF10, 0xFF19);
    (0xFF21, 0xFF3A); (0xFF41, 0xFF5A); (0xFF66, 0xFFBE); (0xFFC2, 0xFFC7);
    (0xFFCA, 0xFFCF); (0xFFD2, 0xFFD7); (0xFFDA, 0xFFDC);
    (0x10000, 0x1000B); (0x1000D, 0x10026); (0x10028, 0x1003A);
    (0x1003C, 0x1003D); (0x1003F, 0x1004D); (0x10050, 0x1005D);
    (0x10080, 0x100FA); (0x10107, 0x10133); (0x10140, 0x10178);
    (0x1018A, 0x1018B); (0x10280, 0x1029C); (0x102A0, 0x102D0);
    (0x102E1, 0x102FB); (0x10300, 0x10323); (0x1032D, 0x1034A);
    (0x10350, 0x10375); (0x10380, 0x1039D); (0x103A0, 0x103C3);
    (0x103C8, 0x103CF); (0x103D1, 0x103D5); (0x10400, 0x1049D);
    (0x104A0, 0x104A9); (0x104B0, 0x104D3); (0x104D8, 0x104FB);
    (0x10500, 0x10527); (0x10530, 0x10563); (0x10570, 0x1057A);
    (0x1057C, 0x1058A); (0x1058C, 0x10592); (0x10594, 0x10595);
    (0x10597, 0x105A1); (0x105A3, 0x105B1); (0x105B3, 0x105B9);
    (0x105BB, 0x105BC); (0x10600, 0x10736); (0x10740, 0x10755);
    (0x10760, 0x10767); (0x10780, 0x10785); (0x10787, 0x107B0);
    (0x107B2, 0x107BA); (0x10800, 0x10805); (0x10808, 0x10808);
    (0x1080A, 0x10835); (0x10837, 0x10838); (0x1083C, 0x1083C);
    (0x1083F, 0x10855); (0x10858, 0x10876); (0x10879, 0x1089E);
    (0x108A7, 0x108AF); (0x108E0, 0x108F2); (0x108F4, 0x108F5);
    (0x108FB, 0x1091B); (0x10920, 0x10939); (0x10980, 0x109B7);
    (0x109BC, 0x109CF); (0x109D2, 0x10A00); (0x10A10, 0x10A13);
    (0x10A15, 0x10A17); (0x10A19, 0x10A35); (0x10A40, 0x10A48);
    (0x10A60, 0x10A7E); (0x10A80, 0x10A9F); (0x10AC0, 0x10AC7);
    (0x10AC9, 0x10AE4); (0x10AEB, 0x10AEF); (0x10B00, 0x10B35);
    (0x10B40, 0x10B55); (0x10B58, 0x10B72); (0x10B78, 0x10B91);
    (0x10BA9, 0x10BAF); (0x10C00, 0x10C48); (0x10C80, 0x10CB2);
    (0x10CC0, 0x10CF2); (0x10CFA, 0x10D23); (0x10D30, 0x10D39);
    (0x10E60, 0x10E7E); (0x10E80, 0x10EA9); (0x10EB0, 0x10EB1);
    (0x10F00, 0x10F27); (0x10F30, 0x10F45); (0x10F51, 0x10F54);
    (0x10F70, 0x10F81); (0x10FB0, 0x10FCB); (0x10FE0, 0x10FF6);
    (0x11003, 0x11037); (0x11052, 0x1106F); (0x11071, 0x11072);
    (0x11075, 0x11075); (0x11083, 0x110AF); (0x110D0, 0x110E8);
    (0x110F0, 0x110F9); (0x11103, 0x11126); (0x11136, 0x1113F);
    (0x11144, 0x11144); (0x11147, 0x11147); (0x11150, 0x11172);
    (0x11176, 0x11176); (0x11183, 0x111B2); (0x111C1, 0x111C4);
    (0x111D0, 0x111DA); (0x111DC, 0x111DC); (0x111E1, 0x111F4);
    (0x11200, 0x11211); (0x11213, 0x1122B); (0x11280, 0x11286);
    (0x11288, 0x11288); (0x1128A, 0x1128D); (0x1128F, 0x1129D);
    (0x1129F, 0x112A8); (0x112B0, 0x112DE); (0x112F0, 0x112F9);
    (0x11305, 0x1130C); (0x1130F, 0x11310); (0x11313, 0x11328);
    (0x1132A, 0x11330); (0x11332, 0x11333); (0x11335, 0x11339);
    (0x1133D, 0x1133D); (0x11350, 0x11350); (0x1135D, 0x11361);
    (0x11400, 0x11434); (0x11447, 0x1144A); (0x11450, 0x11459);
    (0x1145F, 0x11461); (0x11480, 0x114AF); (0x114C4, 0x114C5);
    (0x114C7, 0x114C7); (0x114D0, 0x114D9); (0x11580, 0x115AE);
    (0x115D8, 0x115DB); (0x11600, 0x1162F); (0x11644, 0x11644);
    (0x11650, 0x11659); (0x11680, 0x116AA); (0x116B8, 0x116B8);
    (0x116C0, 0x116C9); (0x11700, 0x1171A); (0x11730, 0x1173B);
    (0x11740, 0x11746); (0x11800, 0x1182B); (0x118A0, 0x118F2);
    (0x118FF, 0x11906); (0x11909, 0x11909); (0x1190C, 0x11913);
    (0x11915, 0x11916); (0x11918, 0x1192F); (0x1193F, 0x1193F);
    (0x11941, 0x11941); (0x11950, 0x11959); (0x119A0, 0x119A7);
    (0x119AA, 0x119D0); (0x119E1, 0x119E1); (0x119E3, 0x119E3);
    (0x11A00, 0x11A00); (0x11A0B, 0x11A32); (0x11A3A, 0x11A3A);
    (0x11A50, 0x11A50); (0x11A5C, 0x11A89); (0x11A9D, 0x11A9D);
    (0x11AB0, 0x11AF8); (0x11C00, 0x11C08); (0x11C0A, 0x11C2E);
    (0x11C40, 0x11C40); (0x11C50, 0x11C6C); (0x11C72, 0x11C8F);
    (0x11D00, 0x11D06); (0x11D08, 0x11D09); (0x11D0B, 0x11D30);
    (0x11D46, 0x11D46); (0x11D50, 0x11D59); (0x11D60, 0x11D65);
    (0x11D67, 0x11D68); (0x11D6A, 0x11D89); (0x11D98, 0x11D98);
    (0x11DA0, 0x11DA9); (0x11EE0, 0x11EF2); (0x11FB0, 0x11FB0);
    (0x11FC0, 0x11FD4); (0x12000, 0x12399); (0x12400, 0x1246E);
    (0x12480, 0x12543); (0x12F90, 0x12FF0); (0x13000, 0x1342E);
    (0x14400, 0x14646); (0x16800, 0x16A38); (0x16A40, 0x16A5E);
    (0x16A60, 0x16A69); (0x16A70, 0x16ABE); (0x16AC0, 0x16AC9);
    (0x16AD0, 0x16AED); (0x16B00, 0x16B2F); (0x16B40, 0x16B43);
    (0x16B50, 0x16B59); (0x16B5B, 0x16B61); (0x16B63, 0x16B77);
    (0x16B7D, 0x16B8F); (0x16E40, 0x16E96); (0x16F00, 0x16F4A);
    (0x16F50, 0x16F50); (0x16F93, 0x16F9F); (0x16FE0, 0x16FE1);
    (0x16FE3, 0x16FE3); (0x17000, 0x187F7); (0x18800, 0x18CD5);
    (0x18D00, 0x18D08); (0x1AFF0, 0x1AFF3); (0x1AFF5, 0x1AFFB);
    (0x1AFFD, 0x1AFFE); (0x1B000, 0x1B122); (0x1B150, 0x1B152);
    (0x1B164, 0x1B167); (0x1B170, 0x1B2FB); (0x1BC00, 0x1BC6A);
    (0x1BC70, 0x1BC7C); (0x1BC80, 0x1BC88); (0x1BC90, 0x1BC99);
    (0x1D2E0, 0x1D2F3); (0x1D360, 0x1D378); (0x1D400, 0x1D454);
    (0x1D456, 0x1D49C); (0x1D49E, 0x1D49F); (0x1D4A2, 0x1D4A2);
    (0x1D4A5, 0x1D4A6); (0x1D4A9, 0x1D4AC); (0x1D4AE, 0x1D4B9);
    (0x1D4BB, 0x1D4BB); (0x1D4BD, 0x1D4C3); (0x1D4C5, 0x1D505);
    (0x1D507, 0x1D50A); (0x1D50D, 0x1D514); (0x1D516, 0x1D51C);
    (0x1D51E, 0x1D539); (0x1D53B, 0x1D53E); (0x1D540, 0x1D544);
    (0x1D546, 0x1D546); (0x1D54A, 0x1D550); (0x1D552, 0x1D6A5);
    (0x1D6A8, 0x1D6C0); (0x1D6C2, 0x1D6DA); (0x1D6DC, 0x1D6FA);
    (0x1D6FC, 0x1D714); (0x1D716, 0x1D734); (0x1D736, 0x1D74E);
    (0x1D750, 0x1D76E); (0x1D770, 0x1D788); (0x1D78A, 0x1D7A8);
    (0x1D7AA, 0x1D7C2); (0x1D7C4, 0x1D7CB); (0x1D7CE, 0x1D7FF);
    (0x1DF00, 0x1DF1E); (0x1E100, 0x1E12C); (0x1E137, 0x1E13D);
    (0x1E140, 0x1E149); (0x1E14E, 0x1E14E); (0x1E290, 0x1E2AD);
    (0x1E2C0, 0x1E2EB); (0x1E2F0, 0x1E2F9); (0x1E7E0, 0x1E7E6);
    (0x1E7E8, 0x1E7EB); (0x1E7ED, 0x1E7EE); (0x1E7F0, 0x1E7FE);
    (0x1E800, 0x1E8C4); (0x1E8C7, 0x1E8CF); (0x1E900, 0x1E943);
    (0x1E94B, 0x1E94B); (0x1E950, 0x1E959); (0x1EC71, 0x1ECAB);
    (0x1ECAD, 0x1ECAF); (0x1ECB1, 0x1ECB4); (0x1ED01, 0x1ED2D);
    (0x1ED2F, 0x1ED3D); (0x1EE00, 0x1EE03); (0x1EE05, 0x1EE1F);
    (0x1EE21, 0x1EE22); (0x1EE24, 0x1EE24); (0x1EE27, 0x1EE27);
    (0x1EE29, 0x1EE32); (0x1EE34, 0x1EE37); (0x1EE39, 0x1EE39);
    (0x1EE3B, 0x1EE3B); (0x1EE42, 0x1EE42); (0x1EE47, 0x1EE47);
    (0x1EE49, 0x1EE49); (0x1EE4B, 0x1EE4B); (0x1EE4D, 0x1EE4F);
    (0x1EE51, 0x1EE52); (0x1EE54, 0x1EE54); (0x1EE57, 0x1EE57);
    (0x1EE59, 0x1EE59); (0x1EE5B, 0x1EE5B); (0x1EE5D, 0x1EE5D);
    (0x1EE5F, 0x1EE5F); (0x1EE61, 0x1EE62); (0x1EE64, 0x1EE64);
    (0x1EE67, 0x1EE6A); (0x1EE6C, 0x1EE72); (0x1EE74, 0x1EE77);
    (0x1EE79, 0x1EE7C); (0x1EE7E, 0x1EE7E); (0x1EE80, 0x1EE89);
    (0x1EE8B, 0x1EE9B); (0x1EEA1, 0x1EEA3); (0x1EEA5, 0x1EEA9);
    (0x1EEAB, 0x1EEBB); (0x1F100, 0x1F10C); (0x1FBF0, 0x1FBF9);
    (0x20000, 0x2A6DF); (0x2A700, 0x2B738); (0x2B740, 0x2B81D);
    (0x2B820, 0x2CEA1); (0x2CEB0, 0x2EBE0); (0x2F800, 0x2FA1D);
    (0x30000, 0x3134A) ].

(** [\d] of [re], which is [str.isdecimal]. *)
Definition decimal_ranges : list (N * N) :=
  [ (0x30, 0x39); (0x660, 0x669); (0x6F0, 0x6F9); (0x7C0, 0x7C9);
    (0x966, 0x96F); (0x9E6, 0x9EF); (0xA66, 0xA6F); (0xAE6, 0xAEF);
    (0xB66, 0xB6F); (0xBE6, 0xBEF); (0xC66, 0xC6F); (0xCE6, 0xCEF);
    (0xD66, 0xD6F); (0xDE6, 0xDEF); (0xE50, 0xE59); (0xED0, 0xED9);
    (0xF20, 0xF29); (0x1040, 0x1049); (0x1090, 0x1099); (0x17E0, 0x17E9);
    (0x1810, 0x1819); (0x1946, 0x194F); (0x19D0, 0x19D9); (0x1A80, 0x1A89);
    (0x1A90, 0x1A99); (0x1B50, 0x1B59); (0x1BB0, 0x1BB9); (0x1C40, 0x1C49);
    (0x1C50, 0x1C59); (0xA620, 0xA629); (0xA8D0, 0xA8D9); (0xA900, 0xA909);
    (0xA9D0, 0xA9D9); (0xA9F0, 0xA9F9); (0xAA50, 0xAA59); (0xABF0, 0xABF9);
    (0xFF10, 0xFF19); (0x104A0, 0x104A9); (0x10D30, 0x10D39);
    (0x11066, 0x1106F); (0x110F0, 0x110F9); (0x11136, 0x1113F);
    (0x111D0, 0x111D9); (0x112F0, 0x112F9); (0x11450, 0x11459);
    (0x114D0, 0x114D9); (0x11650, 0x11659); (0x116C0, 0x116C9);
    (0x11730, 0x11739); (0x118E0, 0x118E9); (0x11950, 0x11959);
    (0x11C50, 0x11C59); (0x11D50, 0x11D59); (0x11DA0, 0x11DA9);
    (0x16A60, 0x16A69); (0x16AC0, 0x16AC9); (0x16B50, 0x16B59);
    (0x1D7CE, 0x1D7FF); (0x1E140, 0x1E149); (0x1E2F0, 0x1E2F9);
    (0x1E950, 0x1E959); (0x1FBF0, 0x1FBF9) ].

(** [str.isdigit]. *)
Definition digit_ranges : list (N * N) :=
  [ (0x30, 0x39); (0xB2, 0xB3); (0xB9, 0xB9); (0x660, 0x669);
    (0x6F0, 0x6F9); (0x7C0, 0x7C9); (0x966, 0x96F); (0x9E6, 0x9EF);
    (0xA66, 0xA6F); (0xAE6, 0xAEF); (0xB66, 0xB6F); (0xBE6, 0xBEF);
    (0xC66, 0xC6F); (0xCE6, 0xCEF); (0xD66, 0xD6F); (0xDE6, 0xDEF);
    (0xE50, 0xE59); (0xED0, 0xED9); (0xF20, 0xF29); (0x1040, 0x1049);
    (0x1090, 0x1099); (0x1369, 0x1371); (0x17E0, 0x17E9); (0x1810, 0x1819);
    (0x1946, 0x194F); (0x19D0, 0x19DA); (0x1A80, 0x1A89); (0x1A90, 0x1A99);
    (0x1B50, 0x1B59); (0x1BB0, 0x1BB9); (0x1C40, 0x1C49); (0x1C50, 0x1C59);
    (0x2070, 0x2070); (0x2074, 0x2079); (0x2080, 0x2089); (0x2460, 0x2468);
    (0x2474, 0x247C); (0x2488, 0x2490); (0x24EA, 0x24EA); (0x24F5, 0x24FD);
    (0x24FF, 0x24FF); (0x2776, 0x277E); (0x2780, 0x2788); (0x278A, 0x2792);
    (0xA620, 0xA629); (0xA8D0, 0xA8D9); (0xA900, 0xA909); (0xA9D0, 0xA9D9);
    (0xA9F0, 0xA9F9); (0xAA50, 0xAA59); (0xABF0, 0xABF9); (0xFF10, 0xFF19);
    (0x104A0, 0x104A9); (0x10A40, 0x10A43); (0x10D30, 0x10D39);
    (0x10E60, 0x10E68); (0x11052, 0x1105A); (0x11066, 0x1106F);
    (0x110F0, 0x110F9); (0x11136, 0x1113F); (0x111D0, 0x111D9);
    (0x112F0, 0x112F9); (0x11450, 0x11459); (0x114D0, 0x114D9);
    (0x11650, 0x11659); (0x116C0, 0x116C9); (0x11730, 0x11739);
    (0x118E0, 0x118E9); (0x11950, 0x11959); (0x11C50, 0x11C59);
    (0x11D50, 0x11D59); (0x11DA0, 0x11DA9); (0x16A60, 0x16A69);
    (0x16AC0, 0x16AC9); (0x16B50, 0x16B59); (0x1D7CE, 0x1D7FF);
    (0x1E140, 0x1E149); (0x1E2F0, 0x1E2F9); (0x1E950, 0x1E959);
    (0x1F100, 0x1F10A); (0x1FBF0, 0x1FBF9) ].

(** [str.isspace], which is also [\s] of [re]. *)
Definition space_ranges : list (N * N) :=
  [ (0x9, 0xD); (0x1C, 0x20); (0x85, 0x85); (0xA0, 0xA0); (0x1680, 0x1680);
    (0x2000, 0x200A); (0x2028, 0x2029); (0x202F, 0x202F); (0x205F, 0x205F);
    (0x3000, 0x3000) ].

(** The cased characters: [str.islower], [str.isupper] or [str.istitle]. *)
Definition cased_ranges : list (N * N) :=
  [ (0x41, 0x5A); (0x61, 0x7A); (0xAA, 0xAA); (0xB5, 0xB5); (0xBA, 0xBA);
    (0xC0, 0xD6); (0xD8, 0xF6); (0xF8, 0x1BA); (0x1BC, 0x1BF);
    (0x1C4, 0x293); (0x295, 0x2B8); (0x2C0, 0x2C1); (0x2E0, 0x2E4);
    (0x345, 0x345); (0x370, 0x373); (0x376, 0x377); (0x37A, 0x37D);
    (0x37F, 0x37F); (0x386, 0x386); (0x388, 0x38A); (0x38C, 0x38C);
    (0x38E, 0x3A1); (0x3A3, 0x3F5); (0x3F7, 0x481); (0x48A, 0x52F);
    (0x531, 0x556); (0x560, 0x588); (0x10A0, 0x10C5); (0x10C7, 0x10C7);
    (0x10CD, 0x10CD); (0x10D0, 0x10FA); (0x10FD, 0x10FF); (0x13A0, 0x13F5);
    (0x13F8, 0x13FD); (0x1C80, 0x1C88); (0x1C90, 0x1CBA); (0x1CBD, 0x1CBF);
    (0x1D00, 0x1DBF); (0x1E00, 0x1F15); (0x1F18, 0x1F1D); (0x1F20, 0x1F45);
    (0x1F48, 0x1F4D); (0x1F50, 0x1F57); (0x1F59, 0x1F59); (0x1F5B, 0x1F5B);
    (0x1F5D, 0x1F5D); (0x1F5F, 0x1F7D); (0x1F80, 0x1FB4); (0x1FB6, 0x1FBC);
    (0x1FBE, 0x1FBE); (0x1FC2, 0x1FC4); (0x1FC6, 0x1FCC); (0x1FD0, 0x1FD3);
    (0x1FD6, 0x1FDB); (0x1FE0, 0x1FEC); (0x1FF2, 0x1FF4); (0x1FF6, 0x1FFC);
    (0x2071, 0x2071); (0x207F, 0x207F); (0x2090, 0x209C); (0x2102, 0x2102);
    (0x2107, 0x2107); (0x210A, 0x2113); (0x2115, 0x2115); (0x2119, 0x211D);
    (0x2124, 0x2124); (0x2126, 0x2126); (0x2128, 0x2128); (0x212A, 0x212D);
    (0x212F, 0x2134); (0x2139, 0x2139); (0x213C, 0x213F); (0x2145, 0x2149);
    (0x214E, 0x214E); (0x2160, 0x217F); (0x2183, 0x2184); (0x24B6, 0x24E9);
    (0x2C00, 0x2CE4); (0x2CEB, 0x2CEE); (0x2CF2, 0x2CF3); (0x2D00, 0x2D25);
    (0x2D27, 0x2D27); (0x2D2D, 0x2D2D); (0xA640, 0xA66D); (0xA680, 0xA69D);
    (0xA722, 0xA787); (0xA78B, 0xA78E); (0xA790, 0xA7CA); (0xA7D0, 0xA7D1);
    (0xA7D3, 0xA7D3); (0xA7D5, 0xA7D9); (0xA7F5, 0xA7F6); (0xA7F8, 0xA7FA);
    (0xAB30, 0xAB5A); (0xAB5C, 0xAB68); (0xAB70, 0xABBF); (0xFB00, 0xFB06);
    (0xFB13, 0xFB17); (0xFF21, 0xFF3A); (0xFF41, 0xFF5A);
    (0x10400, 0x1044F); (0x104B0, 0x104D3); (0x104D8, 0x104FB);
    (0x10570, 0x1057A); (0x1057C, 0x1058A); (0x1058C, 0x10592);
    (0x10594, 0x10595); (0x10597, 0x105A1); (0x105A3, 0x105B1);
    (0x105B3, 0x105B9); (0x105BB, 0x105BC); (0x10780, 0x10780);
    (0x10783, 0x10785); (0x10787, 0x107B0); (0x107B2, 0x107BA);
    (0x10C80, 0x10CB2); (0x10CC0, 0x10CF2); (0x118A0, 0x118DF);
    (0x16E40, 0x16E7F); (0x1D400, 0x1D454); (0x1D456, 0x1D49C);
    (0x1D49E, 0x1D49F); (0x1D4A2, 0x1D4A2); (0x1D4A5, 0x1D4A6);
    (0x1D4A9, 0x1D4AC); (0x1D4AE, 0x1D4B9); (0x1D4BB, 0x1D4BB);
    (0x1D4BD, 0x1D4C3); (0x1D4C5, 0x1D505); (0x1D507, 0x1D50A);
    (0x1D50D, 0x1D514); (0x1D516, 0x1D51C); (0x1D51E, 0x1D539);
    (0x1D53B, 0x1D53E); (0x1D540, 0x1D544); (0x1D546, 0x1D546);
    (0x1D54A, 0x1D550); (0x1D552, 0x1D6A5); (0x1D6A8, 0x1D6C0);
    (0x1D6C2, 0x1D6DA); (0x1D6DC, 0x1D6FA); (0x1D6FC, 0x1D714);
    (0x1D716, 0x1D734); (0x1D736, 0x1D74E); (0x1D750, 0x1D76E);
    (0x1D770, 0x1D788); (0x1D78A, 0x1D7A8); (0x1D7AA, 0x1D7C2);
    (0x1D7C4, 0x1D7CB); (0x1DF00, 0x1DF09); (0x1DF0B, 0x1DF1E);
    (0x1E900, 0x1E943); (0x1F130, 0x1F149); (0x1F150, 0x1F169);
    (0x1F170, 0x1F189) ].

(** The case-ignorable characters, which [str.lower] skips when it looks
    for the end of a word around U+03A3. *)
Definition case_ignorable_ranges : list (N * N) :=
  [ (0x27, 0x27); (0x2E, 0x2E); (0x3A, 0x3A); (0x5E, 0x5E); (0x60, 0x60);
    (0xA8, 0xA8); (0xAD, 0xAD); (0xAF, 0xAF); (0xB4, 0xB4); (0xB7, 0xB8);
    (0x2B0, 0x36F); (0x374, 0x375); (0x37A, 0x37A); (0x384, 0x385);
    (0x387, 0x387); (0x483, 0x489); (0x559, 0x559); (0x55F, 0x55F);
    (0x591, 0x5BD); (0x5BF, 0x5BF); (0x5C1, 0x5C2); (0x5C4, 0x5C5);
    (0x5C7, 0x5C7); (0x5F4, 0x5F4); (0x600, 0x605); (0x610, 0x61A);
    (0x61C, 0x61C); (0x640, 0x640); (0x64B, 0x65F); (0x670, 0x670);
    (0x6D6, 0x6DD); (0x6DF, 0x6E8); (0x6EA, 0x6ED); (0x70F, 0x70F);
    (0x711, 0x711); (0x730, 0x74A); (0x7A6, 0x7B0); (0x7EB, 0x7F5);
    (0x7FA, 0x7FA); (0x7FD, 0x7FD); (0x816, 0x82D); (0x859, 0x85B);
    (0x888, 0x888); (0x890, 0x891); (0x898, 0x89F); (0x8C9, 0x902);
    (0x93A, 0x93A); (0x93C, 0x93C); (0x941, 0x948); (0x94D, 0x94D);
    (0x951, 0x957); (0x962, 0x963); (0x971, 0x971); (0x981, 0x981);
    (0x9BC, 0x9BC); (0x9C1, 0x9C4); (0x9CD, 0x9CD); (0x9E2, 0x9E3);
    (0x9FE, 0x9FE); (0xA01, 0xA02); (0xA3C, 0xA3C); (0xA41, 0xA42);
    (0xA47, 0xA48); (0xA4B, 0xA4D); (0xA51, 0xA51); (0xA70, 0xA71);
    (0xA75, 0xA75); (0xA81, 0xA82); (0xABC, 0xABC); (0xAC1, 0xAC5);
    (0xAC7, 0xAC8); (0xACD, 0xACD); (0xAE2, 0xAE3); (0xAFA, 0xAFF);
    (0xB01, 0xB01); (0xB3C, 0xB3C); (0xB3F, 0xB3F); (0xB41, 0xB44);
    (0xB4D, 0xB4D); (0xB55, 0xB56); (0xB62, 0xB63); (0xB82, 0xB82);
    (0xBC0, 0xBC0); (0xBCD, 0xBCD); (0xC00, 0xC00); (0xC04, 0xC04);
    (0xC3C, 0xC3C); (0xC3E, 0xC40); (0xC46, 0xC48); (0xC4A, 0xC4D);
    (0xC55, 0xC56); (0xC62, 0xC63); (0xC81, 0xC81); (0xCBC, 0xCBC);
    (0xCBF, 0xCBF); (0xCC6, 0xCC6); (0xCCC, 0xCCD); (0xCE2, 0xCE3);
    (0xD00, 0xD01); (0xD3B, 0xD3C); (0xD41, 0xD44); (0xD4D, 0xD4D);
    (0xD62, 0xD63); (0xD81, 0xD81); (0xDCA, 0xDCA); (0xDD2, 0xDD4);
    (0xDD6, 0xDD6); (0xE31, 0xE31); (0xE34, 0xE3A); (0xE46, 0xE4E);
    (0xEB1, 0xEB1); (0xEB4, 0xEBC); (0xEC6, 0xEC6); (0xEC8, 0xECD);
    (0xF18, 0xF19); (0xF35, 0xF35); (0xF37, 0xF37); (0xF39, 0xF39);
    (0xF71, 0xF7E); (0xF80, 0xF84); (0xF86, 0xF87); (0xF8D, 0xF97);
    (0xF99, 0xFBC); (0xFC6, 0xFC6); (0x102D, 0x1030); (0x1032, 0x1037);
    (0x1039, 0x103A); (0x103D, 0x103E); (0x1058, 0x1059); (0x105E, 0x1060);
    (0x1071, 0x1074); (0x1082, 0x1082); (0x1085, 0x1086); (0x108D, 0x108D);
    (0x109D, 0x109D); (0x10FC, 0x10FC); (0x135D, 0x135F); (0x1712, 0x1714);
    (0x1732, 0x1733); (0x1752, 0x1753); (0x1772, 0x1773); (0x17B4, 0x17B5);
    (0x17B7, 0x17BD); (0x17C6, 0x17C6); (0x17C9, 0x17D3); (0x17D7, 0x17D7);
    (0x17DD, 0x17DD); (0x180B, 0x180F); (0x1843, 0x1843); (0x1885, 0x1886);
    (0x18A9, 0x18A9); (0x1920, 0x1922); (0x1927, 0x1928); (0x1932, 0x1932);
    (0x1939, 0x193B); (0x1A17, 0x1A18); (0x1A1B, 0x1A1B); (0x1A56, 0x1A56);
    (0x1A58, 0x1A5E); (0x1A60, 0x1A60); (0x1A62, 0x1A62); (0x1A65, 0x1A6C);
    (0x1A73, 0x1A7C); (0x1A7F, 0x1A7F); (0x1AA7, 0x1AA7); (0x1AB0, 0x1ACE);
    (0x1B00, 0x1B03); (0x1B34, 0x1B34); (0x1B36, 0x1B3A); (0x1B3C, 0x1B3C);
    (0x1B42, 0x1B42); (0x1B6B, 0x1B73); (0x1B80, 0x1B81); (0x1BA2, 0x1BA5);
    (0x1BA8, 0x1BA9); (0x1BAB, 0x1BAD); (0x1BE6, 0x1BE6); (0x1BE8, 0x1BE9);
    (0x1BED, 0x1BED); (0x1BEF, 0x1BF1); (0x1C2C, 0x1C33); (0x1C36, 0x1C37);
    (0x1C78, 0x1C7D); (0x1CD0, 0x1CD2); (0x1CD4, 0x1CE0); (0x1CE2, 0x1CE8);
    (0x1CED, 0x1CED); (0x1CF4, 0x1CF4); (0x1CF8, 0x1CF9); (0x1D2C, 0x1D6A);
    (0x1D78, 0x1D78); (0x1D9B, 0x1DFF); (0x1FBD, 0x1FBD); (0x1FBF, 0x1FC1);
    (0x1FCD, 0x1FCF); (0x1FDD, 0x1FDF); (0x1FED, 0x1FEF); (0x1FFD, 0x1FFE);
    (0x200B, 0x200F); (0x2018, 0x2019); (0x2024, 0x2024); (0x2027, 0x2027);
    (0x202A, 0x202E); (0x2060, 0x2064); (0x2066, 0x206F); (0x2071, 0x2071);
    (0x207F, 0x207F); (0x2090, 0x209C); (0x20D0, 0x20F0); (0x2C7C, 0x2C7D);
    (0x2CEF, 0x2CF1); (0x2D6F, 0x2D6F); (0x2D7F, 0x2D7F); (0x2DE0, 0x2DFF);
    (0x2E2F, 0x2E2F); (0x3005, 0x3005); (0x302A, 0x302D); (0x3031, 0x3035);
    (0x303B, 0x303B); (0x3099, 0x309E); (0x30FC, 0x30FE); (0xA015, 0xA015);
    (0xA4F8, 0xA4FD); (0xA60C, 0xA60C); (0xA66F, 0xA672); (0xA674, 0xA67D);
    (0xA67F, 0xA67F); (0xA69C, 0xA69F); (0xA6F0, 0xA6F1); (0xA700, 0xA721);
    (0xA770, 0xA770); (0xA788, 0xA78A); (0xA7F2, 0xA7F4); (0xA7F8, 0xA7F9);
    (0xA802, 0xA802); (0xA806, 0xA806); (0xA80B, 0xA80B); (0xA825, 0xA826);
    (0xA82C, 0xA82C); (0xA8C4, 0xA8C5); (0xA8E0, 0xA8F1); (0xA8FF, 0xA8FF);
    (0xA926, 0xA92D); (0xA947, 0xA951); (0xA980, 0xA982); (0xA9B3, 0xA9B3);
    (0xA9B6, 0xA9B9); (0xA9BC, 0xA9BD); (0xA9CF, 0xA9CF); (0xA9E5, 0xA9E6);
    (0xAA29, 0xAA2E); (0xAA31, 0xAA32); (0xAA35, 0xAA36); (0xAA43, 0xAA43);
    (0xAA4C, 0xAA4C); (0xAA70, 0xAA70); (0xAA7C, 0xAA7C); (0xAAB0, 0xAAB0);
    (0xAAB2, 0xAAB4); (0xAAB7, 0xAAB8); (0xAABE, 0xAABF); (0xAAC1, 0xAAC1);
    (0xAADD, 0xAADD); (0xAAEC, 0xAAED); (0xAAF3, 0xAAF4); (0xAAF6, 0xAAF6);
    (0xAB5B, 0xAB5F); (0xAB69, 0xAB6B); (0xABE5, 0xABE5); (0xABE8, 0xABE8);
    (0xABED, 0xABED); (0xFB1E, 0xFB1E); (0xFBB2, 0xFBC2); (0xFE00, 0xFE0F);
    (0xFE13, 0xFE13); (0xFE20, 0xFE2F); (0xFE52, 0xFE52); (0xFE55, 0xFE55);
    (0xFEFF, 0xFEFF); (0xFF07, 0xFF07); (0xFF0E, 0xFF0E); (0xFF1A, 0xFF1A);
    (0xFF3E, 0xFF3E); (0xFF40, 0xFF40); (0xFF70, 0xFF70); (0xFF9E, 0xFF9F);
    (0xFFE3, 0xFFE3); (0xFFF9, 0xFFFB); (0x101FD, 0x101FD);
    (0x102E0, 0x102E0); (0x10376, 0x1037A); (0x10780, 0x10785);
    (0x10787, 0x107B0); (0x107B2, 0x107BA); (0x10A01, 0x10A03);
    (0x10A05, 0x10A06); (0x10A0C, 0x10A0F); (0x10A38, 0x10A3A);
    (0x10A3F, 0x10A3F); (0x10AE5, 0x10AE6); (0x10D24, 0x10D27);
    (0x10EAB, 0x10EAC); (0x10F46, 0x10F50); (0x10F82, 0x10F85);
    (0x11001, 0x11001); (0x11038, 0x11046); (0x11070, 0x11070);
    (0x11073, 0x11074); (0x1107F, 0x11081); (0x110B3, 0x110B6);
    (0x110B9, 0x110BA); (0x110BD, 0x110BD); (0x110C2, 0x110C2);
    (0x110CD, 0x110CD); (0x11100, 0x11102); (0x11127, 0x1112B);
    (0x1112D, 0x11134); (0x11173, 0x11173); (0x11180, 0x11181);
    (0x111B6, 0x111BE); (0x111C9, 0x111CC); (0x111CF, 0x111CF);
    (0x1122F, 0x11231); (0x11234, 0x11234); (0x11236, 0x11237);
    (0x1123E, 0x1123E); (0x112DF, 0x112DF); (0x112E3, 0x112EA);
    (0x11300, 0x11301); (0x1133B, 0x1133C); (0x11340, 0x11340);
    (0x11366, 0x1136C); (0x11370, 0x11374); (0x11438, 0x1143F);
    (0x11442, 0x11444); (0x11446, 0x11446); (0x1145E, 0x1145E);
    (0x114B3, 0x114B8); (0x114BA, 0x114BA); (0x114BF, 0x114C0);
    (0x114C2, 0x114C3); (0x115B2, 0x115B5); (0x115BC, 0x115BD);
    (0x115BF, 0x115C0); (0x115DC, 0x115DD); (0x11633, 0x1163A);
    (0x1163D, 0x1163D); (0x1163F, 0x11640); (0x116AB, 0x116AB);
    (0x116AD, 0x116AD); (0x116B0, 0x116B5); (0x116B7, 0x116B7);
    (0x1171D, 0x1171F); (0x11722, 0x11725); (0x11727, 0x1172B);
    (0x1182F, 0x11837); (0x11839, 0x1183A); (0x1193B, 0x1193C);
    (0x1193E, 0x1193E); (0x11943, 0x11943); (0x119D4, 0x119D7);
    (0x119DA, 0x119DB); (0x119E0, 0x119E0); (0x11A01, 0x11A0A);
    (0x11A33, 0x11A38); (0x11A3B, 0x11A3E); (0x11A47, 0x11A47);
    (0x11A51, 0x11A56); (0x11A59, 0x11A5B); (0x11A8A, 0x11A96);
    (0x11A98, 0x11A99); (0x11C30, 0x11C36); (0x11C38, 0x11C3D);
    (0x11C3F, 0x11C3F); (0x11C92, 0x11CA7); (0x11CAA, 0x11CB0);
    (0x11CB2, 0x11CB3); (0x11CB5, 0x11CB6); (0x11D31, 0x11D36);
    (0x11D3A, 0x11D3A); (0x11D3C, 0x11D3D); (0x11D3F, 0x11D45);
    (0x11D47, 0x11D47); (0x11D90, 0x11D91); (0x11D95, 0x11D95);
    (0x11D97, 0x11D97); (0x11EF3, 0x11EF4); (0x13430, 0x13438);
    (0x16AF0, 0x16AF4); (0x16B30, 0x16B36); (0x16B40, 0x16B43);
    (0x16F4F, 0x16F4F); (0x16F8F, 0x16F9F); (0x16FE0, 0x16FE1);
    (0x16FE3, 0x16FE4); (0x1AFF0, 0x1AFF3); (0x1AFF5, 0x1AFFB);
    (0x1AFFD, 0x1AFFE); (0x1BC9D, 0x1BC9E); (0x1BCA0, 0x1BCA3);
    (0x1CF00, 0x1CF2D); (0x1CF30, 0x1CF46); (0x1D167, 0x1D169);
    (0x1D173, 0x1D182); (0x1D185, 0x1D18B); (0x1D1AA, 0x1D1AD);
    (0x1D242, 0x1D244); (0x1DA00, 0x1DA36); (0x1DA3B, 0x1DA6C);
    (0x1DA75, 0x1DA75); (0x1DA84, 0x1DA84); (0x1DA9B, 0x1DA9F);
    (0x1DAA1, 0x1DAAF); (0x1E000, 0x1E006); (0x1E008, 0x1E018);
    (0x1E01B, 0x1E021); (0x1E023, 0x1E024); (0x1E026, 0x1E02A);
    (0x1E130, 0x1E13D); (0x1E2AE, 0x1E2AE); (0x1E2EC, 0x1E2EF);
    (0x1E8D0, 0x1E8D6); (0x1E944, 0x1E94B); (0x1F3FB, 0x1F3FF);
    (0xE0001, 0xE0001); (0xE0020, 0xE007F); (0xE0100, 0xE01EF) ].

Definition lower_cp (c : N) : pystr := default [c] (assoc c lower_table).
Definition upper_cp (c : N) : pystr := default [c] (assoc c upper_table).

(** The canonical decomposition of a Hangul syllable into its jamo, which
    Unicode gives by arithmetic. *)
Definition decompose_hangul (c : N) : pystr :=
  let s_index := c - 0xAC00 in
  let l := 0x1100 + s_index / 588 in
  let v := 0x1161 + (s_index mod 588) / 28 in
  let t := 0x11A7 + s_index mod 28 in
  if t =? 0x11A7 then [l; v] else [l; v; t].

Definition decompose_cp (c : N) : pystr :=
  if (0xAC00 <=? c) && (c <=? 0xD7A3) then decompose_hangul c
  else default [c] (assoc c decomposition_table).

(** [unicodedata.combining(c)]. *)
Fixpoint class_in (c : N) (t : list (N * N * N)) : N :=
  match t with
  | [] => 0
  | (first, last, class) :: t' =>
      if c <? first then 0
      else if c <=? last then class
      else class_in c t'
  end.

Definition ccc (c : N) : N := class_in c ccc_table.

Definition is_Mn (c : N) : bool := in_ranges c Mn_ranges.
Definition is_word (c : N) : bool := in_ranges c word_ranges.
Definition is_decimal (c : N) : bool := in_ranges c decimal_ranges.
Definition is_digit (c : N) : bool := in_ranges c digit_ranges.
Definition is_space (c : N) : bool := in_ranges c space_ranges.
Definition is_cased (c : N) : bool := in_ranges c cased_ranges.
Definition is_case_ignorable (c : N) : bool :=
  in_ranges c case_ignorable_ranges.

(** ** Python string and list primitives *)

(** [str.lower]: every character is replaced by its lower-case expansion,
    but U+03A3, capital sigma, which becomes U+03C2 at the end of a word
    and U+03C3 elsewhere.  It is at the end of a word when the nearest
    character before it that is not case-ignorable is cased, and the nearest
    one after it is not.  [cased_before] says the first for the current
    position. *)
Fixpoint cased_ahead (s : pystr) : bool :=
  match s with
  | [] => false
  | c :: s' => if is_case_ignorable c then cased_ahead s' else is_cased c
  end.

Fixpoint lower_from (cased_before : bool) (s : pystr) : pystr :=
  match s with
  | [] => []
  | c :: s' =>
      (if c =? 0x3A3
       then [if cased_before && negb (cased_ahead s') then 0x3C2 else 0x3C3]
       else lower_cp c)
      ++ lower_from (if is_case_ignorable c then cased_before else is_cased c)
                    s'
  end.

Definition py_lower (s : pystr) : pystr := lower_from false s.
Definition py_upper (s : pystr) : pystr := flat_map upper_cp s.

(** [unicodedata.normalize('NFD', s)]: every code point is replaced by its
    full canonical decomposition, then every run of marks is put in canonical
    order: a mark moves left past the marks of a strictly greater combining
    class, and never past a code point of class 0. *)
Fixpoint reorder_insert (c : N) (rev_out : pystr) : pystr :=
  match rev_out with
  | p :: rest =>
      if (0 <? ccc c) && (ccc c <? ccc p)
      then p :: reorder_insert c rest
      else c :: rev_out
  | [] => [c]
  end.

Definition canonical_order (s : pystr) : pystr :=
  rev (fold_left (fun out c => reorder_insert c out) s []).

Definition nfd (s : pystr) : pystr := canonical_order (flat_map decompose_cp s).

(** The tables are for evaluation, not for unfolding. *)
#[global] Opaque lower_table upper_table decomposition_table ccc_table
  Mn_ranges word_ranges decimal_ranges digit_ranges space_ranges cased_ranges
  case_ignorable_ranges.

(** [s.startswith(p)]. *)
Fixpoint py_startswith (s p : pystr) : bool :=
  match p, s with
  | [], _ => true
  | c :: p', d :: s' => (c =? d) && py_startswith s' p'
  | _ :: _, [] => false
  end.

(** [needle in hay], on strings. *)
Fixpoint py_in (needle hay : pystr) : bool :=
  py_startswith hay needle
  || match hay with
     | [] => false
     | _ :: hay' => py_in needle hay'
     end.

(** [s.replace(old, new)] for one-character [old] and [new]. *)
Definition py_replace (old new : N) (s : pystr) : pystr :=
  map (fun c => if c =? old then new else c) s.

(** [s.split()]: the maximal runs of non-blank characters. *)
Fixpoint split_blank (s word : pystr) : list pystr :=
  match s with
  | [] => match word with [] => [] | _ => [rev word] end
  | c :: s' =>
      if is_space c
      then match word with
           | [] => split_blank s' []
           | _ => rev word :: split_blank s' []
           end
      else split_blank s' (c :: word)
  end.

Definition py_split (s : pystr) : list pystr := split_blank s [].

(** [s.split(sep)] for a one-character separator: never an empty list. *)
Fixpoint py_split_on (sep : N) (s : pystr) : list pystr :=
  match s with
  | [] => [[]]
  | c :: s' =>
      if c =? sep then [] :: py_split_on sep s'
      else match py_split_on sep s' with
           | part :: parts => (c :: part) :: parts
           | [] => [[c]]
           end
  end.

(** [sep.join(parts)]. *)
Fixpoint py_join (sep : pystr) (parts : list pystr) : pystr :=
  match parts with
  | [] => []
  | [p] => p
  | p :: parts' => p ++ sep ++ py_join sep parts'
  end.

(** [s.strip()]. *)
Fixpoint lstrip (s : pystr) : pystr :=
  match s with
  | c :: s' => if is_space c then lstrip s' else s
  | [] => []
  end.

Definition py_strip (s : pystr) : pystr := rev (lstrip (rev (lstrip s))).

(** [l[:n]] for a Python [int] [n]: the first [n] elements, and for a
    negative [n] all but the last [-n]. *)
Definition py_take {A : Type} (n : Z) (l : list A) : list A :=
  if (0 <=? n)%Z then firstn (Z.to_nat n) l
  else firstn (length l - Z.to_nat (- n)) l.

(** ** Insertion-ordered dictionaries

    A Python [dict] that the code iterates: the keys are distinct and keep
    the order in which they were first set. *)

Definition odict (V : Type) : Type := list (pystr * V).

Fixpoint od_get {V : Type} (k : pystr) (d : odict V) : option V :=
  match d with
  | [] => None
  | (k', v) :: d' => if decide (k' = k) then Some v else od_get k d'
  end.

(** [d[k] = v]. *)
Fixpoint od_set {V : Type} (k : pystr) (v : V) (d : odict V) : odict V :=
  match d with
  | [] => [(k, v)]
  | (k', v') :: d' =>
      if decide (k' = k) then (k, v) :: d' else (k', v') :: od_set k v d'
  end.

Definition od_values {V : Type} (d : odict V) : list V := map snd d.

(** [l.sort(key=key, reverse=True)]: Python's sort is stable, also when
    reversed; [leb] compares two keys. *)
Fixpoint insert_desc {A K : Type} (leb : K -> K -> bool) (key : A -> K)
         (x : A) (sorted : list A) : list A :=
  match sorted with
  | [] => [x]
  | y :: rest =>
      if leb (key y) (key x) then x :: sorted
      else y :: insert_desc leb key x rest
  end.

Definition sort_desc {A K : Type} (leb : K -> K -> bool) (key : A -> K)
           (l : list A) : list A :=
  foldr (insert_desc leb key) [] l.

(** ** The regular expressions of [re]

    A backtracking matcher with the semantics of Python's [re]: alternatives
    are tried left to right, [*] is greedy, and the first success wins.  The
    matcher carries the character before the current position, which [\b]
    needs. *)

Inductive regex : Type :=
  | Eps
  | Chr (c : N)
  | Cls (p : N -> bool)
  | WordB
  | Seq (r1 r2 : regex)
  | Alt (r1 r2 : regex)
  | Star (r : regex).

Declare Scope re_scope.
Delimit Scope re_scope with re.
Bind Scope re_scope with regex.
Notation "r1 +++ r2" := (Seq r1 r2) (at level 60, right associativity) : re_scope.
Notation "r1 <|> r2" := (Alt r1 r2) (at level 65, right associativity) : re_scope.

Definition Plus (r : regex) : regex := (r +++ Star r)%re.
Definition Opt (r : regex) : regex := (r <|> Eps)%re.

(** A literal, as [re.escape] makes it. *)
Fixpoint Lit (s : pystr) : regex :=
  match s with
  | [] => Eps
  | c :: s' => (Chr c +++ Lit s')%re
  end.

Definition one_of (s : pystr) : regex := Cls (fun c => existsb (N.eqb c) s).

Module re.

(** [\b]: exactly one of the two neighbours is a word character. *)
Definition boundary (prev : option N) (s : pystr) : bool :=
  xorb (from_option is_word false prev) (from_option is_word false (head s)).

(** [run r prev s k]: match [r] at the head of [s], then hand the rest to
    the continuation [k]; [None] makes the matcher backtrack.  An iteration
    of [*] that consumes nothing is not repeated. *)
Fixpoint run {A : Type} (r : regex) (prev : option N) (s : pystr)
         (k : option N -> pystr -> option A) : option A :=
  match r with
  | Eps => k prev s
  | Chr c =>
      match s with
      | d :: s' => if c =? d then k (Some d) s' else None
      | [] => None
      end
  | Cls p =>
      match s with
      | d :: s' => if p d then k (Some d) s' else None
      | [] => None
      end
  | WordB => if boundary prev s then k prev s else None
  | Seq r1 r2 => run r1 prev s (fun prev' s' => run r2 prev' s' k)
  | Alt r1 r2 =>
      match run r1 prev s k with
      | Some x => Some x
      | None => run r2 prev s k
      end
  | Star r1 =>
      (fix iterate (fuel : nat) (prev : option N) (s : pystr) : option A :=
         match fuel with
         | O => k prev s
         | S fuel' =>
             match run r1 prev s
                     (fun prev' s' =>
                        if (length s' <? length s)%nat
                        then iterate fuel' prev' s' else None) with
             | Some x => Some x
             | None => k prev s
             end
         end) (length s) prev s
  end.

(** The match starting at the head of [s], if any: the matched text
    ([m.group(0)]) and what follows it. *)
Definition match_here (r : regex) (prev : option N) (s : pystr)
  : option (pystr * pystr) :=
  match run r prev s (fun _ rest => Some rest) with
  | Some rest => Some (firstn (length s - length rest) s, rest)
  | None => None
  end.

(** The scan shared by [re.sub] and [re.findall]: the leftmost match, then
    the leftmost match after it, and so on.  [emit] is given the text
    between two matches and [hit] the text of a match.  An empty match is
    followed by one character of the input. *)
Fixpoint scan {B : Type} (r : regex) (hit : pystr -> B) (skip : N -> list B)
         (fuel : nat) (prev : option N) (s : pystr) : list B :=
  match fuel with
  | O => []
  | S fuel' =>
      match match_here r prev s with
      | Some (c :: m, rest) =>
          hit (c :: m) :: scan r hit skip fuel' (Some (List.last m c)) rest
      | Some ([], _) =>
          hit [] :: match s with
                    | [] => []
                    | c :: s' => skip c ++ scan r hit skip fuel' (Some c) s'
                    end
      | None =>
          match s with
          | [] => []
          | c :: s' => skip c ++ scan r hit skip fuel' (Some c) s'
          end
      end
  end.

(** [re.sub(pattern, repl, text)] with a function [repl] of the matched
    text. *)
Definition sub (r : regex) (repl : pystr -> pystr) (text : pystr) : pystr :=
  concat (scan r repl (fun c => [[c]]) (S (length text)) None text).

(** [re.findall(pattern, text)] for a pattern that is read without its
    groups. *)
Definition findall (r : regex) (text : pystr) : list pystr :=
  scan r (fun m => m) (fun _ => []) (S (length text)) None text.

(** [re.search(pattern, text) is not None]. *)
Fixpoint search_from (r : regex) (prev : option N) (s : pystr) : bool :=
  match match_here r prev s with
  | Some _ => true
  | None =>
      match s with
      | [] => false
      | c :: s' => search_from r (Some c) s'
      end
  end.

Definition search (r : regex) (text : pystr) : bool := search_from r None text.

End re.

(** ** text_processor.py *)

(** The values [normalize_text] can be handed: a [str], or anything else that
    comes out of a JSON document or a data frame cell. *)
#[local] Set Warnings "-register-all".
Inductive pyval : Type :=
  | PyStr (s : pystr)
  | PyNone
  | PyBool (b : bool)
  | PyInt (z : Z)
  | PyFloat (q : Q)
  | PyList (items : list pyval)
  | PyDict (entries : list (pystr * pyval)).

Module TextProcessor.

Definition digits : regex := Plus (Cls is_decimal).
Definition blanks : regex := Star (Cls is_space).

(** The three patterns are compiled with [re.IGNORECASE]; they are only
    applied to text that went through [str.lower], where the flag changes
    nothing for the letters they name.

    [(\d+)\s*(kg/m[23]?|kg|l/m[23]?)] *)
Definition DOSAGE_PATTERN : regex :=
  (digits +++ blanks +++
   ((Lit (u "kg/m") +++ Opt (one_of (u "23")))
    <|> Lit (u "kg")
    <|> (Lit (u "l/m") +++ Opt (one_of (u "23")))))%re.

(** [(\d+)\s*x\s*(\d+)(?:\s*x\s*(\d+))?] *)
Definition DIMENSION_PATTERN : regex :=
  (digits +++ blanks +++ Chr 0x78 +++ blanks +++ digits +++
   Opt (blanks +++ Chr 0x78 +++ blanks +++ digits))%re.

(** [(\d+(?:[.,]\d+)?)\s*(m[23]?|cm|mm|kg|l|ml|cl)] *)
Definition MEASUREMENT_PATTERN : regex :=
  (digits +++ Opt (one_of (u ".,") +++ digits) +++ blanks +++
   ((Chr 0x6D +++ Opt (one_of (u "23")))
    <|> Lit (u "cm") <|> Lit (u "mm") <|> Lit (u "kg")
    <|> Lit (u "l") <|> Lit (u "ml") <|> Lit (u "cl")))%re.

Definition STOP_WORDS_BTP : list pystr :=
  map u ["de"; "la"; "le"; "et"; "en"; "un"; "une"; "avec"; "du"; "des";
         "les"; "pour"; "sur"; "dans"; "par"; "au"; "aux"; "ce"; "ces";
         "son"; "sa"; "y"; "compris"]%string.

(** The abbreviations, in the order of the [dict] literal.  The accented
    letters are written by code point: e acute U+00E9, e grave U+00E8,
    a circumflex U+00E2. *)
Definition ABBREVIATIONS_BTP : list (pystr * pystr) :=
  [ (u "allu", u "aluminium"); (u "alu", u "aluminium");
    (u "galva", u "galvanis" ++ [0xE9]);
    (u "metal", u "m" ++ [0xE9] ++ u "tallique");
    (u "m2", u "m" ++ [0xE8] ++ u "tre carr" ++ [0xE9]);
    (u "m3", u "m" ++ [0xE8] ++ u "tre cube");
    (u "cm", u "centim" ++ [0xE8] ++ u "tre");
    (u "mm", u "millim" ++ [0xE8] ++ u "tre");
    (u "kg", u "kilogramme");
    (u "ep", [0xE9] ++ u "paisseur"); (u "dim", u "dimension");
    (u "ht", u "hauteur"); (u "lg", u "longueur"); (u "larg", u "largeur");
    (u "prof", u "profondeur");
    (u "diam", u "diam" ++ [0xE8] ++ u "tre");
    (u "epaiss", [0xE9] ++ u "paisseur");
    (u "bat", u "b" ++ [0xE2] ++ u "timent");
    (u "elec", [0xE9] ++ u "lectricit" ++ [0xE9]);
    (u "plomb", u "plomberie"); (u "menuis", u "menuiserie") ].

(** [normalize_text]:
<<
    if not isinstance(text, str): return ''
    text = unicodedata.normalize('NFD', text.lower())
    text = ''.join(char for char in text
                   if unicodedata.category(char) != 'Mn')
>> *)
Definition normalize_text (text : pyval) : pystr :=
  match text with
  | PyStr text =>
      List.filter (fun char => negb (is_Mn char)) (nfd (py_lower text))
  | _ => []
  end.

(** [r'\b[\w/_-]+\b'] *)
Definition TOKEN_PATTERN : regex :=
  (WordB +++
   Plus (Cls (fun c => is_word c || (c =? 0x2F) || (c =? 0x5F) || (c =? 0x2D))) +++
   WordB)%re.

(** [lambda m: m.group(0).replace(' ', '_')] *)
Definition protect (m : pystr) : pystr := py_replace 0x20 0x5F m.

(** [tokenize_btp(text, preserve_technical)]. *)
Definition tokenize_btp (text : pystr) (preserve_technical : bool)
  : list pystr :=
  let text := py_lower text in
  let text :=
    fold_left
      (fun text '(abbrev, full) =>
         re.sub (WordB +++ Lit abbrev +++ WordB) (fun _ => full) text)
      ABBREVIATIONS_BTP text in
  let text :=
    if preserve_technical then
      let text := re.sub DOSAGE_PATTERN protect text in
      let text := re.sub DIMENSION_PATTERN protect text in
      re.sub MEASUREMENT_PATTERN protect text
    else text in
  let tokens := re.findall TOKEN_PATTERN text in
  flat_map
    (fun token =>
       let token_restored := py_replace 0x5F 0x20 token in
       if negb (bool_decide (token_restored ∈ STOP_WORDS_BTP))
          || existsb is_digit token_restored
       then if (1 <? length token_restored)%nat then [token_restored] else []
       else [])
    tokens.

End TextProcessor.

(** ** Files read with [json.load]

    What [open(path, 'r', encoding='utf-8')] followed by [json.load] gives:
    the parsed document, or the exception that one of the two raises.  A
    document is given either as [FileJson], in the shape the module expects,
    or as [FileJsonOther], as it is parsed; the entries of a parsed object
    have distinct keys. *)
Inductive json_file (A : Type) : Type :=
  | FileNotFound                        (** [FileNotFoundError] *)
  | FileUnreadable                      (** another [OSError]: no permission, a directory *)
  | FileUndecodable                     (** [UnicodeDecodeError]: bytes that are not UTF-8 *)
  | FileInvalidJson                     (** [json.JSONDecodeError] *)
  | FileJson (data : A)
  | FileJsonOther (document : pyval).
Arguments FileNotFound {A}.
Arguments FileUnreadable {A}.
Arguments FileUndecodable {A}.
Arguments FileInvalidJson {A}.
Arguments FileJson {A} data.
Arguments FileJsonOther {A} document.

(** The exceptions that leave the loaders. *)
Inductive raised : Type :=
  | OSError
  | UnicodeDecodeError
  | AttributeError      (** [.items()] on a document that is not an object *)
  | TypeError.          (** [for ... in] over a number, a boolean or [None] *)

Inductive outcome (A : Type) : Type :=
  | Returns (a : A)
  | Raises (e : raised).
Arguments Returns {A} a.
Arguments Raises {A} e.

(** What a loader hands back: a [T] on the reads from which it always
    returns, and on the others a [U] or an exception. *)
Definition loaded {A : Type} (file : json_file A) (T U : Type) : Type :=
  match file with
  | FileNotFound | FileInvalidJson | FileJson _ => T
  | FileUnreadable | FileUndecodable | FileJsonOther _ => outcome U
  end.

(** [for x in value]: the items of a list, the characters of a string, the
    keys of a dictionary; nothing else that JSON gives is iterable. *)
Definition py_iter (value : pyval) : outcome (list pyval) :=
  match value with
  | PyList items => Returns items
  | PyStr s => Returns (map (fun c => PyStr [c]) s)
  | PyDict entries => Returns (map (fun '(key, _) => PyStr key) entries)
  | PyNone | PyBool _ | PyInt _ | PyFloat _ => Raises TypeError
  end.

(** ** corrector.py *)

Module Corrector.

(** The loop of [_load_corrections] over the items of a parsed object
    whose values may be of any kind. *)
Fixpoint load_entries (entries : list (pystr * pyval))
         (correction_map : gmap pystr pystr) : outcome (gmap pystr pystr) :=
  match entries with
  | [] => Returns correction_map
  | (correct_word, variations) :: entries' =>
      match py_iter variations with
      | Returns variations =>
          load_entries
            entries'
            (fold_left
               (fun correction_map variation =>
                  let norm_variation :=
                    TextProcessor.normalize_text variation in
                  <[norm_variation := correct_word]> correction_map)
               variations correction_map)
      | Raises e => Raises e
      end
  end.

(** [_load_corrections]: the reversed dictionary, variation -> correct
    word; a later variation overwrites an earlier one with the same
    normal form.  [data.items()] is the parsed document in file order.
    Only [FileNotFoundError] and [json.JSONDecodeError] are caught. *)
Definition _load_corrections (file : json_file (list (pystr * list pyval)))
  : loaded file (gmap pystr pystr) (gmap pystr pystr) :=
  match file with
  | FileJson data =>
      fold_left
        (fun correction_map '(correct_word, variations) =>
           fold_left
             (fun correction_map variation =>
                let norm_variation := TextProcessor.normalize_text variation in
                <[norm_variation := correct_word]> correction_map)
             variations correction_map)
        data ∅
  | FileNotFound | FileInvalidJson => ∅
  | FileUnreadable => Raises OSError
  | FileUndecodable => Raises UnicodeDecodeError
  | FileJsonOther (PyDict entries) => load_entries entries ∅
  | FileJsonOther _ => Raises AttributeError
  end.

(** [correct_query]. *)
Definition correct_query (correction_map : gmap pystr pystr) (query : pystr)
  : pystr :=
  if decide (correction_map = ∅) then query
  else
    let query_norm := TextProcessor.normalize_text (PyStr query) in
    let query_tokens := py_split query_norm in
    let corrected_tokens :=
      map (fun token => default token (correction_map !! token))
          query_tokens in
    py_join (u " ") corrected_tokens.

(** The line that [correct_query] writes with [logging.info]: the query
    and the corrected query, when they differ. *)
Definition correct_query_log (correction_map : gmap pystr pystr)
           (query : pystr) : option (pystr * pystr) :=
  if decide (correction_map = ∅) then None
  else
    let corrected_query := correct_query correction_map query in
    if decide (query = corrected_query) then None
    else Some (query, corrected_query).

End Corrector.

(** ** dictionary_manager.py *)

Module DictionaryManager.

Record t : Type := {
  dictionary : gmap pystr (list pystr);
  reverse_index : gmap pystr (gset pystr)
}.

(** [index[key].add(value)] on a [defaultdict(set)]. *)
Definition index_add (index : gmap pystr (gset pystr)) (key value : pystr)
  : gmap pystr (gset pystr) :=
  <[key := {[value]} ∪ default ∅ (index !! key)]> index.

(** [_build_reverse_index]: normalised synonym -> normalised main terms. *)
Definition _build_reverse_index (dictionary : gmap pystr (list pystr))
  : gmap pystr (gset pystr) :=
  fold_left
    (fun index '(main_term, synonyms) =>
       let normalized_main_term :=
         TextProcessor.normalize_text (PyStr main_term) in
       fold_left
         (fun index synonym =>
            let normalized_synonym :=
              TextProcessor.normalize_text (PyStr synonym) in
            index_add index normalized_synonym normalized_main_term)
         synonyms index)
    (map_to_list dictionary) ∅.

(** The dictionary of a parsed object whose values are all lists of
    strings, which is what the rest of the class works on. *)
Definition strings_of (value : pyval) : option (list pystr) :=
  match value with
  | PyList items =>
      mapM (fun item => match item with PyStr s => Some s | _ => None end)
           items
  | _ => None
  end.

Definition dictionary_of (entries : list (pystr * pyval))
  : option (gmap pystr (list pystr)) :=
  list_to_map
    <$> mapM (fun '(main_term, synonyms) =>
                pair main_term <$> strings_of synonyms)
             entries.

(** [load_dictionary]: a missing or invalid file gives the empty
    dictionary; the reverse index is rebuilt in every case.  Only
    [FileNotFoundError] and [json.JSONDecodeError] are caught, and
    the document goes through [len] for the log line and through
    [_build_reverse_index] whatever it is: [len] raises on a number, a
    boolean or null, [.items()] on a list or a string, and the inner loop on
    a value that is not iterable.  When it returns on a document that is not of lists of
    strings, the manager is outside of what is described here ([None]). *)
Definition load_dictionary (file : json_file (gmap pystr (list pystr)))
  : loaded file t (option t) :=
  let manager (dictionary : gmap pystr (list pystr)) :=
    {| dictionary := dictionary;
       reverse_index := _build_reverse_index dictionary |} in
  match file with
  | FileJson data => manager data
  | FileNotFound | FileInvalidJson => manager ∅
  | FileUnreadable => Raises OSError
  | FileUndecodable => Raises UnicodeDecodeError
  | FileJsonOther (PyDict entries) =>
      match
        fold_left
          (fun walked '(_, synonyms) =>
             match walked with
             | Returns _ => py_iter synonyms
             | Raises e => Raises e
             end)
          entries (Returns [])
      with
      | Returns _ => Returns (manager <$> dictionary_of entries)
      | Raises e => Raises e
      end
  | FileJsonOther (PyList _ | PyStr _) => Raises AttributeError
  | FileJsonOther (PyNone | PyBool _ | PyInt _ | PyFloat _) => Raises TypeError
  end.

(** The set [expanded_terms] of [expand_query], before it is cut. *)
Definition expanded_terms (self : t) (query : pystr) : gset pystr :=
  let normalized_query := TextProcessor.normalize_text (PyStr query) in
  let query_tokens : gset pystr :=
    list_to_set (TextProcessor.tokenize_btp normalized_query false) in
  let synonyms : gset pystr :=
    set_bind
      (fun token =>
         match reverse_index self !! token with
         | Some main_terms =>
             set_bind
               (fun main_term =>
                  list_to_set (default [] (dictionary self !! main_term)))
               main_terms
         | None => ∅
         end)
      query_tokens in
  synonyms ∪ query_tokens.

(** [expand_query(query, max_expansions)]: [list(expanded_terms)] cut to
    [max_expansions]; [order] is the enumeration of the set. *)
Definition expand_query (order : gset pystr -> list pystr)
           (self : t) (query : pystr) (max_expansions : Z) : list pystr :=
  py_take max_expansions (order (expanded_terms self query)).

(** [add_synonym(main_term, new_synonym)]: the manager afterwards, and the
    dictionary handed to [save_dictionary] when it is called.  The entry of
    a new main term is created before the test, and stays when the test
    finds the synonym already there. *)
Definition add_synonym (self : t) (main_term new_synonym : pystr)
  : t * option (gmap pystr (list pystr)) :=
  let main_term_key := py_lower main_term in
  let dictionary :=
    match dictionary self !! main_term_key with
    | Some _ => dictionary self
    | None => <[main_term_key := [main_term]]> (dictionary self)
    end in
  let synonyms := default [] (dictionary !! main_term_key) in
  if bool_decide (py_lower new_synonym ∈ map py_lower synonyms) then
    ({| dictionary := dictionary; reverse_index := reverse_index self |}, None)
  else
    let dictionary := <[main_term_key := synonyms ++ [new_synonym]]> dictionary in
    ({| dictionary := dictionary;
        reverse_index := _build_reverse_index dictionary |},
     Some dictionary).

End DictionaryManager.

(** ** search_engine.py *)

Module BTCSearchEngine.

Inductive match_label : Type :=
  | Partial_D1     (** 'Mots-clés partiels (D1)' *)
  | Complete_D2    (** 'Tous les mots-clés (D2)' *)
  | Synonyms_D3.   (** 'Synonymes (D3)' *)

Record SearchResult : Type := {
  designation : pystr;
  prix : pystr;
  unite : pystr;
  score : Z;
  match_type : match_label;
  matched_terms : list pystr;
  num_matches : nat
}.

(** A row of the data frame [df]. *)
Record article : Type := {
  Designation : pystr;
  Prix : pystr;
  Unite : pystr
}.

Record t : Type := {
  dictionary_manager : DictionaryManager.t;
  correction_map : gmap pystr pystr
}.

(** The lines written with [logging.info] during [search]: the one of
    [correct_query], then those of [search] itself. *)
Inductive log_line : Type :=
  | LogQueryCorrected (query corrected_query : pystr)
                               (** "Requête corrigée: 'query' -> 'corrected_query'" *)
  | LogPassToD3                (** "Aucun résultat partiel (D1) trouvé. Passage au Niveau 3 (D3)." *)
  | LogD2Found (n : nat)       (** "Niveau 1 (D2): n résultat(s) parfait(s) trouvé(s)." *)
  | LogD1Returned (n : nat)    (** "Retourne n résultat(s) partiel(s) (D1)." *)
  | LogD3NoSynonym             (** "Niveau 3 (D3): Aucun synonyme trouvé." *)
  | LogD3Found (n : nat)       (** "Niveau 3 (D3): n résultat(s) trouvé(s)." *)
  | LogNothingFound.           (** "Aucun résultat trouvé après toutes les étapes." *)

(** [_get_flexible_matches]: the query tokens that start, or are the start
    of, some designation token. *)
Definition _get_flexible_matches (query_tokens designation_tokens : gset pystr)
  : gset pystr :=
  filter
    (fun q_token =>
       set_Exists
         (fun d_token =>
            py_startswith d_token q_token = true
            \/ py_startswith q_token d_token = true)
         designation_tokens)
    query_tokens.

(** [results.sort(key=lambda r: r.score, reverse=True)]. *)
Definition sort_by_score (results : list SearchResult) : list SearchResult :=
  sort_desc Z.leb score results.

(** The column [df['designation_tokens']]. *)
Definition designation_tokens (row : article) : gset pystr :=
  let norm_designation := TextProcessor.normalize_text (PyStr (Designation row)) in
  list_to_set (TextProcessor.tokenize_btp norm_designation true).

(** One turn of the loop that builds [results_d1]. *)
Definition d1_entry (order : gset pystr -> list pystr)
           (query_tokens : gset pystr) (row : article) : option SearchResult :=
  let matches := _get_flexible_matches query_tokens (designation_tokens row) in
  if decide (matches = ∅) then None
  else
    let score := (Z.of_nat (size matches) * 10)%Z in
    let score :=
      if decide (query_tokens ∩ designation_tokens row = ∅)
      then score else (score + 5)%Z in
    Some {| designation := Designation row; prix := Prix row;
            unite := Unite row; score := score;
            match_type := Partial_D1; matched_terms := order matches;
            num_matches := size matches |}.

(** One turn of the loop that builds [results_d3]. *)
Definition d3_entry (order : gset pystr -> list pystr)
           (synonym_terms : gset pystr) (row : article) : option SearchResult :=
  let matches := _get_flexible_matches synonym_terms (designation_tokens row) in
  if decide (matches = ∅) then None
  else
    Some {| designation := Designation row; prix := Prix row;
            unite := Unite row; score := (Z.of_nat (size matches) * 5)%Z;
            match_type := Synonyms_D3; matched_terms := order matches;
            num_matches := size matches |}.

(** [r.score += 50; r.match_type = 'Tous les mots-clés (D2)']. *)
Definition promote (r : SearchResult) : SearchResult :=
  {| designation := designation r; prix := prix r; unite := unite r;
     score := (score r + 50)%Z; match_type := Complete_D2;
     matched_terms := matched_terms r; num_matches := num_matches r |}.

(** [search(df, query, limit)]: the log lines written and the list
    returned.  The columns [norm_designation] and [designation_tokens] that
    the method adds to [df] are read through [designation_tokens].  The
    results of [results_d2] are the objects of [results_d1]; they are
    modified only on the path that returns [results_d2]. *)
Definition search (order : gset pystr -> list pystr) (self : t)
           (df : list article) (query : pystr) (limit : Z)
  : list log_line * list SearchResult :=
  if (length query =? 0)%nat || (length (py_strip query) <? 2)%nat
  then ([], [])
  else
    let corrected_query :=
      Corrector.correct_query (correction_map self) query in
    let corrector_log : list log_line :=
      match Corrector.correct_query_log (correction_map self) query with
      | Some (query, corrected_query) =>
          [LogQueryCorrected query corrected_query]
      | None => []
      end in
    let query_norm := TextProcessor.normalize_text (PyStr corrected_query) in
    let query_tokens : gset pystr :=
      list_to_set (TextProcessor.tokenize_btp query_norm false) in
    let num_query_tokens := size query_tokens in
    if decide (query_tokens = ∅) then (corrector_log, [])
    else
      let results_d1 := omap (d1_entry order query_tokens) df in
      match results_d1 with
      | _ :: _ =>
          let return_d1 :=
            (corrector_log ++ [LogD1Returned (length results_d1)],
             py_take limit (sort_by_score results_d1)) in
          if (1 <? num_query_tokens)%nat then
            let results_d2 :=
              List.filter (fun r => (num_matches r =? num_query_tokens)%nat)
                          results_d1 in
            match results_d2 with
            | _ :: _ =>
                (corrector_log ++ [LogD2Found (length results_d2)],
                 py_take limit (sort_by_score (map promote results_d2)))
            | [] => return_d1
            end
          else return_d1
      | [] =>
          let expanded_terms : gset pystr :=
            list_to_set
              (DictionaryManager.expand_query
                 order (dictionary_manager self) corrected_query 10) in
          let synonym_terms := expanded_terms ∖ query_tokens in
          if decide (synonym_terms = ∅)
          then (corrector_log ++ [LogPassToD3; LogD3NoSynonym], [])
          else
            let results_d3 := omap (d3_entry order synonym_terms) df in
            match results_d3 with
            | _ :: _ =>
                (corrector_log
                 ++ [LogPassToD3; LogD3Found (length results_d3)],
                 py_take limit (sort_by_score results_d3))
            | [] => (corrector_log ++ [LogPassToD3; LogNothingFound], [])
            end
      end.

End BTCSearchEngine.

(** ** recup/search_engine.py

    The earlier engine: no corrector, a substring match, and three separate
    passes D2, D1, D3.  Its log lines are left out. *)

Module LegacySearchEngine.

Record SearchResult : Type := {
  designation : pystr;
  prix : pystr;
  unite : pystr;
  score : Z;
  match_type : BTCSearchEngine.match_label;
  matched_terms : list pystr
}.

(** [_get_flexible_matches]: [q_token in d_token or d_token in q_token]. *)
Definition _get_flexible_matches (query_tokens designation_tokens : gset pystr)
  : gset pystr :=
  filter
    (fun q_token =>
       set_Exists
         (fun d_token =>
            py_in q_token d_token = true \/ py_in d_token q_token = true)
         designation_tokens)
    query_tokens.

Definition sort_by_score (results : list SearchResult) : list SearchResult :=
  sort_desc Z.leb score results.

Definition result_of (row : BTCSearchEngine.article) (score : Z)
           (match_type : BTCSearchEngine.match_label)
           (matched_terms : list pystr) : SearchResult :=
  {| designation := BTCSearchEngine.Designation row;
     prix := BTCSearchEngine.Prix row;
     unite := BTCSearchEngine.Unite row;
     score := score; match_type := match_type;
     matched_terms := matched_terms |}.

(** One turn of the loop of the pass D2. *)
Definition d2_entry (order : gset pystr -> list pystr) (query_norm : pystr)
           (query_tokens : gset pystr) (row : BTCSearchEngine.article)
  : option SearchResult :=
  let norm_designation :=
    TextProcessor.normalize_text (PyStr (BTCSearchEngine.Designation row)) in
  let matches :=
    _get_flexible_matches query_tokens
                          (BTCSearchEngine.designation_tokens row) in
  if (size matches =? size query_tokens)%nat then
    let score := (Z.of_nat (size matches) * 50)%Z in
    let score :=
      if py_in query_norm norm_designation then (score + 25)%Z else score in
    Some (result_of row score BTCSearchEngine.Complete_D2 (order matches))
  else None.

(** One turn of the loop of the passes D1 and D3, which differ by the
    points per match and the label. *)
Definition partial_entry (order : gset pystr -> list pystr) (points : Z)
           (label : BTCSearchEngine.match_label) (tokens : gset pystr)
           (row : BTCSearchEngine.article) : option SearchResult :=
  let matches :=
    _get_flexible_matches tokens (BTCSearchEngine.designation_tokens row) in
  if decide (matches = ∅) then None
  else Some (result_of row (Z.of_nat (size matches) * points)%Z label
                       (order matches)).

(** [search(df, query, limit)]. *)
Definition search (order : gset pystr -> list pystr)
           (dictionary_manager : DictionaryManager.t)
           (df : list BTCSearchEngine.article) (query : pystr) (limit : Z)
  : list SearchResult :=
  if (length query =? 0)%nat || (length (py_strip query) <? 2)%nat then []
  else
    let query_norm := TextProcessor.normalize_text (PyStr query) in
    let query_tokens : gset pystr :=
      list_to_set (TextProcessor.tokenize_btp query_norm false) in
    if decide (query_tokens = ∅) then []
    else
      let results_d2 := omap (d2_entry order query_norm query_tokens) df in
      match results_d2 with
      | _ :: _ => py_take limit (sort_by_score results_d2)
      | [] =>
          let results_d1 :=
            omap (partial_entry order 10 BTCSearchEngine.Partial_D1
                                query_tokens) df in
          match results_d1 with
          | _ :: _ => py_take limit (sort_by_score results_d1)
          | [] =>
              let expanded_terms : gset pystr :=
                list_to_set
                  (DictionaryManager.expand_query order dictionary_manager
                                                  query 10) in
              let synonym_terms := expanded_terms ∖ query_tokens in
              if decide (synonym_terms = ∅) then []
              else
                let results_d3 :=
                  omap (partial_entry order 5 BTCSearchEngine.Synonyms_D3
                                      synonym_terms) df in
                match results_d3 with
                | _ :: _ => py_take limit (sort_by_score results_d3)
                | [] => []
                end
          end
      end.

End LegacySearchEngine.

(** ** recup/backend.py *)

Module Backend.

(** A cleaned row of [df_hierarchical]; every cell is a string by then. *)
Module Row.
Record t : Type := {
  Code : pystr;
  Designation : pystr;
  Unite : pystr;
  Minimum : pystr;
  Moyen : pystr;
  Maximum : pystr
}.
End Row.

Module Hierarchy.
Record t : Type := {
  main : pystr;
  title : pystr;
  subtitle : pystr;
  subsubtitle : pystr;
  item : pystr;
  detail : pystr
}.
End Hierarchy.

Module ContentItem.
Record t : Type := {
  index : nat;
  code : pystr;
  designation : pystr;
  unite : pystr;
  minimum : pystr;
  moyen : pystr;
  maximum : pystr;
  hierarchy : Hierarchy.t
}.
End ContentItem.

Module SubtitleNode.
Record t : Type := {
  subtitle : pystr;
  subtitle_index : nat;
  content : list ContentItem.t
}.
End SubtitleNode.

Module TitleNode.
Record t : Type := {
  title : pystr;
  title_index : option nat;
  subtitles : odict SubtitleNode.t;
  content : list ContentItem.t
}.
End TitleNode.

Inductive entry_type : Type := Title | Subtitle | Content.

(** [parse_code_hierarchy(code)]; [None] is Python's [None]. *)
Definition parse_code_hierarchy (code : pystr) : option Hierarchy.t :=
  let parts := py_split_on 0x2E code in
  if (length parts <? 3)%nat then None
  else
    Some {| Hierarchy.main := nth 0 parts [];
            Hierarchy.title := nth 1 parts [];
            Hierarchy.subtitle := nth 2 parts [];
            Hierarchy.subsubtitle := nth 3 parts [];
            Hierarchy.item := nth 4 parts [];
            Hierarchy.detail := nth 5 parts [] |}.

(** [part in ['0', '']]. *)
Definition zero_or_empty (part : pystr) : bool :=
  bool_decide (part = u "0") || bool_decide (part = []).

(** [identify_entry_type(designation, code)]. *)
Definition identify_entry_type (designation code : pystr) : entry_type :=
  let parts := py_split_on 0x2E code in
  if (length parts =? 3)%nat && zero_or_empty (nth 2 parts []) then Title
  else if (length parts =? 4)%nat && zero_or_empty (nth 3 parts []) then Subtitle
  else if (5 <=? length parts)%nat then Content
  else Content.

Definition new_title : TitleNode.t :=
  {| TitleNode.title := []; TitleNode.title_index := None;
     TitleNode.subtitles := []; TitleNode.content := [] |}.

Definition title_key_of (h : Hierarchy.t) : pystr :=
  Hierarchy.main h ++ u "." ++ Hierarchy.title h ++ u "." ++ Hierarchy.subtitle h.

Definition subtitle_key_of (h : Hierarchy.t) : pystr :=
  match Hierarchy.subsubtitle h with
  | [] => title_key_of h
  | _ :: _ => title_key_of h ++ u "." ++ Hierarchy.subsubtitle h
  end.

Definition content_item_of (idx : nat) (row : Row.t) (h : Hierarchy.t)
  : ContentItem.t :=
  {| ContentItem.index := idx; ContentItem.code := Row.Code row;
     ContentItem.designation := Row.Designation row;
     ContentItem.unite := Row.Unite row;
     ContentItem.minimum := Row.Minimum row;
     ContentItem.moyen := Row.Moyen row;
     ContentItem.maximum := Row.Maximum row;
     ContentItem.hierarchy := h |}.

(** One turn of the loop of [build_hierarchical_structure]. *)
Definition add_row (structure : odict TitleNode.t) (idx : nat) (row : Row.t)
  : odict TitleNode.t :=
  let code := Row.Code row in
  let designation := Row.Designation row in
  match parse_code_hierarchy code with
  | None => structure
  | Some hierarchy =>
      let entry_type := identify_entry_type designation code in
      let title_key := title_key_of hierarchy in
      let subtitle_key := subtitle_key_of hierarchy in
      let structure :=
        match od_get title_key structure with
        | Some _ => structure
        | None => od_set title_key new_title structure
        end in
      let node := default new_title (od_get title_key structure) in
      match entry_type with
      | Title =>
          od_set title_key
            {| TitleNode.title := designation;
               TitleNode.title_index := Some idx;
               TitleNode.subtitles := TitleNode.subtitles node;
               TitleNode.content := TitleNode.content node |}
            structure
      | Subtitle =>
          let kept :=
            match od_get subtitle_key (TitleNode.subtitles node) with
            | Some sub => SubtitleNode.content sub
            | None => []
            end in
          od_set title_key
            {| TitleNode.title := TitleNode.title node;
               TitleNode.title_index := TitleNode.title_index node;
               TitleNode.subtitles :=
                 od_set subtitle_key
                   {| SubtitleNode.subtitle := designation;
                      SubtitleNode.subtitle_index := idx;
                      SubtitleNode.content := kept |}
                   (TitleNode.subtitles node);
               TitleNode.content := TitleNode.content node |}
            structure
      | Content =>
          let content_item := content_item_of idx row hierarchy in
          match Hierarchy.subsubtitle hierarchy,
                od_get subtitle_key (TitleNode.subtitles node) with
          | _ :: _, Some sub =>
              od_set title_key
                {| TitleNode.title := TitleNode.title node;
                   TitleNode.title_index := TitleNode.title_index node;
                   TitleNode.subtitles :=
                     od_set subtitle_key
                       {| SubtitleNode.subtitle := SubtitleNode.subtitle sub;
                          SubtitleNode.subtitle_index :=
                            SubtitleNode.subtitle_index sub;
                          SubtitleNode.content :=
                            SubtitleNode.content sub ++ [content_item] |}
                       (TitleNode.subtitles node);
                   TitleNode.content := TitleNode.content node |}
                structure
          | _, _ =>
              od_set title_key
                {| TitleNode.title := TitleNode.title node;
                   TitleNode.title_index := TitleNode.title_index node;
                   TitleNode.subtitles := TitleNode.subtitles node;
                   TitleNode.content :=
                     TitleNode.content node ++ [content_item] |}
                structure
          end
      end
  end.

(** [build_hierarchical_structure(df)]: one pass over [df.iterrows()]. *)
Definition build_hierarchical_structure (df : list (nat * Row.t))
  : odict TitleNode.t :=
  fold_left (fun structure '(idx, row) => add_row structure idx row) df [].

(** *** Hierarchical scope *)

(** An entry of [TITLE_SUBTITLE_DICTIONARY]. *)
Module TitleConfig.
Record t : Type := {
  patterns : list pystr;
  subtitles : odict (list pystr)
}.
End TitleConfig.

Module TitleMatch.
Record t : Type := {
  title_key : pystr;
  title_data : TitleNode.t;
  excel_title : pystr
}.
End TitleMatch.

Module SubtitleMatch.
Record t : Type := {
  title_key : pystr;
  subtitle_key : pystr;
  subtitle_data : SubtitleNode.t
}.
End SubtitleMatch.

(** [any(len(word) > 3 and word in label for word in words)]: the loop
    over the words that stops at the first hit. *)
Definition some_long_word_in (words : list pystr) (label : pystr) : bool :=
  existsb (fun word => (3 <? length word)%nat && py_in word label) words.

(** [find_matching_titles_in_csv(excel_titles, hierarchical_data)]. *)
Definition find_matching_titles_in_csv
           (TITLE_SUBTITLE_DICTIONARY : odict TitleConfig.t)
           (excel_titles : list pystr)
           (hierarchical_data : odict TitleNode.t) : list TitleMatch.t :=
  flat_map
    (fun excel_title =>
       let excel_title_upper := py_upper excel_title in
       let matched (title_key : pystr) (title_data : TitleNode.t) :=
         {| TitleMatch.title_key := title_key;
            TitleMatch.title_data := title_data;
            TitleMatch.excel_title := excel_title |} in
       let by_patterns :=
         match od_get excel_title_upper TITLE_SUBTITLE_DICTIONARY with
         | Some title_config =>
             flat_map
               (fun '(title_key, title_data) =>
                  let csv_title := py_upper (TitleNode.title title_data) in
                  if existsb (fun pattern => py_in (py_upper pattern) csv_title)
                             (TitleConfig.patterns title_config)
                  then [matched title_key title_data] else [])
               hierarchical_data
         | None => []
         end in
       let by_words :=
         flat_map
           (fun '(title_key, title_data) =>
              let csv_title := py_upper (TitleNode.title title_data) in
              let excel_words := py_split excel_title_upper in
              if some_long_word_in excel_words csv_title
              then [matched title_key title_data] else [])
           hierarchical_data in
       by_patterns ++ by_words)
    excel_titles.

(** The subtitle nodes of the whole tree whose label satisfies [keep]. *)
Definition subtitles_where (keep : pystr -> bool)
           (hierarchical_data : odict TitleNode.t) : list SubtitleMatch.t :=
  flat_map
    (fun '(title_key, title_data) =>
       flat_map
         (fun '(subtitle_key, subtitle_data) =>
            let csv_subtitle :=
              py_upper (SubtitleNode.subtitle subtitle_data) in
            if keep csv_subtitle
            then [{| SubtitleMatch.title_key := title_key;
                     SubtitleMatch.subtitle_key := subtitle_key;
                     SubtitleMatch.subtitle_data := subtitle_data |}]
            else [])
         (TitleNode.subtitles title_data))
    hierarchical_data.

(** [find_matching_subtitles_in_csv(excel_subtitle, excel_titles,
    hierarchical_data)]. *)
Definition find_matching_subtitles_in_csv
           (TITLE_SUBTITLE_DICTIONARY : odict TitleConfig.t)
           (excel_subtitle : pystr) (excel_titles : list pystr)
           (hierarchical_data : odict TitleNode.t) : list SubtitleMatch.t :=
  match excel_subtitle with
  | [] => []
  | _ :: _ =>
      let excel_subtitle_upper := py_upper excel_subtitle in
      let matching_subtitles :=
        flat_map
          (fun excel_title =>
             let excel_title_upper := py_upper excel_title in
             match od_get excel_title_upper TITLE_SUBTITLE_DICTIONARY with
             | Some title_config =>
                 flat_map
                   (fun '(subtitle_key, csv_subtitles) =>
                      if py_in (py_upper subtitle_key) excel_subtitle_upper
                         || py_in excel_subtitle_upper (py_upper subtitle_key)
                      then
                        subtitles_where
                          (fun csv_subtitle =>
                             existsb
                               (fun target_subtitle =>
                                  py_in (py_upper target_subtitle) csv_subtitle)
                               csv_subtitles)
                          hierarchical_data
                      else [])
                   (TitleConfig.subtitles title_config)
             | None => []
             end)
          excel_titles in
      match matching_subtitles with
      | _ :: _ => matching_subtitles
      | [] =>
          subtitles_where
            (some_long_word_in (py_split excel_subtitle_upper))
            hierarchical_data
      end
  end.

(** The list [search_scope] that [search] builds from its filters. *)
Definition search_scope (TITLE_SUBTITLE_DICTIONARY : odict TitleConfig.t)
           (selected_titles : list pystr) (subtitle : pystr)
           (hierarchical_data : odict TitleNode.t) : list ContentItem.t :=
  match selected_titles, subtitle with
  | [], [] => []
  | _ :: _, _ :: _ =>
      let matching_subtitles :=
        find_matching_subtitles_in_csv
          TITLE_SUBTITLE_DICTIONARY subtitle selected_titles
          hierarchical_data in
      flat_map
        (fun subtitle_match =>
           SubtitleNode.content (SubtitleMatch.subtitle_data subtitle_match))
        matching_subtitles
  | _ :: _, [] =>
      let matching_titles :=
        find_matching_titles_in_csv
          TITLE_SUBTITLE_DICTIONARY selected_titles hierarchical_data in
      flat_map
        (fun title_match =>
           let title_data := TitleMatch.title_data title_match in
           TitleNode.content title_data
           ++ flat_map SubtitleNode.content
                       (od_values (TitleNode.subtitles title_data)))
        matching_titles
  | [], _ :: _ =>
      flat_map
        (fun subtitle_match =>
           SubtitleNode.content (SubtitleMatch.subtitle_data subtitle_match))
        (subtitles_where (some_long_word_in (py_split (py_upper subtitle)))
                         hierarchical_data)
  end.

(** *** Keyword scoring *)

(** [re.sub(r'[^\w]', '', word)]. *)
Definition word_clean (word : pystr) : pystr :=
  re.sub (Cls (fun c => negb (is_word c))) (fun _ => []) word.

(** The set [expanded_terms] that [expand_query] builds. *)
Definition expanded_set (TECHNICAL_DICTIONARY : odict (list pystr))
           (query : pystr) : gset pystr :=
  let query_lower := py_lower query in
  let from_dictionary : gset pystr :=
    ⋃ (map
         (fun '(main_term, synonyms) =>
            ⋃ (map
                 (fun word =>
                    let word_clean := word_clean word in
                    if (length word_clean <? 3)%nat then ∅
                    else if bool_decide (word_clean ∈ map py_lower synonyms)
                    then list_to_set synonyms
                    else if existsb
                              (fun s => py_in word_clean (py_lower s)
                                        || py_in (py_lower s) word_clean)
                              synonyms
                    then list_to_set synonyms
                    else ∅)
                 (py_split query_lower)))
         TECHNICAL_DICTIONARY) in
  let original_words :=
    List.filter (fun word => (2 <? length word)%nat) (py_split query_lower) in
  from_dictionary ∪ list_to_set original_words.

(** [re.search(r'\b' + re.escape(term) + r'\b', text)]. *)
Definition whole_word_in (term text : pystr) : bool :=
  re.search (WordB +++ Lit term +++ WordB) text.

(** [calculate_relevance_score(designation, query_terms, expanded_terms)]. *)
Definition calculate_relevance_score (designation : pystr)
           (query_terms expanded_terms : list pystr) : Z :=
  let designation_lower := py_lower designation in
  let score := 0%Z in
  let score :=
    fold_left
      (fun score term =>
         if py_in term designation_lower then
           let score := (score + 10)%Z in
           if whole_word_in term designation_lower then (score + 5)%Z else score
         else score)
      query_terms score in
  let score :=
    fold_left
      (fun score term =>
         if py_in term designation_lower then
           let score := (score + 3)%Z in
           if whole_word_in term designation_lower then (score + 2)%Z else score
         else score)
      expanded_terms score in
  let score :=
    if (1 <? length query_terms)%nat then
      let num_original_matches :=
        length (List.filter (fun term => py_in term designation_lower)
                            query_terms) in
      if (num_original_matches =? length query_terms)%nat
      then (score + 20)%Z else score
    else score in
  let score := if (100 <? length designation)%nat then (score - 1)%Z else score in
  let score :=
    if existsb (fun term => py_startswith designation_lower term)
               (query_terms ++ expanded_terms)
    then (score + 3)%Z else score in
  score.

(** [preprocess_text(text, for_similarity)] on a string. *)
Definition preprocess_text (text : pystr) (for_similarity : bool) : pystr :=
  let text := py_lower text in
  let accents : list (N * N) :=
    [ (0xE9, 0x65); (0xE8, 0x65); (0xEA, 0x65); (0xEB, 0x65);
      (0xE0, 0x61); (0xE2, 0x61); (0xE4, 0x61);
      (0xF9, 0x75); (0xFB, 0x75); (0xFC, 0x75);
      (0xF4, 0x6F); (0xF6, 0x6F); (0xE7, 0x63);
      (0xEE, 0x69); (0xEF, 0x69) ] in
  let text :=
    fold_left (fun text '(accent, letter) => py_replace accent letter text)
              accents text in
  let abbreviations : list (pystr * pystr) :=
    [ (u "allu", u "aluminium"); (u "alu", u "aluminium");
      (u "galva", u "galvanise"); (u "metal", u "metallique");
      (u "m2", u "metre carre"); (u "m3", u "metre cube") ] in
  let text :=
    fold_left
      (fun text '(abbrev, full) =>
         re.sub (WordB +++ Lit abbrev +++ WordB) (fun _ => full) text)
      abbreviations text in
  if for_similarity then
    let stop_words :=
      map u ["de"; "la"; "le"; "et"; "en"; "un"; "une"; "avec"; "du"; "des";
             "les"; "pour"; "sur"; "dans"; "par"]%string in
    let words := py_split text in
    let filtered_words :=
      List.filter
        (fun word => negb (bool_decide (word ∈ stop_words))
                     && (2 <? length word)%nat)
        words in
    py_join (u " ") filtered_words
  else text.

(** [get_price_by_type(content_item, price_type)]. *)
Definition get_price_by_type (content_item : ContentItem.t)
           (price_type : pystr) : pystr :=
  if bool_decide (py_upper price_type = u "MINIMUM")
  then ContentItem.minimum content_item
  else if bool_decide (py_upper price_type = u "MAXIMUM")
  then ContentItem.maximum content_item
  else ContentItem.moyen content_item.

(** *** The two searches *)

(** A row of [df_search], with its precomputed embedding. *)
Module SearchRow.
Record t (E : Type) : Type := {
  Designation : pystr;
  Unite : pystr;
  Minimum : pystr;
  Moyen : pystr;
  Maximum : pystr;
  embeddings : E
}.
Arguments Designation {E}.
Arguments Unite {E}.
Arguments Minimum {E}.
Arguments Moyen {E}.
Arguments Maximum {E}.
Arguments embeddings {E}.
End SearchRow.

(** An element of [results_with_scores]; the global search records the
    row's index, the restricted search its code. *)
Module Scored.
Record t : Type := {
  index : option nat;
  designation : pystr;
  prix : pystr;
  unite : pystr;
  code : option pystr;
  score : Q
}.
End Scored.

(** An element of the JSON answer. *)
Module Suggestion.
Record t : Type := {
  designation : pystr;
  prix : pystr;
  unite : pystr;
  code : option pystr;
  score : Q
}.
End Suggestion.

Module CsvData.
Record t (E : Type) : Type := {
  hierarchical_data : odict TitleNode.t;
  df_search : list (nat * SearchRow.t E)
}.
Arguments hierarchical_data {E}.
Arguments df_search {E}.
End CsvData.

Definition Qlt_bool (x y : Q) : bool := negb (Qle_bool y x).

Section searches.

(** The similarity provider: [encode] is [model.encode], which may raise
    ([None]); [cos_sim] is [util.cos_sim(a, b).item()].  Floats are read
    as rationals, and [round2] is [round(x, 2)]. *)
Context {E : Type}.
Context (encode : pystr -> option E) (cos_sim : E -> E -> Q).
Context (round2 : Q -> Q).

(** The enumeration of a [set] by [list]. *)
Context (order : gset pystr -> list pystr).

Context (TECHNICAL_DICTIONARY : odict (list pystr)).
Context (TITLE_SUBTITLE_DICTIONARY : odict TitleConfig.t).

(** [expand_query(query)]. *)
Definition expand_query (query : pystr) : list pystr :=
  order (expanded_set TECHNICAL_DICTIONARY query).

(** [[word.lower() for word in query.split() if len(word) > 2]]. *)
Definition original_terms_of (query : pystr) : list pystr :=
  map py_lower
      (List.filter (fun word => (2 <? length word)%nat) (py_split query)).

Definition price_of_row (price_type : pystr) (row : SearchRow.t E) : pystr :=
  if bool_decide (py_upper price_type = u "MINIMUM")
  then SearchRow.Minimum row
  else if bool_decide (py_upper price_type = u "MAXIMUM")
  then SearchRow.Maximum row
  else SearchRow.Moyen row.

Definition to_suggestion (result : Scored.t) : Suggestion.t :=
  {| Suggestion.designation := Scored.designation result;
     Suggestion.prix := Scored.prix result;
     Suggestion.unite := Scored.unite result;
     Suggestion.code := Scored.code result;
     Suggestion.score := round2 (Scored.score result) |}.

(** The [else] branch of [search_global]: the keyword results, and
    after them, when there is something to encode and the provider does
    not raise, the rows it finds similar, the whole sorted again. *)
Definition with_similarities (price_type : pystr)
           (expanded_terms : list pystr)
           (final_results : list Scored.t)
           (df_search : list (nat * SearchRow.t E)) : list Scored.t :=
  let processed_query :=
    preprocess_text (py_join (u " ") expanded_terms) true in
  match processed_query with
  | [] => final_results
  | _ :: _ =>
      match encode processed_query with
      | None => final_results
      | Some query_embedding =>
          let found_indices := omap Scored.index final_results in
          let remaining_df :=
            List.filter
              (fun '(idx, _) => negb (bool_decide (idx ∈ found_indices)))
              df_search in
          let similarities :=
            omap
              (fun '(idx, row) =>
                 let similarity :=
                   cos_sim query_embedding (SearchRow.embeddings row) in
                 if Qlt_bool (35 # 100)%Q similarity then
                   Some {| Scored.index := Some idx;
                           Scored.designation := SearchRow.Designation row;
                           Scored.prix := price_of_row price_type row;
                           Scored.unite := SearchRow.Unite row;
                           Scored.code := None;
                           Scored.score := (similarity * inject_Z 10)%Q |}
                 else None)
              remaining_df in
          sort_desc Qle_bool Scored.score (final_results ++ similarities)
      end
  end.

(** The loop that keeps the results down to half the top score and
    stops at the first one below. *)
Fixpoint keep_while_above (score_threshold : Q) (results : list Scored.t)
  : list Scored.t :=
  match results with
  | [] => []
  | result :: rest =>
      if Qle_bool score_threshold (Scored.score result)
      then result :: keep_while_above score_threshold rest
      else []
  end.

(** [search_global(query, price_type, df_search, limit)]. *)
Definition search_global (query price_type : pystr)
           (df_search : list (nat * SearchRow.t E)) (limit : Z)
  : list Suggestion.t :=
  let original_terms := original_terms_of query in
  let expanded_terms := expand_query query in
  let results_with_scores :=
    omap
      (fun '(idx, row) =>
         let designation := SearchRow.Designation row in
         let relevance_score :=
           calculate_relevance_score designation original_terms
                                     expanded_terms in
         if (0 <? relevance_score)%Z then
           Some {| Scored.index := Some idx;
                   Scored.designation := designation;
                   Scored.prix := price_of_row price_type row;
                   Scored.unite := SearchRow.Unite row;
                   Scored.code := None;
                   Scored.score := inject_Z relevance_score |}
         else None)
      df_search in
  let results_with_scores :=
    sort_desc Qle_bool Scored.score results_with_scores in
  let final_results :=
    match results_with_scores with
    | top :: _ =>
        if Qlt_bool (inject_Z 20) (Scored.score top) then
          let top_score := Scored.score top in
          let score_threshold := (top_score * (1 # 2))%Q in
          keep_while_above score_threshold results_with_scores
        else
          with_similarities price_type expanded_terms results_with_scores
                            df_search
    | [] =>
        with_similarities price_type expanded_terms results_with_scores
                          df_search
    end in
  map to_suggestion (py_take limit final_results).

(** The part of [search] that scores a non-empty [search_scope]. *)
Definition search_restricted (query price_type : pystr)
           (search_scope : list ContentItem.t) (limit : Z)
  : list Suggestion.t :=
  let original_terms := original_terms_of query in
  let expanded_terms := expand_query query in
  let results_with_scores :=
    omap
      (fun item =>
         let designation := ContentItem.designation item in
         let relevance_score :=
           calculate_relevance_score designation original_terms
                                     expanded_terms in
         if (0 <? relevance_score)%Z then
           Some {| Scored.index := None;
                   Scored.designation := designation;
                   Scored.prix := get_price_by_type item price_type;
                   Scored.unite := ContentItem.unite item;
                   Scored.code := Some (ContentItem.code item);
                   Scored.score := inject_Z relevance_score |}
         else None)
      search_scope in
  let results_with_scores :=
    sort_desc Qle_bool Scored.score results_with_scores in
  map to_suggestion (py_take limit results_with_scores).

(** [search()], the handler of [/search], on the request arguments [q],
    [price_type], [titles] (decoded), [subtitle], [limit] and the
    catalogue selected for the request. *)
Definition search (csv_data : CsvData.t E) (q price_type : pystr)
           (selected_titles : list pystr) (subtitle : pystr) (limit : Z)
  : list Suggestion.t :=
  let query := py_strip q in
  let price_type := py_strip price_type in
  let subtitle := py_strip subtitle in
  if (length query <? 2)%nat then []
  else
    let hierarchical_data := CsvData.hierarchical_data csv_data in
    let df_search := CsvData.df_search csv_data in
    let search_scope :=
      search_scope TITLE_SUBTITLE_DICTIONARY selected_titles subtitle
                   hierarchical_data in
    match search_scope with
    | [] => search_global query price_type df_search limit
    | _ :: _ => search_restricted query price_type search_scope limit
    end.

(** [count_results()], the handler of [/count], on the request argument
    [q] and the rows of the catalogue selected for the request. *)
Definition count_results (q : pystr)
           (df_search : list (nat * SearchRow.t E)) : nat :=
  let query := py_strip q in
  match query with
  | [] => 0%nat
  | _ :: _ =>
      let expanded_terms := expand_query query in
      length
        (List.filter
           (fun '(_, row) =>
              let designation_lower := py_lower (SearchRow.Designation row) in
              existsb (fun term => py_in term designation_lower)
                      expanded_terms)
           df_search)
  end.

End searches.

End Backend.

(** * Vocabulary of the statements *)

(** ** The normaliser *)

(** A code point that [normalize_text] keeps as it is: lower-case, without
    a canonical decomposition and not a nonspacing mark. *)
Definition steady (c : N) : bool :=
  bool_decide (lower_cp c = [c]) && bool_decide (decompose_cp c = [c])
  && negb (is_Mn c).

(** A steady code point of combining class 0, which no reordering moves. *)
Definition settled (c : N) : bool := steady c && (ccc c =? 0).

(** What is left of the characters [v], once decomposed and without their
    nonspacing marks, is steady. *)
Definition steadies (v : pystr) : bool :=
  forallb (fun e => forallb (fun d => is_Mn d || steady d) (decompose_cp e)) v.

(** The conjoining jamo that the Hangul syllables decompose into: the
    leading consonants, the vowels and the trailing consonants. *)
Definition jamo : pystr :=
  map N.of_nat (seq 0x1100 19 ++ seq 0x1161 21 ++ seq 0x11A8 27).

(** "Étanchéité", with E acute U+00C9 and e acute U+00E9. *)
Definition etancheite : pystr :=
  [0xC9] ++ u "tanch" ++ [0xE9] ++ u "it" ++ [0xE9].

(** ** Sorting *)

(** [x] may stand before [y] in a list sorted greatest key first. *)
Definition desc {A K : Type} (leb : K -> K -> bool) (key : A -> K)
           (x y : A) : Prop :=
  leb (key y) (key x) = true.

(** The key of [x] ties with [k]: each is below the other. *)
Definition ties {A K : Type} (leb : K -> K -> bool) (key : A -> K)
           (k : K) (x : A) : bool :=
  leb k (key x) && leb (key x) k.

(** ** Example data *)

Definition example_corrections : json_file (list (pystr * list pyval)) :=
  FileJson [(u "semelle", [PyStr (u "semell"); PyStr (u "semelles")])].

Definition example_dictionary : gmap pystr (list pystr) :=
  {[ u "beton" := [u "beton"; u "ciment"; u "mortier"] ]}.

Definition example_engine : BTCSearchEngine.t :=
  {| BTCSearchEngine.dictionary_manager :=
       DictionaryManager.load_dictionary (FileJson example_dictionary);
     BTCSearchEngine.correction_map :=
       Corrector._load_corrections example_corrections |}.

(** An engine with no corrections file and no dictionary file. *)
Definition bare_engine : BTCSearchEngine.t :=
  {| BTCSearchEngine.dictionary_manager :=
       DictionaryManager.load_dictionary FileNotFound;
     BTCSearchEngine.correction_map :=
       Corrector._load_corrections FileNotFound |}.

Definition article_of (designation : string) : BTCSearchEngine.article :=
  {| BTCSearchEngine.Designation := u designation;
     BTCSearchEngine.Prix := u "1000";
     BTCSearchEngine.Unite := u "m3" |}.

Definition example_catalog : list BTCSearchEngine.article :=
  [ article_of "semelle beton arme"; article_of "semelle beton";
    article_of "mortier de pose" ].

(** ** The tiered matcher *)

(** The score the first tier gives a row: ten per matched query token, and
    five more when a query token is itself a token of the designation. *)
Definition d1_score (query_tokens : gset pystr) (row : BTCSearchEngine.article)
  : Z :=
  (10 * Z.of_nat
          (size (BTCSearchEngine._get_flexible_matches
                   query_tokens (BTCSearchEngine.designation_tokens row)))
   + (if decide (query_tokens ∩ BTCSearchEngine.designation_tokens row = ∅)
      then 0 else 5))%Z.

(** The results that have the score [s]. *)
Definition with_score (s : Z) (results : list BTCSearchEngine.SearchResult)
  : list BTCSearchEngine.SearchResult :=
  List.filter (fun r => (BTCSearchEngine.score r =? s)%Z) results.



(** [hits] is a list of results taken from the catalogue in scan order. *)
Definition in_scan_order (df : list BTCSearchEngine.article)
           (hits : list BTCSearchEngine.SearchResult) : Prop :=
  map BTCSearchEngine.designation hits
  `sublist_of` map BTCSearchEngine.Designation df.

(** ** Example catalogue rows and dictionaries *)

Definition row_of (code designation : string) : Backend.Row.t :=
  {| Backend.Row.Code := u code; Backend.Row.Designation := u designation;
     Backend.Row.Unite := u "m3"; Backend.Row.Minimum := u "900";
     Backend.Row.Moyen := u "1000"; Backend.Row.Maximum := u "1100" |}.

(** A title row, a subtitle row, and a content row under the subtitle. *)
Definition example_tree : odict Backend.TitleNode.t :=
  Backend.build_hierarchical_structure
    [ (0%nat, row_of "03.1.0" "GROS OEUVRE");
      (1%nat, row_of "03.1.0.0" "FONDATIONS");
      (2%nat, row_of "03.1.0.0.0.001" "semelle beton") ].

(** Eleven distinct synonyms under one key; the default dictionary of
    [recup/backend.py] lists as many under "peinture". *)
Definition paint_synonyms : list pystr :=
  map u ["peinture"; "badigeon"; "revetement"; "finition"; "fom"; "enduit";
         "laque"; "vernis"; "platre"; "phaum"; "faume"]%string.

Definition paint_dictionary : gmap pystr (list pystr) :=
  {[ u "peinture" := paint_synonyms ]}.

(** A key that is not in normal form. *)
Definition capital_dictionary : gmap pystr (list pystr) :=
  {[ u "Beton" := [u "beton"; u "ciment"; u "mortier"] ]}.

(** A key that is not in normal form, next to a key that is, with a synonym
    in common. *)
Definition mixed_dictionary : gmap pystr (list pystr) :=
  {[ u "Beton" := [u "ciment"; u "mortier"];
     u "liant" := [u "ciment"; u "chaux"] ]}.

(** Two keys with the same normal form. *)
Definition colliding_dictionary : gmap pystr (list pystr) :=
  {[ u "Beton" := [u "ciment"; u "mortier"];
     u "beton" := [u "mortier"; u "dalle"] ]}.

(** A small catalogue for the hierarchical search, with a provider that
    finds every row half similar. *)
Definition search_row_of (designation : string) : Backend.SearchRow.t unit :=
  {| Backend.SearchRow.Designation := u designation;
     Backend.SearchRow.Unite := u "m3";
     Backend.SearchRow.Minimum := u "900";
     Backend.SearchRow.Moyen := u "1000";
     Backend.SearchRow.Maximum := u "1100";
     Backend.SearchRow.embeddings := tt |}.

Definition example_csv : Backend.CsvData.t unit :=
  {| Backend.CsvData.hierarchical_data := example_tree;
     Backend.CsvData.df_search :=
       [ (2%nat, search_row_of "semelle beton");
         (3%nat, search_row_of "peinture vinylique") ] |}.

Definition example_search :=
  Backend.search (fun _ => Some tt) (fun _ _ => (1 # 2)%Q) (fun x => x)
                 elements
                 [(u "beton", [u "beton"; u "mortier"; u "ciment"])]
                 [] example_csv.

(** The tokens of a query, as [expand_query] computes them. *)
Definition query_tokens_of (query : pystr) : gset pystr :=
  list_to_set
    (TextProcessor.tokenize_btp
       (TextProcessor.normalize_text (PyStr query)) false).

(** [index[key]] read as a set, empty for a missing key. *)
Definition index_lookup (index : gmap pystr (gset pystr)) (key : pystr)
  : gset pystr :=
  default ∅ (index !! key).

(** ** Vocabulary of the further properties *)

(** The reverse index is the one built from the dictionary. *)
Definition index_in_sync (self : DictionaryManager.t) : Prop :=
  DictionaryManager.reverse_index self
  = DictionaryManager._build_reverse_index (DictionaryManager.dictionary self).

(** The content items held by one title node: its own and those of its
    subtitle nodes. *)
Definition node_items (node : Backend.TitleNode.t) : list Backend.ContentItem.t :=
  Backend.TitleNode.content node
  ++ flat_map Backend.SubtitleNode.content
              (od_values (Backend.TitleNode.subtitles node)).

(** The content items held by the whole tree. *)
Definition tree_items (structure : odict Backend.TitleNode.t)
  : list Backend.ContentItem.t :=
  flat_map node_items (od_values structure).

(** The content item a row gives, when the row is kept as content. *)
Definition content_of_row (idx : nat) (row : Backend.Row.t)
  : option Backend.ContentItem.t :=
  match Backend.parse_code_hierarchy (Backend.Row.Code row) with
  | Some hierarchy =>
      match Backend.identify_entry_type (Backend.Row.Designation row)
                                        (Backend.Row.Code row) with
      | Backend.Content => Some (Backend.content_item_of idx row hierarchy)
      | _ => None
      end
  | None => None
  end.

(** Every item of the tree sits under the keys its own code gives. *)
Definition well_placed (structure : odict Backend.TitleNode.t) : Prop :=
  forall title_key node,
    (title_key, node) ∈ structure ->
    (forall item, item ∈ Backend.TitleNode.content node ->
                  Backend.title_key_of (Backend.ContentItem.hierarchy item)
                  = title_key)
    /\ (forall subtitle_key sub item,
           (subtitle_key, sub) ∈ Backend.TitleNode.subtitles node ->
           item ∈ Backend.SubtitleNode.content sub ->
           Backend.title_key_of (Backend.ContentItem.hierarchy item) = title_key
           /\ Backend.subtitle_key_of (Backend.ContentItem.hierarchy item)
              = subtitle_key).

(** The ASCII code points. *)
Definition ascii_codes : pystr := map N.of_nat (seq 0 0x80).

(** A blank-free, non-empty word. *)
Definition is_word_token (w : pystr) : Prop :=
  w <> [] /\ Forall (fun c => is_space c = false) w.

(** [needle] occurs in [hay] as a run of consecutive characters. *)
Definition occurs_in (needle hay : pystr) : Prop :=
  exists before after, hay = before ++ needle ++ after.

(** The title node that one turn of the loop of
    [build_hierarchical_structure] stores under the row's title key, from
    the node found there, or the fresh one. *)
Definition node_after (node : Backend.TitleNode.t) (idx : nat)
           (row : Backend.Row.t) (hierarchy : Backend.Hierarchy.t)
  : Backend.TitleNode.t :=
  let designation := Backend.Row.Designation row in
  let subtitle_key := Backend.subtitle_key_of hierarchy in
  match Backend.identify_entry_type designation (Backend.Row.Code row) with
  | Backend.Title =>
      {| Backend.TitleNode.title := designation;
         Backend.TitleNode.title_index := Some idx;
         Backend.TitleNode.subtitles := Backend.TitleNode.subtitles node;
         Backend.TitleNode.content := Backend.TitleNode.content node |}
  | Backend.Subtitle =>
      let kept :=
        match od_get subtitle_key (Backend.TitleNode.subtitles node) with
        | Some sub => Backend.SubtitleNode.content sub
        | None => []
        end in
      {| Backend.TitleNode.title := Backend.TitleNode.title node;
         Backend.TitleNode.title_index := Backend.TitleNode.title_index node;
         Backend.TitleNode.subtitles :=
           od_set subtitle_key
             {| Backend.SubtitleNode.subtitle := designation;
                Backend.SubtitleNode.subtitle_index := idx;
                Backend.SubtitleNode.content := kept |}
             (Backend.TitleNode.subtitles node);
         Backend.TitleNode.content := Backend.TitleNode.content node |}
  | Backend.Content =>
      let content_item := Backend.content_item_of idx row hierarchy in
      match Backend.Hierarchy.subsubtitle hierarchy,
            od_get subtitle_key (Backend.TitleNode.subtitles node) with
      | _ :: _, Some sub =>
          {| Backend.TitleNode.title := Backend.TitleNode.title node;
             Backend.TitleNode.title_index :=
               Backend.TitleNode.title_index node;
             Backend.TitleNode.subtitles :=
               od_set subtitle_key
                 {| Backend.SubtitleNode.subtitle :=
                      Backend.SubtitleNode.subtitle sub;
                    Backend.SubtitleNode.subtitle_index :=
                      Backend.SubtitleNode.subtitle_index sub;
                    Backend.SubtitleNode.content :=
                      Backend.SubtitleNode.content sub ++ [content_item] |}
                 (Backend.TitleNode.subtitles node);
             Backend.TitleNode.content := Backend.TitleNode.content node |}
      | _, _ =>
          {| Backend.TitleNode.title := Backend.TitleNode.title node;
             Backend.TitleNode.title_index :=
               Backend.TitleNode.title_index node;
             Backend.TitleNode.subtitles := Backend.TitleNode.subtitles node;
             Backend.TitleNode.content :=
               Backend.TitleNode.content node ++ [content_item] |}
      end
  end.

(** Every character that [r] can consume satisfies [P]. *)
Fixpoint consumes (P : N -> bool) (r : regex) : Prop :=
  match r with
  | Eps | WordB => True
  | Chr c => P c = true
  | Cls p => forall c, p c = true -> P c = true
  | Seq r1 r2 | Alt r1 r2 => consumes P r1 /\ consumes P r2
  | Star r1 => consumes P r1
  end.

(** The characters of a token: the word characters but the underscore,
    the slash, the hyphen and the blank. *)
Definition token_char (c : N) : bool :=
  (is_word c && negb (c =? 0x5F)) || (c =? 0x2F) || (c =? 0x2D) || (c =? 0x20).

(** The number of the terms that occur in a lower-cased designation. *)
Definition occurrences (terms : list pystr) (designation_lower : pystr) : Z :=
  Z.of_nat (length (List.filter (fun term => py_in term designation_lower)
                                terms)).

(** The content rows of a catalogue, as the items the tree holds for
    them. *)
Definition content_rows (df : list (nat * Backend.Row.t))
  : list Backend.ContentItem.t :=
  omap (fun '(idx, row) => content_of_row idx row) df.

(** The subtitle keys of a title node are its own key, on a node without
    content, or its own key followed by '.0'. *)
Definition subtitle_keys_shaped (title_key : pystr)
           (node : Backend.TitleNode.t) : Prop :=
  forall subtitle_key sub,
    (subtitle_key, sub) ∈ Backend.TitleNode.subtitles node ->
    (subtitle_key = title_key /\ Backend.SubtitleNode.content sub = [])
    \/ subtitle_key = title_key ++ u "." ++ u "0".

(** * Properties *)

(** ** The normaliser *)

Lemma assoc_In {A : Type} (c : N) (t : list (N * A)) (v : A) :
  assoc c t = Some v -> In (c, v) t.
Proof.
  induction t as [| [k w] t IH]; cbn [assoc]; [discriminate |].
  destruct (N.eqb_spec k c) as [-> | _].
  - intros [= ->]. by left.
  - destruct (c <? k); [discriminate |]. intros H. right. by apply IH.
Qed.

Lemma steady_spec c :
  steady c = true ->
  lower_cp c = [c] /\ decompose_cp c = [c] /\ is_Mn c = false.
Proof.
  unfold steady. rewrite !andb_true_iff, !bool_decide_eq_true, negb_true_iff.
  tauto.
Qed.

Lemma settled_spec c :
  settled c = true ->
  lower_cp c = [c] /\ decompose_cp c = [c] /\ ccc c = 0 /\ is_Mn c = false.
Proof.
  unfold settled. rewrite andb_true_iff, N.eqb_eq.
  intros [Hs Hc]. apply steady_spec in Hs. tauto.
Qed.

Lemma flat_map_singleton (f : N -> pystr) (s : pystr) :
  Forall (fun c => f c = [c]) s -> flat_map f s = s.
Proof. induction 1 as [| c s Hc _ IH]; simpl; [done | by rewrite Hc, IH]. Qed.

Lemma reorder_fold_class0 (s out : pystr) :
  Forall (fun c => ccc c = 0) s ->
  fold_left (fun out c => reorder_insert c out) s out = rev s ++ out.
Proof.
  intros H. revert out. induction H as [| c s Hc _ IH]; intros out; [done |].
  simpl. rewrite <- app_assoc. simpl. rewrite <- IH. f_equal.
  destruct out as [| p rest]; simpl; [done |]. by rewrite Hc.
Qed.

Lemma canonical_order_class0 (s : pystr) :
  Forall (fun c => ccc c = 0) s -> canonical_order s = s.
Proof.
  intros H. unfold canonical_order.
  rewrite reorder_fold_class0, app_nil_r by done. apply rev_involutive.
Qed.

Lemma reorder_insert_perm c out : reorder_insert c out ≡ₚ c :: out.
Proof.
  induction out as [| p rest IH]; simpl; [done |].
  destruct (_ && _); [| done]. rewrite IH. apply Permutation_swap.
Qed.

Lemma canonical_order_perm s : canonical_order s ≡ₚ s.
Proof.
  unfold canonical_order.
  assert (forall out, fold_left (fun out c => reorder_insert c out) s out
                      ≡ₚ rev s ++ out) as H.
  { induction s as [| c s IH]; intros out; simpl; [done |].
    rewrite IH, reorder_insert_perm, <- app_assoc. reflexivity. }
  etransitivity; [symmetry; apply Permutation_rev |].
  rewrite H, app_nil_r. symmetry. apply Permutation_rev.
Qed.

(** Capital sigma is the one character that [str.lower] lowers by its
    place; both its lower-case forms are steady. *)
Lemma lower_cp_sigma : lower_cp 0x3A3 = [0x3C3].
Proof. vm_compute. reflexivity. Qed.

Lemma sigma_steadies : steadies [0x3C2; 0x3C3] = true.
Proof. vm_compute. reflexivity. Qed.

(** The three facts of the character database that the normaliser rests
    on, each checked entry by entry. *)
Lemma lower_table_steadies :
  forallb (fun '(_, v) => steadies v) lower_table = true.
Proof. vm_cast_no_check (eq_refl true). Qed.

Lemma decomposition_table_steady :
  forallb
    (fun '(c, v) =>
       bool_decide (is_Some (assoc c lower_table))
       || forallb (fun d => is_Mn d || steady d) v)
    decomposition_table = true.
Proof. vm_cast_no_check (eq_refl true). Qed.

Lemma jamo_steady : forallb steady jamo = true.
Proof. vm_cast_no_check (eq_refl true). Qed.

Lemma jamo_listed (first offset : N) (count : nat) :
  offset < N.of_nat count ->
  In (first + offset) (map N.of_nat (seq (N.to_nat first) count)).
Proof.
  intros H. rewrite <- (N2Nat.id (first + offset)). apply in_map, in_seq. lia.
Qed.

Lemma hangul_steady c :
  (0xAC00 <=? c) && (c <=? 0xD7A3) = true ->
  forallb (fun d => is_Mn d || steady d) (decompose_hangul c) = true.
Proof.
  intros [H1 H2]%andb_prop. apply N.leb_le in H1, H2.
  assert (forall d, In d jamo -> is_Mn d || steady d = true) as Hjamo.
  { intros d Hd.
    rewrite (proj1 (forallb_forall _ _) jamo_steady d Hd).
    apply orb_true_r. }
  unfold decompose_hangul. cbv zeta.
  assert (c - 0xAC00 < 588 * 19) as Hs by lia.
  revert Hs. generalize (c - 0xAC00). clear c H1 H2. intros s_index Hs.
  assert (s_index / 588 < N.of_nat 19) as Hl
      by (by apply N.Div0.div_lt_upper_bound).
  assert ((s_index mod 588) / 28 < N.of_nat 21) as Hv.
  { apply N.Div0.div_lt_upper_bound. by apply N.mod_upper_bound. }
  assert (In (0x1100 + s_index / 588) jamo) as Hinl.
  { unfold jamo. rewrite map_app. apply in_or_app. left.
    exact (jamo_listed 0x1100 _ 19 Hl). }
  assert (In (0x1161 + (s_index mod 588) / 28) jamo) as Hinv.
  { unfold jamo. rewrite !map_app. apply in_or_app. right.
    apply in_or_app. left. exact (jamo_listed 0x1161 _ 21 Hv). }
  destruct (N.eqb_spec (0x11A7 + s_index mod 28) 0x11A7) as [| Hne];
    cbn [forallb]; rewrite (Hjamo _ Hinl), (Hjamo _ Hinv); [reflexivity |].
  rewrite Hjamo; [reflexivity |].
  unfold jamo. rewrite !map_app. apply in_or_app. right.
  apply in_or_app. right.
  assert (s_index mod 28 < 28) as Ht by (by apply N.mod_upper_bound).
  revert Hne Ht. generalize (s_index mod 28). intros t Hne Ht.
  replace (0x11A7 + t) with (0x11A8 + (t - 1)) by lia.
  apply (jamo_listed 0x11A8 _ 27). lia.
Qed.

(** Whatever the code point, what is left of its lower-case expansion is
    steady. *)
Lemma lower_cp_steadies c : steadies (lower_cp c) = true.
Proof.
  unfold lower_cp. destruct (assoc c lower_table) as [v |] eqn:Hlower.
  - apply assoc_In in Hlower.
    exact (proj1 (forallb_forall _ _) lower_table_steadies (c, v) Hlower).
  - cbn [default from_option id steadies forallb]. rewrite andb_true_r.
    unfold decompose_cp.
    destruct ((0xAC00 <=? c) && (c <=? 0xD7A3)) eqn:Hhangul.
    + by apply hangul_steady.
    + destruct (assoc c decomposition_table) as [v |] eqn:Hdec.
      * apply assoc_In in Hdec.
        pose proof (proj1 (forallb_forall _ _) decomposition_table_steady
                          (c, v) Hdec) as Hv.
        cbv beta iota in Hv. rewrite Hlower in Hv.
        rewrite bool_decide_eq_false_2 in Hv by (by intros [? ?]).
        exact Hv.
      * cbn [default from_option id forallb]. rewrite andb_true_r.
        destruct (is_Mn c) eqn:HMn; [reflexivity |].
        unfold steady, lower_cp, decompose_cp.
        rewrite Hlower, Hhangul, Hdec, HMn. cbn [default from_option id].
        by rewrite !bool_decide_eq_true_2.
Qed.

Lemma lower_from_steadies (cased_before : bool) (s : pystr) :
  steadies (lower_from cased_before s) = true.
Proof.
  revert cased_before. induction s as [| c s IH]; intros cased_before;
    [reflexivity |].
  cbn [lower_from]. unfold steadies. rewrite forallb_app.
  apply andb_true_iff. split; [| apply IH].
  destruct (c =? 0x3A3); [| apply lower_cp_steadies].
  pose proof sigma_steadies as Hsigma. unfold steadies in Hsigma.
  cbn [forallb] in Hsigma |- *.
  apply andb_true_iff in Hsigma as [H2 H3]. rewrite andb_true_r in H3.
  rewrite andb_true_r. by destruct (_ && _).
Qed.

Lemma filter_all {A : Type} (P : A -> bool) (l : list A) :
  Forall (fun x => P x = true) l -> List.filter P l = l.
Proof.
  induction 1 as [| x l Hx _ IH]; [reflexivity |].
  cbn [List.filter]. by rewrite Hx, IH.
Qed.

(** [normalize_text] returns steady code points only. *)
Lemma normalize_is_steady (x : pystr) :
  Forall (fun c => steady c = true) (TextProcessor.normalize_text (PyStr x)).
Proof.
  apply Forall_forall. intros d Hd.
  unfold TextProcessor.normalize_text in Hd.
  apply list_elem_of_In, filter_In in Hd as [Hd HMn].
  apply negb_true_iff in HMn.
  unfold nfd in Hd. apply list_elem_of_In in Hd.
  rewrite canonical_order_perm in Hd.
  apply list_elem_of_In, in_flat_map in Hd as (e & He & Hd).
  pose proof (lower_from_steadies false x) as Hs. unfold steadies in Hs.
  pose proof (proj1 (forallb_forall _ _) Hs e He) as Hs'.
  pose proof (proj1 (forallb_forall _ _) Hs' d Hd) as Hs''.
  cbv beta in Hs''. rewrite HMn in Hs''. exact Hs''.
Qed.

Lemma lower_from_fixed (cased_before : bool) (s : pystr) :
  Forall (fun c => lower_cp c = [c]) s -> lower_from cased_before s = s.
Proof.
  intros H. revert cased_before.
  induction H as [| c s Hc _ IH]; intros cased_before; [reflexivity |].
  cbn [lower_from]. rewrite IH.
  destruct (N.eqb_spec c 0x3A3) as [-> | _]; [| by rewrite Hc].
  rewrite lower_cp_sigma in Hc. discriminate.
Qed.

(** On steady code points, the normaliser only puts the marks in canonical
    order. *)
Lemma normalize_steady (s : pystr) :
  Forall (fun c => steady c = true) s ->
  TextProcessor.normalize_text (PyStr s) = canonical_order s.
Proof.
  intros H.
  assert (Forall (fun c => lower_cp c = [c]) s /\
          Forall (fun c => decompose_cp c = [c]) s /\
          Forall (fun c => negb (is_Mn c) = true) s) as (HL & HD & HM).
  { repeat split; eapply Forall_impl; try exact H; cbv beta;
      intros c Hc; apply steady_spec in Hc as (? & ? & HMn);
      try done. by rewrite HMn. }
  unfold TextProcessor.normalize_text, nfd, py_lower.
  rewrite (lower_from_fixed false s HL).
  rewrite (flat_map_singleton decompose_cp s HD).
  apply filter_all. by rewrite canonical_order_perm.
Qed.

(** On settled code points the normaliser is the identity. *)
Lemma normalize_settled (s : pystr) :
  Forall (fun c => settled c = true) s ->
  TextProcessor.normalize_text (PyStr s) = s.
Proof.
  intros H. rewrite normalize_steady.
  - apply canonical_order_class0. eapply Forall_impl; [exact H |].
    intros c Hc. by apply settled_spec in Hc as (_ & _ & ? & _).
  - eapply Forall_impl; [exact H |]. intros c Hc.
    unfold settled in Hc. by apply andb_prop in Hc as [? _].
Qed.

(** C9 (as stated) fails.  U+302E (class 224) and U+1B44 (class 9) are
    spacing marks, which the normaliser keeps; they are held apart by the
    nonspacing U+034F (class 0); once U+034F is dropped, a second
    normalisation swaps them. *)
Lemma normalize_text_not_idempotent :
  TextProcessor.normalize_text (PyStr (TextProcessor.normalize_text (PyStr [0x302E; 0x34F; 0x1B44])))
  <> TextProcessor.normalize_text (PyStr [0x302E; 0x34F; 0x1B44]).
Proof. vm_compute. discriminate. Qed.

(** C9 (amended): for every string, normalising the normal form again only
    puts in canonical order the combining marks that the first pass has
    kept; so [normalize_text] is idempotent on every string whose normal form
    holds no character of a combining class other than 0.  It maps
    "Étanchéité" to "etancheite", and returns the empty string on every
    value that is not a [str]. *)
Theorem normalize_text_idempotent_without_marks :
  (forall x : pystr,
      TextProcessor.normalize_text (PyStr (TextProcessor.normalize_text (PyStr x)))
      = canonical_order (TextProcessor.normalize_text (PyStr x)))
  /\ (forall x : pystr,
         Forall (fun c => ccc c = 0) (TextProcessor.normalize_text (PyStr x)) ->
         TextProcessor.normalize_text (PyStr (TextProcessor.normalize_text (PyStr x)))
         = TextProcessor.normalize_text (PyStr x))
  /\ TextProcessor.normalize_text (PyStr etancheite) = u "etancheite"
  /\ (forall v : pyval, (forall s, v <> PyStr s) -> TextProcessor.normalize_text v = []).
Proof.
  split; [| split; [| split]].
  - intros x. apply normalize_steady, normalize_is_steady.
  - intros x Hx. rewrite normalize_steady by apply normalize_is_steady.
    by apply canonical_order_class0.
  - vm_compute. reflexivity.
  - intros v Hv. destruct v; try reflexivity. by destruct (Hv s).
Qed.

(** "15 €", "l’eau" and "Φ12". *)
Lemma normalize_text_idempotent_without_marks_witness :
  Forall
    (fun x =>
       TextProcessor.normalize_text (PyStr (TextProcessor.normalize_text (PyStr x)))
       = TextProcessor.normalize_text (PyStr x))
    [ etancheite; u "15 " ++ [0x20AC]; u "l" ++ [0x2019] ++ u "eau";
      [0x3A6] ++ u "12" ]
  /\ TextProcessor.normalize_text PyNone = [].
Proof.
  split.
  - repeat constructor;
      apply (proj1 (proj2 normalize_text_idempotent_without_marks));
      apply (bool_decide_unpack _); vm_compute; exact I.
  - apply (proj2 (proj2 (proj2 normalize_text_idempotent_without_marks))).
    intros s. discriminate.
Defined.

(** The text functions are evaluated, never unfolded, from here on. *)
Opaque TextProcessor.tokenize_btp TextProcessor.normalize_text.

(** ** Sorting and truncation *)

Section sort_desc.

Context {A K : Type} (leb : K -> K -> bool) (key : A -> K).
Hypothesis leb_total : forall a b, leb a b = false -> leb b a = true.
Hypothesis leb_trans :
  forall a b c, leb a b = true -> leb b c = true -> leb a c = true.


Lemma insert_desc_perm x l : insert_desc leb key x l ≡ₚ x :: l.
Proof.
  induction l as [| y l IH]; simpl; [done |].
  destruct (leb (key y) (key x)); [done |].
  rewrite IH. apply Permutation_swap.
Qed.

Lemma sort_desc_perm l : sort_desc leb key l ≡ₚ l.
Proof.
  induction l as [| x l IH]; simpl; [done |].
  by rewrite insert_desc_perm, IH.
Qed.

Lemma insert_desc_sorted x l :
  StronglySorted (desc leb key) l -> StronglySorted (desc leb key) (insert_desc leb key x l).
Proof.
  induction 1 as [| y l Hl IH Hy]; simpl.
  - repeat constructor.
  - destruct (leb (key y) (key x)) eqn:Hyx.
    + constructor; [by constructor |].
      constructor; [exact Hyx |].
      eapply Forall_impl; [exact Hy |]. intros z Hz. unfold desc in *.
      by eapply leb_trans.
    + constructor; [exact IH |].
      rewrite insert_desc_perm. constructor; [| exact Hy].
      by apply leb_total.
Qed.

Lemma sort_desc_sorted l : StronglySorted (desc leb key) (sort_desc leb key l).
Proof.
  induction l as [| x l IH]; simpl; [constructor |].
  by apply insert_desc_sorted.
Qed.


Lemma insert_desc_ties k x l :
  List.filter (ties leb key k) (insert_desc leb key x l)
  = List.filter (ties leb key k) (x :: l).
Proof.
  induction l as [| y l IH]; simpl; [done |].
  destruct (leb (key y) (key x)) eqn:Hyx; [done |].
  simpl in *. rewrite IH.
  destruct (ties leb key k x) eqn:Hx; [| done].
  destruct (ties leb key k y) eqn:Hy; [| done].
  unfold ties in Hx, Hy.
  apply andb_prop in Hx as [Hx1 Hx2]. apply andb_prop in Hy as [Hy1 Hy2].
  by rewrite (leb_trans _ _ _ Hy2 Hx1) in Hyx.
Qed.

(** Stability: the elements that tie on a key keep their order. *)
Lemma sort_desc_stable k l :
  List.filter (ties leb key k) (sort_desc leb key l) = List.filter (ties leb key k) l.
Proof.
  induction l as [| x l IH]; simpl; [done |].
  rewrite insert_desc_ties. simpl. by rewrite IH.
Qed.

End sort_desc.

Lemma py_take_prefix {A : Type} (n : Z) (l : list A) : py_take n l `prefix_of` l.
Proof. unfold py_take. destruct (0 <=? n)%Z; apply prefix_take. Qed.

Lemma py_take_length {A : Type} (n : Z) (l : list A) :
  (0 <= n)%Z -> (Z.of_nat (length (py_take n l)) <= n)%Z.
Proof.
  intros Hn. unfold py_take. rewrite (proj2 (Z.leb_le 0 n) Hn).
  rewrite length_firstn. lia.
Qed.

Lemma filter_prefix {A : Type} (P : A -> bool) (l1 l2 : list A) :
  l1 `prefix_of` l2 -> List.filter P l1 `prefix_of` List.filter P l2.
Proof.
  intros [k ->]. rewrite List.filter_app. by apply prefix_app_r.
Qed.

Lemma StronglySorted_prefix {A : Type} (R : A -> A -> Prop) (l1 l2 : list A) :
  l1 `prefix_of` l2 -> StronglySorted R l2 -> StronglySorted R l1.
Proof.
  intros [k ->]. revert k. induction l1 as [| x l1 IH]; intros k H.
  - constructor.
  - simpl in H. apply StronglySorted_inv in H as [H1 H2].
    constructor; [by eapply IH |].
    apply Forall_app in H2. tauto.
Qed.

(** ** The tiered matcher *)

Lemma py_startswith_prefix (s p : pystr) :
  py_startswith s p = true <-> p `prefix_of` s.
Proof.
  revert s. induction p as [| c p IH]; intros s.
  - split; [intros _; apply prefix_nil | by destruct s].
  - destruct s as [| d s]; simpl.
    + split; [done |]. intros [k Hk]. discriminate.
    + rewrite andb_true_iff, IH, N.eqb_eq. split.
      * intros [-> Hp]. by apply prefix_cons.
      * intros [k Hk]. injection Hk as -> ->. split; [done |]. by exists k.
Qed.

(** What [_get_flexible_matches] returns. *)
Lemma elem_of_flexible_matches (Q D : gset pystr) (q : pystr) :
  q ∈ BTCSearchEngine._get_flexible_matches Q D
  <-> q ∈ Q /\ exists d, d ∈ D /\ (q `prefix_of` d \/ d `prefix_of` q).
Proof.
  unfold BTCSearchEngine._get_flexible_matches.
  rewrite elem_of_filter. unfold set_Exists.
  setoid_rewrite py_startswith_prefix. tauto.
Qed.

Lemma overlap_in_flexible_matches (Q D : gset pystr) :
  Q ∩ D ⊆ BTCSearchEngine._get_flexible_matches Q D.
Proof.
  intros q [HQ HD]%elem_of_intersection.
  apply elem_of_flexible_matches. split; [done |]. exists q. split; [done |].
  by left.
Qed.

Lemma size_pos_of_nonempty (X : gset pystr) : X <> ∅ -> (0 < size X)%nat.
Proof.
  intros HX. destruct (size X) eqn:Hs; [| lia].
  apply size_empty_iff in Hs. by apply leibniz_equiv in Hs.
Qed.

Lemma d1_entry_Some order Q row r :
  BTCSearchEngine.d1_entry order Q row = Some r ->
  BTCSearchEngine.score r = d1_score Q row
  /\ (10 <= BTCSearchEngine.score r)%Z
  /\ BTCSearchEngine.designation r = BTCSearchEngine.Designation row
  /\ BTCSearchEngine.num_matches r
     = size (BTCSearchEngine._get_flexible_matches
               Q (BTCSearchEngine.designation_tokens row)).
Proof.
  unfold BTCSearchEngine.d1_entry, d1_score.
  generalize (BTCSearchEngine.designation_tokens row). intros D.
  destruct (decide (BTCSearchEngine._get_flexible_matches Q D = ∅)) as [| Hm];
    [discriminate |].
  intros [= <-]. cbn [BTCSearchEngine.score BTCSearchEngine.designation
                      BTCSearchEngine.num_matches].
  apply size_pos_of_nonempty in Hm.
  destruct (decide (Q ∩ D = ∅)); repeat split; lia.
Qed.

Lemma d1_entry_None order Q row :
  BTCSearchEngine.d1_entry order Q row = None -> d1_score Q row = 0%Z.
Proof.
  unfold BTCSearchEngine.d1_entry, d1_score.
  generalize (BTCSearchEngine.designation_tokens row). intros D.
  destruct (decide (BTCSearchEngine._get_flexible_matches Q D = ∅)) as [Hm |];
    [| discriminate].
  intros _. rewrite Hm, size_empty.
  pose proof (overlap_in_flexible_matches Q D) as Hsub.
  rewrite Hm in Hsub.
  destruct (decide (Q ∩ D = ∅)) as [| Hne]; [reflexivity |].
  destruct Hne. apply leibniz_equiv, equiv_empty. exact Hsub.
Qed.

Lemma d3_entry_Some order S row r :
  BTCSearchEngine.d3_entry order S row = Some r ->
  (5 <= BTCSearchEngine.score r)%Z
  /\ BTCSearchEngine.designation r = BTCSearchEngine.Designation row.
Proof.
  unfold BTCSearchEngine.d3_entry.
  generalize (BTCSearchEngine.designation_tokens row). intros D.
  destruct (decide (BTCSearchEngine._get_flexible_matches S D = ∅)) as [| Hm];
    [discriminate |].
  intros [= <-]. cbn [BTCSearchEngine.score BTCSearchEngine.designation].
  apply size_pos_of_nonempty in Hm. split; [lia | reflexivity].
Qed.

(** C2 (amended): in the first tier a row's score is ten times the number of
    flexible matches, plus five exactly when the query tokens and the
    designation tokens share a token; a row is kept exactly when that score
    is positive, and the kept rows stay in scan order. *)
Theorem d1_score_counts_matches_and_overlap
        (order : gset pystr -> list pystr) (query_tokens : gset pystr)
        (df : list BTCSearchEngine.article) :
  (forall row : BTCSearchEngine.article,
      match BTCSearchEngine.d1_entry order query_tokens row with
      | Some r =>
          BTCSearchEngine.score r = d1_score query_tokens row
          /\ (0 < d1_score query_tokens row)%Z
      | None => d1_score query_tokens row = 0%Z
      end)
  /\ map BTCSearchEngine.score
         (omap (BTCSearchEngine.d1_entry order query_tokens) df)
     = List.filter (Z.ltb 0) (map (d1_score query_tokens) df).
Proof.
  assert (forall row : BTCSearchEngine.article,
      match BTCSearchEngine.d1_entry order query_tokens row with
      | Some r =>
          BTCSearchEngine.score r = d1_score query_tokens row
          /\ (0 < d1_score query_tokens row)%Z
      | None => d1_score query_tokens row = 0%Z
      end) as Hrow.
  { intros row.
    destruct (BTCSearchEngine.d1_entry order query_tokens row) as [r |] eqn:He.
    - apply d1_entry_Some in He as (Hs & Hpos & _). split; [done | lia].
    - by apply d1_entry_None in He. }
  split; [exact Hrow |].
  induction df as [| row df IH]; [done |].
  specialize (Hrow row). simpl.
  destruct (BTCSearchEngine.d1_entry order query_tokens row) as [r |].
  - destruct Hrow as [Hs Hpos]. simpl.
    rewrite (proj2 (Z.ltb_lt _ _) Hpos). simpl. by rewrite Hs, <- IH.
  - rewrite Hrow. simpl. exact IH.
Qed.

(** C3 (as stated) fails: "eton" occurs in "beton", but neither token is the
    start of the other, and the code tests [startswith] only. *)
Lemma flexible_matches_miss_inner_substring :
  py_in (u "eton") (u "beton") = true
  /\ u "eton" ∉ BTCSearchEngine._get_flexible_matches {[ u "eton" ]} {[ u "beton" ]}.
Proof.
  split; [reflexivity |].
  rewrite elem_of_flexible_matches. intros (_ & d & Hd & Hp).
  apply elem_of_singleton in Hd as ->.
  rewrite <- !py_startswith_prefix in Hp. vm_compute in Hp.
  destruct Hp; discriminate.
Qed.

(** C3 (amended): the flexible match is a prefix match in either direction;
    a synonym token that is the start of a designation token, or that a
    designation token starts, is among the flexible matches. *)
Theorem flexible_matches_include_prefixes
        (synonym_terms designation_tokens : gset pystr) (s d : pystr) :
  s ∈ synonym_terms -> d ∈ designation_tokens ->
  s `prefix_of` d \/ d `prefix_of` s ->
  s ∈ BTCSearchEngine._get_flexible_matches synonym_terms designation_tokens.
Proof.
  intros Hs Hd Hp. apply elem_of_flexible_matches. eauto.
Qed.

Lemma flexible_matches_include_prefixes_witness :
  u "semel" ∈ BTCSearchEngine._get_flexible_matches
                {[ u "semel" ]} {[ u "semelle"; u "beton" ]}.
Proof.
  apply (flexible_matches_include_prefixes _ _ (u "semel") (u "semelle")).
  - set_solver.
  - set_solver.
  - left. by exists (u "le").
Defined.

Lemma StronglySorted_weaken {A : Type} (R R' : A -> A -> Prop) (l : list A) :
  (forall a b, R a b -> R' a b) -> StronglySorted R l -> StronglySorted R' l.
Proof.
  intros HR. induction 1 as [| x l _ IH Hx]; constructor; [exact IH |].
  eapply Forall_impl; [exact Hx | auto].
Qed.

Lemma py_take_nil {A : Type} (n : Z) : py_take n (@nil A) = [].
Proof. unfold py_take. destruct (0 <=? n)%Z; by rewrite firstn_nil. Qed.

Lemma omap_in_scan_order (f : BTCSearchEngine.article -> option BTCSearchEngine.SearchResult)
      (df : list BTCSearchEngine.article) :
  (forall row r, f row = Some r ->
                 BTCSearchEngine.designation r = BTCSearchEngine.Designation row) ->
  in_scan_order df (omap f df).
Proof.
  intros Hf. unfold in_scan_order.
  induction df as [| row df IH]; simpl; [constructor |].
  destruct (f row) as [r |] eqn:Hr; simpl.
  - rewrite (Hf _ _ Hr). by constructor.
  - by constructor.
Qed.

Lemma promoted_in_scan_order df (p : BTCSearchEngine.SearchResult -> bool) hits :
  in_scan_order df hits ->
  in_scan_order df (map BTCSearchEngine.promote (List.filter p hits)).
Proof.
  unfold in_scan_order. intros H.
  etransitivity; [| exact H]. clear H.
  induction hits as [| r hits IH]; simpl; [constructor |].
  destruct (p r); simpl; by constructor.
Qed.

Lemma omap_Forall {A B : Type} (f : A -> option B) (P : B -> Prop) (l : list A) :
  (forall a b, f a = Some b -> P b) -> Forall P (omap f l).
Proof.
  intros Hf. induction l as [| a l IH]; simpl; [constructor |].
  destruct (f a) as [b |] eqn:Hb; simpl; [constructor; eauto | done].
Qed.



(** A sorted, truncated list of positive hits is ranked as the
    specification asks. *)
Lemma ranked_take (limit : Z) (hits : list BTCSearchEngine.SearchResult) :
  Forall (fun r => (0 < BTCSearchEngine.score r)%Z) hits ->
  let results := py_take limit (BTCSearchEngine.sort_by_score hits) in
  Forall (fun r => (0 < BTCSearchEngine.score r)%Z) results
  /\ ((0 <= limit)%Z -> (Z.of_nat (length results) <= limit)%Z)
  /\ StronglySorted
       (fun r1 r2 => (BTCSearchEngine.score r2 <= BTCSearchEngine.score r1)%Z)
       results
  /\ (forall s : Z, with_score s results `prefix_of` with_score s hits).
Proof.
  intros Hpos results.
  pose proof (py_take_prefix limit (BTCSearchEngine.sort_by_score hits)) as Hpre.
  fold results in Hpre.
  repeat split.
  - destruct Hpre as [k Hk].
    assert (Forall (fun r => (0 < BTCSearchEngine.score r)%Z)
                   (BTCSearchEngine.sort_by_score hits)) as Hs.
    { unfold BTCSearchEngine.sort_by_score. by rewrite sort_desc_perm. }
    rewrite Hk in Hs. apply Forall_app in Hs. tauto.
  - apply py_take_length.
  - eapply StronglySorted_prefix; [exact Hpre |].
    unfold BTCSearchEngine.sort_by_score.
    eapply StronglySorted_weaken; [| apply sort_desc_sorted].
    + intros r1 r2 H. unfold desc in H. by apply Z.leb_le.
    + intros a b H. apply Z.leb_gt in H. apply Z.leb_le. lia.
    + intros a b c H1%Z.leb_le H2%Z.leb_le. apply Z.leb_le. lia.
  - intros s. unfold with_score.
    assert (forall l, List.filter (fun r => (BTCSearchEngine.score r =? s)%Z) l
                      = List.filter (ties Z.leb BTCSearchEngine.score s) l) as Hext.
    { intros l. apply List.filter_ext. intros r. unfold ties.
      destruct (Z.eqb_spec (BTCSearchEngine.score r) s) as [-> | Hne].
      - by rewrite Z.leb_refl.
      - symmetry. apply andb_false_iff.
        destruct (Z.leb_spec s (BTCSearchEngine.score r)); [right | by left].
        apply Z.leb_gt. lia. }
    rewrite !Hext.
    rewrite <- (sort_desc_stable Z.leb BTCSearchEngine.score) with (l := hits).
    + by apply filter_prefix.
    + intros a b c H1%Z.leb_le H2%Z.leb_le. apply Z.leb_le. lia.
Qed.

(** Whatever the tier, [search] returns a sorted, truncated list of hits
    that were collected in scan order and have a positive score. *)
Lemma search_shape order self df query limit :
  exists hits,
    (BTCSearchEngine.search order self df query limit).2
    = py_take limit (BTCSearchEngine.sort_by_score hits)
    /\ Forall (fun r => (0 < BTCSearchEngine.score r)%Z) hits
    /\ in_scan_order df hits.
Proof.
  assert (exists hits : list BTCSearchEngine.SearchResult,
             [] = py_take limit (BTCSearchEngine.sort_by_score hits)
             /\ Forall (fun r => (0 < BTCSearchEngine.score r)%Z) hits
             /\ in_scan_order df hits) as Hnone.
  { exists []. split; [symmetry; apply py_take_nil |].
    split; [apply Forall_nil_2 | apply sublist_nil_l]. }
  unfold BTCSearchEngine.search.
  destruct (_ || _); [exact Hnone |].
  generalize (Corrector.correct_query (BTCSearchEngine.correction_map self) query).
  intros cq.
  generalize (list_to_set (TextProcessor.tokenize_btp
                (TextProcessor.normalize_text (PyStr cq)) false) : gset pystr).
  intros Q.
  destruct (decide (Q = ∅)); [exact Hnone |].
  assert (Forall (fun r => (0 < BTCSearchEngine.score r)%Z)
                 (omap (BTCSearchEngine.d1_entry order Q) df)) as Hd1.
  { apply omap_Forall. intros row r Hr. apply d1_entry_Some in Hr. lia. }
  assert (in_scan_order df (omap (BTCSearchEngine.d1_entry order Q) df)) as Hs1.
  { apply omap_in_scan_order. intros row r Hr.
    apply d1_entry_Some in Hr. tauto. }
  destruct (omap (BTCSearchEngine.d1_entry order Q) df) as [| r1 d1] eqn:Hd1eq.
  - generalize (list_to_set (DictionaryManager.expand_query order
                  (BTCSearchEngine.dictionary_manager self) cq 10) ∖ Q : gset pystr).
    intros S.
    destruct (decide (S = ∅)); [exact Hnone |].
    destruct (omap (BTCSearchEngine.d3_entry order S) df) as [| r3 d3] eqn:Hd3eq;
      [exact Hnone |].
    exists (r3 :: d3). split; [done |]. rewrite <- Hd3eq. split.
    + apply omap_Forall. intros row r Hr. apply d3_entry_Some in Hr. lia.
    + apply omap_in_scan_order. intros row r Hr.
      apply d3_entry_Some in Hr. tauto.
  - destruct (1 <? size Q)%nat; [| by exists (r1 :: d1)].
    destruct (List.filter _ (r1 :: d1)) as [| r2 d2] eqn:Hd2eq;
      [by exists (r1 :: d1) |].
    exists (map BTCSearchEngine.promote (r2 :: d2)). split; [done |].
    rewrite <- Hd2eq. split.
    + apply Forall_map. apply Forall_forall. intros r Hr.
      apply list_elem_of_In, filter_In in Hr as [Hr _].
      rewrite Forall_forall in Hd1. apply list_elem_of_In in Hr.
      specialize (Hd1 r Hr). simpl. lia.
    + by apply promoted_in_scan_order.
Qed.

(** C4 (as stated) fails for a negative [limit]: the slice [[:limit]] then
    drops the last results instead of returning none, so with [limit = -1]
    and two complete matches one result comes back. *)
Lemma search_length_exceeds_negative_limit :
  length
    (BTCSearchEngine.search elements example_engine example_catalog
                            (u "semelle beton") (-1)).2
  = 1%nat
  /\ ~ (Z.of_nat
          (length
             (BTCSearchEngine.search elements example_engine example_catalog
                                     (u "semelle beton") (-1)).2)
        <= -1)%Z.
Proof. split; vm_compute; [reflexivity | intros H; by apply H]. Qed.

(** C4 (amended): whatever tier answers, every returned result has a
    positive score, the list is sorted by score, greatest first, results of
    equal score keep the scan order of the catalogue, and for a limit that is
    not negative the list has at most [limit] elements. *)
Theorem search_results_ranked
        (order : gset pystr -> list pystr) (self : BTCSearchEngine.t)
        (df : list BTCSearchEngine.article) (query : pystr) (limit : Z) :
  let results := (BTCSearchEngine.search order self df query limit).2 in
  Forall (fun r => (0 < BTCSearchEngine.score r)%Z) results
  /\ ((0 <= limit)%Z -> (Z.of_nat (length results) <= limit)%Z)
  /\ StronglySorted
       (fun r1 r2 => (BTCSearchEngine.score r2 <= BTCSearchEngine.score r1)%Z)
       results
  /\ exists hits,
       in_scan_order df hits
       /\ forall s : Z, with_score s results `prefix_of` with_score s hits.
Proof.
  intros results.
  destruct (search_shape order self df query limit) as (hits & Hr & Hpos & Hscan).
  fold results in Hr.
  destruct (ranked_take limit hits Hpos) as (H1 & H2 & H3 & H4).
  rewrite <- Hr in H1, H2, H3, H4.
  repeat split; try assumption. exists hits. by split.
Qed.

Lemma search_results_ranked_witness :
  (Z.of_nat
     (length
        (BTCSearchEngine.search elements example_engine example_catalog
                                (u "semelle beton") 1).2)
   <= 1)%Z.
Proof.
  apply (search_results_ranked elements example_engine example_catalog
                               (u "semelle beton") 1).
  lia.
Defined.

(** C2 (as stated) fails: the query "semel" occurs in the designation
    "semelle" and matches its token, yet the score is 10, not 15, because
    the bonus tests for a shared token and not for the query string. *)
Lemma d1_bonus_not_given_for_substring :
  py_in (TextProcessor.normalize_text (PyStr (u "semel")))
        (TextProcessor.normalize_text (PyStr (u "semelle"))) = true
  /\ map BTCSearchEngine.score
         (BTCSearchEngine.search elements bare_engine [article_of "semelle"]
                                 (u "semel") 20).2
     = [10%Z].
Proof. split; vm_compute; reflexivity. Qed.




(** ** The corrector *)

Lemma py_iter_raises (value : pyval) (e : raised) :
  py_iter value = Raises e -> e = TypeError.
Proof. destruct value; cbn [py_iter]; congruence. Qed.

(** The loop over a parsed object raises exactly when it meets a value
    that is not iterable, and then a [TypeError]. *)
Lemma load_entries_raises (entries : list (pystr * pyval))
      (correction_map : gmap pystr pystr) :
  (exists e, Corrector.load_entries entries correction_map = Raises e)
  <-> exists correct_word variations,
      (correct_word, variations) ∈ entries
      /\ py_iter variations = Raises TypeError.
Proof.
  revert correction_map.
  induction entries as [| [w vs] entries IH]; intros m; cbn [Corrector.load_entries].
  - split; [by intros [e ?] | intros (w & vs & H & _); by apply elem_of_nil in H].
  - destruct (py_iter vs) as [items | e] eqn:Hvs.
    + rewrite IH. split.
      * intros (w' & vs' & Hin & Hraise). exists w', vs'. split; [by right | done].
      * intros (w' & vs' & [[= -> ->] | Hin]%elem_of_cons & Hraise);
          [congruence | by exists w', vs'].
    + pose proof (py_iter_raises _ _ Hvs) as ->. split.
      * intros _. exists w, vs. split; [by left | done].
      * intros _. by exists TypeError.
Qed.

Lemma load_entries_raised (entries : list (pystr * pyval))
      (correction_map : gmap pystr pystr) (e : raised) :
  Corrector.load_entries entries correction_map = Raises e -> e = TypeError.
Proof.
  revert correction_map.
  induction entries as [| [w vs] entries IH]; intros m; cbn [Corrector.load_entries];
    [discriminate |].
  destruct (py_iter vs) as [items | e'] eqn:Hvs; [apply IH |].
  intros [= <-]. by apply py_iter_raises in Hvs.
Qed.

(** On an object whose values are lists, the loop is the loop of the
    expected shape. *)
Lemma load_entries_of_lists (data : list (pystr * list pyval))
      (correction_map : gmap pystr pystr) :
  Corrector.load_entries
    (map (fun '(correct_word, variations) => (correct_word, PyList variations))
         data)
    correction_map
  = Returns
      (fold_left
         (fun correction_map '(correct_word, variations) =>
            fold_left
              (fun correction_map variation =>
                 <[TextProcessor.normalize_text variation := correct_word]>
                   correction_map)
              variations correction_map)
         data correction_map).
Proof.
  revert correction_map.
  induction data as [| [w vs] data IH]; intros m; [reflexivity |].
  cbn [map Corrector.load_entries py_iter fold_left]. apply IH.
Qed.

(** C7 (as stated) fails in two ways.  With a well-formed but empty
    document the index is empty, and the query comes back as it is, neither
    normalised nor rejoined.  And a file that is malformed otherwise than by
    not being JSON raises: bytes that are not UTF-8, or a JSON document that
    is not an object. *)
Lemma corrector_raw_or_raising :
  (let index := Corrector._load_corrections (FileJson []) in
   Corrector.correct_query index (u "Semelle  Beton")
   <> py_join (u " ")
        (map (fun token => default token (index !! token))
             (py_split (TextProcessor.normalize_text
                          (PyStr (u "Semelle  Beton"))))))
  /\ Corrector._load_corrections FileUndecodable = Raises UnicodeDecodeError
  /\ Corrector._load_corrections (FileJsonOther (PyList [PyStr (u "semell")]))
     = Raises AttributeError
  /\ Corrector._load_corrections
       (FileJsonOther (PyDict [(u "semelle", PyInt 1)]))
     = Raises TypeError.
Proof.
  split; [vm_compute; discriminate |]. repeat split.
Qed.

(** C7 (amended): with an index that is not empty, [correct_query]
    normalises the query, splits it on blanks, replaces each token by its
    entry in the index, a token without entry staying as it is, and joins the
    tokens with single spaces; with an empty index every query is returned
    unchanged.  A corrections file that is missing or is not JSON gives the
    empty index, and no error; a file that cannot be read or decoded raises,
    a document that is not an object raises [AttributeError], an object
    raises, a [TypeError], exactly when one of its values is not iterable,
    and an object of lists is loaded as the expected shape is.  With the
    variants semelle: semell, semelles the query "semell beton" becomes
    "semelle beton". *)
Theorem correct_query_per_token :
  (forall (correction_map : gmap pystr pystr) (query : pystr),
      correction_map <> ∅ ->
      Corrector.correct_query correction_map query
      = py_join (u " ")
          (map (fun token => default token (correction_map !! token))
               (py_split (TextProcessor.normalize_text (PyStr query)))))
  /\ (forall query : pystr,
         Corrector._load_corrections FileNotFound = ∅
         /\ Corrector._load_corrections FileInvalidJson = ∅
         /\ Corrector.correct_query ∅ query = query)
  /\ (Corrector._load_corrections FileUnreadable = Raises OSError
      /\ Corrector._load_corrections FileUndecodable = Raises UnicodeDecodeError
      /\ (forall document : pyval,
             (forall entries, document <> PyDict entries) ->
             Corrector._load_corrections (FileJsonOther document)
             = Raises AttributeError)
      /\ (forall entries : list (pystr * pyval),
             ((exists e, Corrector._load_corrections
                           (FileJsonOther (PyDict entries)) = Raises e)
              <-> exists correct_word variations,
                 (correct_word, variations) ∈ entries
                 /\ py_iter variations = Raises TypeError)
             /\ (forall e, Corrector._load_corrections
                             (FileJsonOther (PyDict entries)) = Raises e ->
                           e = TypeError))
      /\ (forall data : list (pystr * list pyval),
             Corrector._load_corrections
               (FileJsonOther
                  (PyDict (map (fun '(correct_word, variations) =>
                                  (correct_word, PyList variations)) data)))
             = Returns (Corrector._load_corrections (FileJson data))))
  /\ Corrector.correct_query (Corrector._load_corrections example_corrections)
                             (u "semell beton")
     = u "semelle beton".
Proof.
  split; [| split; [| split]].
  - intros m query Hm. unfold Corrector.correct_query.
    destruct (decide (m = ∅)); [contradiction | reflexivity].
  - intros query. split; [reflexivity |]. split; [reflexivity |].
    unfold Corrector.correct_query. by destruct (decide (∅ = ∅)).
  - split; [reflexivity |]. split; [reflexivity |].
    split; [| split].
    + intros document Hdoc. destruct document; try reflexivity.
      by destruct (Hdoc entries).
    + intros entries. split.
      * apply load_entries_raises.
      * apply load_entries_raised.
    + intros data. apply load_entries_of_lists.
  - vm_compute. reflexivity.
Qed.

Lemma correct_query_per_token_witness :
  Corrector.correct_query (Corrector._load_corrections example_corrections)
                          (u "Semelles  en  BETON")
  = u "semelle en beton"
  /\ Corrector.correct_query (Corrector._load_corrections FileNotFound)
                             (u "Semelles  en  BETON")
     = u "Semelles  en  BETON"
  /\ Corrector._load_corrections
       (FileJsonOther (PyDict [(u "semelle", PyStr (u "ab"))]))
     = Returns {[ u "a" := u "semelle"; u "b" := u "semelle" ]}.
Proof.
  split; [| split].
  - rewrite (proj1 correct_query_per_token).
    + vm_compute. reflexivity.
    + apply (bool_decide_unpack _). vm_compute. exact I.
  - apply (proj1 (proj2 correct_query_per_token)).
  - vm_compute. reflexivity.
Defined.

(** ** The catalogue tree *)

Lemma od_get_set_eq {V : Type} (k : pystr) (v : V) (d : odict V) :
  od_get k (od_set k v d) = Some v.
Proof.
  induction d as [| [k' v'] d IH]; simpl.
  - by rewrite decide_True.
  - destruct (decide (k' = k)) as [-> | Hne]; simpl.
    + by rewrite decide_True.
    + by rewrite decide_False.
Qed.

Lemma od_get_set_ne {V : Type} (k k' : pystr) (v : V) (d : odict V) :
  k <> k' -> od_get k' (od_set k v d) = od_get k' d.
Proof.
  intros Hne. induction d as [| [k0 v0] d IH]; simpl.
  - by rewrite decide_False.
  - destruct (decide (k0 = k)) as [-> | Hne0]; simpl.
    + by rewrite !decide_False.
    + by rewrite IH.
Qed.

Lemma parse_code_hierarchy_None (code : pystr) :
  Backend.parse_code_hierarchy code = None
  <-> (length (py_split_on 0x2E code) < 3)%nat.
Proof.
  unfold Backend.parse_code_hierarchy.
  destruct (Nat.ltb_spec (length (py_split_on 0x2E code)) 3); split;
    intros; try done; lia.
Qed.

(** C5: the tree is built in one pass over the rows in their order,
    starting from the empty tree: the tree of a catalogue followed by one
    more row is the tree of the catalogue to which that row is added.  A row
    whose code has fewer than three segments leaves the tree as it is, and
    the tree built from a catalogue is the tree built without such rows; a
    content row with a subsubtitle segment goes to the subtitle node of that
    key when the node exists at that moment (the title's own content being
    untouched), and to its title node otherwise (no subtitle node being
    touched). *)
Theorem content_row_attachment
        (structure : odict Backend.TitleNode.t) (idx : nat) (row : Backend.Row.t) :
  let code := Backend.Row.Code row in
  ((length (py_split_on 0x2E code) < 3)%nat ->
   Backend.add_row structure idx row = structure)
  /\ (forall df : list (nat * Backend.Row.t),
         Backend.build_hierarchical_structure df
         = Backend.build_hierarchical_structure
             (List.filter
                (fun '(_, r) =>
                   (3 <=? length (py_split_on 0x2E (Backend.Row.Code r)))%nat)
                df))
  /\ (forall hierarchy : Backend.Hierarchy.t,
         Backend.parse_code_hierarchy code = Some hierarchy ->
         Backend.identify_entry_type (Backend.Row.Designation row) code
         = Backend.Content ->
         Backend.Hierarchy.subsubtitle hierarchy <> [] ->
         let title_key := Backend.title_key_of hierarchy in
         let subtitle_key :=
           title_key ++ u "." ++ Backend.Hierarchy.subsubtitle hierarchy in
         let before := default Backend.new_title (od_get title_key structure) in
         let content_item := Backend.content_item_of idx row hierarchy in
         exists after,
           od_get title_key (Backend.add_row structure idx row) = Some after
           /\ match od_get subtitle_key (Backend.TitleNode.subtitles before) with
              | Some sub =>
                  Backend.TitleNode.content after
                  = Backend.TitleNode.content before
                  /\ exists sub',
                       od_get subtitle_key (Backend.TitleNode.subtitles after)
                       = Some sub'
                       /\ Backend.SubtitleNode.content sub'
                          = Backend.SubtitleNode.content sub ++ [content_item]
              | None =>
                  Backend.TitleNode.content after
                  = Backend.TitleNode.content before ++ [content_item]
                  /\ Backend.TitleNode.subtitles after
                     = Backend.TitleNode.subtitles before
              end)
  /\ Backend.build_hierarchical_structure [] = []
  /\ (forall df : list (nat * Backend.Row.t),
         Backend.build_hierarchical_structure (df ++ [(idx, row)])
         = Backend.add_row (Backend.build_hierarchical_structure df) idx row).
Proof.
  intros code.
  assert (forall st i r,
             (length (py_split_on 0x2E (Backend.Row.Code r)) < 3)%nat ->
             Backend.add_row st i r = st) as Hskip.
  { intros st i r Hr. apply parse_code_hierarchy_None in Hr.
    unfold Backend.add_row. by rewrite Hr. }
  split; [apply Hskip |]. split; [| split; [| split; [reflexivity |]]].
  - intros df. unfold Backend.build_hierarchical_structure.
    generalize (@nil (pystr * Backend.TitleNode.t)).
    induction df as [| [i r] df IH]; intros st; [reflexivity |].
    cbn [fold_left List.filter].
    destruct (Nat.leb_spec 3 (length (py_split_on 0x2E (Backend.Row.Code r)))).
    + cbn [fold_left]. apply IH.
    + rewrite Hskip by lia. apply IH.
  - intros h Hparse Htype Hsub title_key subtitle_key before content_item.
    unfold Backend.add_row. fold code. rewrite Hparse, Htype.
    assert (Backend.subtitle_key_of h = subtitle_key) as ->.
    { unfold Backend.subtitle_key_of.
      by destruct (Backend.Hierarchy.subsubtitle h). }
    fold title_key.
    set (st := match od_get title_key structure with
               | Some _ => structure
               | None => od_set title_key Backend.new_title structure
               end).
    assert (default Backend.new_title (od_get title_key st) = before) as ->.
    { unfold st, before.
      destruct (od_get title_key structure) as [n |] eqn:Hn.
      - by rewrite Hn.
      - by rewrite od_get_set_eq. }
    fold content_item.
    destruct (Backend.Hierarchy.subsubtitle h) as [| c ss] eqn:Hss; [done |].
    destruct (od_get subtitle_key (Backend.TitleNode.subtitles before))
      as [sub |] eqn:Hget.
    + eexists. split; [apply od_get_set_eq |]. simpl.
      split; [reflexivity |]. eexists. split; [apply od_get_set_eq |].
      reflexivity.
    + eexists. split; [apply od_get_set_eq |]. simpl. by split.
  - intros df. unfold Backend.build_hierarchical_structure.
    by rewrite fold_left_app.
Qed.

Lemma content_row_attachment_witness :
  Backend.add_row example_tree 9 (row_of "03.1" "orphan") = example_tree
  /\ (exists after,
         od_get (u "03.1.0")
                (Backend.add_row example_tree 3
                                 (row_of "03.1.0.1.0.001" "beton arme"))
         = Some after
         /\ Backend.TitleNode.subtitles after
            = Backend.TitleNode.subtitles
                (default Backend.new_title (od_get (u "03.1.0") example_tree)))
  /\ (exists after sub,
         od_get (u "03.1.0")
                (Backend.build_hierarchical_structure
                   ([ (0%nat, row_of "03.1.0" "GROS OEUVRE");
                      (1%nat, row_of "03.1.0.0" "FONDATIONS");
                      (2%nat, row_of "03.1.0.0.0.001" "semelle beton") ]
                    ++ [(3%nat, row_of "03.1.0.0.0.002" "beton arme")]))
         = Some after
         /\ Backend.TitleNode.content after = []
         /\ od_get (u "03.1.0.0") (Backend.TitleNode.subtitles after) = Some sub
         /\ map Backend.ContentItem.code (Backend.SubtitleNode.content sub)
            = [u "03.1.0.0.0.001"; u "03.1.0.0.0.002"]).
Proof.
  split; [| split].
  - apply (proj1 (content_row_attachment example_tree 9 (row_of "03.1" "orphan"))).
    vm_compute. lia.
  - destruct (proj1 (proj2 (proj2 (content_row_attachment
                                     example_tree 3
                                     (row_of "03.1.0.1.0.001" "beton arme"))))
                    {| Backend.Hierarchy.main := u "03";
                       Backend.Hierarchy.title := u "1";
                       Backend.Hierarchy.subtitle := u "0";
                       Backend.Hierarchy.subsubtitle := u "1";
                       Backend.Hierarchy.item := u "0";
                       Backend.Hierarchy.detail := u "001" |})
      as (after & Hget & Hatt).
    + vm_compute. reflexivity.
    + vm_compute. reflexivity.
    + discriminate.
    + exists after. split; [exact Hget |].
      match type of Hatt with
      | match ?node with Some _ => _ | None => _ end =>
          assert (node = None) as Hnode by (vm_compute; reflexivity);
          rewrite Hnode in Hatt
      end.
      exact (proj2 Hatt).
  - rewrite (proj2 (proj2 (proj2 (proj2 (content_row_attachment
                                           example_tree 3
                                           (row_of "03.1.0.0.0.002"
                                                   "beton arme")))))).
    destruct (proj1 (proj2 (proj2 (content_row_attachment
                                     example_tree 3
                                     (row_of "03.1.0.0.0.002" "beton arme"))))
                    {| Backend.Hierarchy.main := u "03";
                       Backend.Hierarchy.title := u "1";
                       Backend.Hierarchy.subtitle := u "0";
                       Backend.Hierarchy.subsubtitle := u "0";
                       Backend.Hierarchy.item := u "0";
                       Backend.Hierarchy.detail := u "002" |})
      as (after & Hget & Hatt).
    + vm_compute. reflexivity.
    + vm_compute. reflexivity.
    + discriminate.
    + match type of Hatt with
      | match ?node with Some _ => _ | None => _ end =>
          let found := eval vm_compute in node in
          assert (node = found) as Hnode by (vm_compute; reflexivity);
          rewrite Hnode in Hatt
      end.
      destruct Hatt as (Hcontent & sub & Hsub & Hitems).
      exists after, sub. split; [exact Hget |].
      split; [rewrite Hcontent; vm_compute; reflexivity |].
      split; [exact Hsub |].
      rewrite Hitems. vm_compute. reflexivity.
Defined.

(** ** The synonym dictionary *)

Lemma index_lookup_add index key value s :
  index_lookup (DictionaryManager.index_add index key value) s
  = if decide (key = s) then {[ value ]} ∪ index_lookup index s
    else index_lookup index s.
Proof.
  unfold index_lookup, DictionaryManager.index_add.
  destruct (decide (key = s)) as [-> | Hne].
  - by rewrite lookup_insert_eq.
  - by rewrite lookup_insert_ne.
Qed.

Lemma index_lookup_synonyms (nm : pystr) (synonyms : list pystr) index s m :
  m ∈ index_lookup
        (fold_left
           (fun index synonym =>
              DictionaryManager.index_add
                index (TextProcessor.normalize_text (PyStr synonym)) nm)
           synonyms index) s
  <-> (m = nm /\ exists synonym,
          synonym ∈ synonyms
          /\ TextProcessor.normalize_text (PyStr synonym) = s)
      \/ m ∈ index_lookup index s.
Proof.
  revert index. induction synonyms as [| syn synonyms IH]; intros index.
  - simpl. split; [by right |]. intros [(_ & x & Hx & _) | H]; [| done].
    by apply not_elem_of_nil in Hx.
  - cbn [fold_left]. rewrite IH, index_lookup_add.
    destruct (decide (TextProcessor.normalize_text (PyStr syn) = s)) as [Hs | Hs].
    + rewrite elem_of_union, elem_of_singleton. split.
      * intros [(-> & x & Hx & Hxs) | [-> | H]].
        -- left. split; [done |]. exists x. split; [by right | done].
        -- left. split; [done |]. exists syn. split; [by left | done].
        -- by right.
      * intros [(-> & x & Hx & Hxs) | H]; [| by right; right].
        apply elem_of_cons in Hx as [-> | Hx]; [by right; left |].
        left. split; [done |]. by exists x.
    + split.
      * intros [(-> & x & Hx & Hxs) | H]; [| by right].
        left. split; [done |]. exists x. split; [by right | done].
      * intros [(-> & x & Hx & Hxs) | H]; [| by right].
        apply elem_of_cons in Hx as [-> | Hx]; [done |].
        left. split; [done |]. by exists x.
Qed.

(** What [_build_reverse_index] holds: under the normal form of a synonym,
    the normal forms of the keys that list it. *)
Lemma elem_of_reverse_index (dictionary : gmap pystr (list pystr)) (s m : pystr) :
  m ∈ index_lookup (DictionaryManager._build_reverse_index dictionary) s
  <-> exists main_term synonyms synonym,
        dictionary !! main_term = Some synonyms
        /\ synonym ∈ synonyms
        /\ TextProcessor.normalize_text (PyStr synonym) = s
        /\ TextProcessor.normalize_text (PyStr main_term) = m.
Proof.
  unfold DictionaryManager._build_reverse_index.
  assert (forall (l : list (pystr * list pystr)) index,
    m ∈ index_lookup
          (fold_left
             (fun index '(main_term, synonyms) =>
                fold_left
                  (fun index synonym =>
                     DictionaryManager.index_add
                       index (TextProcessor.normalize_text (PyStr synonym))
                       (TextProcessor.normalize_text (PyStr main_term)))
                  synonyms index)
             l index) s
    <-> (exists main_term synonyms synonym,
            (main_term, synonyms) ∈ l
            /\ synonym ∈ synonyms
            /\ TextProcessor.normalize_text (PyStr synonym) = s
            /\ TextProcessor.normalize_text (PyStr main_term) = m)
        \/ m ∈ index_lookup index s) as Hfold.
  { induction l as [| [K syns] l IH]; intros index.
    - simpl. split; [by right |]. intros [(K & syns & syn & HK & _) | H]; [| done].
      by apply not_elem_of_nil in HK.
    - cbn [fold_left]. rewrite IH, index_lookup_synonyms. split.
      + intros [(K' & syns' & syn & HK & Hsyn & Hs & Hm) | [(-> & syn & Hsyn & Hs) | H]].
        * left. exists K', syns', syn. split; [by right | done].
        * left. exists K, syns, syn. split; [by left | done].
        * by right.
      + intros [(K' & syns' & syn & HK & Hsyn & Hs & Hm) | H]; [| by right; right].
        apply elem_of_cons in HK as [[= -> ->] | HK].
        * right. left. split; [done |]. by exists syn.
        * left. by exists K', syns', syn. }
  rewrite Hfold. unfold index_lookup. rewrite lookup_empty. simpl.
  setoid_rewrite elem_of_map_to_list. split.
  - intros [H | H]; [exact H | by apply not_elem_of_empty in H].
  - intros H. by left.
Qed.

(** What [expand_query] collects before it cuts. *)
Lemma elem_of_expanded_terms (self : DictionaryManager.t) (query x : pystr) :
  x ∈ DictionaryManager.expanded_terms self query
  <-> x ∈ query_tokens_of query
      \/ exists token main_term stored,
           token ∈ query_tokens_of query
           /\ main_term ∈ index_lookup (DictionaryManager.reverse_index self) token
           /\ DictionaryManager.dictionary self !! main_term = Some stored
           /\ x ∈ stored.
Proof.
  unfold DictionaryManager.expanded_terms, query_tokens_of. cbv zeta.
  generalize (list_to_set
                (TextProcessor.tokenize_btp
                   (TextProcessor.normalize_text (PyStr query)) false)
              : gset pystr).
  intros Q.
  rewrite elem_of_union, elem_of_set_bind. unfold index_lookup. split.
  - intros [(token & Htoken & Hx) | HQ]; [| by left]. right.
    destruct (DictionaryManager.reverse_index self !! token) as [mains |] eqn:Hm;
      [| by apply not_elem_of_empty in Hx].
    apply elem_of_set_bind in Hx as (main & Hmain & Hx).
    destruct (DictionaryManager.dictionary self !! main) as [stored |] eqn:Hd;
      simpl in Hx; [| by apply not_elem_of_empty in Hx].
    apply elem_of_list_to_set in Hx.
    exists token, main, stored. by rewrite Hm.
  - intros [HQ | (token & main & stored & Htoken & Hmain & Hd & Hx)]; [by right |].
    left. exists token. split; [done |].
    destruct (DictionaryManager.reverse_index self !! token) as [mains |] eqn:Hm;
      simpl in Hmain; [| by apply not_elem_of_empty in Hmain].
    apply elem_of_set_bind. exists main. split; [done |].
    rewrite Hd. simpl. by apply elem_of_list_to_set.
Qed.

(** The same, read on the dictionary that was loaded. *)
Lemma elem_of_expanded_terms_loaded (dictionary : gmap pystr (list pystr))
      (query x : pystr) :
  x ∈ DictionaryManager.expanded_terms
        (DictionaryManager.load_dictionary (FileJson dictionary)) query
  <-> x ∈ query_tokens_of query
      \/ exists main_term synonyms synonym stored,
           dictionary !! main_term = Some synonyms
           /\ synonym ∈ synonyms
           /\ TextProcessor.normalize_text (PyStr synonym) ∈ query_tokens_of query
           /\ dictionary !! TextProcessor.normalize_text (PyStr main_term)
              = Some stored
           /\ x ∈ stored.
Proof.
  rewrite elem_of_expanded_terms. cbn [DictionaryManager.load_dictionary
    DictionaryManager.reverse_index DictionaryManager.dictionary].
  split; (intros [HQ | H]; [by left | right]).
  - destruct H as (token & main & stored & Htoken & Hmain & Hd & Hx).
    apply elem_of_reverse_index in Hmain as (K & syns & syn & HK & Hsyn & Hs & Hm).
    exists K, syns, syn, stored. subst. done.
  - destruct H as (K & syns & syn & stored & HK & Hsyn & Hs & Hd & Hx).
    exists (TextProcessor.normalize_text (PyStr syn)),
           (TextProcessor.normalize_text (PyStr K)), stored.
    split; [done |]. split; [| done].
    apply elem_of_reverse_index. by exists K, syns, syn.
Qed.

Section enumeration.

(** [list(s)] enumerates the set [s], each element once, in some order. *)
Context (order : gset pystr -> list pystr).
Hypothesis order_enumerates : forall X : gset pystr, order X ≡ₚ elements X.

Lemma elem_of_expand_query self query max_expansions x :
  x ∈ DictionaryManager.expand_query order self query max_expansions ->
  x ∈ DictionaryManager.expanded_terms self query.
Proof.
  unfold DictionaryManager.expand_query.
  generalize (DictionaryManager.expanded_terms self query). intros X Hx.
  destruct (py_take_prefix max_expansions (order X)) as [k Hk].
  apply elem_of_elements. rewrite <- order_enumerates, Hk.
  apply elem_of_app. left. exact Hx.
Qed.

Lemma expand_query_uncut self query max_expansions :
  (Z.of_nat (size (DictionaryManager.expanded_terms self query))
   <= max_expansions)%Z ->
  forall x,
    x ∈ DictionaryManager.expand_query order self query max_expansions
    <-> x ∈ DictionaryManager.expanded_terms self query.
Proof.
  unfold DictionaryManager.expand_query, py_take.
  generalize (DictionaryManager.expanded_terms self query). intros X Hsize x.
  assert (length (order X) = size X) as Hlen.
  { rewrite order_enumerates. reflexivity. }
  destruct (Z.leb_spec 0 max_expansions); [| lia].
  rewrite firstn_all2 by lia.
  rewrite order_enumerates. apply elem_of_elements.
Qed.

End enumeration.

(** C6 (as stated) fails in two ways.  The list is cut to [max_expansions]
    terms: of the eleven synonyms of "peinture" at most ten come back.  And
    the synonyms are looked up under the normal form of the key: under the
    key "Beton" the query "ciment" does not bring "mortier". *)
Lemma expand_query_misses_synonyms :
  ~ Forall
      (fun x =>
         x ∈ DictionaryManager.expand_query
               elements
               (DictionaryManager.load_dictionary (FileJson paint_dictionary))
               (u "peinture") 10)
      paint_synonyms
  /\ u "mortier"
     ∉ DictionaryManager.expand_query
         elements
         (DictionaryManager.load_dictionary (FileJson capital_dictionary))
         (u "ciment") 10.
Proof.
  split; apply (bool_decide_unpack _); vm_compute; exact I.
Qed.

(** C6 (amended): when the expanded set has no more than [max_expansions]
    elements, [expand_query] returns, for every query token that is the
    normal form of a synonym listed under some key, every synonym stored
    under the normal form of that key, and it returns the query tokens; with
    the dictionary beton: beton, ciment, mortier the query "ciment" brings
    "mortier". *)
Theorem expand_query_fans_out
        (order : gset pystr -> list pystr)
        (order_enumerates : forall X : gset pystr, order X ≡ₚ elements X)
        (dictionary : gmap pystr (list pystr)) (query : pystr)
        (max_expansions : Z) :
  let self := DictionaryManager.load_dictionary (FileJson dictionary) in
  let expanded := DictionaryManager.expand_query order self query max_expansions in
  ((Z.of_nat (size (DictionaryManager.expanded_terms self query))
    <= max_expansions)%Z ->
   (forall main_term synonyms synonym stored x,
       dictionary !! main_term = Some synonyms ->
       synonym ∈ synonyms ->
       TextProcessor.normalize_text (PyStr synonym) ∈ query_tokens_of query ->
       dictionary !! TextProcessor.normalize_text (PyStr main_term) = Some stored ->
       x ∈ stored ->
       x ∈ expanded)
   /\ (forall token, token ∈ query_tokens_of query -> token ∈ expanded))
  /\ u "mortier"
     ∈ DictionaryManager.expand_query
         order (DictionaryManager.load_dictionary (FileJson example_dictionary))
         (u "ciment") 10.
Proof.
  intros self expanded. split.
  - intros Hsize. split.
    + intros K syns syn stored x HK Hsyn Hs Hd Hx.
      apply (expand_query_uncut order order_enumerates); [exact Hsize |].
      apply elem_of_expanded_terms_loaded. right. by exists K, syns, syn, stored.
    + intros token Htoken.
      apply (expand_query_uncut order order_enumerates); [exact Hsize |].
      apply elem_of_expanded_terms_loaded. by left.
  - apply (expand_query_uncut order order_enumerates).
    + vm_compute. discriminate.
    + apply (bool_decide_unpack _). vm_compute. exact I.
Qed.

Lemma expand_query_fans_out_witness :
  u "beton"
  ∈ DictionaryManager.expand_query
      elements (DictionaryManager.load_dictionary (FileJson example_dictionary))
      (u "ciment") 10.
Proof.
  assert (forall X : gset pystr, elements X ≡ₚ elements X) as Henum by done.
  destruct (expand_query_fans_out elements Henum example_dictionary
                                  (u "ciment") 10) as [Hfan _].
  destruct Hfan as [Hsyn _].
  - vm_compute. discriminate.
  - apply (Hsyn (u "beton") [u "beton"; u "ciment"; u "mortier"] (u "ciment")
                [u "beton"; u "ciment"; u "mortier"]).
    + vm_compute. reflexivity.
    + apply (bool_decide_unpack _). vm_compute. exact I.
    + apply (bool_decide_unpack _). vm_compute. exact I.
    + vm_compute. reflexivity.
    + apply (bool_decide_unpack _). vm_compute. exact I.
Defined.

(** C10 (as stated) fails when the normal form of the key is itself met in
    the dictionary.  In [mixed_dictionary] the token "ciment" maps to the key
    "Beton", which is not in normal form, and to the key "liant", which is:
    the query "ciment" brings "chaux".  In [colliding_dictionary] it maps to
    "Beton" only, and brings what is stored under "beton", one of them a
    synonym of "Beton". *)
Lemma expand_query_beyond_query_tokens :
  TextProcessor.normalize_text (PyStr (u "Beton")) <> u "Beton"
  /\ (TextProcessor.normalize_text (PyStr (u "Beton"))
      ∈ index_lookup
          (DictionaryManager.reverse_index
             (DictionaryManager.load_dictionary (FileJson mixed_dictionary)))
          (u "ciment")
      /\ u "chaux"
         ∈ DictionaryManager.expand_query
             elements
             (DictionaryManager.load_dictionary (FileJson mixed_dictionary))
             (u "ciment") 10
      /\ u "chaux" ∉ query_tokens_of (u "ciment"))
  /\ (index_lookup
        (DictionaryManager.reverse_index
           (DictionaryManager.load_dictionary (FileJson colliding_dictionary)))
        (u "ciment")
      = {[ TextProcessor.normalize_text (PyStr (u "Beton")) ]}
      /\ u "mortier"
         ∈ DictionaryManager.expand_query
             elements
             (DictionaryManager.load_dictionary (FileJson colliding_dictionary))
             (u "ciment") 10
      /\ u "mortier" ∉ query_tokens_of (u "ciment")).
Proof.
  repeat split; apply (bool_decide_unpack _); vm_compute; exact I.
Qed.

(** C10 (amended): the synonyms a query token brings are those stored under
    the normal form of the keys that list it, so a key that is not in normal
    form contributes what the dictionary holds under its normal form; when
    the dictionary holds nothing under the normal form of any key the query
    tokens reach, the expansion is the set of query tokens and nothing
    else. *)
Theorem expand_query_looks_up_normalized_key
        (order : gset pystr -> list pystr)
        (order_enumerates : forall X : gset pystr, order X ≡ₚ elements X)
        (dictionary : gmap pystr (list pystr)) (query : pystr)
        (max_expansions : Z) :
  let self := DictionaryManager.load_dictionary (FileJson dictionary) in
  (forall x,
      x ∈ DictionaryManager.expanded_terms self query
      <-> x ∈ query_tokens_of query
          \/ exists main_term synonyms synonym stored,
               dictionary !! main_term = Some synonyms
               /\ synonym ∈ synonyms
               /\ TextProcessor.normalize_text (PyStr synonym)
                  ∈ query_tokens_of query
               /\ dictionary !! TextProcessor.normalize_text (PyStr main_term)
                  = Some stored
               /\ x ∈ stored)
  /\ ((forall main_term synonyms synonym,
          dictionary !! main_term = Some synonyms ->
          synonym ∈ synonyms ->
          TextProcessor.normalize_text (PyStr synonym) ∈ query_tokens_of query ->
          dictionary !! TextProcessor.normalize_text (PyStr main_term) = None) ->
      DictionaryManager.expanded_terms self query = query_tokens_of query
      /\ forall x,
           x ∈ DictionaryManager.expand_query order self query max_expansions ->
           x ∈ query_tokens_of query).
Proof.
  intros self. split; [apply elem_of_expanded_terms_loaded |].
  intros Hnone.
  assert (DictionaryManager.expanded_terms self query = query_tokens_of query)
    as Heq.
  { apply leibniz_equiv. intros x. unfold self.
    rewrite elem_of_expanded_terms_loaded. split; [| by left].
    intros [HQ | (K & syns & syn & stored & HK & Hsyn & Hs & Hd & _)]; [done |].
    by rewrite (Hnone K syns syn HK Hsyn Hs) in Hd. }
  split; [exact Heq |].
  intros x Hx. rewrite <- Heq.
  by apply (elem_of_expand_query order order_enumerates) in Hx.
Qed.

Lemma expand_query_looks_up_normalized_key_witness :
  DictionaryManager.expanded_terms
    (DictionaryManager.load_dictionary (FileJson capital_dictionary))
    (u "ciment")
  = query_tokens_of (u "ciment").
Proof.
  assert (forall X : gset pystr, elements X ≡ₚ elements X) as Henum by done.
  apply (expand_query_looks_up_normalized_key
           elements Henum capital_dictionary (u "ciment") 10).
  intros K syns syn HK _ _. unfold capital_dictionary in HK.
  apply lookup_singleton_Some in HK as [<- _].
  vm_compute. reflexivity.
Defined.

(** ** Hierarchical scope and the global search *)

Lemma py_take_nonempty {A : Type} (n : Z) (x : A) (l : list A) :
  (0 < n)%Z -> py_take n (x :: l) <> [].
Proof.
  intros Hn. unfold py_take. destruct (Z.leb_spec 0 n); [| lia].
  destruct (Z.to_nat n) eqn:Hz; [lia | discriminate].
Qed.

Lemma sort_desc_nonempty {A K : Type} (leb : K -> K -> bool) (key : A -> K)
      (l : list A) :
  l <> [] -> sort_desc leb key l <> [].
Proof.
  intros Hl Hs. apply Hl. apply Permutation_nil.
  by rewrite <- (sort_desc_perm leb key l), Hs.
Qed.

Section global_search.

Context {E : Type}.
Context (encode : pystr -> option E) (cos_sim : E -> E -> Q).
Context (round2 : Q -> Q).
Context (order : gset pystr -> list pystr).
Context (TECHNICAL_DICTIONARY : odict (list pystr)).
Context (TITLE_SUBTITLE_DICTIONARY : odict Backend.TitleConfig.t).

Lemma with_similarities_nonempty price_type expanded_terms final_results
      (df_search : list (nat * Backend.SearchRow.t E)) :
  final_results <> [] ->
  Backend.with_similarities encode cos_sim price_type expanded_terms
                            final_results df_search <> [].
Proof.
  intros Hne. unfold Backend.with_similarities.
  destruct (Backend.preprocess_text _ _); [done |].
  destruct (encode _); [| done].
  apply sort_desc_nonempty. by destruct final_results.
Qed.

(** A row with a positive keyword score makes the global answer non-empty,
    for a positive limit. *)
Lemma search_global_nonempty query price_type
      (df_search : list (nat * Backend.SearchRow.t E)) limit idx row :
  (0 < limit)%Z ->
  (idx, row) ∈ df_search ->
  (0 < Backend.calculate_relevance_score
         (Backend.SearchRow.Designation row)
         (Backend.original_terms_of query)
         (Backend.expand_query order TECHNICAL_DICTIONARY query))%Z ->
  Backend.search_global encode cos_sim round2 order TECHNICAL_DICTIONARY
                        query price_type df_search limit <> [].
Proof.
  intros Hlimit Hrow Hscore. unfold Backend.search_global.
  match goal with
  | |- context [sort_desc Qle_bool Backend.Scored.score (omap ?f df_search)] =>
      set (keep := f)
  end.
  assert (omap keep df_search <> []) as Hkw.
  { assert (exists r, keep (idx, row) = Some r) as [r Hr].
    { unfold keep. cbv beta iota zeta.
      rewrite (proj2 (Z.ltb_lt _ _) Hscore). eauto. }
    intros Hnil.
    assert (r ∈ omap keep df_search) as Hin
        by (apply list_elem_of_omap; eauto).
    rewrite Hnil in Hin. by apply not_elem_of_nil in Hin. }
  apply (sort_desc_nonempty Qle_bool Backend.Scored.score) in Hkw.
  destruct (sort_desc Qle_bool Backend.Scored.score (omap keep df_search))
    as [| top rest] eqn:Hsorted; [done |].
  assert (forall results : list Backend.Scored.t,
             results <> [] ->
             map (Backend.to_suggestion round2) (py_take limit results) <> [])
    as Hanswer.
  { intros [| r results] Hne; [done |]. intros Hmap.
    apply fmap_nil_inv in Hmap. by apply py_take_nonempty in Hmap. }
  apply Hanswer.
  destruct (Backend.Qlt_bool (inject_Z 20) (Backend.Scored.score top)) eqn:Htop.
  - cbn [Backend.keep_while_above].
    assert (Qle_bool (Backend.Scored.score top * (1 # 2))
                     (Backend.Scored.score top) = true) as ->; [| done].
    apply Qle_bool_iff.
    unfold Backend.Qlt_bool in Htop. apply negb_true_iff in Htop.
    assert (~ Backend.Scored.score top <= inject_Z 20)%Q as Hgt.
    { intros Hle. apply Qle_bool_iff in Hle. congruence. }
    change (inject_Z 20) with (20 # 1)%Q in Hgt. lra.
  - by apply with_similarities_nonempty.
Qed.

End global_search.

(** C8 (as stated) fails when the request carries a subtitle.  The title
    "charpente" matches no title of the tree, but the subtitle "fondations"
    is then matched by its words against every subtitle node, and finds
    FONDATIONS: the scope is the content of that node, the search is
    restricted to it, and the query "peinture", which the unrestricted search
    answers, gets nothing. *)
Lemma unmatched_titles_with_subtitle_restrict :
  Backend.find_matching_titles_in_csv
    [] [u "charpente"] (Backend.CsvData.hierarchical_data example_csv) = []
  /\ map Backend.ContentItem.designation
         (Backend.search_scope
            [] [u "charpente"] (py_strip (u "fondations"))
            (Backend.CsvData.hierarchical_data example_csv))
     = [u "semelle beton"]
  /\ map Backend.Suggestion.designation
         (example_search (u "peinture") (u "Moyen") [] [] 20)
     = [u "peinture vinylique"]
  /\ example_search (u "peinture") (u "Moyen") [u "charpente"]
                    (u "fondations") 20
     = [].
Proof. repeat split; vm_compute; reflexivity. Qed.

(** C8 (amended): when the titles and the subtitle of a request resolve to
    an empty scope, the answer is that of the global search, which is the
    answer to the same request without titles and subtitle; titles that match
    nothing, without a subtitle, give an empty scope; and the global answer
    is not empty, for a positive limit, as soon as one row has a positive
    keyword score. *)
Theorem empty_scope_falls_back_to_global
        {E : Type} (encode : pystr -> option E) (cos_sim : E -> E -> Q)
        (round2 : Q -> Q) (order : gset pystr -> list pystr)
        (TECHNICAL_DICTIONARY : odict (list pystr))
        (TITLE_SUBTITLE_DICTIONARY : odict Backend.TitleConfig.t)
        (csv_data : Backend.CsvData.t E)
        (q price_type : pystr) (selected_titles : list pystr)
        (subtitle : pystr) (limit : Z) :
  let search :=
    Backend.search encode cos_sim round2 order TECHNICAL_DICTIONARY
                   TITLE_SUBTITLE_DICTIONARY csv_data in
  let search_global :=
    Backend.search_global encode cos_sim round2 order TECHNICAL_DICTIONARY in
  let hierarchical_data := Backend.CsvData.hierarchical_data csv_data in
  let df_search := Backend.CsvData.df_search csv_data in
  (Backend.search_scope TITLE_SUBTITLE_DICTIONARY selected_titles
                        (py_strip subtitle) hierarchical_data = [] ->
   search q price_type selected_titles subtitle limit
   = search q price_type [] [] limit
   /\ ((2 <= length (py_strip q))%nat ->
       search q price_type selected_titles subtitle limit
       = search_global (py_strip q) (py_strip price_type) df_search limit))
  /\ (Backend.find_matching_titles_in_csv
        TITLE_SUBTITLE_DICTIONARY selected_titles hierarchical_data = [] ->
      py_strip subtitle = [] ->
      Backend.search_scope TITLE_SUBTITLE_DICTIONARY selected_titles
                           (py_strip subtitle) hierarchical_data = [])
  /\ (forall idx row,
         (0 < limit)%Z ->
         (idx, row) ∈ df_search ->
         (0 < Backend.calculate_relevance_score
                (Backend.SearchRow.Designation row)
                (Backend.original_terms_of (py_strip q))
                (Backend.expand_query order TECHNICAL_DICTIONARY (py_strip q)))%Z ->
         search_global (py_strip q) (py_strip price_type) df_search limit <> []).
Proof.
  intros search search_global hierarchical_data df_search.
  split; [| split].
  - intros Hscope. unfold search, Backend.search.
    fold hierarchical_data. fold df_search.
    change (py_strip []) with (@nil N).
    rewrite Hscope.
    destruct (length (py_strip q) <? 2)%nat eqn:Hq.
    + split; [reflexivity |]. intros Hlen. apply Nat.ltb_lt in Hq. lia.
    + split; reflexivity.
  - intros Htitles ->. unfold Backend.search_scope.
    destruct selected_titles; [reflexivity |].
    fold hierarchical_data. by rewrite Htitles.
  - intros idx row. apply search_global_nonempty.
Qed.

Lemma empty_scope_falls_back_to_global_witness :
  example_search (u "beton") (u "Moyen") [u "charpente"] [] 20
  = example_search (u "beton") (u "Moyen") [] [] 20
  /\ example_search (u "beton") (u "Moyen") [u "charpente"] [] 20 <> [].
Proof.
  destruct (empty_scope_falls_back_to_global
              (fun _ => Some tt) (fun _ _ => (1 # 2)%Q) (fun x => x) elements
              [(u "beton", [u "beton"; u "mortier"; u "ciment"])] []
              example_csv (u "beton") (u "Moyen") [u "charpente"] [] 20)
    as (Hfall & _ & Hfound).
  assert (Backend.search_scope [] [u "charpente"] (py_strip [])
                               (Backend.CsvData.hierarchical_data example_csv)
          = []) as Hscope by (vm_compute; reflexivity).
  destruct (Hfall Hscope) as [Hsame Hglobal].
  split; [exact Hsame |].
  unfold example_search. rewrite Hglobal by (vm_compute; lia).
  apply (Hfound 2%nat (search_row_of "semelle beton")).
  - lia.
  - unfold example_csv. cbn [Backend.CsvData.df_search]. constructor.
  - vm_compute. reflexivity.
Defined.

(** * Further properties *)

(** ** The tokenizer and the normaliser *)

Lemma py_replace_removes (old new : N) (s : pystr) :
  old <> new -> old ∉ (py_replace old new s).
Proof.
  intros Hne Hin. unfold py_replace in Hin.
  apply list_elem_of_In, in_map_iff in Hin as (c & Hc & _).
  destruct (N.eqb_spec c old); congruence.
Qed.

(** X1: whatever the text and the mode, every token that [tokenize_btp]
    returns has at least two characters, holds no underscore, and is not a
    stop word unless it holds a digit. *)
Theorem tokenize_btp_tokens_are_filtered
        (text : pystr) (preserve_technical : bool) :
  Forall
    (fun token =>
       (2 <= length token)%nat
       /\ (0x5F ∉ token)
       /\ ((token ∉ TextProcessor.STOP_WORDS_BTP)
           \/ existsb is_digit token = true))
    (TextProcessor.tokenize_btp text preserve_technical).
Proof.
  with_strategy transparent [TextProcessor.tokenize_btp]
    (unfold TextProcessor.tokenize_btp).
  cbv zeta.
  match goal with
  | |- Forall _ (flat_map _ ?tokens) => generalize tokens
  end.
  intros tokens. induction tokens as [| token tokens IH]; [constructor |].
  cbn [flat_map]. apply Forall_app. split; [| exact IH].
  set (restored := py_replace 0x5F 0x20 token).
  destruct (negb (bool_decide (restored ∈ TextProcessor.STOP_WORDS_BTP))
            || existsb is_digit restored) eqn:Hkeep; [| constructor].
  destruct (Nat.ltb_spec 1 (length restored)); [| constructor].
  constructor; [| constructor]. split; [lia |]. split.
  - apply py_replace_removes. discriminate.
  - apply orb_prop in Hkeep as [Hkeep | Hkeep]; [left | by right].
    by apply negb_true_iff, bool_decide_eq_false in Hkeep.
Qed.

Lemma ascii_lower_settled :
  forallb (fun c => forallb settled (lower_cp c)
                    && (length (lower_cp c) =? 1)%nat) ascii_codes = true.
Proof. vm_compute. reflexivity. Qed.

Lemma lower_from_ascii (cased_before : bool) (x : pystr) :
  Forall (fun c => c < 0x80) x ->
  Forall (fun c => settled c = true) (lower_from cased_before x)
  /\ length (lower_from cased_before x) = length x.
Proof.
  intros Hx. revert cased_before.
  induction Hx as [| c x Hc _ IH]; intros cased_before;
    [split; [constructor | reflexivity] |].
  assert (In c ascii_codes) as Hin.
  { unfold ascii_codes. rewrite <- (N2Nat.id c). apply in_map, in_seq. lia. }
  pose proof (proj1 (forallb_forall _ _) ascii_lower_settled c Hin) as Hs.
  cbv beta in Hs. apply andb_prop in Hs as [Hs Hl].
  apply Nat.eqb_eq in Hl. cbn [lower_from].
  rewrite (proj2 (N.eqb_neq c 0x3A3)) by lia.
  destruct (IH (if is_case_ignorable c then cased_before else is_cased c))
    as [IH1 IH2].
  split.
  - apply Forall_app. split; [| exact IH1].
    apply Forall_forall. intros d Hd. apply list_elem_of_In in Hd.
    exact (proj1 (forallb_forall _ _) Hs d Hd).
  - rewrite length_app, Hl, IH2. reflexivity.
Qed.

Lemma py_lower_ascii (x : pystr) :
  Forall (fun c => c < 0x80) x ->
  Forall (fun c => settled c = true) (py_lower x)
  /\ length (py_lower x) = length x.
Proof. apply lower_from_ascii. Qed.

Lemma marks_block_is_Mn :
  forallb is_Mn (map N.of_nat (seq 0x300 0x70)) = true.
Proof. vm_compute. reflexivity. Qed.

(** X2: [normalize_text] leaves no nonspacing mark of the block
    U+0300 .. U+036F in its result, whatever it is given; and on an ASCII
    string it is the lower-casing of the string, character by character. *)
Theorem normalize_text_strips_marks_and_lowers_ascii :
  (forall v : pyval,
      Forall (fun c => ~ (0x300 <= c < 0x370))
             (TextProcessor.normalize_text v))
  /\ (forall x : pystr,
         Forall (fun c => c < 0x80) x ->
         TextProcessor.normalize_text (PyStr x) = py_lower x
         /\ length (TextProcessor.normalize_text (PyStr x)) = length x).
Proof.
  split.
  - intros v. apply Forall_forall. intros c Hc.
    with_strategy transparent [TextProcessor.normalize_text]
      (unfold TextProcessor.normalize_text in Hc).
    destruct v; try by apply not_elem_of_nil in Hc.
    apply list_elem_of_In, filter_In in Hc as [_ Hc].
    apply negb_true_iff in Hc. intros [H1 H2].
    assert (In c (map N.of_nat (seq 0x300 0x70))) as Hin.
    { rewrite <- (N2Nat.id c). apply in_map, in_seq. lia. }
    rewrite (proj1 (forallb_forall _ _) marks_block_is_Mn c Hin) in Hc.
    discriminate.
  - intros x Hx. destruct (py_lower_ascii x Hx) as [Hset Hlen].
    assert (TextProcessor.normalize_text (PyStr x) = py_lower x) as Heq.
    { transitivity (TextProcessor.normalize_text (PyStr (py_lower x)));
        [| exact (normalize_settled (py_lower x) Hset)].
      with_strategy transparent [TextProcessor.normalize_text]
        (unfold TextProcessor.normalize_text).
      do 2 f_equal. symmetry. apply lower_from_fixed.
      eapply Forall_impl; [exact Hset |]. intros c Hc.
      by apply settled_spec in Hc as [? _]. }
    split; [exact Heq | by rewrite Heq].
Qed.

Lemma normalize_text_strips_marks_and_lowers_ascii_witness :
  TextProcessor.normalize_text (PyStr (u "Beton ARME 350 kg/m3"))
  = u "beton arme 350 kg/m3".
Proof.
  destruct (proj2 normalize_text_strips_marks_and_lowers_ascii
                  (u "Beton ARME 350 kg/m3")) as [Hlower _].
  - vm_compute. repeat constructor.
  - rewrite Hlower. vm_compute. reflexivity.
Defined.

(** ** The corrections index *)

Lemma load_inner_miss (w : pystr) (vs : list pyval) (m : gmap pystr pystr) k :
  (forall v, v ∈ vs -> TextProcessor.normalize_text v <> k) ->
  fold_left (fun m v => <[TextProcessor.normalize_text v := w]> m) vs m !! k
  = m !! k.
Proof.
  revert m. induction vs as [| v vs IH]; intros m Hvs; [reflexivity |].
  cbn [fold_left]. rewrite IH by (intros v' Hv'; apply Hvs; by right).
  apply lookup_insert_ne. apply Hvs. by left.
Qed.

Lemma load_inner_hit (w : pystr) (vs : list pyval) (m : gmap pystr pystr) k :
  (exists v, v ∈ vs /\ TextProcessor.normalize_text v = k) ->
  fold_left (fun m v => <[TextProcessor.normalize_text v := w]> m) vs m !! k
  = Some w.
Proof.
  revert m. induction vs as [| v vs IH]; intros m (v0 & Hv0 & Hk).
  - by apply not_elem_of_nil in Hv0.
  - cbn [fold_left].
    destruct (decide (Exists (fun v' => TextProcessor.normalize_text v' = k) vs))
      as [Hlater | Hnot].
    + apply IH. by apply Exists_exists in Hlater.
    + rewrite load_inner_miss.
      * apply elem_of_cons in Hv0 as [-> | Hv0].
        -- rewrite Hk. apply lookup_insert_eq.
        -- destruct Hnot. apply Exists_exists. eauto.
      * intros v' Hv' Heq. apply Hnot, Exists_exists. eauto.
Qed.

Lemma load_inner_sound (w : pystr) (vs : list pyval) (m : gmap pystr pystr) k w' :
  fold_left (fun m v => <[TextProcessor.normalize_text v := w]> m) vs m !! k
  = Some w' ->
  (w' = w /\ exists v, v ∈ vs /\ TextProcessor.normalize_text v = k)
  \/ m !! k = Some w'.
Proof.
  destruct (decide (Exists (fun v' => TextProcessor.normalize_text v' = k) vs))
    as [Hhit | Hmiss].
  - apply Exists_exists in Hhit. rewrite (load_inner_hit w vs m k Hhit).
    intros [= <-]. by left.
  - rewrite load_inner_miss; [by right |].
    intros v Hv Heq. apply Hmiss, Exists_exists. eauto.
Qed.

(** The document as [_load_corrections] folds it. *)
Lemma load_corrections_fold (data : list (pystr * list pyval)) :
  Corrector._load_corrections (FileJson data)
  = fold_left
      (fun m '(w, vs) =>
         fold_left (fun m v => <[TextProcessor.normalize_text v := w]> m) vs m)
      data ∅.
Proof. reflexivity. Qed.

Lemma load_outer_miss (data : list (pystr * list pyval)) (m : gmap pystr pystr) k :
  (forall w vs v, (w, vs) ∈ data -> v ∈ vs ->
                  TextProcessor.normalize_text v <> k) ->
  fold_left
    (fun m '(w, vs) =>
       fold_left (fun m v => <[TextProcessor.normalize_text v := w]> m) vs m)
    data m !! k
  = m !! k.
Proof.
  revert m. induction data as [| [w vs] data IH]; intros m Hd; [reflexivity |].
  cbn [fold_left]. rewrite IH.
  - apply load_inner_miss. intros v Hv. apply (Hd w vs); [by left | done].
  - intros w' vs' v' Hin. apply (Hd w' vs'). by right.
Qed.

Lemma load_outer_sound (data : list (pystr * list pyval)) (m : gmap pystr pystr)
      k w' :
  fold_left
    (fun m '(w, vs) =>
       fold_left (fun m v => <[TextProcessor.normalize_text v := w]> m) vs m)
    data m !! k
  = Some w' ->
  (exists vs v, (w', vs) ∈ data /\ v ∈ vs /\ TextProcessor.normalize_text v = k)
  \/ m !! k = Some w'.
Proof.
  revert m. induction data as [| [w vs] data IH]; intros m; [by right |].
  cbn [fold_left]. intros H. apply IH in H as [(vs' & v & Hin & Hv & Hk) | H].
  - left. exists vs', v. split; [by right | done].
  - apply load_inner_sound in H as [(-> & v & Hv & Hk) | H]; [| by right].
    left. exists vs, v. split; [by left | done].
Qed.

(** X3: the corrections index maps a key to a canonical word only if the
    key is the normal form of a variation listed under that word; when
    several words list the key, the last one in the file wins; and a key
    that no variation gives is absent. *)
Theorem load_corrections_last_writer_wins
        (data : list (pystr * list pyval)) (k : pystr) :
  let correction_map := Corrector._load_corrections (FileJson data) in
  (forall w, correction_map !! k = Some w ->
             exists variations variation,
               (w, variations) ∈ data /\ variation ∈ variations
               /\ TextProcessor.normalize_text variation = k)
  /\ (forall before w variations after variation,
         data = before ++ (w, variations) :: after ->
         variation ∈ variations ->
         TextProcessor.normalize_text variation = k ->
         (forall w' vs' v', (w', vs') ∈ after -> v' ∈ vs' ->
                            TextProcessor.normalize_text v' <> k) ->
         correction_map !! k = Some w)
  /\ ((forall w variations variation,
          (w, variations) ∈ data -> variation ∈ variations ->
          TextProcessor.normalize_text variation <> k) ->
      correction_map !! k = None).
Proof.
  intros correction_map. unfold correction_map. clear correction_map.
  rewrite load_corrections_fold. cbv beta iota delta [loaded].
  split; [| split].
  - intros w Hw. apply load_outer_sound in Hw as [H | H]; [exact H |].
    by rewrite lookup_empty in H.
  - intros before w vs after v -> Hv Hk Hafter.
    rewrite fold_left_app. cbn [fold_left].
    rewrite (load_outer_miss after _ k Hafter).
    apply load_inner_hit. eauto.
  - intros Hnone. rewrite (load_outer_miss data ∅ k Hnone). apply lookup_empty.
Qed.

Lemma load_corrections_last_writer_wins_witness :
  Corrector._load_corrections
    (FileJson [ (u "semelle", [PyStr (u "semell")]);
                (u "semelles", [PyStr (u "Semell")]) ])
  !! u "semell"
  = Some (u "semelles").
Proof.
  apply (proj1 (proj2 (load_corrections_last_writer_wins _ (u "semell")))
               [(u "semelle", [PyStr (u "semell")])] (u "semelles")
               [PyStr (u "Semell")] [] (PyStr (u "Semell"))).
  - reflexivity.
  - by left.
  - vm_compute. reflexivity.
  - intros w' vs' v' Hin. by apply not_elem_of_nil in Hin.
Defined.

(** ** Splitting and joining on blanks *)

Lemma split_blank_word (w s acc : pystr) :
  Forall (fun c => is_space c = false) w ->
  split_blank (w ++ s) acc = split_blank s (rev w ++ acc).
Proof.
  intros Hw. revert acc. induction Hw as [| c w Hc _ IH]; intros acc; [done |].
  cbn [app split_blank]. rewrite Hc, IH. cbn [rev]. by rewrite <- app_assoc.
Qed.

Lemma split_blank_tokens (s acc : pystr) :
  Forall (fun c => is_space c = false) acc ->
  Forall is_word_token (split_blank s acc).
Proof.
  revert acc. induction s as [| c s IH]; intros acc Hacc.
  - cbn [split_blank]. destruct acc as [| a acc]; [constructor |].
    constructor; [| constructor]. split.
    + intros H. apply (f_equal (@length N)) in H.
      rewrite length_rev in H. discriminate.
    + apply Forall_forall. intros d Hd. rewrite Forall_forall in Hacc.
      apply Hacc. apply list_elem_of_In. apply list_elem_of_In, in_rev in Hd.
      exact Hd.
  - cbn [split_blank]. destruct (is_space c) eqn:Hc.
    + destruct acc as [| a acc]; [by apply IH |].
      constructor; [| by apply IH]. split.
      * intros H. apply (f_equal (@length N)) in H.
        rewrite length_rev in H. discriminate.
      * apply Forall_forall. intros d Hd. rewrite Forall_forall in Hacc.
        apply Hacc. apply list_elem_of_In. apply list_elem_of_In, in_rev in Hd.
        exact Hd.
    + apply IH. by constructor.
Qed.

(** The tokens of [s.split()] are never empty and hold no blank. *)
Lemma py_split_tokens (s : pystr) : Forall is_word_token (py_split s).
Proof. apply split_blank_tokens. constructor. Qed.

(** Joining words with single spaces and splitting again gives the words. *)
Lemma py_split_join (words : list pystr) :
  Forall is_word_token words -> py_split (py_join (u " ") words) = words.
Proof.
  unfold py_split.
  induction 1 as [| w words [Hne Hw] Hwords IH]; [reflexivity |].
  assert (split_blank w [] = [w]) as Hlast.
  { rewrite <- (app_nil_r w) at 1. rewrite split_blank_word by done.
    cbn [split_blank]. rewrite app_nil_r.
    destruct (rev w) eqn:Hr.
    - apply (f_equal (@length N)) in Hr. rewrite length_rev in Hr.
      destruct w; [done | discriminate].
    - by rewrite <- Hr, rev_involutive. }
  destruct words as [| w2 words]; [exact Hlast |].
  change (py_join (u " ") (w :: w2 :: words))
    with (w ++ 0x20 :: py_join (u " ") (w2 :: words)).
  rewrite split_blank_word by done. cbn [split_blank].
  change (is_space 0x20) with true. cbv iota. rewrite app_nil_r.
  destruct (rev w) eqn:Hr.
  - apply (f_equal (@length N)) in Hr. rewrite length_rev in Hr.
    destruct w; [done | discriminate].
  - rewrite <- Hr, rev_involutive. f_equal. exact IH.
Qed.

(** X4: when the index is not empty and every canonical word is one word
    (not empty, no blank), splitting the corrected query gives back the
    tokens of the normalised query, each replaced on its own: as many
    tokens, in the same order. *)
Theorem correct_query_tokens
        (correction_map : gmap pystr pystr) (query : pystr) :
  correction_map <> ∅ ->
  (forall k w, correction_map !! k = Some w -> is_word_token w) ->
  py_split (Corrector.correct_query correction_map query)
  = map (fun token => default token (correction_map !! token))
        (py_split (TextProcessor.normalize_text (PyStr query))).
Proof.
  intros Hne Hwords. unfold Corrector.correct_query.
  destruct (decide (correction_map = ∅)); [contradiction |].
  apply py_split_join.
  pose proof (py_split_tokens (TextProcessor.normalize_text (PyStr query)))
    as Htokens.
  induction Htokens as [| token tokens Htoken _ IH]; [constructor |].
  cbn [map]. constructor; [| exact IH].
  destruct (correction_map !! token) as [w |] eqn:Hw; [| exact Htoken].
  by apply (Hwords token).
Qed.

Lemma correct_query_tokens_witness :
  py_split
    (Corrector.correct_query (Corrector._load_corrections example_corrections)
                             (u "  Semelles   en BETON "))
  = [u "semelle"; u "en"; u "beton"].
Proof.
  rewrite correct_query_tokens.
  - vm_compute. reflexivity.
  - apply (bool_decide_unpack _). vm_compute. exact I.
  - intros k w Hw. unfold example_corrections in Hw.
    rewrite load_corrections_fold in Hw. cbv beta iota delta [loaded] in Hw.
    apply load_outer_sound in Hw as [(vs & v & Hin & _) | Hw];
      [| by rewrite lookup_empty in Hw].
    apply list_elem_of_singleton in Hin. injection Hin as -> _.
    split; [discriminate |].
    repeat (apply Forall_cons_2; [vm_compute; reflexivity |]).
    apply Forall_nil_2.
Defined.

(** ** The synonym dictionary, further *)

Lemma index_add_nonempty (index : gmap pystr (gset pystr)) key value :
  (forall s X, index !! s = Some X -> X <> ∅) ->
  forall s X, DictionaryManager.index_add index key value !! s = Some X -> X <> ∅.
Proof.
  intros Hidx s X. unfold DictionaryManager.index_add.
  destruct (decide (key = s)) as [-> | Hne].
  - rewrite lookup_insert_eq. intros [= <-] Hempty.
    assert (value ∈ ({[value]} ∪ default ∅ (index !! s) : gset pystr)) as Hin
        by (apply elem_of_union; left; by apply elem_of_singleton).
    rewrite Hempty in Hin. by apply not_elem_of_empty in Hin.
  - rewrite lookup_insert_ne by done. apply Hidx.
Qed.

Lemma reverse_index_nonempty (dictionary : gmap pystr (list pystr)) s X :
  DictionaryManager._build_reverse_index dictionary !! s = Some X -> X <> ∅.
Proof.
  unfold DictionaryManager._build_reverse_index.
  assert (forall (l : list (pystr * list pystr)) (index : gmap pystr (gset pystr)),
             (forall s X, index !! s = Some X -> X <> ∅) ->
             forall s X,
               fold_left
                 (fun index '(main_term, synonyms) =>
                    fold_left
                      (fun index synonym =>
                         DictionaryManager.index_add
                           index (TextProcessor.normalize_text (PyStr synonym))
                           (TextProcessor.normalize_text (PyStr main_term)))
                      synonyms index)
                 l index !! s = Some X -> X <> ∅) as Hfold.
  { induction l as [| [K syns] l IH]; intros index Hidx; [exact Hidx |].
    cbn [fold_left]. apply IH. clear IH.
    revert index Hidx. induction syns as [| syn syns IH]; intros index Hidx;
      [exact Hidx |].
    cbn [fold_left]. apply IH. by apply index_add_nonempty. }
  apply Hfold. intros s' X'. by rewrite lookup_empty.
Qed.

(** X5: the reverse index holds, under a key [s], exactly the normal forms
    of the main terms that list a synonym of normal form [s]; and [s] is a
    key of the index exactly when some main term lists such a synonym. *)
Theorem reverse_index_of_dictionary
        (dictionary : gmap pystr (list pystr)) (s : pystr) :
  let index := DictionaryManager._build_reverse_index dictionary in
  (forall m,
      m ∈ index_lookup index s
      <-> exists main_term synonyms synonym,
            dictionary !! main_term = Some synonyms
            /\ synonym ∈ synonyms
            /\ TextProcessor.normalize_text (PyStr synonym) = s
            /\ TextProcessor.normalize_text (PyStr main_term) = m)
  /\ (is_Some (index !! s)
      <-> exists main_term synonyms synonym,
            dictionary !! main_term = Some synonyms
            /\ synonym ∈ synonyms
            /\ TextProcessor.normalize_text (PyStr synonym) = s).
Proof.
  intros index. split; [intros m; apply elem_of_reverse_index |]. split.
  - intros [X HX].
    pose proof (reverse_index_nonempty dictionary s X HX) as Hne.
    apply set_choose_L in Hne as [m Hm].
    assert (m ∈ index_lookup index s) as Hin.
    { unfold index_lookup. fold index in HX. by rewrite HX. }
    apply elem_of_reverse_index in Hin as (K & syns & syn & HK & Hsyn & Hs & _).
    by exists K, syns, syn.
  - intros (K & syns & syn & HK & Hsyn & Hs).
    assert (TextProcessor.normalize_text (PyStr K) ∈ index_lookup index s) as Hin
        by (apply elem_of_reverse_index; by exists K, syns, syn).
    unfold index_lookup in Hin.
    destruct (index !! s) as [X |]; [by eexists |].
    by apply not_elem_of_empty in Hin.
Qed.

Lemma reverse_index_of_dictionary_witness :
  is_Some (DictionaryManager._build_reverse_index example_dictionary
           !! u "mortier").
Proof.
  apply (proj2 (reverse_index_of_dictionary example_dictionary (u "mortier"))).
  exists (u "beton"), [u "beton"; u "ciment"; u "mortier"], (u "mortier").
  split; [vm_compute; reflexivity |]. split.
  - apply (bool_decide_unpack _). vm_compute. exact I.
  - vm_compute. reflexivity.
Defined.

(** X6: [expand_query] never returns more than [max_expansions] terms (for
    [max_expansions >= 0]) nor the same term twice, and every term it
    returns is a query token or a synonym stored in the dictionary. *)
Theorem expand_query_bounded_and_sound
        (order : gset pystr -> list pystr)
        (order_enumerates : forall X : gset pystr, order X ≡ₚ elements X)
        (self : DictionaryManager.t) (query : pystr) (max_expansions : Z) :
  let expanded :=
    DictionaryManager.expand_query order self query max_expansions in
  ((0 <= max_expansions)%Z ->
   (Z.of_nat (length expanded) <= max_expansions)%Z)
  /\ NoDup expanded
  /\ (forall x, x ∈ expanded ->
                x ∈ query_tokens_of query
                \/ exists main_term stored,
                     DictionaryManager.dictionary self !! main_term = Some stored
                     /\ x ∈ stored).
Proof.
  intros expanded. split; [| split].
  - apply py_take_length.
  - unfold expanded, DictionaryManager.expand_query.
    generalize (DictionaryManager.expanded_terms self query). intros X.
    destruct (py_take_prefix max_expansions (order X)) as [k Hk].
    assert (NoDup (order X)) as Hnd
        by (rewrite order_enumerates; apply NoDup_elements).
    rewrite Hk in Hnd. by apply NoDup_app in Hnd as [? _].
  - intros x Hx.
    apply (elem_of_expand_query order order_enumerates) in Hx.
    apply elem_of_expanded_terms in Hx
      as [Hx | (token & main & stored & _ & _ & Hd & Hx)]; [by left |].
    right. by exists main, stored.
Qed.

Lemma expand_query_bounded_and_sound_witness :
  (Z.of_nat
     (length
        (DictionaryManager.expand_query
           elements
           (DictionaryManager.load_dictionary (FileJson paint_dictionary))
           (u "peinture") 10))
   <= 10)%Z.
Proof.
  assert (forall X : gset pystr, elements X ≡ₚ elements X) as Henum by done.
  apply (expand_query_bounded_and_sound
           elements Henum
           (DictionaryManager.load_dictionary (FileJson paint_dictionary))
           (u "peinture") 10).
  lia.
Defined.

(** X7: with a dictionary file that is missing or is not valid JSON the
    manager starts with an empty dictionary and an empty reverse index, and
    [expand_query] returns the tokens of the query, in the order in which
    the set is enumerated and cut to [max_expansions].  Any other failure
    raises: a file that cannot be read or is not UTF-8, a document that is a
    list or a string ([AttributeError]), a number, a boolean or null
    ([TypeError]). *)
Theorem load_dictionary_without_file
        (order : gset pystr -> list pystr) (self : DictionaryManager.t)
        (query : pystr) (max_expansions : Z) :
  self = DictionaryManager.load_dictionary FileNotFound
  \/ self = DictionaryManager.load_dictionary FileInvalidJson ->
  (DictionaryManager.dictionary self = ∅
   /\ DictionaryManager.reverse_index self = ∅
   /\ DictionaryManager.expand_query order self query max_expansions
      = py_take max_expansions (order (query_tokens_of query)))
  /\ DictionaryManager.load_dictionary FileUnreadable = Raises OSError
  /\ DictionaryManager.load_dictionary FileUndecodable
     = Raises UnicodeDecodeError
  /\ (forall document : pyval,
         DictionaryManager.load_dictionary (FileJsonOther document)
         = Raises AttributeError
         <-> (exists items, document = PyList items)
             \/ (exists s, document = PyStr s))
  /\ (forall document : pyval,
         (forall entries, document <> PyDict entries) ->
         (forall items, document <> PyList items) ->
         (forall s, document <> PyStr s) ->
         DictionaryManager.load_dictionary (FileJsonOther document)
         = Raises TypeError).
Proof.
  intros Hfile.
  assert (DictionaryManager.dictionary self = ∅
          /\ DictionaryManager.reverse_index self = ∅) as [Hd Hr]
      by (destruct Hfile as [-> | ->]; split; reflexivity).
  split; [| split; [reflexivity | split; [reflexivity | split]]].
  - split; [exact Hd |]. split; [exact Hr |].
    unfold DictionaryManager.expand_query. do 2 f_equal.
    apply leibniz_equiv. intros x. rewrite elem_of_expanded_terms.
    split; [| by left].
    intros [Hx | (token & main & stored & _ & _ & Hstored & _)]; [exact Hx |].
    rewrite Hd in Hstored. by rewrite lookup_empty in Hstored.
  - intros document. split.
    + destruct document as [s | | b | z | q | items | entries];
        cbn [DictionaryManager.load_dictionary]; try discriminate.
      * intros _. right. by exists s.
      * intros _. left. by exists items.
      * intros Hraise. exfalso. revert Hraise.
        generalize (DictionaryManager.dictionary_of entries). intros parsed.
        assert (forall walked : outcome (list pyval),
                   (forall e, walked = Raises e -> e = TypeError) ->
                   forall e,
                     fold_left
                       (fun walked '(_, synonyms) =>
                          match walked with
                          | Returns _ => py_iter synonyms
                          | Raises e => Raises e
                          end)
                       entries walked = Raises e -> e = TypeError) as Hwalk.
        { induction entries as [| [main_term synonyms] entries IH];
            intros walked Hwalked e; [apply Hwalked |].
          cbn [fold_left]. apply IH. intros e'.
          destruct walked as [walk | e'']; [apply py_iter_raises |].
          intros [= <-]. by apply Hwalked. }
        destruct (fold_left _ entries (Returns [])) as [walk | e] eqn:Hfold;
          [discriminate |].
        apply Hwalk in Hfold; [| discriminate]. subst e. discriminate.
    + intros [[items ->] | [s ->]]; reflexivity.
  - intros document Hdict Hlist Hstr.
    destruct document as [s | | b | z | q | items | entries];
      try reflexivity.
    + by destruct (Hstr s).
    + by destruct (Hlist items).
    + by destruct (Hdict entries).
Qed.

Lemma load_dictionary_without_file_witness :
  DictionaryManager.expand_query
    elements (DictionaryManager.load_dictionary FileInvalidJson)
    (u "semelle beton") 1
  = py_take 1 (elements (query_tokens_of (u "semelle beton")))
  /\ length
       (DictionaryManager.expand_query
          elements (DictionaryManager.load_dictionary FileNotFound)
          (u "un deux trois quatre cinq six sept huit neuf dix onze douze")
          10)
     = 10%nat.
Proof.
  split.
  - apply (load_dictionary_without_file
             elements (DictionaryManager.load_dictionary FileInvalidJson)
             (u "semelle beton") 1).
    right. reflexivity.
  - rewrite (proj2 (proj2 (proj1 (load_dictionary_without_file
                                    elements
                                    (DictionaryManager.load_dictionary FileNotFound)
                                    (u "un deux trois quatre cinq six sept huit neuf dix onze douze")
                                    10 (or_introl eq_refl))))).
    vm_compute. reflexivity.
Defined.

(** ** Adding a synonym *)

(** What [add_synonym] leaves in the dictionary under the key. *)
Lemma add_synonym_entry (self : DictionaryManager.t) (main_term new_synonym : pystr) :
  exists synonyms,
    DictionaryManager.dictionary
      (DictionaryManager.add_synonym self main_term new_synonym).1
    !! py_lower main_term = Some synonyms
    /\ py_lower new_synonym ∈ map py_lower synonyms
    /\ (DictionaryManager.dictionary self !! py_lower main_term = None ->
        head synonyms = Some main_term).
Proof.
  unfold DictionaryManager.add_synonym. cbv zeta.
  set (key := py_lower main_term).
  destruct (DictionaryManager.dictionary self !! key) as [old |] eqn:Hold.
  - rewrite Hold. cbn [from_option id].
    destruct (bool_decide (py_lower new_synonym ∈ map py_lower old)) eqn:Hin.
    + exists old. cbn [fst DictionaryManager.dictionary].
      split; [exact Hold |]. split; [| discriminate].
      by apply bool_decide_eq_true in Hin.
    + exists (old ++ [new_synonym]). cbn [fst DictionaryManager.dictionary].
      split; [apply lookup_insert_eq |]. split; [| discriminate].
      rewrite map_app. apply elem_of_app. right. by left.
  - rewrite lookup_insert_eq. cbn [from_option id].
    destruct (bool_decide (py_lower new_synonym ∈ map py_lower [main_term]))
      eqn:Hin.
    + exists [main_term]. cbn [fst DictionaryManager.dictionary].
      split; [apply lookup_insert_eq |]. split; [| done].
      by apply bool_decide_eq_true in Hin.
    + exists ([main_term] ++ [new_synonym]).
      cbn [fst DictionaryManager.dictionary].
      split; [apply lookup_insert_eq |]. split; [| done].
      rewrite map_app. apply elem_of_app. right. by left.
Qed.

Lemma add_synonym_in_sync (self : DictionaryManager.t) (main_term new_synonym : pystr) :
  index_in_sync self ->
  is_Some (DictionaryManager.dictionary self !! py_lower main_term)
  \/ py_lower new_synonym <> py_lower main_term ->
  index_in_sync (DictionaryManager.add_synonym self main_term new_synonym).1.
Proof.
  intros Hsync Hcase. unfold DictionaryManager.add_synonym. cbv zeta.
  set (key := py_lower main_term) in *.
  destruct (DictionaryManager.dictionary self !! key) as [old |] eqn:Hold.
  - rewrite Hold. cbn [from_option id].
    destruct (bool_decide (py_lower new_synonym ∈ map py_lower old));
      [exact Hsync | reflexivity].
  - rewrite lookup_insert_eq. cbn [from_option id].
    destruct (bool_decide (py_lower new_synonym ∈ map py_lower [main_term]))
      eqn:Hin; [| reflexivity].
    exfalso. apply bool_decide_eq_true in Hin.
    apply list_elem_of_singleton in Hin.
    destruct Hcase as [[x Hx] | Hne]; [discriminate | contradiction].
Qed.

(** X8: [add_synonym] leaves the reverse index equal to the index of the
    dictionary whenever it was so before and the call does not create an
    entry for a synonym that is the main term itself up to case; in that
    one case the entry is created, the index is left as it was and nothing
    is saved. *)
Theorem add_synonym_keeps_index_in_sync
        (self : DictionaryManager.t) (main_term new_synonym : pystr) :
  (index_in_sync self ->
   is_Some (DictionaryManager.dictionary self !! py_lower main_term)
   \/ py_lower new_synonym <> py_lower main_term ->
   index_in_sync (DictionaryManager.add_synonym self main_term new_synonym).1)
  /\ (DictionaryManager.dictionary self !! py_lower main_term = None ->
      py_lower new_synonym = py_lower main_term ->
      DictionaryManager.add_synonym self main_term new_synonym
      = ({| DictionaryManager.dictionary :=
              <[py_lower main_term := [main_term]]>
                (DictionaryManager.dictionary self);
            DictionaryManager.reverse_index :=
              DictionaryManager.reverse_index self |},
         None)).
Proof.
  split; [apply add_synonym_in_sync |].
  intros Hnone Heq. unfold DictionaryManager.add_synonym. cbv zeta.
  rewrite Hnone, lookup_insert_eq. cbn [from_option id].
  rewrite bool_decide_eq_true_2; [reflexivity |].
  rewrite Heq. by left.
Qed.

Lemma add_synonym_keeps_index_in_sync_witness :
  index_in_sync
    (DictionaryManager.add_synonym
       (DictionaryManager.load_dictionary (FileJson example_dictionary))
       (u "Beton") (u "dalle")).1.
Proof.
  apply (proj1 (add_synonym_keeps_index_in_sync
                  (DictionaryManager.load_dictionary (FileJson example_dictionary))
                  (u "Beton") (u "dalle"))).
  - reflexivity.
  - left. apply (bool_decide_unpack _). vm_compute. exact I.
Defined.

(** X9: after [add_synonym] the key (the lower-cased main term) has an
    entry that holds the synonym up to case, and that begins with the main
    term when the entry is new; adding the same synonym again changes
    nothing and saves nothing. *)
Theorem add_synonym_is_idempotent
        (self : DictionaryManager.t) (main_term new_synonym : pystr) :
  let after := (DictionaryManager.add_synonym self main_term new_synonym).1 in
  (exists synonyms,
      DictionaryManager.dictionary after !! py_lower main_term = Some synonyms
      /\ py_lower new_synonym ∈ map py_lower synonyms
      /\ (DictionaryManager.dictionary self !! py_lower main_term = None ->
          head synonyms = Some main_term))
  /\ DictionaryManager.add_synonym after main_term new_synonym = (after, None).
Proof.
  intros after. split; [apply add_synonym_entry |].
  destruct (add_synonym_entry self main_term new_synonym)
    as (synonyms & Hentry & Hin & _).
  fold after in Hentry.
  unfold DictionaryManager.add_synonym at 1. cbv zeta.
  rewrite Hentry. cbn [from_option id]. rewrite Hentry. cbn [from_option id].
  rewrite bool_decide_eq_true_2 by exact Hin.
  by destruct after.
Qed.

Lemma normalize_text_of_lower (a b : pystr) :
  py_lower a = py_lower b ->
  TextProcessor.normalize_text (PyStr a) = TextProcessor.normalize_text (PyStr b).
Proof.
  intros H.
  with_strategy transparent [TextProcessor.normalize_text]
    (unfold TextProcessor.normalize_text).
  by rewrite H.
Qed.

(** X10: a synonym added with [add_synonym] is found again by
    [expand_query]: when the index was in sync, the key is in normal form
    and the call keeps the index in sync, every query that has the normal
    form of the synonym among its tokens is expanded, if the expansion is
    not cut, with a term equal to the synonym up to case. *)
Theorem add_synonym_then_expand_query
        (order : gset pystr -> list pystr)
        (order_enumerates : forall X : gset pystr, order X ≡ₚ elements X)
        (self : DictionaryManager.t) (main_term new_synonym query : pystr)
        (max_expansions : Z) :
  let after := (DictionaryManager.add_synonym self main_term new_synonym).1 in
  index_in_sync self ->
  is_Some (DictionaryManager.dictionary self !! py_lower main_term)
  \/ py_lower new_synonym <> py_lower main_term ->
  TextProcessor.normalize_text (PyStr (py_lower main_term)) = py_lower main_term ->
  TextProcessor.normalize_text (PyStr new_synonym) ∈ query_tokens_of query ->
  (Z.of_nat (size (DictionaryManager.expanded_terms after query))
   <= max_expansions)%Z ->
  exists x,
    x ∈ DictionaryManager.expand_query order after query max_expansions
    /\ py_lower x = py_lower new_synonym.
Proof.
  intros after Hsync Hcase Hkey Htoken Hsize.
  pose proof (add_synonym_in_sync self main_term new_synonym Hsync Hcase)
    as Hafter.
  destruct (add_synonym_entry self main_term new_synonym)
    as (synonyms & Hentry & Hin & _).
  fold after in Hafter, Hentry.
  apply list_elem_of_fmap in Hin as (x & Hlower & Hx).
  exists x. split; [| by symmetry].
  apply (expand_query_uncut order order_enumerates); [exact Hsize |].
  apply elem_of_expanded_terms. right.
  exists (TextProcessor.normalize_text (PyStr new_synonym)),
         (py_lower main_term), synonyms.
  split; [exact Htoken |]. split; [| by split].
  rewrite Hafter. apply elem_of_reverse_index.
  exists (py_lower main_term), synonyms, x.
  split; [exact Hentry |]. split; [exact Hx |]. split; [| exact Hkey].
  by apply normalize_text_of_lower.
Qed.

Lemma add_synonym_then_expand_query_witness :
  exists x,
    x ∈ DictionaryManager.expand_query
          elements
          (DictionaryManager.add_synonym
             (DictionaryManager.load_dictionary (FileJson example_dictionary))
             (u "Beton") (u "Dalle")).1
          (u "dalle pleine") 10
    /\ py_lower x = py_lower (u "Dalle").
Proof.
  assert (forall X : gset pystr, elements X ≡ₚ elements X) as Henum by done.
  apply (add_synonym_then_expand_query
           elements Henum
           (DictionaryManager.load_dictionary (FileJson example_dictionary))
           (u "Beton") (u "Dalle") (u "dalle pleine") 10).
  - reflexivity.
  - left. apply (bool_decide_unpack _). vm_compute. exact I.
  - vm_compute. reflexivity.
  - apply (bool_decide_unpack _). vm_compute. exact I.
  - vm_compute. discriminate.
Defined.

Lemma add_synonym_is_idempotent_witness :
  DictionaryManager.add_synonym
    (DictionaryManager.add_synonym
       (DictionaryManager.load_dictionary (FileJson example_dictionary))
       (u "Acier") (u "ferraillage")).1
    (u "Acier") (u "ferraillage")
  = ((DictionaryManager.add_synonym
        (DictionaryManager.load_dictionary (FileJson example_dictionary))
        (u "Acier") (u "ferraillage")).1,
     None).
Proof.
  apply (proj2 (add_synonym_is_idempotent
                  (DictionaryManager.load_dictionary (FileJson example_dictionary))
                  (u "Acier") (u "ferraillage"))).
Defined.

(** ** The tiered matcher, further *)

Lemma flexible_matches_subseteq (Q D : gset pystr) :
  BTCSearchEngine._get_flexible_matches Q D ⊆ Q.
Proof. intros q Hq. by apply elem_of_flexible_matches in Hq as [? _]. Qed.

Lemma Forall_take_sort (P : BTCSearchEngine.SearchResult -> Prop) limit hits :
  Forall P hits ->
  Forall P (py_take limit (BTCSearchEngine.sort_by_score hits)).
Proof.
  intros H.
  destruct (py_take_prefix limit (BTCSearchEngine.sort_by_score hits)) as [k Hk].
  assert (Forall P (BTCSearchEngine.sort_by_score hits)) as Hs.
  { unfold BTCSearchEngine.sort_by_score. by rewrite sort_desc_perm. }
  rewrite Hk in Hs. by apply Forall_app in Hs as [? _].
Qed.

Lemma d1_entry_tier order Q row r :
  BTCSearchEngine.d1_entry order Q row = Some r ->
  BTCSearchEngine.match_type r = BTCSearchEngine.Partial_D1
  /\ (1 <= BTCSearchEngine.num_matches r <= size Q)%nat
  /\ (BTCSearchEngine.score r = (10 * Z.of_nat (BTCSearchEngine.num_matches r))%Z
      \/ BTCSearchEngine.score r
         = (10 * Z.of_nat (BTCSearchEngine.num_matches r) + 5)%Z).
Proof.
  unfold BTCSearchEngine.d1_entry.
  generalize (BTCSearchEngine.designation_tokens row). intros D.
  pose proof (subseteq_size _ _ (flexible_matches_subseteq Q D)) as Hle.
  destruct (decide (BTCSearchEngine._get_flexible_matches Q D = ∅)) as [| Hm];
    [discriminate |].
  intros [= <-].
  cbn [BTCSearchEngine.score BTCSearchEngine.match_type
       BTCSearchEngine.num_matches].
  apply size_pos_of_nonempty in Hm.
  split; [reflexivity |]. split; [lia |].
  destruct (decide (Q ∩ D = ∅)); [left | right]; lia.
Qed.

Lemma d3_entry_tier order S row r :
  BTCSearchEngine.d3_entry order S row = Some r ->
  BTCSearchEngine.match_type r = BTCSearchEngine.Synonyms_D3
  /\ (1 <= BTCSearchEngine.num_matches r)%nat
  /\ BTCSearchEngine.score r = (5 * Z.of_nat (BTCSearchEngine.num_matches r))%Z.
Proof.
  unfold BTCSearchEngine.d3_entry.
  generalize (BTCSearchEngine.designation_tokens row). intros D.
  destruct (decide (BTCSearchEngine._get_flexible_matches S D = ∅)) as [| Hm];
    [discriminate |].
  intros [= <-].
  cbn [BTCSearchEngine.score BTCSearchEngine.match_type
       BTCSearchEngine.num_matches].
  apply size_pos_of_nonempty in Hm. split; [reflexivity |]. split; lia.
Qed.

(** X11: a list returned by [search] never mixes tiers.  Either every
    result is a complete match (D2): the query has at least two tokens, all
    of them matched, and the score is 10 per token plus 50, or 5 more; or
    every result is a partial match (D1), with between one and all tokens
    matched and a score of 10 per match, or 5 more; or every result is a
    synonym match (D3), with a score of 5 per match. *)
Theorem search_results_single_tier
        (order : gset pystr -> list pystr) (self : BTCSearchEngine.t)
        (df : list BTCSearchEngine.article) (query : pystr) (limit : Z) :
  let n :=
    size (query_tokens_of
            (Corrector.correct_query (BTCSearchEngine.correction_map self)
                                     query)) in
  let results := (BTCSearchEngine.search order self df query limit).2 in
  Forall
    (fun r =>
       BTCSearchEngine.match_type r = BTCSearchEngine.Complete_D2
       /\ (2 <= n)%nat
       /\ BTCSearchEngine.num_matches r = n
       /\ (BTCSearchEngine.score r = (10 * Z.of_nat n + 50)%Z
           \/ BTCSearchEngine.score r = (10 * Z.of_nat n + 55)%Z))
    results
  \/ Forall
       (fun r =>
          BTCSearchEngine.match_type r = BTCSearchEngine.Partial_D1
          /\ (1 <= BTCSearchEngine.num_matches r <= n)%nat
          /\ (BTCSearchEngine.score r
              = (10 * Z.of_nat (BTCSearchEngine.num_matches r))%Z
              \/ BTCSearchEngine.score r
                 = (10 * Z.of_nat (BTCSearchEngine.num_matches r) + 5)%Z))
       results
  \/ Forall
       (fun r =>
          BTCSearchEngine.match_type r = BTCSearchEngine.Synonyms_D3
          /\ (1 <= BTCSearchEngine.num_matches r)%nat
          /\ BTCSearchEngine.score r
             = (5 * Z.of_nat (BTCSearchEngine.num_matches r))%Z)
       results.
Proof.
  intros n results. unfold results, n, query_tokens_of.
  unfold BTCSearchEngine.search.
  destruct (_ || _); [left; constructor |].
  generalize (Corrector.correct_query (BTCSearchEngine.correction_map self) query).
  intros cq.
  generalize (list_to_set (TextProcessor.tokenize_btp
                (TextProcessor.normalize_text (PyStr cq)) false) : gset pystr).
  intros Q.
  destruct (decide (Q = ∅)); [left; constructor |].
  assert (Forall
            (fun r =>
               BTCSearchEngine.match_type r = BTCSearchEngine.Partial_D1
               /\ (1 <= BTCSearchEngine.num_matches r <= size Q)%nat
               /\ (BTCSearchEngine.score r
                   = (10 * Z.of_nat (BTCSearchEngine.num_matches r))%Z
                   \/ BTCSearchEngine.score r
                      = (10 * Z.of_nat (BTCSearchEngine.num_matches r) + 5)%Z))
            (omap (BTCSearchEngine.d1_entry order Q) df)) as Hd1.
  { apply omap_Forall. intros row r. apply d1_entry_tier. }
  destruct (omap (BTCSearchEngine.d1_entry order Q) df) as [| r1 d1] eqn:Hd1eq.
  - right. right.
    generalize (list_to_set (DictionaryManager.expand_query order
                  (BTCSearchEngine.dictionary_manager self) cq 10) ∖ Q : gset pystr).
    intros S.
    destruct (decide (S = ∅)); [constructor |].
    destruct (omap (BTCSearchEngine.d3_entry order S) df) as [| r3 d3] eqn:Hd3eq;
      [constructor |].
    cbn [snd]. apply Forall_take_sort. rewrite <- Hd3eq.
    apply omap_Forall. intros row r. apply d3_entry_tier.
  - destruct (Nat.ltb_spec 1 (size Q)) as [Hn | Hn];
      [| right; left; cbn [snd]; by apply Forall_take_sort].
    destruct (List.filter _ (r1 :: d1)) as [| r2 d2] eqn:Hd2eq;
      [right; left; cbn [snd]; by apply Forall_take_sort |].
    left. cbn [snd]. apply Forall_take_sort. rewrite <- Hd2eq.
    apply Forall_map. apply Forall_forall. intros r Hr.
    apply list_elem_of_In, filter_In in Hr as [Hr Hnm].
    apply Nat.eqb_eq in Hnm. rewrite Forall_forall in Hd1.
    apply list_elem_of_In in Hr. destruct (Hd1 r Hr) as (_ & _ & Hscore).
    cbn [BTCSearchEngine.promote BTCSearchEngine.match_type
         BTCSearchEngine.num_matches BTCSearchEngine.score].
    rewrite Hnm in Hscore. split; [reflexivity |]. split; [lia |].
    split; [exact Hnm |]. lia.
Qed.

(** What [search] computes before it truncates does not depend on the
    limit. *)
Lemma search_untruncated order self df query :
  exists log full,
    forall limit,
      BTCSearchEngine.search order self df query limit
      = (log, py_take limit full).
Proof.
  unfold BTCSearchEngine.search.
  assert (exists (log : list BTCSearchEngine.log_line)
                 (full : list BTCSearchEngine.SearchResult),
             forall limit : Z, (@nil BTCSearchEngine.log_line,
                                @nil BTCSearchEngine.SearchResult)
                               = (log, py_take limit full)) as Hnone.
  { exists [], []. intros limit. by rewrite py_take_nil. }
  destruct (_ || _); [exact Hnone |]. cbv zeta.
  generalize (match
                 Corrector.correct_query_log
                   (BTCSearchEngine.correction_map self) query
               with
               | Some (query, corrected_query) =>
                   [BTCSearchEngine.LogQueryCorrected query corrected_query]
               | None => []
               end).
  intros corrector_log.
  generalize (Corrector.correct_query (BTCSearchEngine.correction_map self) query).
  intros cq.
  generalize (list_to_set (TextProcessor.tokenize_btp
                (TextProcessor.normalize_text (PyStr cq)) false) : gset pystr).
  intros Q.
  destruct (decide (Q = ∅)).
  { exists corrector_log, []. intros limit. by rewrite py_take_nil. }
  destruct (omap (BTCSearchEngine.d1_entry order Q) df) as [| r1 d1].
  - generalize (list_to_set (DictionaryManager.expand_query order
                  (BTCSearchEngine.dictionary_manager self) cq 10) ∖ Q : gset pystr).
    intros S.
    destruct (decide (S = ∅)).
    + exists (corrector_log
              ++ [BTCSearchEngine.LogPassToD3; BTCSearchEngine.LogD3NoSynonym]),
             [].
      intros limit. by rewrite py_take_nil.
    + destruct (omap (BTCSearchEngine.d3_entry order S) df) as [| r3 d3].
      * exists (corrector_log
                ++ [BTCSearchEngine.LogPassToD3; BTCSearchEngine.LogNothingFound]),
               [].
        intros limit. by rewrite py_take_nil.
      * by eexists _, _.
  - destruct (1 <? size Q)%nat; [| by eexists _, _].
    destruct (List.filter _ (r1 :: d1)); by eexists _, _.
Qed.

Lemma py_take_take {A : Type} (l1 l2 : Z) (l : list A) :
  (0 <= l1 <= l2)%Z -> py_take l1 (py_take l2 l) = py_take l1 l.
Proof.
  intros H. unfold py_take.
  rewrite !(proj2 (Z.leb_le 0 _)) by lia.
  rewrite firstn_firstn. f_equal. lia.
Qed.

(** X12: for limits that are not negative, raising the limit only extends
    the answer: the answer for the smaller limit is the answer for the
    larger limit cut to the smaller one, and the log lines are the same. *)
Theorem search_limit_extends_answer
        (order : gset pystr -> list pystr) (self : BTCSearchEngine.t)
        (df : list BTCSearchEngine.article) (query : pystr) (l1 l2 : Z) :
  (0 <= l1 <= l2)%Z ->
  (BTCSearchEngine.search order self df query l1).1
  = (BTCSearchEngine.search order self df query l2).1
  /\ (BTCSearchEngine.search order self df query l1).2
     = py_take l1 (BTCSearchEngine.search order self df query l2).2
  /\ (BTCSearchEngine.search order self df query l1).2
     `prefix_of` (BTCSearchEngine.search order self df query l2).2.
Proof.
  intros Hl. destruct (search_untruncated order self df query)
    as (log & full & Hsearch).
  rewrite !Hsearch. cbn [fst snd].
  assert (py_take l1 full = py_take l1 (py_take l2 full)) as Heq
      by (symmetry; by apply py_take_take).
  split; [reflexivity |]. split; [exact Heq |].
  rewrite Heq. apply py_take_prefix.
Qed.

Lemma search_limit_extends_answer_witness :
  (BTCSearchEngine.search elements example_engine example_catalog
                          (u "semelle beton") 1).2
  = py_take 1 (BTCSearchEngine.search elements example_engine example_catalog
                                      (u "semelle beton") 20).2.
Proof.
  apply (search_limit_extends_answer elements example_engine example_catalog
                                     (u "semelle beton") 1 20).
  lia.
Defined.

(** X13: [search] answers with the empty list, and writes no log line,
    when the query has fewer than two characters once stripped; when the
    corrected query gives no token it answers with the empty list, and the
    only line in the log is the corrector's, written when the correction
    changed the query; and it returns no result on an empty catalogue. *)
Theorem search_empty_answers
        (order : gset pystr -> list pystr) (self : BTCSearchEngine.t)
        (df : list BTCSearchEngine.article) (query : pystr) (limit : Z) :
  ((length (py_strip query) < 2)%nat ->
   BTCSearchEngine.search order self df query limit = ([], []))
  /\ (query_tokens_of
        (Corrector.correct_query (BTCSearchEngine.correction_map self) query)
      = ∅ ->
      (BTCSearchEngine.search order self df query limit).2 = []
      /\ ((2 <= length (py_strip query))%nat ->
          BTCSearchEngine.search order self df query limit
          = (match
               Corrector.correct_query_log
                 (BTCSearchEngine.correction_map self) query
             with
             | Some (query, corrected_query) =>
                 [BTCSearchEngine.LogQueryCorrected query corrected_query]
             | None => []
             end, [])))
  /\ (BTCSearchEngine.search order self [] query limit).2 = [].
Proof.
  split; [| split].
  - intros Hlen. unfold BTCSearchEngine.search.
    apply Nat.ltb_lt in Hlen. rewrite Hlen. by rewrite orb_true_r.
  - unfold query_tokens_of, BTCSearchEngine.search. cbv zeta.
    generalize (Corrector.correct_query_log
                  (BTCSearchEngine.correction_map self) query).
    intros logged.
    generalize (Corrector.correct_query (BTCSearchEngine.correction_map self) query).
    intros cq.
    generalize (list_to_set (TextProcessor.tokenize_btp
                  (TextProcessor.normalize_text (PyStr cq)) false) : gset pystr).
    intros Q ->. split.
    + destruct (_ || _); [reflexivity |].
      by destruct (decide (∅ = ∅)).
    + intros Hlen.
      assert ((length query =? 0)%nat || (length (py_strip query) <? 2)%nat
              = false) as ->.
      { apply orb_false_iff. split.
        - apply Nat.eqb_neq. intros Hq. apply length_zero_iff_nil in Hq.
          subst query. vm_compute in Hlen. lia.
        - by apply Nat.ltb_ge. }
      by destruct (decide (∅ = ∅)).
  - unfold BTCSearchEngine.search. cbv zeta.
    destruct (_ || _); [reflexivity |].
    destruct (decide (_ = ∅)); [reflexivity |]. cbn [omap].
    by destruct (decide (_ = ∅)).
Qed.

Lemma search_empty_answers_witness :
  BTCSearchEngine.search elements example_engine example_catalog (u " b ") 20
  = ([], [])
  /\ BTCSearchEngine.search elements example_engine example_catalog
                            (u "De La") 20
     = ([BTCSearchEngine.LogQueryCorrected (u "De La") (u "de la")], []).
Proof.
  split.
  - apply (proj1 (search_empty_answers elements example_engine
                                       example_catalog (u " b ") 20)).
    vm_compute. lia.
  - rewrite (proj2 (proj1 (proj2 (search_empty_answers
                                    elements example_engine example_catalog
                                    (u "De La") 20))
                          ltac:(vm_compute; reflexivity))
                   ltac:(vm_compute; lia)).
    vm_compute. reflexivity.
Defined.

(** ** The earlier engine *)

Lemma py_in_unfold (needle hay : pystr) :
  py_in needle hay
  = py_startswith hay needle
    || match hay with [] => false | _ :: hay' => py_in needle hay' end.
Proof. by destruct hay. Qed.

Lemma py_in_occurs (needle hay : pystr) :
  py_in needle hay = true <-> occurs_in needle hay.
Proof.
  unfold occurs_in. induction hay as [| c hay IH].
  - rewrite py_in_unfold, orb_false_r, py_startswith_prefix. split.
    + intros [k Hk]. by exists [], k.
    + intros (a & b & Hab). symmetry in Hab.
      apply app_eq_nil in Hab as [-> Hab]. apply app_eq_nil in Hab as [-> ->].
      done.
  - rewrite py_in_unfold, orb_true_iff, py_startswith_prefix, IH. split.
    + intros [[k Hk] | (a & b & Hab)].
      * by exists [], k.
      * exists (c :: a), b. by rewrite Hab.
    + intros (a & b & Hab). destruct a as [| c' a].
      * left. by exists b.
      * right. injection Hab as -> Hab. by exists a, b.
Qed.

Lemma elem_of_legacy_flexible_matches (Q D : gset pystr) (q : pystr) :
  q ∈ LegacySearchEngine._get_flexible_matches Q D
  <-> q ∈ Q /\ exists d, d ∈ D /\ (occurs_in q d \/ occurs_in d q).
Proof.
  unfold LegacySearchEngine._get_flexible_matches.
  rewrite elem_of_filter. unfold set_Exists.
  setoid_rewrite py_in_occurs. tauto.
Qed.

Lemma prefix_occurs_in (p s : pystr) : p `prefix_of` s -> occurs_in p s.
Proof. intros [k Hk]. by exists [], k. Qed.

(** X14: the earlier engine keeps a query token when it occurs inside some
    designation token, or some designation token occurs inside it; it keeps
    every token the prefix match of the later engine keeps, and, when the
    two sets of tokens are the same non-empty set, all of them. *)
Theorem legacy_flexible_matches_by_substring (Q D : gset pystr) :
  (forall q,
      q ∈ LegacySearchEngine._get_flexible_matches Q D
      <-> q ∈ Q /\ exists d, d ∈ D /\ (occurs_in q d \/ occurs_in d q))
  /\ BTCSearchEngine._get_flexible_matches Q D
     ⊆ LegacySearchEngine._get_flexible_matches Q D
  /\ LegacySearchEngine._get_flexible_matches Q D ⊆ Q
  /\ LegacySearchEngine._get_flexible_matches Q Q = Q.
Proof.
  split; [apply elem_of_legacy_flexible_matches |]. split; [| split].
  - intros q (HQ & d & HD & Hpre)%elem_of_flexible_matches.
    apply elem_of_legacy_flexible_matches. split; [done |].
    exists d. split; [done |].
    destruct Hpre as [H | H]; [left | right]; by apply prefix_occurs_in.
  - intros q Hq. by apply elem_of_legacy_flexible_matches in Hq as [? _].
  - apply leibniz_equiv. intros q. rewrite elem_of_legacy_flexible_matches.
    split; [by intros [? _] |]. intros Hq. split; [done |].
    exists q. split; [done |]. left. exists [], []. cbn [app]. by rewrite app_nil_r.
Qed.

Lemma legacy_flexible_matches_subseteq (Q D : gset pystr) :
  LegacySearchEngine._get_flexible_matches Q D ⊆ Q.
Proof.
  intros q Hq. by apply elem_of_legacy_flexible_matches in Hq as [? _].
Qed.

Lemma omap_nil_None {A B : Type} (f : A -> option B) (l : list A) (a : A) :
  omap f l = [] -> a ∈ l -> f a = None.
Proof.
  induction l as [| x l IH]; [by intros _ ?%elem_of_nil |].
  simpl. destruct (f x) eqn:Hx; [discriminate |].
  intros Hl [-> | Ha]%elem_of_cons; [done | by apply IH].
Qed.

Lemma omap_Forall_elem {A B : Type} (f : A -> option B) (P : B -> Prop)
      (l : list A) :
  (forall a b, a ∈ l -> f a = Some b -> P b) -> Forall P (omap f l).
Proof.
  induction l as [| a l IH]; intros Hf; simpl; [constructor |].
  destruct (f a) as [b |] eqn:Hb; simpl.
  - constructor; [apply (Hf a b); [left | done] |].
    apply IH. intros a' b' Ha'. apply Hf. by right.
  - apply IH. intros a' b' Ha'. apply Hf. by right.
Qed.

Lemma legacy_Forall_take_sort (P : LegacySearchEngine.SearchResult -> Prop)
      limit hits :
  Forall P hits ->
  Forall P (py_take limit (LegacySearchEngine.sort_by_score hits)).
Proof.
  intros H.
  destruct (py_take_prefix limit (LegacySearchEngine.sort_by_score hits))
    as [k Hk].
  assert (Forall P (LegacySearchEngine.sort_by_score hits)) as Hs.
  { unfold LegacySearchEngine.sort_by_score. by rewrite sort_desc_perm. }
  rewrite Hk in Hs. by apply Forall_app in Hs as [? _].
Qed.

(** X15: a list returned by the earlier [search] never mixes tiers.  With
    [n] query tokens, either every result is a complete match (D2) scored
    50 per token, or 25 more; or every result is a partial match (D1) scored
    10 per matched token, with at least one and fewer than [n] tokens
    matched, so that a one-token query never gives a partial match; or every
    result is a synonym match (D3) scored 5 per match. *)
Theorem legacy_search_results_single_tier
        (order : gset pystr -> list pystr)
        (dictionary_manager : DictionaryManager.t)
        (df : list BTCSearchEngine.article) (query : pystr) (limit : Z) :
  let n := Z.of_nat (size (query_tokens_of query)) in
  let results :=
    LegacySearchEngine.search order dictionary_manager df query limit in
  Forall
    (fun r =>
       LegacySearchEngine.match_type r = BTCSearchEngine.Complete_D2
       /\ (1 <= n)%Z
       /\ (LegacySearchEngine.score r = (50 * n)%Z
           \/ LegacySearchEngine.score r = (50 * n + 25)%Z))
    results
  \/ Forall
       (fun r =>
          LegacySearchEngine.match_type r = BTCSearchEngine.Partial_D1
          /\ exists k : Z,
              (1 <= k < n)%Z /\ LegacySearchEngine.score r = (10 * k)%Z)
       results
  \/ Forall
       (fun r =>
          LegacySearchEngine.match_type r = BTCSearchEngine.Synonyms_D3
          /\ exists k : Z,
              (1 <= k)%Z /\ LegacySearchEngine.score r = (5 * k)%Z)
       results.
Proof.
  intros n results. unfold results, n, query_tokens_of.
  unfold LegacySearchEngine.search.
  destruct (_ || _); [left; constructor |]. cbv zeta.
  generalize (TextProcessor.normalize_text (PyStr query)). intros query_norm.
  generalize (list_to_set (TextProcessor.tokenize_btp query_norm false)
              : gset pystr).
  intros Q.
  destruct (decide (Q = ∅)) as [| HQ]; [left; constructor |].
  apply size_pos_of_nonempty in HQ.
  destruct (omap (LegacySearchEngine.d2_entry order query_norm Q) df)
    as [| r2 d2] eqn:Hd2.
  - destruct (omap (LegacySearchEngine.partial_entry order 10
                      BTCSearchEngine.Partial_D1 Q) df) as [| r1 d1] eqn:Hd1.
    + right. right.
      generalize (list_to_set (DictionaryManager.expand_query order
                    dictionary_manager query 10) ∖ Q : gset pystr).
      intros S.
      destruct (decide (S = ∅)); [constructor |].
      destruct (omap (LegacySearchEngine.partial_entry order 5
                        BTCSearchEngine.Synonyms_D3 S) df) as [| r3 d3] eqn:Hd3;
        [constructor |].
      apply legacy_Forall_take_sort. rewrite <- Hd3.
      apply omap_Forall. intros row r.
      unfold LegacySearchEngine.partial_entry.
      generalize (BTCSearchEngine.designation_tokens row). intros D.
      destruct (decide (_ = ∅)) as [| Hm]; [discriminate |].
      intros [= <-]. cbn [LegacySearchEngine.result_of
                          LegacySearchEngine.match_type
                          LegacySearchEngine.score].
      split; [reflexivity |]. apply size_pos_of_nonempty in Hm.
      eexists. split; [| apply Z.mul_comm]. lia.
    + right. left. apply legacy_Forall_take_sort. rewrite <- Hd1.
      apply omap_Forall_elem. intros row r Hrow.
      pose proof (omap_nil_None _ _ _ Hd2 Hrow) as Hnone. revert Hnone.
      unfold LegacySearchEngine.partial_entry, LegacySearchEngine.d2_entry.
      generalize (BTCSearchEngine.designation_tokens row). intros D.
      pose proof (subseteq_size _ _ (legacy_flexible_matches_subseteq Q D))
        as Hle.
      destruct (Nat.eqb_spec
                  (size (LegacySearchEngine._get_flexible_matches Q D))
                  (size Q)) as [| Hne]; [discriminate |].
      intros _.
      destruct (decide (_ = ∅)) as [| Hm]; [discriminate |].
      intros [= <-]. cbn [LegacySearchEngine.result_of
                          LegacySearchEngine.match_type
                          LegacySearchEngine.score].
      split; [reflexivity |]. apply size_pos_of_nonempty in Hm.
      eexists. split; [| apply Z.mul_comm]. lia.
  - left. apply legacy_Forall_take_sort. rewrite <- Hd2.
    apply omap_Forall. intros row r.
    unfold LegacySearchEngine.d2_entry.
    generalize (BTCSearchEngine.designation_tokens row). intros D.
    destruct (Nat.eqb_spec
                (size (LegacySearchEngine._get_flexible_matches Q D))
                (size Q)) as [Heq |]; [| discriminate].
    rewrite Heq.
    destruct (py_in _ _); intros [= <-];
      cbn [LegacySearchEngine.result_of LegacySearchEngine.match_type
           LegacySearchEngine.score];
      (split; [reflexivity |]); (split; [lia |]); [right | left]; lia.
Qed.

(** ** The catalogue tree, further *)

Lemma py_split_on_nonempty (sep : N) (s : pystr) :
  exists part parts, py_split_on sep s = part :: parts.
Proof.
  induction s as [| c s (part & parts & IH)]; simpl; [by eexists _, _ |].
  destruct (c =? sep); [by eexists _, _ |]. rewrite IH. by eexists _, _.
Qed.

Lemma py_join_cons (sep part part' : pystr) (parts : list pystr) :
  py_join sep (part :: part' :: parts)
  = part ++ sep ++ py_join sep (part' :: parts).
Proof. reflexivity. Qed.

Lemma py_join_cons_char (sep : pystr) (c : N) (part : pystr)
      (parts : list pystr) :
  py_join sep ((c :: part) :: parts) = c :: py_join sep (part :: parts).
Proof. by destruct parts. Qed.

Lemma py_join_split_on (sep : N) (s : pystr) :
  py_join [sep] (py_split_on sep s) = s.
Proof.
  induction s as [| c s IH]; [reflexivity |]. simpl.
  destruct (py_split_on_nonempty sep s) as (part & parts & Hs).
  rewrite Hs in IH |- *.
  destruct (N.eqb_spec c sep) as [-> | _].
  - rewrite py_join_cons, IH. reflexivity.
  - rewrite py_join_cons_char, IH. reflexivity.
Qed.

Lemma py_split_on_parts (sep : N) (s : pystr) :
  Forall (fun part => sep ∉ part) (py_split_on sep s).
Proof.
  induction s as [| c s IH]; simpl.
  - constructor; [apply not_elem_of_nil | constructor].
  - destruct (N.eqb_spec c sep) as [-> | Hne].
    + constructor; [apply not_elem_of_nil | exact IH].
    + destruct (py_split_on sep s) as [| part parts].
      * constructor; [| constructor].
        intros [-> | H%elem_of_nil]%elem_of_cons; done.
      * inversion IH as [| ? ? Hpart Hparts]; subst.
        constructor; [| exact Hparts].
        intros [-> | H]%elem_of_cons; done.
Qed.

Lemma subtitle_key_of_cases (h : Backend.Hierarchy.t) :
  (Backend.Hierarchy.subsubtitle h = []
   /\ Backend.subtitle_key_of h = Backend.title_key_of h)
  \/ (Backend.Hierarchy.subsubtitle h <> []
      /\ Backend.subtitle_key_of h
         = Backend.title_key_of h ++ u "." ++ Backend.Hierarchy.subsubtitle h).
Proof.
  unfold Backend.subtitle_key_of.
  destruct (Backend.Hierarchy.subsubtitle h); [by left | by right].
Qed.

(** X16: splitting a code at its dots loses nothing, and no segment holds
    a dot.  When the code has the three segments a hierarchy needs, the
    title key and the subtitle key are prefixes of the code, the title key
    being the code itself when there are exactly three segments. *)
Theorem parse_code_hierarchy_keys_are_prefixes
        (code : pystr) (hierarchy : Backend.Hierarchy.t) :
  Backend.parse_code_hierarchy code = Some hierarchy ->
  py_join (u ".") (py_split_on 0x2E code) = code
  /\ Forall (fun part => 0x2E ∉ part) (py_split_on 0x2E code)
  /\ Backend.title_key_of hierarchy `prefix_of` code
  /\ Backend.subtitle_key_of hierarchy `prefix_of` code
  /\ (length (py_split_on 0x2E code) = 3%nat ->
      Backend.title_key_of hierarchy = code).
Proof.
  intros Hparse.
  pose proof (py_join_split_on 0x2E code) as Hjoin.
  split; [exact Hjoin |]. split; [apply py_split_on_parts |].
  revert Hparse Hjoin. unfold Backend.parse_code_hierarchy.
  generalize (py_split_on 0x2E code). intros parts.
  destruct (Nat.ltb_spec (length parts) 3) as [| Hlen]; [discriminate |].
  intros [= <-] <-.
  destruct parts as [| p0 [| p1 [| p2 rest]]]; simpl in Hlen; try lia.
  unfold Backend.subtitle_key_of, Backend.title_key_of.
  cbn [nth Backend.Hierarchy.main Backend.Hierarchy.title
       Backend.Hierarchy.subtitle Backend.Hierarchy.subsubtitle].
  change (u ".") with [0x2E].
  rewrite !py_join_cons.
  assert (forall tail, p0 ++ [0x2E] ++ p1 ++ [0x2E] ++ p2 ++ tail
                       = (p0 ++ [0x2E] ++ p1 ++ [0x2E] ++ p2) ++ tail) as Hassoc.
  { intros tail. by rewrite <- !app_assoc. }
  destruct rest as [| p3 rest].
  - cbn [py_join nth]. split; [done |]. split; [done |]. done.
  - rewrite py_join_cons. rewrite Hassoc.
    split; [by eexists |]. split; [| simpl; lia].
    destruct p3 as [| c p3]; [by eexists |].
    rewrite <- !app_assoc.
    repeat apply prefix_app. destruct rest as [| p4 rest]; cbn [nth].
    + reflexivity.
    + rewrite py_join_cons. by eexists.
Qed.

Lemma parse_code_hierarchy_keys_are_prefixes_witness :
  Backend.title_key_of
    {| Backend.Hierarchy.main := u "03"; Backend.Hierarchy.title := u "1";
       Backend.Hierarchy.subtitle := u "0";
       Backend.Hierarchy.subsubtitle := u "1";
       Backend.Hierarchy.item := u "0"; Backend.Hierarchy.detail := u "001" |}
  `prefix_of` u "03.1.0.1.0.001".
Proof.
  apply (parse_code_hierarchy_keys_are_prefixes (u "03.1.0.1.0.001")).
  vm_compute. reflexivity.
Defined.

Lemma od_set_od_set {V : Type} (k : pystr) (v v' : V) (d : odict V) :
  od_set k v' (od_set k v d) = od_set k v' d.
Proof.
  induction d as [| [k0 v0] d IH]; simpl.
  - by rewrite decide_True.
  - destruct (decide (k0 = k)) as [-> | Hne]; simpl.
    + by rewrite decide_True.
    + by rewrite decide_False, IH.
Qed.

Lemma od_get_elem {V : Type} (k : pystr) (v : V) (d : odict V) :
  od_get k d = Some v -> (k, v) ∈ d.
Proof.
  induction d as [| [k0 v0] d IH]; simpl; [done |].
  destruct (decide (k0 = k)) as [-> | Hne].
  - intros [= ->]. by left.
  - intros H. right. by apply IH.
Qed.

Lemma od_get_None {V : Type} (k : pystr) (d : odict V) :
  od_get k d = None <-> k ∉ map fst d.
Proof.
  induction d as [| [k0 v0] d IH]; simpl.
  - split; [intros _; apply not_elem_of_nil | done].
  - rewrite not_elem_of_cons. destruct (decide (k0 = k)) as [-> | Hne].
    + split; [done | by intros [? _]].
    + rewrite IH. split; [by split | by intros [_ ?]].
Qed.

Lemma elem_of_od_set {V : Type} (k : pystr) (v : V) (d : odict V)
      (x : pystr * V) :
  x ∈ od_set k v d -> x = (k, v) \/ x ∈ d.
Proof.
  induction d as [| [k0 v0] d IH]; simpl.
  - intros [-> | H%elem_of_nil]%elem_of_cons; [by left | done].
  - destruct (decide (k0 = k)) as [-> | Hne].
    + intros [-> | H]%elem_of_cons; [by left | right; by right].
    + intros [-> | H]%elem_of_cons; [right; by left |].
      destruct (IH H) as [-> | Hd]; [by left | right; by right].
Qed.

Lemma od_set_hit {V : Type} (k : pystr) (v v' : V) (d : odict V) :
  od_get k d = Some v ->
  exists d1 d2, d = d1 ++ (k, v) :: d2 /\ od_set k v' d = d1 ++ (k, v') :: d2.
Proof.
  induction d as [| [k0 v0] d IH]; simpl; [done |].
  destruct (decide (k0 = k)) as [-> | Hne].
  - intros [= ->]. by exists [], d.
  - intros H. destruct (IH H) as (d1 & d2 & -> & ->).
    by exists ((k0, v0) :: d1), d2.
Qed.

Lemma od_set_miss {V : Type} (k : pystr) (v' : V) (d : odict V) :
  od_get k d = None -> od_set k v' d = d ++ [(k, v')].
Proof.
  induction d as [| [k0 v0] d IH]; simpl; [done |].
  destruct (decide (k0 = k)) as [-> | Hne]; [done |].
  intros H. by rewrite IH.
Qed.

Lemma od_set_keys {V : Type} (k : pystr) (v : V) (d : odict V) :
  map fst (od_set k v d)
  = match od_get k d with
    | Some _ => map fst d
    | None => map fst d ++ [k]
    end.
Proof.
  destruct (od_get k d) as [v0 |] eqn:Hget.
  - destruct (od_set_hit k v0 v d Hget) as (d1 & d2 & -> & ->).
    by rewrite !map_app.
  - by rewrite (od_set_miss k v d Hget), map_app.
Qed.

Lemma od_set_NoDup {V : Type} (k : pystr) (v : V) (d : odict V) :
  NoDup (map fst d) -> NoDup (map fst (od_set k v d)).
Proof.
  intros Hd. rewrite od_set_keys.
  destruct (od_get k d) eqn:Hget; [done |].
  apply od_get_None in Hget.
  apply NoDup_app. split; [done |]. split.
  - intros x Hx [-> | H%elem_of_nil]%elem_of_cons; done.
  - apply NoDup_singleton.
Qed.

Lemma od_get_of_elem {V : Type} (k : pystr) (v : V) (d : odict V) :
  NoDup (map fst d) -> (k, v) ∈ d -> od_get k d = Some v.
Proof.
  induction d as [| [k0 v0] d IH]; simpl; [by intros _ ?%elem_of_nil |].
  intros [Hk0 Hd]%NoDup_cons [[= -> ->] | Hin]%elem_of_cons.
  - by rewrite decide_True.
  - destruct (decide (k0 = k)) as [-> | Hne]; [| by apply IH].
    destruct Hk0. apply list_elem_of_fmap. by exists (k, v).
Qed.

(** What one turn of the loop does to the tree, for a row whose code gives
    a hierarchy. *)
Lemma add_row_eq (structure : odict Backend.TitleNode.t) (idx : nat)
      (row : Backend.Row.t) (hierarchy : Backend.Hierarchy.t) :
  Backend.parse_code_hierarchy (Backend.Row.Code row) = Some hierarchy ->
  Backend.add_row structure idx row
  = od_set (Backend.title_key_of hierarchy)
           (node_after
              (default Backend.new_title
                       (od_get (Backend.title_key_of hierarchy) structure))
              idx row hierarchy)
           structure.
Proof.
  intros Hparse. unfold Backend.add_row, node_after. rewrite Hparse.
  set (title_key := Backend.title_key_of hierarchy).
  set (st := match od_get title_key structure with
             | Some _ => structure
             | None => od_set title_key Backend.new_title structure
             end).
  assert (default Backend.new_title (od_get title_key st)
          = default Backend.new_title (od_get title_key structure)) as ->.
  { unfold st. destruct (od_get title_key structure) as [n |] eqn:Hn.
    - by rewrite Hn.
    - by rewrite od_get_set_eq. }
  assert (forall node, od_set title_key node st
                       = od_set title_key node structure) as Hset.
  { intros node. unfold st. destruct (od_get title_key structure); [done |].
    apply od_set_od_set. }
  clearbody st.
  generalize (default Backend.new_title (od_get title_key structure)).
  intros node.
  destruct (Backend.identify_entry_type _ _); [apply Hset | apply Hset |].
  destruct (Backend.Hierarchy.subsubtitle hierarchy); [apply Hset |].
  destruct (od_get _ _); apply Hset.
Qed.

Lemma add_row_skip (structure : odict Backend.TitleNode.t) (idx : nat)
      (row : Backend.Row.t) :
  Backend.parse_code_hierarchy (Backend.Row.Code row) = None ->
  Backend.add_row structure idx row = structure.
Proof. intros Hparse. unfold Backend.add_row. by rewrite Hparse. Qed.

(** A property of the title nodes that a fresh node has, and that one turn
    of the loop keeps, holds all over the tree that is built. *)
Lemma build_preserves (P : pystr -> Backend.TitleNode.t -> Prop) :
  (forall title_key, P title_key Backend.new_title) ->
  (forall node idx row hierarchy,
      Backend.parse_code_hierarchy (Backend.Row.Code row) = Some hierarchy ->
      P (Backend.title_key_of hierarchy) node ->
      P (Backend.title_key_of hierarchy) (node_after node idx row hierarchy)) ->
  forall df title_key node,
    (title_key, node) ∈ Backend.build_hierarchical_structure df ->
    P title_key node.
Proof.
  intros Hnew Hstep df. unfold Backend.build_hierarchical_structure.
  assert (forall title_key node,
             (title_key, node) ∈ @nil (pystr * Backend.TitleNode.t) ->
             P title_key node) as Hinit
      by (by intros ? ? ?%elem_of_nil).
  revert Hinit. generalize (@nil (pystr * Backend.TitleNode.t)).
  induction df as [| [idx row] df IH]; intros st Hst; [exact Hst |].
  cbn [fold_left]. apply IH. intros title_key node.
  destruct (Backend.parse_code_hierarchy (Backend.Row.Code row))
    as [hierarchy |] eqn:Hparse.
  - rewrite (add_row_eq st idx row hierarchy Hparse).
    intros [[= -> ->] | Hin]%elem_of_od_set; [| by apply Hst].
    apply Hstep; [done |].
    destruct (od_get (Backend.title_key_of hierarchy) st) as [old |] eqn:Hold.
    + apply Hst. by apply od_get_elem.
    + apply Hnew.
  - rewrite (add_row_skip st idx row Hparse). apply Hst.
Qed.

Lemma build_keys_NoDup (df : list (nat * Backend.Row.t)) :
  NoDup (map fst (Backend.build_hierarchical_structure df)).
Proof.
  unfold Backend.build_hierarchical_structure.
  assert (NoDup (map fst (@nil (pystr * Backend.TitleNode.t)))) as Hinit
      by constructor.
  revert Hinit. generalize (@nil (pystr * Backend.TitleNode.t)).
  induction df as [| [idx row] df IH]; intros st Hst; [exact Hst |].
  cbn [fold_left]. apply IH.
  destruct (Backend.parse_code_hierarchy (Backend.Row.Code row))
    as [hierarchy |] eqn:Hparse.
  - rewrite (add_row_eq st idx row hierarchy Hparse). by apply od_set_NoDup.
  - by rewrite (add_row_skip st idx row Hparse).
Qed.

Lemma node_after_subtitle_keys_NoDup node idx row hierarchy :
  NoDup (map fst (Backend.TitleNode.subtitles node)) ->
  NoDup (map fst (Backend.TitleNode.subtitles
                    (node_after node idx row hierarchy))).
Proof.
  intros Hnode. unfold node_after.
  destruct (Backend.identify_entry_type _ _); cbn; [done | |].
  - by apply od_set_NoDup.
  - destruct (Backend.Hierarchy.subsubtitle hierarchy); [done |].
    destruct (od_get _ _); cbn; [by apply od_set_NoDup | done].
Qed.

(** X17: in the tree that is built no title key comes twice, and under one
    title no subtitle key comes twice; so a pair is in the tree exactly when
    the lookup of its key gives its node. *)
Theorem build_hierarchical_structure_keys_distinct
        (df : list (nat * Backend.Row.t)) :
  let structure := Backend.build_hierarchical_structure df in
  NoDup (map fst structure)
  /\ (forall title_key node,
         (title_key, node) ∈ structure <-> od_get title_key structure = Some node)
  /\ (forall title_key node,
         (title_key, node) ∈ structure ->
         NoDup (map fst (Backend.TitleNode.subtitles node))).
Proof.
  intros structure. pose proof (build_keys_NoDup df) as Hkeys.
  split; [exact Hkeys |]. split.
  - intros title_key node. split; [by apply od_get_of_elem | apply od_get_elem].
  - apply (build_preserves
             (fun _ node =>
                NoDup (map fst (Backend.TitleNode.subtitles node)))).
    + intros _. constructor.
    + intros node idx row hierarchy _.
      apply node_after_subtitle_keys_NoDup.
Qed.

Lemma od_set_flat_map {V B : Type} (f : V -> list B) (k : pystr) (v' : V)
      (d : odict V) (extra : list B) :
  f v' = from_option f [] (od_get k d) ++ extra ->
  flat_map f (od_values (od_set k v' d)) ≡ₚ flat_map f (od_values d) ++ extra.
Proof.
  intros Hv'. unfold od_values.
  destruct (od_get k d) as [v |] eqn:Hget; cbn [from_option] in Hv'.
  - destruct (od_set_hit k v v' d Hget) as (d1 & d2 & -> & ->).
    rewrite !map_app, !flat_map_app. cbn [map flat_map snd]. rewrite Hv'.
    rewrite <- !app_assoc. apply Permutation_app_head, Permutation_app_head.
    apply Permutation_app_comm.
  - rewrite (od_set_miss k v' d Hget), map_app, flat_map_app.
    cbn [map flat_map snd]. by rewrite Hv', app_nil_r.
Qed.

Lemma node_items_after node idx row hierarchy :
  Backend.parse_code_hierarchy (Backend.Row.Code row) = Some hierarchy ->
  node_items (node_after node idx row hierarchy)
  ≡ₚ node_items node ++ option_list (content_of_row idx row).
Proof.
  intros Hparse. unfold content_of_row, node_after, node_items.
  rewrite Hparse.
  destruct (Backend.identify_entry_type _ _);
    cbn [Backend.TitleNode.content Backend.TitleNode.subtitles option_list].
  - by rewrite app_nil_r.
  - rewrite app_nil_r. apply Permutation_app_head.
    rewrite <- (app_nil_r (flat_map _ (od_values (Backend.TitleNode.subtitles node)))).
    apply od_set_flat_map. cbn [Backend.SubtitleNode.content].
    rewrite app_nil_r. by destruct (od_get _ _).
  - destruct (Backend.Hierarchy.subsubtitle hierarchy) as [| c ss].
    + cbn [Backend.TitleNode.content Backend.TitleNode.subtitles].
      rewrite <- !app_assoc. apply Permutation_app_head, Permutation_app_comm.
    + destruct (od_get (Backend.subtitle_key_of hierarchy)
                       (Backend.TitleNode.subtitles node)) as [sub |] eqn:Hsub;
        cbn [Backend.TitleNode.content Backend.TitleNode.subtitles].
      * rewrite <- app_assoc. apply Permutation_app_head.
        apply od_set_flat_map. by rewrite Hsub.
      * rewrite <- !app_assoc.
        apply Permutation_app_head, Permutation_app_comm.
Qed.

Lemma tree_items_add_row structure idx row :
  tree_items (Backend.add_row structure idx row)
  ≡ₚ tree_items structure ++ option_list (content_of_row idx row).
Proof.
  destruct (Backend.parse_code_hierarchy (Backend.Row.Code row))
    as [hierarchy |] eqn:Hparse.
  - rewrite (add_row_eq structure idx row hierarchy Hparse).
    pose proof (node_items_after
                  (default Backend.new_title
                     (od_get (Backend.title_key_of hierarchy) structure))
                  idx row hierarchy Hparse) as Hnode.
    revert Hnode.
    generalize (node_after
                  (default Backend.new_title
                     (od_get (Backend.title_key_of hierarchy) structure))
                  idx row hierarchy).
    intros node' Hnode. unfold tree_items, od_values.
    destruct (od_get (Backend.title_key_of hierarchy) structure)
      as [node |] eqn:Hget; cbn [from_option id] in Hnode.
    + destruct (od_set_hit _ node node' structure Hget)
        as (d1 & d2 & -> & ->).
      rewrite !map_app, !flat_map_app. cbn [map flat_map snd].
      rewrite Hnode, <- !app_assoc.
      apply Permutation_app_head, Permutation_app_head, Permutation_app_comm.
    + rewrite (od_set_miss _ node' structure Hget), map_app, flat_map_app.
      cbn [map flat_map snd]. rewrite Hnode. by rewrite app_nil_r.
  - rewrite (add_row_skip structure idx row Hparse).
    unfold content_of_row. rewrite Hparse. cbn [option_list].
    by rewrite app_nil_r.
Qed.

(** The items of the tree, counted: one turn of the loop after the other. *)
Lemma build_hierarchical_structure_keeps_content_rows_aux
        (df : list (nat * Backend.Row.t)) :
  tree_items (Backend.build_hierarchical_structure df) ≡ₚ content_rows df.
Proof.
  unfold Backend.build_hierarchical_structure, content_rows.
  change (omap (fun '(idx, row) => content_of_row idx row) df)
    with (tree_items [] ++ omap (fun '(idx, row) => content_of_row idx row) df).
  generalize (@nil (pystr * Backend.TitleNode.t)).
  induction df as [| [idx row] df IH]; intros st.
  - cbn [fold_left]. simpl. by rewrite app_nil_r.
  - cbn [fold_left]. rewrite IH, tree_items_add_row, <- app_assoc.
    apply Permutation_app_head. simpl.
    by destruct (content_of_row idx row).
Qed.

(** X18: the tree keeps the content rows and nothing else: its items, all
    nodes together, are the items of the rows that have a hierarchy and are
    neither a title nor a subtitle row, each as many times as the row comes
    in the catalogue. *)
Theorem build_hierarchical_structure_keeps_content_rows
        (df : list (nat * Backend.Row.t)) :
  tree_items (Backend.build_hierarchical_structure df) ≡ₚ content_rows df.
Proof. apply build_hierarchical_structure_keeps_content_rows_aux. Qed.


Lemma node_after_well_placed node idx row hierarchy :
  let title_key := Backend.title_key_of hierarchy in
  ((forall item, item ∈ Backend.TitleNode.content node ->
                 Backend.title_key_of (Backend.ContentItem.hierarchy item)
                 = title_key)
   /\ (forall subtitle_key sub item,
          (subtitle_key, sub) ∈ Backend.TitleNode.subtitles node ->
          item ∈ Backend.SubtitleNode.content sub ->
          Backend.title_key_of (Backend.ContentItem.hierarchy item) = title_key
          /\ Backend.subtitle_key_of (Backend.ContentItem.hierarchy item)
             = subtitle_key)) ->
  (forall item,
      item ∈ Backend.TitleNode.content (node_after node idx row hierarchy) ->
      Backend.title_key_of (Backend.ContentItem.hierarchy item) = title_key)
  /\ (forall subtitle_key sub item,
         (subtitle_key, sub)
         ∈ Backend.TitleNode.subtitles (node_after node idx row hierarchy) ->
         item ∈ Backend.SubtitleNode.content sub ->
         Backend.title_key_of (Backend.ContentItem.hierarchy item) = title_key
         /\ Backend.subtitle_key_of (Backend.ContentItem.hierarchy item)
            = subtitle_key).
Proof.
  intros title_key [Hcontent Hsubs]. unfold node_after.
  destruct (Backend.identify_entry_type _ _);
    cbn [Backend.TitleNode.content Backend.TitleNode.subtitles].
  - by split.
  - split; [done |]. intros subtitle_key sub item.
    intros [[= -> ->] | Hin]%elem_of_od_set; [| by apply Hsubs].
    cbn [Backend.SubtitleNode.content].
    destruct (od_get _ _) as [old |] eqn:Hold; [| by intros ?%elem_of_nil].
    apply Hsubs. by apply od_get_elem.
  - assert (forall item,
               item ∈ Backend.TitleNode.content node
                      ++ [Backend.content_item_of idx row hierarchy] ->
               Backend.title_key_of (Backend.ContentItem.hierarchy item)
               = title_key) as Hcontent'.
    { intros item [Hin | Hin]%elem_of_app; [by apply Hcontent |].
      apply list_elem_of_singleton in Hin as ->. reflexivity. }
    destruct (Backend.Hierarchy.subsubtitle hierarchy) as [| c ss];
      [by split |].
    destruct (od_get _ _) as [old |] eqn:Hold;
      cbn [Backend.TitleNode.content Backend.TitleNode.subtitles];
      [| by split].
    split; [done |]. intros subtitle_key sub item.
    intros [[= -> ->] | Hin]%elem_of_od_set; [| by apply Hsubs].
    cbn [Backend.SubtitleNode.content].
    intros [Hitem | Hitem]%elem_of_app.
    + apply (Hsubs _ old); [by apply od_get_elem | done].
    + apply list_elem_of_singleton in Hitem as ->. by split.
Qed.

(** The placement of the items, kept by every turn of the loop. *)
Lemma build_hierarchical_structure_well_placed_aux
        (df : list (nat * Backend.Row.t)) :
  well_placed (Backend.build_hierarchical_structure df).
Proof.
  unfold well_placed.
  apply (build_preserves
           (fun title_key node =>
              (forall item,
                  item ∈ Backend.TitleNode.content node ->
                  Backend.title_key_of (Backend.ContentItem.hierarchy item)
                  = title_key)
              /\ (forall subtitle_key sub item,
                     (subtitle_key, sub) ∈ Backend.TitleNode.subtitles node ->
                     item ∈ Backend.SubtitleNode.content sub ->
                     Backend.title_key_of (Backend.ContentItem.hierarchy item)
                     = title_key
                     /\ Backend.subtitle_key_of
                          (Backend.ContentItem.hierarchy item)
                        = subtitle_key))).
  - intros title_key. split.
    + by intros item ?%elem_of_nil.
    + by intros subtitle_key sub item ?%elem_of_nil.
  - intros node idx row hierarchy _. apply node_after_well_placed.
Qed.

(** X19: in the tree that is built every item sits under the keys its own
    code gives: under a title node, the title key of its code is the node's
    key; under a subtitle node, the title key and the subtitle key of its
    code are the keys of the two nodes. *)
Theorem build_hierarchical_structure_well_placed
        (df : list (nat * Backend.Row.t)) :
  well_placed (Backend.build_hierarchical_structure df).
Proof. apply build_hierarchical_structure_well_placed_aux. Qed.


Lemma subtitle_row_key (row : Backend.Row.t) (hierarchy : Backend.Hierarchy.t) :
  Backend.parse_code_hierarchy (Backend.Row.Code row) = Some hierarchy ->
  Backend.identify_entry_type (Backend.Row.Designation row)
                              (Backend.Row.Code row)
  = Backend.Subtitle ->
  Backend.subtitle_key_of hierarchy = Backend.title_key_of hierarchy
  \/ Backend.subtitle_key_of hierarchy
     = Backend.title_key_of hierarchy ++ u "." ++ u "0".
Proof.
  unfold Backend.parse_code_hierarchy, Backend.identify_entry_type.
  generalize (py_split_on 0x2E (Backend.Row.Code row)). intros parts.
  destruct (length parts <? 3)%nat; [discriminate |]. intros [= <-].
  destruct ((length parts =? 3)%nat && _); [discriminate |].
  destruct (Backend.zero_or_empty (nth 3 parts [])) eqn:Hzero;
    [| rewrite andb_false_r; by destruct (5 <=? length parts)%nat].
  intros _. unfold Backend.zero_or_empty in Hzero.
  apply orb_true_iff in Hzero as [Hz | Hz]; apply bool_decide_eq_true in Hz;
    unfold Backend.subtitle_key_of; cbn [Backend.Hierarchy.subsubtitle];
    rewrite Hz; [by right | by left].
Qed.

Lemma app_ne_self (s t : pystr) : t <> [] -> s ++ t <> s.
Proof.
  intros Ht Heq. apply (f_equal length) in Heq. rewrite length_app in Heq.
  destruct t; [done | simpl in Heq; lia].
Qed.

Lemma node_after_subtitle_keys_shaped node idx row hierarchy :
  Backend.parse_code_hierarchy (Backend.Row.Code row) = Some hierarchy ->
  subtitle_keys_shaped (Backend.title_key_of hierarchy) node ->
  subtitle_keys_shaped (Backend.title_key_of hierarchy)
                       (node_after node idx row hierarchy).
Proof.
  intros Hparse Hnode. unfold node_after, subtitle_keys_shaped.
  destruct (Backend.identify_entry_type _ _) eqn:Htype;
    cbn [Backend.TitleNode.subtitles]; [exact Hnode | |].
  - intros subtitle_key sub.
    intros [[= -> ->] | Hin]%elem_of_od_set; [| by apply Hnode].
    cbn [Backend.SubtitleNode.content].
    destruct (subtitle_row_key row hierarchy Hparse Htype) as [Hkey | Hkey];
      [| by right].
    left. split; [done |].
    destruct (od_get _ _) as [old |] eqn:Hold; [| done].
    apply od_get_elem in Hold.
    destruct (Hnode _ _ Hold) as [[_ Hempty] | Hzero]; [done |].
    rewrite Hkey in Hzero. symmetry in Hzero.
    by apply app_ne_self in Hzero.
  - destruct (Backend.Hierarchy.subsubtitle hierarchy) as [| c ss] eqn:Hss;
      [exact Hnode |].
    destruct (od_get _ _) as [old |] eqn:Hold;
      cbn [Backend.TitleNode.subtitles]; [| exact Hnode].
    intros subtitle_key sub.
    intros [[= -> ->] | Hin]%elem_of_od_set; [| by apply Hnode].
    apply od_get_elem in Hold.
    destruct (Hnode _ _ Hold) as [[Hkey _] | Hzero]; [| by right].
    destruct (subtitle_key_of_cases hierarchy) as [[Hnil _] | [_ Hcons]];
      [congruence |].
    rewrite Hcons in Hkey. by apply app_ne_self in Hkey.
Qed.

(** X20: in the tree that is built, a subtitle node is keyed by its title's
    key, and then holds no item, or by that key followed by '.0'.  So an
    item is under a subtitle node only if the fourth segment of its code is
    '0'; the items of all other codes are under their title node. *)
Theorem build_hierarchical_structure_subtitle_keys
        (df : list (nat * Backend.Row.t)) :
  forall title_key node,
    (title_key, node) ∈ Backend.build_hierarchical_structure df ->
    subtitle_keys_shaped title_key node
    /\ (forall subtitle_key sub item,
           (subtitle_key, sub) ∈ Backend.TitleNode.subtitles node ->
           item ∈ Backend.SubtitleNode.content sub ->
           Backend.Hierarchy.subsubtitle (Backend.ContentItem.hierarchy item)
           = u "0").
Proof.
  intros title_key node Hin.
  assert (subtitle_keys_shaped title_key node) as Hshape.
  { revert title_key node Hin. apply (build_preserves subtitle_keys_shaped).
    - intros title_key subtitle_key sub H. by apply elem_of_nil in H.
    - intros node idx row hierarchy. apply node_after_subtitle_keys_shaped. }
  split; [exact Hshape |]. intros subtitle_key sub item Hsub Hitem.
  destruct (build_hierarchical_structure_well_placed_aux df title_key node Hin)
    as [_ Hplaced].
  destruct (Hplaced _ _ _ Hsub Hitem) as [Htitle Hsubtitle].
  destruct (Hshape _ _ Hsub) as [[_ Hempty] | Hzero].
  - rewrite Hempty in Hitem. by apply elem_of_nil in Hitem.
  - destruct (subtitle_key_of_cases (Backend.ContentItem.hierarchy item))
      as [[_ Hkey] | [_ Hkey]];
      rewrite Hkey, Htitle, Hzero in Hsubtitle.
    + symmetry in Hsubtitle. by apply app_ne_self in Hsubtitle.
    + apply app_inv_head in Hsubtitle. by apply app_inv_head in Hsubtitle.
Qed.

Lemma build_hierarchical_structure_subtitle_keys_witness :
  subtitle_keys_shaped
    (u "03.1.0")
    (default Backend.new_title (od_get (u "03.1.0") example_tree)).
Proof.
  apply (proj1 (build_hierarchical_structure_subtitle_keys
                  [ (0%nat, row_of "03.1.0" "GROS OEUVRE");
                    (1%nat, row_of "03.1.0.0" "FONDATIONS");
                    (2%nat, row_of "03.1.0.0.0.001" "semelle beton") ]
                  (u "03.1.0") _ ltac:(apply od_get_elem; vm_compute;
                                       reflexivity))).
Defined.

(** ** Hierarchical scope, further *)

Lemma elem_of_flat_map {A B : Type} (f : A -> list B) (l : list A) (y : B) :
  y ∈ flat_map f l <-> exists x, x ∈ l /\ y ∈ f x.
Proof.
  rewrite list_elem_of_In, in_flat_map. split.
  - intros (x & Hx & Hy). exists x. by rewrite !list_elem_of_In.
  - intros (x & Hx & Hy). exists x. by rewrite <- !list_elem_of_In.
Qed.

Lemma elem_of_tree_items (structure : odict Backend.TitleNode.t)
      (item : Backend.ContentItem.t) :
  item ∈ tree_items structure
  <-> exists title_key node,
      (title_key, node) ∈ structure
      /\ (item ∈ Backend.TitleNode.content node
          \/ exists subtitle_key sub,
               (subtitle_key, sub) ∈ Backend.TitleNode.subtitles node
               /\ item ∈ Backend.SubtitleNode.content sub).
Proof.
  unfold tree_items, node_items, od_values. rewrite elem_of_flat_map. split.
  - intros (node & Hnode & Hitem).
    apply list_elem_of_fmap in Hnode as ([title_key node'] & -> & Hin).
    exists title_key, node'. split; [done |]. cbn [snd] in Hitem.
    apply elem_of_app in Hitem as [Hitem | Hitem]; [by left | right].
    apply elem_of_flat_map in Hitem as (sub & Hsub & Hitem).
    apply list_elem_of_fmap in Hsub as ([subtitle_key sub'] & -> & Hsub).
    by exists subtitle_key, sub'.
  - intros (title_key & node & Hin & Hitem). exists node. split.
    + apply list_elem_of_fmap. by exists (title_key, node).
    + apply elem_of_app. destruct Hitem as [Hitem | (sk & sub & Hsub & Hitem)];
        [by left | right].
      apply elem_of_flat_map. exists sub. split; [| done].
      apply list_elem_of_fmap. by exists (sk, sub).
Qed.

Lemma elem_of_subtitles_where keep hierarchical_data m :
  m ∈ Backend.subtitles_where keep hierarchical_data ->
  exists node,
    (Backend.SubtitleMatch.title_key m, node) ∈ hierarchical_data
    /\ (Backend.SubtitleMatch.subtitle_key m,
        Backend.SubtitleMatch.subtitle_data m)
       ∈ Backend.TitleNode.subtitles node
    /\ keep (py_upper (Backend.SubtitleNode.subtitle
                         (Backend.SubtitleMatch.subtitle_data m))) = true.
Proof.
  unfold Backend.subtitles_where.
  intros ([title_key node] & Hnode & Hm)%elem_of_flat_map.
  apply elem_of_flat_map in Hm as ([subtitle_key sub] & Hsub & Hm).
  destruct (keep _) eqn:Hkeep; [| by apply elem_of_nil in Hm].
  apply list_elem_of_singleton in Hm as ->. by exists node.
Qed.

Lemma elem_of_find_matching_subtitles dict excel_subtitle excel_titles
      hierarchical_data m :
  m ∈ Backend.find_matching_subtitles_in_csv dict excel_subtitle excel_titles
                                             hierarchical_data ->
  exists node,
    (Backend.SubtitleMatch.title_key m, node) ∈ hierarchical_data
    /\ (Backend.SubtitleMatch.subtitle_key m,
        Backend.SubtitleMatch.subtitle_data m)
       ∈ Backend.TitleNode.subtitles node.
Proof.
  unfold Backend.find_matching_subtitles_in_csv.
  destruct excel_subtitle as [| c excel_subtitle];
    [by intros ?%elem_of_nil |].
  generalize (py_upper (c :: excel_subtitle)). intros excel_subtitle_upper.
  cbv zeta.
  match goal with
  | |- m ∈ match ?found with _ => _ end -> _ =>
      assert (m ∈ found ->
              exists node,
                (Backend.SubtitleMatch.title_key m, node) ∈ hierarchical_data
                /\ (Backend.SubtitleMatch.subtitle_key m,
                    Backend.SubtitleMatch.subtitle_data m)
                   ∈ Backend.TitleNode.subtitles node) as Hfound;
        [| revert Hfound; generalize found; intros matching Hfound;
           destruct matching as [| m0 matching]; [| exact Hfound] ]
  end.
  - intros (excel_title & _ & Hm)%elem_of_flat_map.
    destruct (od_get _ dict) as [title_config |];
      [| by apply elem_of_nil in Hm].
    apply elem_of_flat_map in Hm as ([subtitle_key csv_subtitles] & _ & Hm).
    destruct (_ || _); [| by apply elem_of_nil in Hm].
    apply elem_of_subtitles_where in Hm as (node & ? & ? & _). by exists node.
  - intros Hm.
    apply elem_of_subtitles_where in Hm as (node & ? & ? & _). by exists node.
Qed.

Lemma elem_of_find_matching_titles dict excel_titles hierarchical_data m :
  m ∈ Backend.find_matching_titles_in_csv dict excel_titles hierarchical_data ->
  (Backend.TitleMatch.title_key m, Backend.TitleMatch.title_data m)
  ∈ hierarchical_data
  /\ Backend.TitleMatch.excel_title m ∈ excel_titles.
Proof.
  unfold Backend.find_matching_titles_in_csv.
  intros (excel_title & Htitle & Hm)%elem_of_flat_map.
  apply elem_of_app in Hm as [Hm | Hm].
  - destruct (od_get _ dict) as [title_config |];
      [| by apply elem_of_nil in Hm].
    apply elem_of_flat_map in Hm as ([title_key title_data] & Hin & Hm).
    destruct (existsb _ _); [| by apply elem_of_nil in Hm].
    by apply list_elem_of_singleton in Hm as ->.
  - apply elem_of_flat_map in Hm as ([title_key title_data] & Hin & Hm).
    destruct (Backend.some_long_word_in _ _); [| by apply elem_of_nil in Hm].
    by apply list_elem_of_singleton in Hm as ->.
Qed.

Lemma search_scope_in_tree dict selected_titles subtitle hierarchical_data item :
  item ∈ Backend.search_scope dict selected_titles subtitle hierarchical_data ->
  item ∈ tree_items hierarchical_data.
Proof.
  intros Hitem. apply elem_of_tree_items.
  assert (forall matches : list Backend.SubtitleMatch.t,
             (forall m, m ∈ matches ->
                        exists node,
                          (Backend.SubtitleMatch.title_key m, node)
                          ∈ hierarchical_data
                          /\ (Backend.SubtitleMatch.subtitle_key m,
                              Backend.SubtitleMatch.subtitle_data m)
                             ∈ Backend.TitleNode.subtitles node) ->
             item ∈ flat_map
                      (fun subtitle_match =>
                         Backend.SubtitleNode.content
                           (Backend.SubtitleMatch.subtitle_data subtitle_match))
                      matches ->
             exists title_key node,
               (title_key, node) ∈ hierarchical_data
               /\ (item ∈ Backend.TitleNode.content node
                   \/ exists subtitle_key sub,
                        (subtitle_key, sub) ∈ Backend.TitleNode.subtitles node
                        /\ item ∈ Backend.SubtitleNode.content sub))
    as Hsubs.
  { intros matches Hmatches (m & Hm & Hin)%elem_of_flat_map.
    destruct (Hmatches m Hm) as (node & Hnode & Hsub).
    exists (Backend.SubtitleMatch.title_key m), node. split; [done |].
    right. by eexists _, _. }
  revert Hitem. unfold Backend.search_scope.
  destruct selected_titles as [| t ts], subtitle as [| c cs].
  - by intros ?%elem_of_nil.
  - apply Hsubs. intros m Hm.
    apply elem_of_subtitles_where in Hm as (node & ? & ? & _). by exists node.
  - intros (m & Hm & Hin)%elem_of_flat_map.
    apply elem_of_find_matching_titles in Hm as [Hm _].
    exists (Backend.TitleMatch.title_key m), (Backend.TitleMatch.title_data m).
    split; [done |].
    apply elem_of_app in Hin as [Hin | Hin]; [by left | right].
    apply elem_of_flat_map in Hin as (sub & Hsub & Hin).
    apply list_elem_of_fmap in Hsub as ([subtitle_key sub'] & -> & Hsub).
    by exists subtitle_key, sub'.
  - apply Hsubs. intros m. apply elem_of_find_matching_subtitles.
Qed.

(** X21: the scope of a restricted search holds items of the tree only,
    whatever the filters and the table of titles; on a tree built from a
    catalogue, every item of the scope is the item of one of its content
    rows.  And without filters the scope is empty. *)
Theorem search_scope_holds_tree_items
        (TITLE_SUBTITLE_DICTIONARY : odict Backend.TitleConfig.t)
        (selected_titles : list pystr) (subtitle : pystr) :
  (forall hierarchical_data,
      Forall (fun item => item ∈ tree_items hierarchical_data)
             (Backend.search_scope TITLE_SUBTITLE_DICTIONARY selected_titles
                                   subtitle hierarchical_data))
  /\ (forall df,
         Forall (fun item =>
                   exists idx row,
                     (idx, row) ∈ df /\ content_of_row idx row = Some item)
                (Backend.search_scope TITLE_SUBTITLE_DICTIONARY selected_titles
                                      subtitle
                                      (Backend.build_hierarchical_structure df)))
  /\ (forall hierarchical_data,
         Backend.search_scope TITLE_SUBTITLE_DICTIONARY [] []
                              hierarchical_data = []).
Proof.
  split; [| split].
  - intros hierarchical_data. apply Forall_forall. intros item.
    apply search_scope_in_tree.
  - intros df. apply Forall_forall. intros item Hitem.
    apply search_scope_in_tree in Hitem.
    pose proof (build_hierarchical_structure_keeps_content_rows_aux df) as Hperm.
    rewrite Hperm in Hitem. unfold content_rows in Hitem.
    apply list_elem_of_omap in Hitem as ([idx row] & Hin & Hrow).
    by exists idx, row.
  - reflexivity.
Qed.

(** ** Keyword expansion and scoring *)

Lemma occurs_in_refl (s : pystr) : occurs_in s s.
Proof. exists [], []. cbn [app]. by rewrite app_nil_r. Qed.

(** X22: the expansion of a query by the technical dictionary holds a
    term exactly when it is a word of the lower-cased query longer than two
    characters, or a synonym of an entry one of whose synonyms, lower-cased,
    occurs in, or contains, a word of the query that keeps three characters
    or more once cleaned; the test of equality that the code makes first
    adds nothing to this.  With an empty dictionary only the words remain. *)
Theorem backend_expanded_terms
        (TECHNICAL_DICTIONARY : odict (list pystr)) (query term : pystr) :
  let words := py_split (py_lower query) in
  (term ∈ Backend.expanded_set TECHNICAL_DICTIONARY query
   <-> (term ∈ words /\ (2 < length term)%nat)
       \/ exists main_term synonyms word synonym,
         (main_term, synonyms) ∈ TECHNICAL_DICTIONARY
         /\ term ∈ synonyms
         /\ word ∈ words
         /\ (3 <= length (Backend.word_clean word))%nat
         /\ synonym ∈ synonyms
         /\ (occurs_in (Backend.word_clean word) (py_lower synonym)
             \/ occurs_in (py_lower synonym) (Backend.word_clean word)))
  /\ (term ∈ Backend.expanded_set [] query
      <-> term ∈ words /\ (2 < length term)%nat).
Proof.
  intros words.
  assert (forall x : pystr,
             x ∈ (list_to_set
                    (List.filter (fun word => (2 <? length word)%nat) words)
                  : gset pystr)
             <-> x ∈ words /\ (2 < length x)%nat) as Hwords.
  { intros x. rewrite elem_of_list_to_set, list_elem_of_In, filter_In.
    by rewrite <- list_elem_of_In, Nat.ltb_lt. }
  split.
  - unfold Backend.expanded_set. cbv zeta. fold words.
    rewrite elem_of_union, Hwords, elem_of_union_list.
    split.
    + intros [(X & HX & Hterm) | Hword]; [right | by left].
      apply list_elem_of_fmap in HX as ([main_term synonyms] & -> & Hentry).
      apply elem_of_union_list in Hterm as (Y & HY & Hterm).
      apply list_elem_of_fmap in HY as (word & -> & Hword).
      exists main_term, synonyms, word.
      destruct (Nat.ltb_spec (length (Backend.word_clean word)) 3) as [| Hlen];
        [by apply not_elem_of_empty in Hterm |].
      destruct (bool_decide _) eqn:Hexact.
      * apply bool_decide_eq_true in Hexact.
        apply list_elem_of_fmap in Hexact as (synonym & Heq & Hsyn).
        exists synonym. rewrite elem_of_list_to_set in Hterm.
        repeat (split; [done |]). left. rewrite Heq. apply occurs_in_refl.
      * destruct (existsb _ synonyms) eqn:Hsome;
          [| by apply not_elem_of_empty in Hterm].
        apply existsb_exists in Hsome as (synonym & Hsyn & Hocc).
        exists synonym. rewrite elem_of_list_to_set in Hterm.
        apply list_elem_of_In in Hsyn.
        repeat (split; [done |]).
        apply orb_true_iff in Hocc as [Hocc | Hocc];
          apply py_in_occurs in Hocc; [by left | by right].
    + intros [Hword | (main_term & synonyms & word & synonym & Hentry & Hterm
                       & Hword & Hlen & Hsyn & Hocc)]; [by right | left].
      eexists. split.
      { apply list_elem_of_fmap. exists (main_term, synonyms). by split. }
      cbv beta iota. apply elem_of_union_list. eexists. split.
      { apply list_elem_of_fmap. exists word. by split. }
      cbv beta.
      destruct (Nat.ltb_spec (length (Backend.word_clean word)) 3); [lia |].
      destruct (bool_decide _); [by apply elem_of_list_to_set |].
      assert (existsb
                (fun s => py_in (Backend.word_clean word) (py_lower s)
                          || py_in (py_lower s) (Backend.word_clean word))
                synonyms = true) as ->.
      { apply existsb_exists. exists synonym.
        split; [by apply list_elem_of_In |].
        apply orb_true_iff.
        destruct Hocc as [Hocc | Hocc]; apply py_in_occurs in Hocc;
          [by left | by right]. }
      by apply elem_of_list_to_set.
  - unfold Backend.expanded_set. cbv zeta. fold words.
    cbn [map]. rewrite union_list_nil, elem_of_union, Hwords.
    split; [intros [H | H]; [by apply not_elem_of_empty in H | done] |].
    by right.
Qed.

Lemma fold_bonus (occurs whole : pystr -> bool) (a b : Z) (terms : list pystr)
      (score : Z) :
  (0 <= a)%Z -> (0 <= b)%Z ->
  let count := Z.of_nat (length (List.filter occurs terms)) in
  let result :=
    fold_left
      (fun score term =>
         if occurs term then
           if whole term then (score + a + b)%Z else (score + a)%Z
         else score)
      terms score in
  (score + a * count <= result <= score + (a + b) * count)%Z.
Proof.
  intros Ha Hb. revert score.
  induction terms as [| term terms IH]; intros score; cbn [fold_left List.filter].
  - cbn [length]. lia.
  - destruct (occurs term).
    + cbn [length]. destruct (whole term).
      * specialize (IH (score + a + b)%Z). cbv zeta in IH. nia.
      * specialize (IH (score + a)%Z). cbv zeta in IH. nia.
    + specialize (IH score). cbv zeta in IH. lia.
Qed.

Lemma occurrences_pos (terms : list pystr) (d term : pystr) :
  term ∈ terms -> py_in term d = true -> (1 <= occurrences terms d)%Z.
Proof.
  intros Hin Hocc. unfold occurrences.
  assert (In term (List.filter (fun term => py_in term d) terms)) as Hf
      by (apply filter_In; split; [by apply list_elem_of_In | done]).
  destruct (List.filter _ terms); [done | cbn [length]; lia].
Qed.

Lemma occurrences_zero (terms : list pystr) (d : pystr) :
  occurrences terms d = 0%Z ->
  forall term, term ∈ terms -> py_in term d = false.
Proof.
  intros Hzero term Hin. destruct (py_in term d) eqn:Hocc; [| done].
  pose proof (occurrences_pos terms d term Hin Hocc). lia.
Qed.

Lemma occurrences_bounds (terms : list pystr) (d : pystr) :
  (0 <= occurrences terms d <= Z.of_nat (length terms))%Z.
Proof.
  unfold occurrences. pose proof (filter_length_le (fun term => py_in term d) terms).
  lia.
Qed.

(** The score, between what the occurrences give at least and at most. *)
Lemma relevance_score_bounds (designation : pystr)
      (query_terms expanded_terms : list pystr) :
  let d := py_lower designation in
  let score :=
    Backend.calculate_relevance_score designation query_terms expanded_terms in
  let q := occurrences query_terms d in
  let e := occurrences expanded_terms d in
  (10 * q + 3 * e - 1 <= score <= 15 * q + 5 * e + 23)%Z
  /\ (q + e = 0 -> score <= 0)%Z
  /\ ((1 < length query_terms)%nat -> q = Z.of_nat (length query_terms) ->
      (10 * q + 3 * e + 19 <= score)%Z).
Proof.
  intros d score q e. unfold score, Backend.calculate_relevance_score.
  cbv zeta. fold d.
  pose proof (fold_bonus (fun term => py_in term d)
                         (fun term => Backend.whole_word_in term d)
                         10 5 query_terms 0 ltac:(lia) ltac:(lia)) as H1.
  cbv beta zeta in H1. fold (occurrences query_terms d) in H1. fold q in H1.
  revert H1.
  generalize (fold_left
                (fun score term =>
                   if py_in term d then
                     if Backend.whole_word_in term d
                     then (score + 10 + 5)%Z else (score + 10)%Z
                   else score)
                query_terms 0%Z).
  intros s1 H1.
  pose proof (fold_bonus (fun term => py_in term d)
                         (fun term => Backend.whole_word_in term d)
                         3 2 expanded_terms s1 ltac:(lia) ltac:(lia)) as H2.
  cbv beta zeta in H2. fold (occurrences expanded_terms d) in H2. fold e in H2.
  revert H2.
  generalize (fold_left
                (fun score term =>
                   if py_in term d then
                     if Backend.whole_word_in term d
                     then (score + 3 + 2)%Z else (score + 3)%Z
                   else score)
                expanded_terms s1).
  intros s2 H2.
  pose proof (occurrences_bounds query_terms d) as Hq. fold q in Hq.
  pose proof (occurrences_bounds expanded_terms d) as He. fold e in He.
  assert (existsb (fun term => py_startswith d term)
                  (query_terms ++ expanded_terms) = true ->
          (1 <= q + e)%Z) as Hstart.
  { intros (term & Hin & Hpre)%existsb_exists.
    assert (py_in term d = true) as Hocc.
    { apply py_in_occurs, prefix_occurs_in. by apply py_startswith_prefix. }
    apply in_app_or in Hin as [Hin | Hin]; apply list_elem_of_In in Hin.
    - pose proof (occurrences_pos query_terms d term Hin Hocc). fold q in H. lia.
    - pose proof (occurrences_pos expanded_terms d term Hin Hocc).
      fold e in H. lia. }
  change (Z.of_nat (length (List.filter (fun term => py_in term d) query_terms)))
    with q in *.
  assert ((length (List.filter (fun term => py_in term d) query_terms)
           =? length query_terms)%nat = true
          <-> q = Z.of_nat (length query_terms)) as Hall.
  { rewrite Nat.eqb_eq. unfold q, occurrences. lia. }
  destruct (Nat.ltb_spec 1 (length query_terms)) as [Hmany | Hfew];
    destruct (length (List.filter (fun term => py_in term d) query_terms)
              =? length query_terms)%nat eqn:Hfull;
    destruct (100 <? length designation)%nat;
    destruct (existsb _ (query_terms ++ expanded_terms));
    try (pose proof (Hstart eq_refl));
    try (pose proof (proj1 Hall eq_refl));
    (split; [lia |]); (split; [lia |]); intros; try lia;
    destruct Hall as [_ Hall]; by specialize (Hall ltac:(assumption)).
Qed.

(** X23: the keyword score of a designation is positive exactly when some
    term of the query or of its expansion occurs in the lower-cased
    designation, so that [search] and [search_global] keep a row by its
    keywords in that case only; the score is -1 at least; and when all of
    two or more query terms occur it is above 20, the score from which
    [search_global] leaves the similarities out. *)
Theorem calculate_relevance_score_positive
        (designation : pystr) (query_terms expanded_terms : list pystr) :
  let score :=
    Backend.calculate_relevance_score designation query_terms expanded_terms in
  ((0 < score)%Z
   <-> exists term,
      term ∈ query_terms ++ expanded_terms
      /\ occurs_in term (py_lower designation))
  /\ (-1 <= score
      <= 15 * Z.of_nat (length query_terms)
         + 5 * Z.of_nat (length expanded_terms) + 23)%Z
  /\ ((1 < length query_terms)%nat ->
      Forall (fun term => occurs_in term (py_lower designation)) query_terms ->
      (20 < score)%Z).
Proof.
  intros score.
  destruct (relevance_score_bounds designation query_terms expanded_terms)
    as (Hbounds & Hnone & Hall).
  fold score in Hbounds, Hnone, Hall.
  pose proof (occurrences_bounds query_terms (py_lower designation)) as Hq.
  pose proof (occurrences_bounds expanded_terms (py_lower designation)) as He.
  split; [| split].
  - split.
    + intros Hpos.
      destruct (decide (occurrences query_terms (py_lower designation)
                        + occurrences expanded_terms (py_lower designation)
                        = 0)%Z) as [Hzero | Hsome]; [specialize (Hnone Hzero); lia |].
      assert (exists terms,
                 (terms = query_terms \/ terms = expanded_terms)
                 /\ (1 <= occurrences terms (py_lower designation))%Z)
        as (terms & Hterms & Hocc).
      { destruct (decide (1 <= occurrences query_terms (py_lower designation))%Z);
          [exists query_terms | exists expanded_terms];
          (split; [tauto | lia]). }
      unfold occurrences in Hocc.
      destruct (List.filter _ terms) as [| term kept] eqn:Hkept;
        [cbn [length] in Hocc; lia |].
      assert (In term (List.filter
                         (fun term => py_in term (py_lower designation))
                         terms)) as Hin by (rewrite Hkept; by left).
      apply filter_In in Hin as [Hin Hin'].
      exists term. split; [| by apply py_in_occurs].
      apply elem_of_app. apply list_elem_of_In in Hin.
      destruct Hterms as [-> | ->]; [by left | by right].
    + intros (term & Hin & Hocc). apply py_in_occurs in Hocc.
      apply elem_of_app in Hin as [Hin | Hin].
      * pose proof (occurrences_pos _ _ _ Hin Hocc). lia.
      * pose proof (occurrences_pos _ _ _ Hin Hocc). lia.
  - lia.
  - intros Hmany Hevery.
    assert (occurrences query_terms (py_lower designation)
            = Z.of_nat (length query_terms)) as Hfull.
    { unfold occurrences. f_equal. f_equal.
      clear -Hevery. induction Hevery as [| term terms Hterm _ IH];
        [reflexivity |].
      cbn [List.filter]. apply py_in_occurs in Hterm. rewrite Hterm.
      by rewrite IH. }
    specialize (Hall Hmany Hfull). lia.
Qed.

(** ** The two searches, further *)

Lemma Qle_bool_total (a b : Q) : Qle_bool a b = false -> Qle_bool b a = true.
Proof.
  intros Hab. apply Qle_bool_iff.
  destruct (Qlt_le_dec b a) as [Hlt | Hle].
  - by apply Qlt_le_weak.
  - apply Qle_bool_iff in Hle. congruence.
Qed.

Lemma Qle_bool_trans (a b c : Q) :
  Qle_bool a b = true -> Qle_bool b c = true -> Qle_bool a c = true.
Proof.
  rewrite !Qle_bool_iff. apply Qle_trans.
Qed.

Lemma Forall_take_sort_scored (P : Backend.Scored.t -> Prop) limit hits :
  Forall P hits ->
  Forall P (py_take limit (sort_desc Qle_bool Backend.Scored.score hits)).
Proof.
  intros H.
  destruct (py_take_prefix limit
              (sort_desc Qle_bool Backend.Scored.score hits)) as [k Hk].
  assert (Forall P (sort_desc Qle_bool Backend.Scored.score hits)) as Hs
      by (by rewrite sort_desc_perm).
  rewrite Hk in Hs. by apply Forall_app in Hs as [? _].
Qed.

Lemma length_omap_le {A B : Type} (f : A -> option B) (l : list A) :
  (length (omap f l) <= length l)%nat.
Proof.
  induction l as [| a l IH]; simpl; [lia |].
  change (list_omap A B f l) with (omap f l).
  destruct (f a); simpl; lia.
Qed.

Lemma search_restricted_sound
      (round2 : Q -> Q) (order : gset pystr -> list pystr)
      (TECHNICAL_DICTIONARY : odict (list pystr))
      (query price_type : pystr) (search_scope : list Backend.ContentItem.t)
      (limit : Z) :
  Forall
    (fun suggestion =>
       exists item,
         item ∈ search_scope
         /\ Backend.Suggestion.designation suggestion
            = Backend.ContentItem.designation item
         /\ Backend.Suggestion.code suggestion
            = Some (Backend.ContentItem.code item)
         /\ Backend.Suggestion.unite suggestion
            = Backend.ContentItem.unite item
         /\ Backend.Suggestion.prix suggestion
            = Backend.get_price_by_type item price_type
         /\ (0 < Backend.calculate_relevance_score
                   (Backend.ContentItem.designation item)
                   (Backend.original_terms_of query)
                   (Backend.expand_query order TECHNICAL_DICTIONARY query))%Z)
    (Backend.search_restricted round2 order TECHNICAL_DICTIONARY
                               query price_type search_scope limit).
Proof.
  unfold Backend.search_restricted. apply Forall_fmap.
  apply Forall_take_sort_scored. apply omap_Forall_elem.
  intros item result Hitem. cbv beta zeta.
  destruct (Z.ltb_spec 0 (Backend.calculate_relevance_score
                            (Backend.ContentItem.designation item)
                            (Backend.original_terms_of query)
                            (Backend.expand_query order TECHNICAL_DICTIONARY
                                                  query))) as [Hpos |];
    [| discriminate].
  intros [= <-]. exists item. cbn. by repeat split.
Qed.

(** X24: the restricted search answers from its scope: every suggestion
    gives the designation, the code, the unit and the price, of the type
    asked, of an item of the scope whose keyword score is positive; and for
    a limit that is not negative there are no more suggestions than the
    limit, nor than items in the scope. *)
Theorem search_restricted_answers_from_scope
        (round2 : Q -> Q) (order : gset pystr -> list pystr)
        (TECHNICAL_DICTIONARY : odict (list pystr))
        (query price_type : pystr) (search_scope : list Backend.ContentItem.t)
        (limit : Z) :
  let suggestions :=
    Backend.search_restricted round2 order TECHNICAL_DICTIONARY
                              query price_type search_scope limit in
  Forall
    (fun suggestion =>
       exists item,
         item ∈ search_scope
         /\ Backend.Suggestion.designation suggestion
            = Backend.ContentItem.designation item
         /\ Backend.Suggestion.code suggestion
            = Some (Backend.ContentItem.code item)
         /\ Backend.Suggestion.unite suggestion
            = Backend.ContentItem.unite item
         /\ Backend.Suggestion.prix suggestion
            = Backend.get_price_by_type item price_type
         /\ (0 < Backend.calculate_relevance_score
                   (Backend.ContentItem.designation item)
                   (Backend.original_terms_of query)
                   (Backend.expand_query order TECHNICAL_DICTIONARY query))%Z)
    suggestions
  /\ (length suggestions <= length search_scope)%nat
  /\ ((0 <= limit)%Z -> (Z.of_nat (length suggestions) <= limit)%Z).
Proof.
  intros suggestions. split; [apply search_restricted_sound |].
  unfold suggestions, Backend.search_restricted.
  rewrite !length_map. split.
  - etransitivity; [apply prefix_length, py_take_prefix |].
    rewrite sort_desc_perm. apply length_omap_le.
  - apply py_take_length.
Qed.

Lemma sort_desc_head_greatest (results : list Backend.Scored.t)
      (top r : Backend.Scored.t) (rest : list Backend.Scored.t) :
  sort_desc Qle_bool Backend.Scored.score results = top :: rest ->
  r ∈ results ->
  (Backend.Scored.score r <= Backend.Scored.score top)%Q.
Proof.
  intros Hsorted Hr.
  pose proof (sort_desc_sorted Qle_bool Backend.Scored.score Qle_bool_total
                               Qle_bool_trans results) as Hs.
  rewrite <- (sort_desc_perm Qle_bool Backend.Scored.score results) in Hr.
  rewrite Hsorted in Hs, Hr. apply StronglySorted_inv in Hs as [_ Htop].
  apply elem_of_cons in Hr as [-> | Hr]; [apply Qle_refl |].
  rewrite Forall_forall in Htop. apply Qle_bool_iff. by apply Htop.
Qed.

(** With a keyword score above 20 in the catalogue, the branch that asks
    the provider is not taken. *)
Lemma search_global_keywords_suffice_aux
        {E : Type} (encode encode' : pystr -> option E)
        (cos_sim cos_sim' : E -> E -> Q)
        (round2 : Q -> Q) (order : gset pystr -> list pystr)
        (TECHNICAL_DICTIONARY : odict (list pystr))
        (query price_type : pystr)
        (df_search : list (nat * Backend.SearchRow.t E)) (limit : Z)
        (idx : nat) (row : Backend.SearchRow.t E) :
  let relevance (row : Backend.SearchRow.t E) :=
    Backend.calculate_relevance_score
      (Backend.SearchRow.Designation row)
      (Backend.original_terms_of query)
      (Backend.expand_query order TECHNICAL_DICTIONARY query) in
  (idx, row) ∈ df_search ->
  (20 < relevance row)%Z ->
  Backend.search_global encode cos_sim round2 order TECHNICAL_DICTIONARY
                        query price_type df_search limit
  = Backend.search_global encode' cos_sim' round2 order TECHNICAL_DICTIONARY
                          query price_type df_search limit
  /\ Forall
       (fun suggestion =>
          exists idx' row',
            (idx', row') ∈ df_search
            /\ Backend.Suggestion.designation suggestion
               = Backend.SearchRow.Designation row'
            /\ Backend.Suggestion.code suggestion = None
            /\ (0 < relevance row')%Z)
       (Backend.search_global encode cos_sim round2 order TECHNICAL_DICTIONARY
                              query price_type df_search limit).
Proof.
  intros relevance Hrow Hscore. unfold Backend.search_global.
  match goal with
  | |- context [sort_desc Qle_bool Backend.Scored.score (omap ?f df_search)] =>
      set (keep := f)
  end.
  assert (exists r, keep (idx, row) = Some r
                    /\ Backend.Scored.score r = inject_Z (relevance row))
    as (r & Hr & Hrscore).
  { unfold keep. cbv beta iota zeta. fold (relevance row).
    rewrite (proj2 (Z.ltb_lt 0 (relevance row)) ltac:(lia)). by eexists. }
  assert (r ∈ omap keep df_search) as Hin
      by (apply list_elem_of_omap; eauto).
  assert (Forall
            (fun result =>
               exists idx' row',
                 (idx', row') ∈ df_search
                 /\ Backend.Scored.designation result
                    = Backend.SearchRow.Designation row'
                 /\ Backend.Scored.code result = None
                 /\ (0 < relevance row')%Z)
            (sort_desc Qle_bool Backend.Scored.score (omap keep df_search)))
    as Hsound.
  { rewrite sort_desc_perm. apply omap_Forall_elem.
    intros [idx' row'] result Hin'. unfold keep. cbv beta iota zeta.
    fold (relevance row').
    destruct (Z.ltb_spec 0 (relevance row')); [| discriminate].
    intros [= <-]. by exists idx', row'. }
  destruct (sort_desc Qle_bool Backend.Scored.score (omap keep df_search))
    as [| top rest] eqn:Hsorted.
  { assert (omap keep df_search ≡ₚ []) as Hnil
        by (by rewrite <- (sort_desc_perm Qle_bool Backend.Scored.score), Hsorted).
    symmetry in Hnil. apply Permutation_nil in Hnil. rewrite Hnil in Hin.
    by apply elem_of_nil in Hin. }
  pose proof (sort_desc_head_greatest _ _ _ _ Hsorted Hin) as Htop.
  assert (Backend.Qlt_bool (inject_Z 20) (Backend.Scored.score top) = true)
    as ->.
  { unfold Backend.Qlt_bool. apply negb_true_iff.
    destruct (Qle_bool (Backend.Scored.score top) (inject_Z 20)) eqn:Hle;
      [| done].
    apply Qle_bool_iff in Hle.
    assert (inject_Z (relevance row) <= inject_Z 20)%Q as Hbad
        by (rewrite <- Hrscore; exact (Qle_trans _ _ _ Htop Hle)).
    rewrite <- Zle_Qle in Hbad. lia. }
  split; [reflexivity |].
  apply Forall_fmap.
  assert (forall threshold results,
             Forall
               (fun result =>
                  exists idx' row',
                    (idx', row') ∈ df_search
                    /\ Backend.Scored.designation result
                       = Backend.SearchRow.Designation row'
                    /\ Backend.Scored.code result = None
                    /\ (0 < relevance row')%Z) results ->
             Forall
               (fun result =>
                  exists idx' row',
                    (idx', row') ∈ df_search
                    /\ Backend.Scored.designation result
                       = Backend.SearchRow.Designation row'
                    /\ Backend.Scored.code result = None
                    /\ (0 < relevance row')%Z)
               (Backend.keep_while_above threshold results)) as Hkeep.
  { intros threshold results. induction 1 as [| result results Hres _ IH];
      cbn [Backend.keep_while_above]; [constructor |].
    destruct (Qle_bool _ _); [by constructor | constructor]. }
  destruct (py_take_prefix limit
              (Backend.keep_while_above
                 (Backend.Scored.score top * (1 # 2)) (top :: rest)))
    as [k Hk].
  specialize (Hkeep (Backend.Scored.score top * (1 # 2))%Q _ Hsound).
  rewrite Hk in Hkeep. apply Forall_app in Hkeep as [Hkeep _].
  eapply Forall_impl; [exact Hkeep |]. intros result (idx' & row' & H).
  exists idx', row'. exact H.
Qed.

(** X25: the global search leaves the similarity provider out as soon as
    one row has a keyword score above 20: the answer is then the same for
    every provider, not empty for a positive limit, and made of rows with a
    positive keyword score. *)
Theorem search_global_keywords_suffice
        {E : Type} (encode encode' : pystr -> option E)
        (cos_sim cos_sim' : E -> E -> Q)
        (round2 : Q -> Q) (order : gset pystr -> list pystr)
        (TECHNICAL_DICTIONARY : odict (list pystr))
        (query price_type : pystr)
        (df_search : list (nat * Backend.SearchRow.t E)) (limit : Z)
        (idx : nat) (row : Backend.SearchRow.t E) :
  let relevance (row : Backend.SearchRow.t E) :=
    Backend.calculate_relevance_score
      (Backend.SearchRow.Designation row)
      (Backend.original_terms_of query)
      (Backend.expand_query order TECHNICAL_DICTIONARY query) in
  (idx, row) ∈ df_search ->
  (20 < relevance row)%Z ->
  Backend.search_global encode cos_sim round2 order TECHNICAL_DICTIONARY
                        query price_type df_search limit
  = Backend.search_global encode' cos_sim' round2 order TECHNICAL_DICTIONARY
                          query price_type df_search limit
  /\ Forall
       (fun suggestion =>
          exists idx' row',
            (idx', row') ∈ df_search
            /\ Backend.Suggestion.designation suggestion
               = Backend.SearchRow.Designation row'
            /\ Backend.Suggestion.code suggestion = None
            /\ (0 < relevance row')%Z)
       (Backend.search_global encode cos_sim round2 order TECHNICAL_DICTIONARY
                              query price_type df_search limit)
  /\ ((0 < limit)%Z ->
      Backend.search_global encode cos_sim round2 order TECHNICAL_DICTIONARY
                            query price_type df_search limit <> []).
Proof.
  intros relevance Hrow Hscore.
  destruct (search_global_keywords_suffice_aux
              encode encode' cos_sim cos_sim' round2 order TECHNICAL_DICTIONARY
              query price_type df_search limit idx row Hrow Hscore)
    as [Hsame Hsound].
  split; [exact Hsame |]. split; [exact Hsound |].
  intros Hlimit.
  apply (search_global_nonempty encode cos_sim round2 order
                                TECHNICAL_DICTIONARY query price_type
                                df_search limit idx row Hlimit Hrow).
  unfold relevance in Hscore. lia.
Qed.

Lemma search_global_keywords_suffice_witness :
  Backend.search_global (fun _ => Some tt) (fun _ _ => (1 # 2)%Q) (fun x => x)
                        elements
                        [(u "beton", [u "beton"; u "mortier"; u "ciment"])]
                        (u "semelle beton") (u "Moyen")
                        (Backend.CsvData.df_search example_csv) 20
  = Backend.search_global (fun _ => None) (fun _ _ => (0 # 1)%Q) (fun x => x)
                          elements
                          [(u "beton", [u "beton"; u "mortier"; u "ciment"])]
                          (u "semelle beton") (u "Moyen")
                          (Backend.CsvData.df_search example_csv) 20.
Proof.
  apply (search_global_keywords_suffice
           (fun _ => Some tt) (fun _ => None)
           (fun _ _ => (1 # 2)%Q) (fun _ _ => (0 # 1)%Q) (fun x => x) elements
           [(u "beton", [u "beton"; u "mortier"; u "ciment"])]
           (u "semelle beton") (u "Moyen")
           (Backend.CsvData.df_search example_csv) 20
           2%nat (search_row_of "semelle beton")).
  - unfold example_csv. cbn [Backend.CsvData.df_search]. constructor.
  - vm_compute. reflexivity.
Defined.

Lemma keep_while_above_prefix threshold results :
  Backend.keep_while_above threshold results `prefix_of` results.
Proof.
  induction results as [| result results IH]; cbn [Backend.keep_while_above];
    [done |].
  destruct (Qle_bool _ _); [by apply prefix_cons | apply prefix_nil].
Qed.

Lemma Forall_prefix {A : Type} (P : A -> Prop) (l1 l2 : list A) :
  l1 `prefix_of` l2 -> Forall P l2 -> Forall P l1.
Proof. intros [k ->] H. by apply Forall_app in H as [? _]. Qed.

Lemma search_global_no_code {E : Type} (encode : pystr -> option E)
      (cos_sim : E -> E -> Q) (round2 : Q -> Q)
      (order : gset pystr -> list pystr)
      (TECHNICAL_DICTIONARY : odict (list pystr)) (query price_type : pystr)
      (df_search : list (nat * Backend.SearchRow.t E)) (limit : Z) :
  Forall (fun suggestion => Backend.Suggestion.code suggestion = None)
         (Backend.search_global encode cos_sim round2 order
                                TECHNICAL_DICTIONARY query price_type
                                df_search limit).
Proof.
  unfold Backend.search_global. apply Forall_fmap.
  match goal with
  | |- context [sort_desc Qle_bool Backend.Scored.score (omap ?f df_search)] =>
      set (keep := f)
  end.
  assert (Forall (fun result => Backend.Scored.code result = None)
                 (sort_desc Qle_bool Backend.Scored.score
                            (omap keep df_search))) as Hkw.
  { rewrite sort_desc_perm. apply omap_Forall.
    intros [idx row] result. unfold keep. cbv beta iota zeta.
    destruct (0 <? _)%Z; [| discriminate]. by intros [= <-]. }
  assert (forall results,
             Forall (fun result => Backend.Scored.code result = None) results ->
             Forall (fun result => Backend.Scored.code result = None)
                    (Backend.with_similarities
                       encode cos_sim price_type
                       (Backend.expand_query order TECHNICAL_DICTIONARY query)
                       results df_search)) as Hsim.
  { intros results Hres. unfold Backend.with_similarities.
    destruct (Backend.preprocess_text _ _); [done |].
    destruct (encode _) as [query_embedding |]; [| done].
    rewrite sort_desc_perm. apply Forall_app. split; [done |].
    apply omap_Forall. intros [idx row] result. cbv beta iota zeta.
    destruct (Backend.Qlt_bool _ _); [| discriminate]. by intros [= <-]. }
  apply (Forall_prefix _ _ _ (py_take_prefix limit _)).
  revert Hkw.
  generalize (sort_desc Qle_bool Backend.Scored.score (omap keep df_search)).
  intros sorted Hkw.
  destruct sorted as [| top rest]; [by apply Hsim |].
  destruct (Backend.Qlt_bool _ _); [| by apply Hsim].
  by apply (Forall_prefix _ _ _ (keep_while_above_prefix _ _)).
Qed.

(** X26: [search] answers nothing to a query of fewer than two characters
    once stripped.  Otherwise its suggestions carry a code exactly when the
    filters gave a scope: without scope none has a code; with a scope each
    has the code and the designation of an item of the catalogue tree. *)
Theorem search_codes_come_from_the_tree
        {E : Type} (encode : pystr -> option E) (cos_sim : E -> E -> Q)
        (round2 : Q -> Q) (order : gset pystr -> list pystr)
        (TECHNICAL_DICTIONARY : odict (list pystr))
        (TITLE_SUBTITLE_DICTIONARY : odict Backend.TitleConfig.t)
        (csv_data : Backend.CsvData.t E)
        (q price_type : pystr) (selected_titles : list pystr)
        (subtitle : pystr) (limit : Z) :
  let answer :=
    Backend.search encode cos_sim round2 order TECHNICAL_DICTIONARY
                   TITLE_SUBTITLE_DICTIONARY csv_data q price_type
                   selected_titles subtitle limit in
  let scope :=
    Backend.search_scope TITLE_SUBTITLE_DICTIONARY selected_titles
                         (py_strip subtitle)
                         (Backend.CsvData.hierarchical_data csv_data) in
  ((length (py_strip q) < 2)%nat -> answer = [])
  /\ (scope = [] ->
      Forall (fun suggestion => Backend.Suggestion.code suggestion = None)
             answer)
  /\ (scope <> [] ->
      Forall
        (fun suggestion =>
           exists item,
             item ∈ tree_items (Backend.CsvData.hierarchical_data csv_data)
             /\ Backend.Suggestion.code suggestion
                = Some (Backend.ContentItem.code item)
             /\ Backend.Suggestion.designation suggestion
                = Backend.ContentItem.designation item)
        answer).
Proof.
  intros answer scope. unfold answer, Backend.search. fold scope.
  split; [| split].
  - intros Hshort. apply Nat.ltb_lt in Hshort. by rewrite Hshort.
  - intros ->. destruct (_ <? _)%nat; [constructor |].
    apply search_global_no_code.
  - intros Hscope. destruct (_ <? _)%nat; [constructor |].
    destruct scope as [| item0 scope0] eqn:Hitems; [done |].
    pose proof (search_restricted_sound
                  round2 order TECHNICAL_DICTIONARY (py_strip q)
                  (py_strip price_type) (item0 :: scope0) limit) as Hsound.
    eapply Forall_impl; [exact Hsound |].
    intros suggestion (item & Hitem & Hdes & Hcode & _).
    exists item. split; [| by split].
    apply (search_scope_in_tree TITLE_SUBTITLE_DICTIONARY selected_titles
                                (py_strip subtitle)).
    fold scope. by rewrite Hitems.
Qed.

Lemma search_codes_come_from_the_tree_witness :
  example_search (u "b") (u "Moyen") [] [] 20 = [].
Proof.
  apply (proj1 (search_codes_come_from_the_tree
                  (fun _ => Some tt) (fun _ _ => (1 # 2)%Q) (fun x => x)
                  elements
                  [(u "beton", [u "beton"; u "mortier"; u "ciment"])] []
                  example_csv (u "b") (u "Moyen") [] [] 20)).
  vm_compute. lia.
Defined.

Lemma relevance_positive_of_occurrence (designation : pystr)
      (query_terms expanded_terms : list pystr) (term : pystr) :
  term ∈ query_terms ++ expanded_terms ->
  py_in term (py_lower designation) = true ->
  (0 < Backend.calculate_relevance_score designation query_terms
                                         expanded_terms)%Z.
Proof.
  intros Hin Hocc.
  destruct (relevance_score_bounds designation query_terms expanded_terms)
    as (Hbounds & _ & _).
  pose proof (occurrences_bounds query_terms (py_lower designation)).
  pose proof (occurrences_bounds expanded_terms (py_lower designation)).
  apply elem_of_app in Hin as [Hin | Hin];
    pose proof (occurrences_pos _ _ _ Hin Hocc); lia.
Qed.

Lemma filter_length_mono {A : Type} (P R : A -> bool) (l : list A) :
  (forall x, P x = true -> R x = true) ->
  (length (List.filter P l) <= length (List.filter R l))%nat.
Proof.
  intros HPR. induction l as [| x l IH]; [done |]. cbn [List.filter].
  destruct (P x) eqn:HP.
  - rewrite (HPR x HP). cbn [length]. lia.
  - destruct (R x); cbn [length]; lia.
Qed.

Lemma existsb_Permutation {A : Type} (P : A -> bool) (l1 l2 : list A) :
  l1 ≡ₚ l2 -> existsb P l1 = existsb P l2.
Proof.
  induction 1 as [| x l1 l2 _ IH | x y l | l1 l2 l3 _ IH1 _ IH2];
    cbn [existsb].
  - reflexivity.
  - by rewrite IH.
  - by rewrite !orb_assoc, (orb_comm (P y)).
  - by rewrite IH1.
Qed.

(** X27: [/count] counts the rows in whose lower-cased designation some
    term of the expansion occurs.  Each of them has a positive keyword
    score, so the count is at most the number of rows the keyword stage of
    the search keeps; it is 0 for a blank query; and it does not depend on
    the order in which the set of terms is enumerated. *)
Theorem count_results_counts_keyword_rows
        {E : Type} (order order' : gset pystr -> list pystr)
        (TECHNICAL_DICTIONARY : odict (list pystr))
        (q : pystr) (df_search : list (nat * Backend.SearchRow.t E)) :
  let query := py_strip q in
  let count :=
    Backend.count_results order TECHNICAL_DICTIONARY q df_search in
  (count
   <= length
        (List.filter
           (fun '(_, row) =>
              (0 <? Backend.calculate_relevance_score
                      (Backend.SearchRow.Designation row)
                      (Backend.original_terms_of query)
                      (Backend.expand_query order TECHNICAL_DICTIONARY query))%Z)
           df_search))%nat
  /\ (count <= length df_search)%nat
  /\ (query = [] -> count = 0%nat)
  /\ ((forall X, order X ≡ₚ elements X) ->
      (forall X, order' X ≡ₚ elements X) ->
      Backend.count_results order' TECHNICAL_DICTIONARY q df_search = count).
Proof.
  intros query count. unfold count, Backend.count_results. fold query.
  destruct query as [| c query'] eqn:Hquery.
  { repeat split; intros; lia. }
  split; [| split; [| split]].
  - apply filter_length_mono. intros [idx row].
    intros (term & Hin & Hocc)%existsb_exists. apply Z.ltb_lt.
    apply (relevance_positive_of_occurrence _ _ _ term); [| done].
    apply elem_of_app. right. by apply list_elem_of_In.
  - apply filter_length_le.
  - discriminate.
  - intros Horder Horder'. f_equal. apply filter_ext. intros [idx row].
    apply existsb_Permutation. unfold Backend.expand_query.
    by rewrite Horder, Horder'.
Qed.

(** ** The tokenizer, further *)

Lemma run_consumes (P : N -> bool) (r : regex) :
  consumes P r ->
  forall (A : Type) (prev : option N) (s : pystr)
         (k : option N -> pystr -> option A) (x : A),
    re.run r prev s k = Some x ->
    exists m rest prev',
      s = m ++ rest /\ forallb P m = true /\ k prev' rest = Some x.
Proof.
  induction r as [| c | p | | r1 IH1 r2 IH2 | r1 IH1 r2 IH2 | r1 IH1];
    intros Hr A prev s k x; cbn [re.run].
  - intros Hk. by exists [], s, prev.
  - destruct s as [| d s]; [discriminate |].
    destruct (N.eqb_spec c d) as [<- | _]; [| discriminate].
    intros Hk. exists [c], s, (Some c). cbn in Hr |- *.
    by rewrite Hr.
  - destruct s as [| d s]; [discriminate |].
    destruct (p d) eqn:Hd; [| discriminate].
    intros Hk. exists [d], s, (Some d). cbn in Hr |- *.
    by rewrite (Hr d Hd).
  - destruct (re.boundary prev s); [| discriminate].
    intros Hk. by exists [], s, prev.
  - destruct Hr as [Hr1 Hr2]. intros Hrun.
    apply (IH1 Hr1) in Hrun as (m1 & rest1 & prev1 & -> & Hm1 & Hrun).
    apply (IH2 Hr2) in Hrun as (m2 & rest2 & prev2 & -> & Hm2 & Hk).
    exists (m1 ++ m2), rest2, prev2.
    rewrite <- app_assoc, forallb_app, Hm1, Hm2. by repeat split.
  - destruct Hr as [Hr1 Hr2].
    destruct (re.run r1 prev s k) as [y |] eqn:Hrun1.
    + intros [= ->]. by apply (IH1 Hr1) in Hrun1.
    + apply (IH2 Hr2).
  - cbn in Hr. generalize (length s) at 1. intros fuel. revert prev s x.
    induction fuel as [| fuel IHfuel]; intros prev s x.
    + intros Hk. by exists [], s, prev.
    + match goal with
      | |- match ?run1 with _ => _ end = _ -> _ =>
          destruct run1 as [y |] eqn:Hrun1
      end.
      * intros [= ->].
        apply (IH1 Hr) in Hrun1 as (m1 & rest1 & prev1 & -> & Hm1 & Hrun).
        destruct (_ <? _)%nat; [| discriminate].
        apply IHfuel in Hrun as (m2 & rest2 & prev2 & -> & Hm2 & Hk).
        exists (m1 ++ m2), rest2, prev2.
        rewrite <- app_assoc, forallb_app, Hm1, Hm2. by repeat split.
      * intros Hk. by exists [], s, prev.
Qed.

Lemma match_here_consumes (P : N -> bool) (r : regex) (prev : option N)
      (s m rest : pystr) :
  consumes P r ->
  re.match_here r prev s = Some (m, rest) ->
  s = m ++ rest /\ forallb P m = true.
Proof.
  intros Hr. unfold re.match_here.
  destruct (re.run r prev s (fun _ rest => Some rest)) as [rest' |] eqn:Hrun;
    [| discriminate].
  apply (run_consumes P r Hr) in Hrun as (m' & rest'' & _ & -> & Hm' & [= ->]).
  intros [= <- <-].
  rewrite length_app, Nat.add_sub, firstn_app, firstn_all, Nat.sub_diag.
  cbn [firstn]. by rewrite app_nil_r.
Qed.

Lemma scan_consumes (P : N -> bool) (r : regex) (fuel : nat)
      (prev : option N) (s : pystr) :
  consumes P r ->
  Forall (fun m => forallb P m = true /\ occurs_in m s)
         (re.scan r (fun m => m) (fun _ => []) fuel prev s).
Proof.
  intros Hr. revert prev s.
  induction fuel as [| fuel IH]; intros prev s; cbn [re.scan]; [constructor |].
  assert (forall c s', s = c :: s' ->
            Forall (fun m => forallb P m = true /\ occurs_in m s)
                   (re.scan r (fun m => m) (fun _ => []) fuel (Some c) s'))
    as Hskip.
  { intros c s' ->. eapply Forall_impl; [apply IH |].
    intros m [Hm (a & b & ->)]. split; [done |]. by exists (c :: a), b. }
  destruct (re.match_here r prev s) as [[m rest] |] eqn:Hmatch.
  - apply (match_here_consumes P r prev s m rest Hr) in Hmatch as [Hs Hm].
    destruct m as [| c m].
    + constructor; [split; [done | by exists [], s] |].
      destruct s as [| c s']; [constructor |]. cbn [app]. by apply Hskip.
    + constructor; [split; [done | by exists [], rest] |].
      eapply Forall_impl; [apply IH |].
      intros m' [Hm' (a & b & ->)]. split; [done |].
      exists ((c :: m) ++ a), b. by rewrite Hs, <- app_assoc.
  - destruct s as [| c s']; [constructor |]. cbn [app]. by apply Hskip.
Qed.

(** X28: whatever the text and the mode, a token that [tokenize_btp]
    returns is made of word characters other than the underscore, of
    slashes, of hyphens and of blanks, the blanks being the underscores that
    the pattern of the tokens let through. *)
Theorem tokenize_btp_token_characters
        (text : pystr) (preserve_technical : bool) :
  Forall (fun token => forallb token_char token = true)
         (TextProcessor.tokenize_btp text preserve_technical).
Proof.
  with_strategy transparent [TextProcessor.tokenize_btp]
    (unfold TextProcessor.tokenize_btp).
  cbv zeta. unfold re.findall.
  match goal with
  | |- Forall _ (flat_map _ (re.scan _ _ _ ?fuel None ?expanded)) =>
      generalize fuel; generalize expanded
  end.
  intros expanded fuel.
  pose proof (scan_consumes
                (fun c => is_word c || (c =? 0x2F) || (c =? 0x5F) || (c =? 0x2D))
                TextProcessor.TOKEN_PATTERN fuel None expanded) as Hscan.
  assert (consumes
            (fun c => is_word c || (c =? 0x2F) || (c =? 0x5F) || (c =? 0x2D))
            TextProcessor.TOKEN_PATTERN) as Hpattern.
  { unfold TextProcessor.TOKEN_PATTERN, Plus. cbn [consumes]. tauto. }
  specialize (Hscan Hpattern). revert Hscan.
  generalize (re.scan TextProcessor.TOKEN_PATTERN (fun m => m) (fun _ => [])
                      fuel None expanded).
  intros tokens. induction 1 as [| token tokens [Htoken _] _ IH];
    [constructor |].
  cbn [flat_map]. apply Forall_app. split; [| exact IH].
  destruct (_ || _); [| constructor].
  destruct (_ <? _)%nat; [| constructor].
  constructor; [| constructor].
  clear -Htoken. unfold py_replace.
  induction token as [| c token IH]; [reflexivity |].
  cbn [forallb map] in Htoken |- *.
  apply andb_true_iff in Htoken as [Hc Htoken].
  rewrite (IH Htoken), andb_true_r. unfold token_char.
  destruct (N.eqb_spec c 0x5F) as [-> | Hne]; [reflexivity |].
  rewrite (proj2 (N.eqb_neq c 0x5F) Hne).
  revert Hc. generalize (is_word c). intros word.
  by destruct word, (c =? 0x2F), (c =? 0x2D).
Qed.

(** ** Hierarchical scope: repeated matches *)

(** X29: a title of the tree that an Excel title matches both by a pattern
    of the table of titles and by one of its own long words is listed twice
    by [find_matching_titles_in_csv], once for each way; the scope of a
    search restricted to that title then holds the items of the title
    twice. *)
Theorem find_matching_titles_lists_double_matches_twice
        (TITLE_SUBTITLE_DICTIONARY : odict Backend.TitleConfig.t)
        (excel_title : pystr) (hierarchical_data : odict Backend.TitleNode.t)
        (title_key : pystr) (title_data : Backend.TitleNode.t)
        (title_config : Backend.TitleConfig.t) :
  (title_key, title_data) ∈ hierarchical_data ->
  od_get (py_upper excel_title) TITLE_SUBTITLE_DICTIONARY = Some title_config ->
  existsb (fun pattern =>
             py_in (py_upper pattern)
                   (py_upper (Backend.TitleNode.title title_data)))
          (Backend.TitleConfig.patterns title_config) = true ->
  Backend.some_long_word_in (py_split (py_upper excel_title))
                            (py_upper (Backend.TitleNode.title title_data))
  = true ->
  let title_match :=
    {| Backend.TitleMatch.title_key := title_key;
       Backend.TitleMatch.title_data := title_data;
       Backend.TitleMatch.excel_title := excel_title |} in
  (exists l1 l2 l3,
      Backend.find_matching_titles_in_csv TITLE_SUBTITLE_DICTIONARY
                                          [excel_title] hierarchical_data
      = l1 ++ title_match :: l2 ++ title_match :: l3)
  /\ (exists s1 s2 s3,
         Backend.search_scope TITLE_SUBTITLE_DICTIONARY [excel_title] []
                              hierarchical_data
         = s1 ++ node_items title_data ++ s2 ++ node_items title_data ++ s3).
Proof.
  intros Hnode Hconfig Hpattern Hword title_match.
  assert (exists l1 l2 l3,
             Backend.find_matching_titles_in_csv TITLE_SUBTITLE_DICTIONARY
                                                 [excel_title] hierarchical_data
             = l1 ++ title_match :: l2 ++ title_match :: l3) as Htwice.
  { unfold Backend.find_matching_titles_in_csv. cbn [flat_map].
    rewrite Hconfig, app_nil_r.
    match goal with
    | |- exists l1 l2 l3, ?by_patterns ++ ?by_words = _ =>
        assert (title_match ∈ by_patterns) as Hp;
          [| assert (title_match ∈ by_words) as Hw ]
    end.
    - apply elem_of_flat_map. exists (title_key, title_data).
      split; [done |]. cbv beta iota zeta. rewrite Hpattern.
      by apply list_elem_of_singleton.
    - apply elem_of_flat_map. exists (title_key, title_data).
      split; [done |]. cbv beta iota zeta. rewrite Hword.
      by apply list_elem_of_singleton.
    - apply list_elem_of_split in Hp as (a & b & ->).
      apply list_elem_of_split in Hw as (c & d & ->).
      exists a, (b ++ c), d. by rewrite <- !app_assoc. }
  split; [exact Htwice |].
  destruct Htwice as (l1 & l2 & l3 & Htwice).
  unfold Backend.search_scope. rewrite Htwice.
  rewrite flat_map_app. cbn [flat_map]. rewrite flat_map_app. cbn [flat_map].
  cbn [Backend.TitleMatch.title_data title_match].
  fold (node_items title_data).
  eexists _, _, _. reflexivity.
Qed.

Lemma find_matching_titles_lists_double_matches_twice_witness :
  exists s1 s2 s3,
    Backend.search_scope
      [(u "GROS OEUVRE",
        {| Backend.TitleConfig.patterns := [u "gros"];
           Backend.TitleConfig.subtitles := [] |})]
      [u "Gros oeuvre"] [] example_tree
    = s1 ++ node_items (default Backend.new_title
                                (od_get (u "03.1.0") example_tree))
         ++ s2
         ++ node_items (default Backend.new_title
                                (od_get (u "03.1.0") example_tree))
         ++ s3.
Proof.
  apply (proj2 (find_matching_titles_lists_double_matches_twice
                  [(u "GROS OEUVRE",
                    {| Backend.TitleConfig.patterns := [u "gros"];
                       Backend.TitleConfig.subtitles := [] |})]
                  (u "Gros oeuvre") example_tree (u "03.1.0")
                  (default Backend.new_title (od_get (u "03.1.0") example_tree))
                  {| Backend.TitleConfig.patterns := [u "gros"];
                     Backend.TitleConfig.subtitles := [] |}
                  ltac:(apply od_get_elem; vm_compute; reflexivity)
                  ltac:(vm_compute; reflexivity)
                  ltac:(vm_compute; reflexivity)
                  ltac:(vm_compute; reflexivity))).
Defined.
